(** * Plan execution of the Telegram-to-WhatsApp importer

    A shallow embedding of the delivery core of the repository:

    - [WhatsAppMessage]  (src/models/WhatsAppMessage.js): the transfer job and
      its status machine;
    - [ProgressRecord], [ProgressSummary] (src/models/ProgressRecord.js): the
      ledger entry and the summary snapshot;
    - [ProgressTracker]  (src/services/ProgressTracker.js): the ledger;
    - [CLIConfig], [RuntimeState] (src/models/CLIConfig.js): the pacing data;
    - [ImportPlan]       (src/models/ImportPlan.js): the plan;
    - [WhatsAppImporter] (src/services/WhatsAppImporter.js): the executor;
    - [ExecuteCommand]   (src/cli/commands/ExecuteCommand.js): start-up,
      ledger synchronisation and the call of the executor.

    Conventions of the embedding.

    - JavaScript objects that are mutated in place become records threaded
      through the functions; a method that can throw after it has already
      mutated [this] returns the mutated object together with its completion.
    - Status and type fields stay strings, as in the source, and are compared
      with [String.eqb].
    - JavaScript numbers that hold counters and millisecond timestamps are [Z];
      the two percentages, which go through a floating-point division, are
      computed on IEEE binary64 values ([spec_float]).
    - Everything the code obtains from outside (the ajv schema validators, the
      file system test [existsSync], [Math.random], the time that passes while
      a promise is awaited, the pause flag, the answer of the WhatsApp client)
      is read from a [World]; what the command finds at the path it is given
      is a [Folder], and the two ledger files are a [Disk].
    - A message is handled by the importer and by the command as an instance
      of [WhatsAppMessage] or as the plain object that [JSON.parse] returns
      for one ([WhatsAppMessage.Shape]): [ImportPlan.fromData] keeps the
      plain objects of import-plan.json, so [ExecuteCommand] passes plain
      objects, on which the call of a method throws a [TypeError]. *)

From Stdlib Require Import ZArith List String Bool Lia.
From Stdlib Require Import SpecFloat DecimalString.
From stdpp Require Import gmap strings.

Import ListNotations.
Open Scope string_scope.
Open Scope Z_scope.

Notation "a =s b" := (String.eqb a b) (at level 70, no associativity).

(** ** JavaScript helpers *)

(** The completion of a call: a value, or a thrown [Error] with its message. *)
Inductive completion (A : Type) : Type :=
| Normal (value : A)
| Throw (message : string).
Arguments Normal {A} value.
Arguments Throw {A} message.

Definition bind {A B : Type} (c : completion A) (k : A -> completion B) : completion B :=
  match c with
  | Normal a => k a
  | Throw e => Throw e
  end.

Notation "'let!' x ':=' c 'in' k" := (bind c (fun x => k))
  (at level 20, x pattern, c at level 100, k at level 200, only parsing).

(** [try { c } catch (error) { throw new Error(prefix + error.message) }]. *)
Definition rethrow {A : Type} (prefix : string) (c : completion A) : completion A :=
  match c with
  | Normal a => Normal a
  | Throw e => Throw (prefix +:+ e)
  end.

Definition threw {A : Type} (c : completion A) : bool :=
  match c with Normal _ => false | Throw _ => true end.

(** Truthiness of a nullable string: [null], [undefined] and [''] are falsy. *)
Definition truthy (s : option string) : bool :=
  match s with
  | Some x => negb (x =s EmptyString)
  | None => false
  end.

(** [s || null] on a nullable string. *)
Definition or_null (s : option string) : option string :=
  if truthy s then s else None.

(** Template-literal rendering of an integer. *)
Definition show (z : Z) : string := NilZero.string_of_int (Z.to_int z).

(** The names that every object inherits from [Object.prototype], with the
    text that [String(...)] gives for the value found under the name. *)
Definition inherited (key : string) : option string :=
  if key =s "__proto__" then Some "[object Object]"
  else if key =s "constructor" then Some "function Object() { [native code] }"
  else if existsb (String.eqb key)
            ["__defineGetter__"; "__defineSetter__"; "hasOwnProperty";
             "__lookupGetter__"; "__lookupSetter__"; "isPrototypeOf";
             "propertyIsEnumerable"; "toString"; "valueOf"; "toLocaleString"]
  then Some ("function " +:+ key +:+ "() { [native code] }")
  else None.

(** [list.join(', ')]. *)
Fixpoint join (l : list string) : string :=
  match l with
  | [] => EmptyString
  | [x] => x
  | x :: rest => x +:+ ", " +:+ join rest
  end.

(** IEEE binary64 numbers, for the two percentage computations. *)
Definition prec : Z := 53.
Definition emax : Z := 1024.

Definition num (z : Z) : spec_float := binary_normalize prec emax z 0 false.

(** [Math.round]: the nearest integer, ties towards +infinity.  A finite
    binary64 value [m * 2^e] with [e < 0] is below [2^53], so the rounded
    integer is representable exactly; with [e >= 0] the value is already an
    integer.  A result of zero keeps the sign of the argument. *)
Definition Math_round (x : spec_float) : spec_float :=
  match x with
  | S754_finite s m e =>
      if 0 <=? e then x
      else
        let d := Z.pow 2 (- e) in
        let n := (2 * (if s then Z.neg m else Z.pos m) + d) / (2 * d) in
        binary_normalize prec emax n 0 s
  | _ => x
  end.

(** A string between double quotes. *)
Definition quoted (s : string) : string :=
  String (Ascii.ascii_of_nat 34) s +:+ String (Ascii.ascii_of_nat 34) EmptyString.

(** ** Strings

    A string stands for its UTF-8 encoding.  The regular expressions of the
    source only name ASCII characters, so they are matched byte by byte. *)

Definition bytes (codes : list nat) : list Ascii.ascii := map Ascii.ascii_of_nat codes.

(** The white space and line terminators that [String.prototype.trim]
    removes: U+0009 to U+000D, U+0020, U+00A0, U+1680, U+2000 to U+200A,
    U+2028, U+2029, U+202F, U+205F, U+3000 and U+FEFF. *)
Definition white_space : list (list Ascii.ascii) :=
  map bytes
    [[9]; [10]; [11]; [12]; [13]; [32]; [194; 160]; [225; 154; 128];
     [226; 128; 128]; [226; 128; 129]; [226; 128; 130]; [226; 128; 131];
     [226; 128; 132]; [226; 128; 133]; [226; 128; 134]; [226; 128; 135];
     [226; 128; 136]; [226; 128; 137]; [226; 128; 138];
     [226; 128; 168]; [226; 128; 169]; [226; 128; 175]; [226; 129; 159];
     [227; 128; 128]; [239; 187; 191]]%nat.

Fixpoint strip_prefix (p l : list Ascii.ascii) : option (list Ascii.ascii) :=
  match p, l with
  | [], _ => Some l
  | a :: p', b :: l' => if Ascii.eqb a b then strip_prefix p' l' else None
  | _ :: _, [] => None
  end.

(** The rest of [l] behind the first of [tokens] that [l] starts with. *)
Fixpoint strip_one (tokens : list (list Ascii.ascii)) (l : list Ascii.ascii)
  : option (list Ascii.ascii) :=
  match tokens with
  | [] => None
  | p :: others =>
      match strip_prefix p l with
      | Some l' => Some l'
      | None => strip_one others l
      end
  end.

Fixpoint strip_all (tokens : list (list Ascii.ascii)) (fuel : nat) (l : list Ascii.ascii)
  : list Ascii.ascii :=
  match fuel with
  | O => l
  | S fuel' =>
      match strip_one tokens l with
      | Some l' => strip_all tokens fuel' l'
      | None => l
      end
  end.

(** [String.prototype.trim]. *)
Definition trim (s : string) : string :=
  let l := list_ascii_of_string s in
  let l1 := strip_all white_space (length l) l in
  string_of_list_ascii
    (rev (strip_all (map (@rev Ascii.ascii) white_space) (length l1) (rev l1))).

Definition in_range (lo hi : nat) (a : Ascii.ascii) : bool :=
  (lo <=? Ascii.nat_of_ascii a)%nat && (Ascii.nat_of_ascii a <=? hi)%nat.

(** The classes [\d], [a-zA-Z] and [a-zA-Z0-9]. *)
Definition is_digit (a : Ascii.ascii) : bool := in_range 48 57 a.
Definition is_alpha (a : Ascii.ascii) : bool := in_range 65 90 a || in_range 97 122 a.
Definition is_alnum (a : Ascii.ascii) : bool := is_alpha a || is_digit a.

(** [/^\d+$/]. *)
Definition digits (l : list Ascii.ascii) : bool :=
  match l with
  | [] => false
  | _ => forallb is_digit l
  end.

(** [parseInt(s, 10)] for a string of decimal digits.  The callers only
    compare the result with integers up to 60 and return it when it is at
    most 60, where the binary64 value of the source is the integer itself. *)
Definition parseInt (l : list Ascii.ascii) : Z :=
  fold_left (fun n a => 10 * n + Z.of_nat (Ascii.nat_of_ascii a - 48)) l 0.

Definition hyphen : Ascii.ascii := Ascii.ascii_of_nat 45.
Definition slash : Ascii.ascii := Ascii.ascii_of_nat 47.
Definition dot : Ascii.ascii := Ascii.ascii_of_nat 46.
Definition plus : Ascii.ascii := Ascii.ascii_of_nat 43.
Definition at_sign : Ascii.ascii := Ascii.ascii_of_nat 64.
Definition underscore : Ascii.ascii := Ascii.ascii_of_nat 95.

(** The longest prefix of digits of [l], and what follows it. *)
Fixpoint leading_digits (l : list Ascii.ascii) : list Ascii.ascii * list Ascii.ascii :=
  match l with
  | a :: rest =>
      if is_digit a
      then let '(found, behind) := leading_digits rest in (a :: found, behind)
      else ([], l)
  | [] => ([], [])
  end.

(** [String.prototype.includes]. *)
Definition str_includes (needle hay : string) : bool :=
  match String.index 0 needle hay with
  | Some _ => true
  | None => false
  end.

(** The parts of [l] before and behind the first occurrence of [c]. *)
Fixpoint split_at (c : Ascii.ascii) (l : list Ascii.ascii)
  : option (list Ascii.ascii * list Ascii.ascii) :=
  match l with
  | [] => None
  | a :: rest =>
      if Ascii.eqb a c then Some ([], rest)
      else match split_at c rest with
           | Some (before, behind) => Some (a :: before, behind)
           | None => None
           end
  end.

(** ** src/models/WhatsAppMessage.js *)

Module WhatsAppMessage.

Record t : Type := mk {
  id : string;
  telegramId : Z;
  type : string;
  content : string;
  mediaPath : option string;
  mediaType : option string;
  timestamp : Z;
  sender : string;
  chatId : string;
  quotedMessage : option string;
  status : string;
  errorMessage : option string;
  sentAt : option Z
}.

Definition with_status (v : string) (m : t) : t :=
  mk (id m) (telegramId m) (type m) (content m) (mediaPath m) (mediaType m)
     (timestamp m) (sender m) (chatId m) (quotedMessage m)
     v (errorMessage m) (sentAt m).

Definition with_errorMessage (v : option string) (m : t) : t :=
  mk (id m) (telegramId m) (type m) (content m) (mediaPath m) (mediaType m)
     (timestamp m) (sender m) (chatId m) (quotedMessage m)
     (status m) v (sentAt m).

Definition with_sentAt (v : option Z) (m : t) : t :=
  mk (id m) (telegramId m) (type m) (content m) (mediaPath m) (mediaType m)
     (timestamp m) (sender m) (chatId m) (quotedMessage m)
     (status m) (errorMessage m) v.

Definition with_chatId (v : string) (m : t) : t :=
  mk (id m) (telegramId m) (type m) (content m) (mediaPath m) (mediaType m)
     (timestamp m) (sender m) v (quotedMessage m)
     (status m) (errorMessage m) (sentAt m).

(** [static get statusTransitions()]: the object literal, as a lookup that
    is [None] (undefined) on any other key. *)
Definition statusTransitions (s : string) : option (list string) :=
  if s =s "pending" then Some ["processing"]
  else if s =s "processing" then Some ["sent"; "failed"; "skipped"]
  else if s =s "sent" then Some []
  else if s =s "failed" then Some ["processing"]
  else if s =s "skipped" then Some []
  else None.

(** [Array.prototype.includes] on strings. *)
Definition includes (l : list string) (x : string) : bool :=
  existsb (String.eqb x) l.

Definition canTransitionTo (m : t) (newStatus : string) : bool :=
  let allowedTransitions :=
    match statusTransitions (status m) with
    | Some l => l
    | None => []
    end in
  includes allowedTransitions newStatus.

(** What the environment decides for [validate()]: the errors reported by
    the compiled ajv schema ([None] when the instance is valid) and
    [existsSync]. *)
Record Checks : Type := {
  schema_errors : t -> option string;
  existsSync : string -> bool
}.

Definition _validateBusinessRules (c : Checks) (now : Z) (m : t) : completion unit :=
  if negb (type m =s "text") && truthy (mediaPath m)
     && negb (existsSync c (default EmptyString (mediaPath m)))
  then Throw ("Media file does not exist: " +:+ default EmptyString (mediaPath m))
  else if now <? timestamp m
  then Throw ("Message timestamp cannot be in the future: "
              +:+ show (timestamp m) +:+ " > " +:+ show now)
  else
    match sentAt m with
    | Some s =>
        if negb (s =? 0) && (s <? timestamp m)
        then Throw ("sentAt (" +:+ show s
                    +:+ ") cannot be before original timestamp ("
                    +:+ show (timestamp m) +:+ ")")
        else Normal tt
    | None => Normal tt
    end.

Definition validate (c : Checks) (now : Z) (m : t) : completion unit :=
  match schema_errors c m with
  | Some errors => Throw ("WhatsAppMessage validation failed: " +:+ errors)
  | None => _validateBusinessRules c now m
  end.

(** The object returned by a successful [updateStatus]. *)
Record Transition : Type := {
  from : string;
  to : string;
  at_time : Z
}.

(** [updateStatus(newStatus, errorMessage = null)].  The refusal of a
    transition is thrown before anything is assigned (for a status that is no
    key of the table, the [join] of the message text fails on [undefined]); a
    validation error is thrown after the fields have been assigned, so the
    mutated message is returned in both cases. *)
Definition updateStatus (c : Checks) (now : Z)
    (newStatus : string) (error : option string) (m : t)
  : t * completion Transition :=
  if negb (canTransitionTo m newStatus) then
    (m, Throw (match statusTransitions (status m) with
               | Some valid =>
                   "Invalid status transition from '" +:+ status m +:+ "' to '"
                   +:+ newStatus +:+ "'. Valid transitions: " +:+ join valid
               | None => "Cannot read properties of undefined (reading 'join')"
               end))
  else
    let oldStatus := status m in
    let m1 := with_status newStatus m in
    let m2 :=
      if (newStatus =s "failed") && truthy error then with_errorMessage error m1
      else if negb (newStatus =s "failed") then with_errorMessage None m1
      else m1 in
    let m3 := if newStatus =s "sent" then with_sentAt (Some now) m2 else m2 in
    (m3, let! _ := validate c now m3 in
         Normal {| from := oldStatus; to := newStatus; at_time := now |}).

Definition markAsProcessing (c : Checks) (now : Z) (m : t) :=
  updateStatus c now "processing" None m.

Definition markAsSent (c : Checks) (now : Z) (m : t) :=
  updateStatus c now "sent" None m.

Definition markAsFailed (c : Checks) (now : Z) (error : option string) (m : t) :=
  updateStatus c now "failed" error m.

Definition markAsSkipped (c : Checks) (now : Z) (m : t) :=
  updateStatus c now "skipped" None m.

Definition isTerminal (m : t) : bool :=
  includes ["sent"; "skipped"] (status m).

Definition canRetry (m : t) : bool := status m =s "failed".

(** [new WhatsAppMessage(data)]: the defaults of the constructor, then
    [validate()].  An absent [id], [content], [sender] or [status] is the
    empty string of the record; [fresh] is the value of [randomUUID()]. *)
Definition construct (c : Checks) (now : Z) (fresh : string) (data : t) : completion t :=
  let m :=
    mk (if id data =s EmptyString then fresh else id data)
       (telegramId data) (type data) (content data) (mediaPath data) (mediaType data)
       (timestamp data) (sender data) (chatId data) (quotedMessage data)
       (if status data =s EmptyString then "pending" else status data)
       (errorMessage data) (sentAt data) in
  let! _ := validate c now m in
  Normal m.

(** The [forEach] of [validateArray] from index [index] on: [ids] is the set
    of the ids met so far, [duplicateIds] the ids met again, in order.  The
    [validate()] of the message at index [k] reads the clock as [now k]. *)
Fixpoint validateArray_each (c : Checks) (now : nat -> Z) (index : nat)
    (messages : list t) (ids : gset string) (duplicateIds : list string)
  : completion (list string) :=
  match messages with
  | [] => Normal duplicateIds
  | message :: rest =>
      let met := bool_decide (id message ∈ ids) in
      let! _ := validate c (now index) message in
      validateArray_each c now (S index) rest
        (if met then ids else {[id message]} ∪ ids)
        (if met then duplicateIds ++ [id message] else duplicateIds)
  end.

(** [static validateArray(messages)] for an array of instances. *)
Definition validateArray (c : Checks) (now : nat -> Z) (messages : list t)
  : completion unit :=
  let! duplicateIds := validateArray_each c now 0 messages ∅ [] in
  match duplicateIds with
  | [] => Normal tt
  | _ => Throw ("Duplicate message IDs found: " +:+ join duplicateIds)
  end.

(** What a caller hands over as a message: an instance of the class, as
    [PlanGenerator] builds the messages of a plan ([new WhatsAppMessage]), or
    the plain object that [JSON.parse] returns for one, which has the
    properties of a message and none of its methods; the plan that
    [ImportPlan.fromData] makes of the content of import-plan.json keeps such
    plain objects. *)
Inductive Shape : Type := Instance | Plain.

(** The call [message.name(...)] of a method of the class: on a plain object
    the property is undefined and the call throws a [TypeError]. *)
Definition call {A : Type} (shape : Shape) (name : string)
    (method : t -> t * completion A) (message : t) : t * completion A :=
  match shape with
  | Instance => method message
  | Plain => (message, Throw ("message." +:+ name +:+ " is not a function"))
  end.

End WhatsAppMessage.

(** ** src/models/ProgressRecord.js: ProgressRecord *)

Module ProgressRecord.

(** The plain object that is validated, written to and read from
    progress.jsonl.  [retryCount] may be absent from a line of the log. *)
Record Data : Type := mkData {
  d_messageId : string;
  d_telegramId : Z;
  d_status : string;
  d_timestamp : Z;
  d_errorMessage : option string;
  d_retryCount : option Z;
  d_sentMessageId : option string
}.

(** The instance built by [new ProgressRecord(data)]. *)
Record t : Type := mk {
  messageId : string;
  telegramId : Z;
  status : string;
  timestamp : Z;
  errorMessage : option string;
  retryCount : Z;
  sentMessageId : option string
}.

(** [constructor(data)], with [this.retryCount = data.retryCount || 0]. *)
Definition new (data : Data) : t :=
  {| messageId := d_messageId data;
     telegramId := d_telegramId data;
     status := d_status data;
     timestamp := d_timestamp data;
     errorMessage := d_errorMessage data;
     retryCount := default 0 (d_retryCount data);
     sentMessageId := d_sentMessageId data |}.

Definition toJSON (r : t) : Data :=
  {| d_messageId := messageId r;
     d_telegramId := telegramId r;
     d_status := status r;
     d_timestamp := timestamp r;
     d_errorMessage := errorMessage r;
     d_retryCount := Some (retryCount r);
     d_sentMessageId := sentMessageId r |}.

(** The record schema of [_initValidators].  The field types are those of
    [Data]; what is left to check is the uuid format of [messageId] (decided
    by ajv-formats, hence by the argument [uuid]), the enumeration of
    [status] and the numeric bounds.  The result lists the violations in the
    order of the schema, as ajv does with [allErrors]. *)
Definition schema_violations (uuid : string -> bool) (data : Data) : list string :=
  (if uuid (d_messageId data) then [] else ["/messageId must match format " +:+ quoted "uuid"])
  ++ (if (d_status data =s "sent") || (d_status data =s "failed") then []
      else ["/status must be equal to one of the allowed values"])
  ++ (if d_timestamp data <? 0 then ["/timestamp must be >= 0"] else [])
  ++ match d_retryCount data with
     | Some n =>
         (if n <? 0 then ["/retryCount must be >= 0"] else [])
         ++ (if 10 <? n then ["/retryCount must be <= 10"] else [])
     | None => []
     end.

Definition _validateBusinessRules (now : Z) (data : Data) : completion unit :=
  if (d_status data =s "failed") && negb (truthy (d_errorMessage data))
  then Throw "Failed status requires an error message"
  else if (d_status data =s "sent") && truthy (d_errorMessage data)
  then Throw "Sent status should not have an error message"
  else if now + 60000 <? d_timestamp data
  then Throw "Timestamp cannot be in the future"
  else
    match d_retryCount data with
    | Some n =>
        if n <? 0 then Throw "Retry count cannot be negative"
        else if 10 <? n then Throw "Retry count cannot exceed 10"
        else Normal tt
    | None => Normal tt
    end.

Definition validate (uuid : string -> bool) (now : Z) (data : Data) : completion unit :=
  match schema_violations uuid data with
  | [] => _validateBusinessRules now data
  | errors => Throw ("ProgressRecord validation failed: " +:+ join errors)
  end.

Definition fromData (uuid : string -> bool) (now : Z) (data : Data) : completion t :=
  let! _ := validate uuid now data in
  Normal (new data).

(** [static create(messageId, telegramId, status, errorMessage, sentMessageId)];
    [now] is the value of [Date.now()]. *)
Definition create (uuid : string -> bool) (now : Z)
    (messageId : string) (telegramId : Z) (status : string)
    (errorMessage sentMessageId : option string) : completion t :=
  let recordData :=
    {| d_messageId := messageId;
       d_telegramId := telegramId;
       d_status := status;
       d_timestamp := now;
       d_errorMessage := errorMessage;
       d_retryCount := Some (if status =s "failed" then 1 else 0);
       d_sentMessageId := sentMessageId |} in
  fromData uuid now recordData.

Definition validTransitions (s : string) : option (list string) :=
  if s =s "sent" then Some []
  else if s =s "failed" then Some ["sent"; "failed"]
  else None.

Definition canTransitionTo (r : t) (newStatus : string) : bool :=
  match validTransitions (status r) with
  | Some l => WhatsAppMessage.includes l newStatus
  | None => false
  end.

Definition isTerminal (r : t) : bool := status r =s "sent".

Definition canRetry (r : t) : bool :=
  (status r =s "failed") && (retryCount r <? 10).

(** [updateStatus(newStatus, errorMessage = null, sentMessageId = null)] at
    time [now]: the record as the call leaves it, and how the call ends.  The
    status and the timestamp are assigned before the error message of a
    'failed' update is checked. *)
Definition updateStatus (now : Z) (newStatus : string)
    (error sentId : option string) (r : t) : t * completion unit :=
  if negb (canTransitionTo r newStatus) then
    (r, Throw ("Invalid status transition from " +:+ status r +:+ " to " +:+ newStatus))
  else
    let oldStatus := status r in
    let r1 :=
      mk (messageId r) (telegramId r) newStatus now
         (errorMessage r) (retryCount r) (sentMessageId r) in
    if newStatus =s "failed" then
      if negb (truthy error) then
        (r1, Throw "Error message required for failed status")
      else
        (mk (messageId r) (telegramId r) newStatus now error
            (if oldStatus =s "failed" then retryCount r + 1 else 1)
            (sentMessageId r),
         Normal tt)
    else if newStatus =s "sent" then
      (mk (messageId r) (telegramId r) newStatus now None (retryCount r) sentId,
       Normal tt)
    else (r1, Normal tt).

End ProgressRecord.

(** ** src/models/ProgressRecord.js: ProgressSummary *)

Module ProgressSummary.

(** The ISO date strings [startedAt] and [lastUpdated] are kept as the
    millisecond timestamps they denote. *)
Record t : Type := mk {
  planPath : string;
  startedAt : Z;
  lastUpdated : Z;
  totalMessages : Z;
  processedMessages : Z;
  successfulMessages : Z;
  failedMessages : Z;
  currentPosition : Z;
  status : string
}.

Definition schema_violations (data : t) : list string :=
  (if totalMessages data <? 0 then ["/totalMessages must be >= 0"] else [])
  ++ (if processedMessages data <? 0 then ["/processedMessages must be >= 0"] else [])
  ++ (if successfulMessages data <? 0 then ["/successfulMessages must be >= 0"] else [])
  ++ (if failedMessages data <? 0 then ["/failedMessages must be >= 0"] else [])
  ++ (if currentPosition data <? 0 then ["/currentPosition must be >= 0"] else [])
  ++ (if WhatsAppMessage.includes ["running"; "completed"; "failed"; "paused"] (status data)
      then [] else ["/status must be equal to one of the allowed values"]).

Definition _validateBusinessRules (data : t) : completion unit :=
  if negb (processedMessages data =? successfulMessages data + failedMessages data)
  then Throw ("Processed messages (" +:+ show (processedMessages data)
              +:+ ") must equal successful (" +:+ show (successfulMessages data)
              +:+ ") + failed (" +:+ show (failedMessages data) +:+ ")")
  else if totalMessages data <? processedMessages data
  then Throw ("Processed messages (" +:+ show (processedMessages data)
              +:+ ") cannot exceed total messages ("
              +:+ show (totalMessages data) +:+ ")")
  else if (currentPosition data <? 0) || (totalMessages data <? currentPosition data)
  then Throw ("Current position (" +:+ show (currentPosition data)
              +:+ ") must be between 0 and total messages ("
              +:+ show (totalMessages data) +:+ ")")
  else if lastUpdated data <? startedAt data
  then Throw "Last updated cannot be before started at"
  else if (status data =s "completed")
          && negb (currentPosition data =? totalMessages data)
  then Throw "Completed status requires current position to equal total messages"
  else if (status data =s "completed")
          && negb (processedMessages data =? totalMessages data)
  then Throw "Completed status requires all messages to be processed"
  else Normal tt.

Definition validate (data : t) : completion unit :=
  match schema_violations data with
  | [] => _validateBusinessRules data
  | errors => Throw ("ProgressSummary validation failed: " +:+ join errors)
  end.

Definition fromData (data : t) : completion t :=
  let! _ := validate data in
  Normal data.

(** [static create(planPath, totalMessages)] at time [now]. *)
Definition create (now : Z) (planPath : string) (totalMessages : Z) : completion t :=
  fromData {| planPath := planPath;
              startedAt := now;
              lastUpdated := now;
              totalMessages := totalMessages;
              processedMessages := 0;
              successfulMessages := 0;
              failedMessages := 0;
              currentPosition := 0;
              status := "running" |}.

(** [updateFromRecord(record)] at time [now]. *)
Definition updateFromRecord (now : Z) (record : ProgressRecord.t) (s : t) : t :=
  let successful :=
    if ProgressRecord.status record =s "sent"
    then successfulMessages s + 1 else successfulMessages s in
  let failed :=
    if ProgressRecord.status record =s "sent" then failedMessages s
    else if ProgressRecord.status record =s "failed"
    then failedMessages s + 1 else failedMessages s in
  let processed := successful + failed in
  if totalMessages s <=? processed then
    mk (planPath s) (startedAt s) now (totalMessages s)
       processed successful failed (totalMessages s) "completed"
  else if (0 <? failed) && (successful =? 0) then
    mk (planPath s) (startedAt s) now (totalMessages s)
       processed successful failed (currentPosition s) "failed"
  else
    mk (planPath s) (startedAt s) now (totalMessages s)
       processed successful failed (currentPosition s) (status s).

Definition with_status (v : string) (s : t) : t :=
  mk (planPath s) (startedAt s) (lastUpdated s) (totalMessages s)
     (processedMessages s) (successfulMessages s) (failedMessages s)
     (currentPosition s) v.

Definition with_lastUpdated (v : Z) (s : t) : t :=
  mk (planPath s) (startedAt s) v (totalMessages s)
     (processedMessages s) (successfulMessages s) (failedMessages s)
     (currentPosition s) (status s).

Definition updatePosition (now : Z) (position : Z) (s : t) : completion t :=
  if (position <? 0) || (totalMessages s <? position)
  then Throw ("Position " +:+ show position +:+ " out of range [0, "
              +:+ show (totalMessages s) +:+ "]")
  else Normal (mk (planPath s) (startedAt s) now (totalMessages s)
                  (processedMessages s) (successfulMessages s) (failedMessages s)
                  position (status s)).

Definition pause (now : Z) (s : t) : t :=
  if status s =s "running"
  then with_lastUpdated now (with_status "paused" s) else s.

Definition resume (now : Z) (s : t) : t :=
  if status s =s "paused"
  then with_lastUpdated now (with_status "running" s) else s.

(** [Math.round((a / b) * 100)] in binary64 arithmetic. *)
Definition percentage (a b : Z) : spec_float :=
  Math_round (SFmul prec emax (SFdiv prec emax (num a) (num b)) (num 100)).

Definition getCompletionPercentage (s : t) : spec_float :=
  if totalMessages s =? 0 then num 100
  else percentage (processedMessages s) (totalMessages s).

Definition getSuccessRate (s : t) : spec_float :=
  if processedMessages s =? 0 then num 100
  else percentage (successfulMessages s) (processedMessages s).

Definition isComplete (s : t) : bool := status s =s "completed".
Definition hasFailed (s : t) : bool := status s =s "failed".
Definition isRunning (s : t) : bool := status s =s "running".

End ProgressSummary.

(** ** src/services/ProgressTracker.js *)

Module ProgressTracker.

(** The two files of the ledger in the output directory: progress.json
    ([None] when the file does not exist) and the lines of progress.jsonl
    (no line when the file does not exist: [FileUtils.readJSONL] returns the
    empty array then, and [FileUtils.appendJSONL] creates the file). *)
Record Disk : Type := {
  progress_json : option ProgressSummary.t;
  progress_jsonl : list ProgressRecord.Data
}.

Record t : Type := {
  planPath : string;
  progressSummary : option ProgressSummary.t;
  progressRecords : gmap string ProgressRecord.t;
  isInitialized : bool
}.

(** [new ProgressTracker(outputPath, planPath)]. *)
Definition new (planPath : string) : t :=
  {| planPath := planPath;
     progressSummary := None;
     progressRecords := ∅;
     isInitialized := false |}.

Definition with_summary (s : ProgressSummary.t) (tr : t) : t :=
  {| planPath := planPath tr;
     progressSummary := Some s;
     progressRecords := progressRecords tr;
     isInitialized := isInitialized tr |}.

Definition with_records (m : gmap string ProgressRecord.t) (tr : t) : t :=
  {| planPath := planPath tr;
     progressSummary := progressSummary tr;
     progressRecords := m;
     isInitialized := isInitialized tr |}.

Definition with_initialized (tr : t) : t :=
  {| planPath := planPath tr;
     progressSummary := progressSummary tr;
     progressRecords := progressRecords tr;
     isInitialized := true |}.

(** [_saveProgressSummary()]: progress.json is replaced by the summary. *)
Definition _saveProgressSummary (tr : t) (dk : Disk) : Disk :=
  {| progress_json := progressSummary tr;
     progress_jsonl := progress_jsonl dk |}.

Definition appendJSONL (line : ProgressRecord.Data) (dk : Disk) : Disk :=
  {| progress_json := progress_json dk;
     progress_jsonl := progress_jsonl dk ++ [line] |}.

(** The [for] loop of [_loadProgressRecords]: every line is validated and set
    in the map, the first invalid line throws. *)
Fixpoint load_lines (uuid : string -> bool) (now : Z)
    (lines : list ProgressRecord.Data) (records : gmap string ProgressRecord.t)
  : gmap string ProgressRecord.t * completion unit :=
  match lines with
  | [] => (records, Normal tt)
  | data :: rest =>
      match ProgressRecord.fromData uuid now data with
      | Throw e => (records, Throw e)
      | Normal record =>
          load_lines uuid now rest (<[ProgressRecord.messageId record := record]> records)
      end
  end.

Definition _loadProgressRecords (uuid : string -> bool) (now : Z) (dk : Disk) (tr : t)
  : t * completion unit :=
  let '(records, c) := load_lines uuid now (progress_jsonl dk) (progressRecords tr) in
  (with_records records tr,
   match c with
   | Normal _ => Normal tt
   | Throw e =>
       if str_includes "not found" e then Normal tt
       else Throw ("Failed to load progress records: " +:+ e)
   end).

(** [initialize(totalMessages)]. *)
Definition initialize (uuid : string -> bool) (now : Z) (totalMessages : Z)
    (tr : t) (dk : Disk) : (t * Disk) * completion unit :=
  let fail e := Throw ("Failed to initialize progress tracking: " +:+ e) in
  let loaded :=
    match progress_json dk with
    | Some data =>
        match ProgressSummary.fromData data with
        | Normal s => ((with_summary s tr, dk), Normal tt)
        | Throw e => ((tr, dk), Throw ("Failed to load existing progress: " +:+ e))
        end
    | None =>
        match ProgressSummary.create now (planPath tr) totalMessages with
        | Normal s =>
            let tr1 := with_summary s tr in
            ((tr1, _saveProgressSummary tr1 dk), Normal tt)
        | Throw e => ((tr, dk), Throw e)
        end
    end in
  match loaded with
  | ((tr1, dk1), Throw e) => ((tr1, dk1), fail e)
  | ((tr1, dk1), Normal _) =>
      match _loadProgressRecords uuid now dk1 tr1 with
      | (tr2, Throw e) => ((tr2, dk1), fail e)
      | (tr2, Normal _) => ((with_initialized tr2, dk1), Normal tt)
      end
  end.

(** [static create(outputPath, planPath, totalMessages)]. *)
Definition create (uuid : string -> bool) (now : Z) (planPath : string)
    (totalMessages : Z) (dk : Disk) : (t * Disk) * completion unit :=
  initialize uuid now totalMessages (new planPath) dk.

(** [static load(outputPath, planPath)]. *)
Definition load (uuid : string -> bool) (now : Z) (planPath : string) (dk : Disk)
  : (t * Disk) * completion unit :=
  match progress_json dk with
  | None => ((new planPath, dk),
             Throw "No existing progress found in the specified output path")
  | Some _ => initialize uuid now 0 (new planPath) dk
  end.

(** [recordProgress(progressRecord)] for a [ProgressRecord] instance. *)
Definition recordProgress (uuid : string -> bool) (now : Z)
    (record : ProgressRecord.t) (tr : t) (dk : Disk)
  : (t * Disk) * completion ProgressRecord.t :=
  if negb (isInitialized tr) then
    ((tr, dk), Throw "Progress tracker not initialized")
  else
    let fail e := Throw ("Failed to record progress: " +:+ e) in
    match ProgressRecord.validate uuid now (ProgressRecord.toJSON record) with
    | Throw e => ((tr, dk), fail e)
    | Normal _ =>
        let tr1 :=
          with_records (<[ProgressRecord.messageId record := record]> (progressRecords tr)) tr in
        let dk1 := appendJSONL (ProgressRecord.toJSON record) dk in
        match progressSummary tr1 with
        | None => ((tr1, dk1), fail "Cannot read properties of null (reading 'updateFromRecord')")
        | Some s =>
            let tr2 := with_summary (ProgressSummary.updateFromRecord now record s) tr1 in
            ((tr2, _saveProgressSummary tr2 dk1), Normal record)
        end
    end.

(** [updateProgress(updates)] for [updates = { status }]. *)
Definition updateProgress (now : Z) (newStatus : string) (tr : t) (dk : Disk)
  : (t * Disk) * completion unit :=
  if negb (isInitialized tr) then
    ((tr, dk), Throw "Progress tracker not initialized")
  else
    match progressSummary tr with
    | None => ((tr, dk), Throw "Cannot read properties of null (reading 'status')")
    | Some s =>
        let s1 :=
          if newStatus =s EmptyString then s
          else if newStatus =s "paused" then ProgressSummary.pause now s
          else if newStatus =s "running" then ProgressSummary.resume now s
          else ProgressSummary.with_status newStatus s in
        let tr1 := with_summary (ProgressSummary.with_lastUpdated now s1) tr in
        ((tr1, _saveProgressSummary tr1 dk), Normal tt)
    end.

Definition isMessageProcessed (tr : t) (messageId : string) : bool :=
  bool_decide (is_Some (progressRecords tr !! messageId)).

Definition isMessageSuccessful (tr : t) (messageId : string) : bool :=
  match progressRecords tr !! messageId with
  | Some record => ProgressRecord.status record =s "sent"
  | None => false
  end.

Definition isMessageFailed (tr : t) (messageId : string) : bool :=
  match progressRecords tr !! messageId with
  | Some record => ProgressRecord.status record =s "failed"
  | None => false
  end.

(** [updatePosition(position)]. *)
Definition updatePosition (now : Z) (position : Z) (tr : t) (dk : Disk)
  : (t * Disk) * completion unit :=
  if negb (isInitialized tr) then
    ((tr, dk), Throw "Progress tracker not initialized")
  else
    match progressSummary tr with
    | None => ((tr, dk), Throw "Cannot read properties of null (reading 'updatePosition')")
    | Some s =>
        match ProgressSummary.updatePosition now position s with
        | Throw e => ((tr, dk), Throw e)
        | Normal s1 =>
            let tr1 := with_summary s1 tr in
            ((tr1, _saveProgressSummary tr1 dk), Normal tt)
        end
    end.

(** [getProgressRecord(messageId)]: a copy of the record, or [null]. *)
Definition getProgressRecord (tr : t) (messageId : string) : option ProgressRecord.Data :=
  ProgressRecord.toJSON <$> progressRecords tr !! messageId.

(** [resetProgress()] at time [now]: the records are cleared, a new summary
    is created for the same number of messages, the log file is removed and
    the summary is saved. *)
Definition resetProgress (now : Z) (tr : t) (dk : Disk) : (t * Disk) * completion unit :=
  if negb (isInitialized tr) then
    ((tr, dk), Throw "Progress tracker not initialized")
  else
    let tr1 := with_records ∅ tr in
    match progressSummary tr1 with
    | None => ((tr1, dk), Throw "Cannot read properties of null (reading 'totalMessages')")
    | Some s =>
        match ProgressSummary.create now (planPath tr1) (ProgressSummary.totalMessages s) with
        | Throw e => ((tr1, dk), Throw e)
        | Normal s1 =>
            let tr2 := with_summary s1 tr1 in
            ((tr2, _saveProgressSummary tr2
                     {| progress_json := progress_json dk; progress_jsonl := [] |}),
             Normal tt)
        end
    end.

End ProgressTracker.

(** ** src/models/CLIConfig.js *)

Module CLIConfig.

Record t : Type := {
  sleepRange_min : Z;
  sleepRange_max : Z;
  whatsappTimeout : Z;
  maxRetries : Z;
  maxFileSize : Z;
  supportedMediaTypes : list string;
  logLevel : string;
  outputFormat : string
}.

(** A configuration object as the constructor and [validate] receive it; an
    absent property is [None]. *)
Record Data : Type := {
  d_sleepRange : option (Z * Z);
  d_whatsappTimeout : option Z;
  d_maxRetries : option Z;
  d_maxFileSize : option Z;
  d_supportedMediaTypes : option (list string);
  d_logLevel : option string;
  d_outputFormat : option string
}.

(** [v || d] for a number and for a string: 0 and the empty string are
    falsy. *)
Definition number_or (v : option Z) (d : Z) : Z :=
  match v with
  | Some x => if x =? 0 then d else x
  | None => d
  end.

Definition string_or (v : option string) (d : string) : string :=
  match v with
  | Some x => if x =s EmptyString then d else x
  | None => d
  end.

(** [constructor(data = {})]. *)
Definition new (data : Data) : t :=
  {| sleepRange_min := fst (default (3, 10) (d_sleepRange data));
     sleepRange_max := snd (default (3, 10) (d_sleepRange data));
     whatsappTimeout := number_or (d_whatsappTimeout data) 30000;
     maxRetries := number_or (d_maxRetries data) 3;
     maxFileSize := number_or (d_maxFileSize data) (16 * 1024 * 1024);
     supportedMediaTypes :=
       default
         ["image/jpeg"; "image/png"; "image/gif"; "image/webp";
          "video/mp4"; "video/webm"; "video/quicktime";
          "audio/mpeg"; "audio/ogg"; "audio/wav"; "audio/webm";
          "application/pdf"; "application/msword";
          "application/vnd.openxmlformats-officedocument.wordprocessingml.document";
          "application/vnd.ms-excel";
          "application/vnd.openxmlformats-officedocument.spreadsheetml.sheet";
          "text/plain"]
         (d_supportedMediaTypes data);
     logLevel := string_or (d_logLevel data) "info";
     outputFormat := string_or (d_outputFormat data) "human" |}.

(** The object [{}]. *)
Definition no_data : Data :=
  {| d_sleepRange := None;
     d_whatsappTimeout := None;
     d_maxRetries := None;
     d_maxFileSize := None;
     d_supportedMediaTypes := None;
     d_logLevel := None;
     d_outputFormat := None |}.

(** [static createDefault()]. *)
Definition createDefault : t := new no_data.

(** A value of [Math.random()]: the number [a / (a + b + 1)] of [[0, 1)],
    given by the pair [(a, b)]. *)
Definition Random : Type := (N * N)%type.

(** [Math.floor(Math.random() * n)] for an integer [n]; the quotient is
    taken on the exact product, where the code floors the product as rounded
    to binary64. *)
Definition floor_random (r : Random) (n : Z) : Z :=
  (Z.of_N (fst r) * n) / (Z.of_N (fst r) + Z.of_N (snd r) + 1).

(** [getRandomSleepDuration()]. *)
Definition getRandomSleepDuration (r : Random) (c : t) : Z :=
  floor_random r (sleepRange_max c - sleepRange_min c + 1) + sleepRange_min c.

(** [static parseSleepRange(rangeString)] for a string argument: the object
    [{ min, max }] as a pair.  The second pattern is [/^(\d+)-(\d+)$/]: the
    digits before the first hyphen and the digits behind it. *)
Definition parseSleepRange (rangeString : string) : completion (Z * Z) :=
  let trimmed := list_ascii_of_string (trim rangeString) in
  if digits trimmed then
    let value := parseInt trimmed in
    if (value <? 1) || (60 <? value)
    then Throw "Sleep value must be between 1 and 60 seconds"
    else Normal (value, value)
  else
    match split_at hyphen trimmed with
    | Some (first, second) =>
        if digits first && digits second then
          let min := parseInt first in
          let max := parseInt second in
          if (min <? 1) || (60 <? max)
          then Throw "Sleep range values must be between 1 and 60 seconds"
          else if max <? min
          then Throw "Sleep range minimum must be less than or equal to maximum"
          else Normal (min, max)
        else Throw ("Invalid sleep range format. Use " +:+ quoted "5"
                    +:+ " or " +:+ quoted "3-10")
    | None => Throw ("Invalid sleep range format. Use " +:+ quoted "5"
                     +:+ " or " +:+ quoted "3-10")
    end.

(** [formatSleepRange()]. *)
Definition formatSleepRange (c : t) : string :=
  if sleepRange_min c =? sleepRange_max c then show (sleepRange_min c) +:+ "s"
  else show (sleepRange_min c) +:+ "-" +:+ show (sleepRange_max c) +:+ "s".

(** The class [a-zA-Z0-9!#$&\-^.] of [_isValidMimeType]. *)
Definition is_mime_char (a : Ascii.ascii) : bool :=
  is_alnum a
  || existsb (Ascii.eqb a) (list_ascii_of_string "!#$&-^.").

(** [static _isValidMimeType(mimeType)]: a letter, a letter or digit and
    characters of the class, a slash, a letter or digit and characters of
    the class. *)
Definition _isValidMimeType (mimeType : string) : bool :=
  match split_at slash (list_ascii_of_string mimeType) with
  | Some (a1 :: a2 :: type_rest, b1 :: subtype_rest) =>
      is_alpha a1 && is_alnum a2 && forallb is_mime_char type_rest
      && is_alnum b1 && forallb is_mime_char subtype_rest
  | _ => false
  end.

Fixpoint check_media_types (mediaTypes : list string) : completion unit :=
  match mediaTypes with
  | [] => Normal tt
  | mediaType :: rest =>
      if _isValidMimeType mediaType then check_media_types rest
      else Throw ("Invalid MIME type: " +:+ mediaType)
  end.

(** [static _validateBusinessRules(data)].  A number that is 0 is falsy. *)
Definition _validateBusinessRules (data : Data) : completion unit :=
  let! _ :=
    match d_sleepRange data with
    | Some (min, max) =>
        if max <? min
        then Throw "Sleep range minimum must be less than or equal to maximum"
        else if min <? 1
        then Throw "Sleep range minimum must be at least 1 second"
        else if 60 <? max
        then Throw "Sleep range maximum cannot exceed 60 seconds"
        else Normal tt
    | None => Normal tt
    end in
  let! _ :=
    match d_whatsappTimeout data with
    | Some timeout =>
        if negb (timeout =? 0) && (timeout <? 5000)
        then Throw "WhatsApp timeout must be at least 5 seconds"
        else Normal tt
    | None => Normal tt
    end in
  let! _ :=
    match d_maxRetries data with
    | Some retries =>
        if negb (retries =? 0) && (10 <? retries)
        then Throw "Maximum retries cannot exceed 10"
        else Normal tt
    | None => Normal tt
    end in
  let! _ :=
    match d_maxFileSize data with
    | Some size =>
        if negb (size =? 0) && (100 * 1024 * 1024 <? size)
        then Throw ("Maximum file size cannot exceed " +:+ show (100 * 1024 * 1024)
                    +:+ " bytes (100MB)")
        else Normal tt
    | None => Normal tt
    end in
  match d_supportedMediaTypes data with
  | Some mediaTypes => check_media_types mediaTypes
  | None => Normal tt
  end.

(** The bounds [minimum] and [maximum] of the schema on a number that is
    present. *)
Definition bounds (path : string) (lo : Z) (hi : option Z) (v : option Z) : list string :=
  match v with
  | Some x =>
      if x <? lo then [path +:+ " must be >= " +:+ show lo]
      else match hi with
           | Some h => if h <? x then [path +:+ " must be <= " +:+ show h] else []
           | None => []
           end
  | None => []
  end.

(** [uniqueItems]: the array is scanned from its last item to its first; at
    the first item met again, at index [i], the error names the index [j] at
    which it was met before. *)
Fixpoint met_again (i : nat) (backwards : list string) (indices : gmap string nat)
  : option (nat * nat) :=
  match backwards with
  | [] => None
  | item :: rest =>
      match indices !! item with
      | Some j => Some (j, i)
      | None => met_again (Nat.pred i) rest (<[item := i]> indices)
      end
  end.

Definition enumerated (path : string) (allowed : list string) (v : option string)
  : list string :=
  match v with
  | Some x =>
      if existsb (String.eqb x) allowed then []
      else [path +:+ " must be equal to one of the allowed values"]
  | None => []
  end.

(** The errors of the compiled schema ([allErrors]), as [_formatErrors]
    renders them. *)
Definition schema_violations (data : Data) : list string :=
  (bounds "/sleepRange/min" 1 (Some 60) (fst <$> d_sleepRange data)
   ++ bounds "/sleepRange/max" 1 (Some 60) (snd <$> d_sleepRange data)
   ++ bounds "/whatsappTimeout" 5000 None (d_whatsappTimeout data)
   ++ bounds "/maxRetries" 0 (Some 10) (d_maxRetries data)
   ++ bounds "/maxFileSize" 1024 None (d_maxFileSize data)
   ++ match d_supportedMediaTypes data with
      | Some items =>
          match met_again (Nat.pred (length items)) (rev items) ∅ with
          | Some (j, i) =>
              ["/supportedMediaTypes must NOT have duplicate items (items ## "
               +:+ show (Z.of_nat j) +:+ " and " +:+ show (Z.of_nat i)
               +:+ " are identical)"]
          | None => []
          end
      | None => []
      end
   ++ enumerated "/logLevel" ["error"; "warn"; "info"; "debug"] (d_logLevel data)
   ++ enumerated "/outputFormat" ["json"; "human"] (d_outputFormat data))%list.

(** [static validate(data)]. *)
Definition validate (data : Data) : completion unit :=
  match schema_violations data with
  | [] => _validateBusinessRules data
  | errors => Throw ("CLIConfig validation failed: " +:+ join errors)
  end.

(** [static fromData(data)]. *)
Definition fromData (data : Data) : completion t :=
  let! _ := validate data in
  Normal (new data).

(** [merge(overrides)]: the properties of [overrides] that are present
    replace those of the configuration, and the result is validated. *)
Definition merge (overrides : Data) (c : t) : completion t :=
  fromData
    {| d_sleepRange :=
         Some (default (sleepRange_min c, sleepRange_max c) (d_sleepRange overrides));
       d_whatsappTimeout := Some (default (whatsappTimeout c) (d_whatsappTimeout overrides));
       d_maxRetries := Some (default (maxRetries c) (d_maxRetries overrides));
       d_maxFileSize := Some (default (maxFileSize c) (d_maxFileSize overrides));
       d_supportedMediaTypes :=
         Some (default (supportedMediaTypes c) (d_supportedMediaTypes overrides));
       d_logLevel := Some (default (logLevel c) (d_logLevel overrides));
       d_outputFormat := Some (default (outputFormat c) (d_outputFormat overrides)) |}.

End CLIConfig.

(** ** src/models/CLIConfig.js: RuntimeState *)

Module RuntimeState.

(** The [rateLimiter] object of the runtime state. *)
Record t : Type := {
  lastMessageTime : Z;
  messageCount : Z;
  dailyLimit : Z
}.

(** [new RuntimeState()]. *)
Definition new : t :=
  {| lastMessageTime := 0; messageCount := 0; dailyLimit := 1000 |}.

(** [updateRateLimit()] at time [now]. *)
Definition updateRateLimit (now : Z) (rs : t) : t :=
  {| lastMessageTime := now;
     messageCount := messageCount rs + 1;
     dailyLimit := dailyLimit rs |}.

(** [canSendMessage(config)] at time [now]. *)
Definition canSendMessage (now : Z) (config : CLIConfig.t) (rs : t) : bool :=
  let timeSinceLastMessage := now - lastMessageTime rs in
  let minimumDelay := CLIConfig.sleepRange_min config * 1000 in
  if timeSinceLastMessage <? minimumDelay then false
  else if dailyLimit rs <=? messageCount rs then false
  else true.

(** [getRequiredWaitTime(config)] at time [now]. *)
Definition getRequiredWaitTime (now : Z) (config : CLIConfig.t) (rs : t) : Z :=
  let timeSinceLastMessage := now - lastMessageTime rs in
  let minimumDelay := CLIConfig.sleepRange_min config * 1000 in
  Z.max 0 (minimumDelay - timeSinceLastMessage).

Definition resetDailyLimit (rs : t) : t :=
  {| lastMessageTime := lastMessageTime rs;
     messageCount := 0;
     dailyLimit := dailyLimit rs |}.

End RuntimeState.

(** ** src/models/ImportPlan.js *)

Module ImportPlan.

Record t : Type := {
  version : string;
  messages : list WhatsAppMessage.t;
  skippedMessages : list Z
}.

Definition with_messages (l : list WhatsAppMessage.t) (p : t) : t :=
  {| version := version p; messages := l; skippedMessages := skippedMessages p |}.

Definition getMessageCount (p : t) : Z := Z.of_nat (length (messages p)).

Definition getUnprocessedMessages (p : t) : list WhatsAppMessage.t :=
  List.filter (fun m => WhatsAppMessage.status m =s "pending") (messages p).

Definition getFailedMessages (p : t) : list WhatsAppMessage.t :=
  List.filter (fun m => WhatsAppMessage.status m =s "failed") (messages p).

(** [this.messages.find(m => m.id === messageId)], with the index of the
    message found. *)
Fixpoint find_message (messageId : string) (index : nat) (l : list WhatsAppMessage.t)
  : option (nat * WhatsAppMessage.t) :=
  match l with
  | [] => None
  | m :: rest =>
      if WhatsAppMessage.id m =s messageId then Some (index, m)
      else find_message messageId (S index) rest
  end.

(** [updateMessageStatus(messageId, status, errorMessage = null, sentAt = null)]:
    the plan as the call leaves it.  The transition is checked on a
    [new WhatsAppMessage(message)]; the message of the plan is then assigned
    directly, and is not validated. *)
Definition updateMessageStatus (c : WhatsAppMessage.Checks) (now : Z) (fresh : string)
    (messageId status : string) (errorMessage : option string) (sentAt : option Z)
    (p : t) : t * completion unit :=
  match find_message messageId 0 (messages p) with
  | None => (p, Throw ("Message not found: " +:+ messageId))
  | Some (index, message) =>
      if WhatsAppMessage.status message =s status then (p, Normal tt)
      else
        match WhatsAppMessage.construct c now fresh message with
        | Throw e => (p, Throw e)
        | Normal tempMessage =>
            if negb (WhatsAppMessage.canTransitionTo tempMessage status) then
              (p, Throw ("Invalid status transition from "
                         +:+ WhatsAppMessage.status message +:+ " to " +:+ status))
            else
              let m1 := WhatsAppMessage.with_status status message in
              let m2 :=
                if truthy errorMessage then WhatsAppMessage.with_errorMessage errorMessage m1
                else m1 in
              let m3 :=
                match sentAt with
                | Some t => if t =? 0 then m2 else WhatsAppMessage.with_sentAt (Some t) m2
                | None => m2
                end in
              (with_messages (<[index := m3]> (messages p)) p, Normal tt)
        end
  end.

(** The content of import-plan.json as [JSON.parse] returns it, with the
    properties that the code reads: the messages are plain objects with the
    properties of a [WhatsAppMessage], [skippedMessages] (the telegram ids of
    the messages left out) may be absent, and the two count objects of the
    statistics are given by their entries, in the order of [Object.entries],
    each count a number. *)
Record Metadata : Type := {
  m_totalMessages : Z;
  m_supportedMessages : Z;
  m_skippedMessages : Z
}.

Record Statistics : Type := {
  s_messageTypes : list (string * Z);
  s_mediaTypes : list (string * Z)
}.

Record Data : Type := {
  d_version : string;
  d_metadata : Metadata;
  d_messages : list WhatsAppMessage.t;
  d_skippedMessages : option (list Z);
  d_statistics : Statistics
}.

(** [[0-9A-Za-z-]+(?:\.[0-9A-Za-z-]+)*]: identifiers that are not empty,
    separated by dots; [begun] tells whether the current identifier has a
    character already. *)
Fixpoint identifiers (begun : bool) (l : list Ascii.ascii) : bool :=
  match l with
  | [] => begun
  | a :: rest =>
      if Ascii.eqb a dot then begun && identifiers false rest
      else (is_alnum a || Ascii.eqb a hyphen) && identifiers true rest
  end.

(** [static _isValidSemVer(version)]: three numbers separated by dots, then
    an optional pre-release part behind a hyphen and an optional build part
    behind a plus sign. *)
Definition _isValidSemVer (version : string) : bool :=
  match split_at dot (list_ascii_of_string version) with
  | Some (major, behind_major) =>
      match split_at dot behind_major with
      | Some (minor, behind_minor) =>
          let '(patch, behind) := leading_digits behind_minor in
          digits major && digits minor && digits patch
          && match behind with
             | [] => true
             | a :: rest =>
                 if Ascii.eqb a hyphen then
                   match split_at plus rest with
                   | Some (prerelease, build) =>
                       identifiers false prerelease && identifiers false build
                   | None => identifiers false rest
                   end
                 else if Ascii.eqb a plus then identifiers false rest
                 else false
             end
      | None => false
      end
  | None => false
  end.

(** The first index, from [index] on, of a message with a timestamp below
    that of the message before it. *)
Fixpoint out_of_order (index : nat) (previous : Z) (l : list WhatsAppMessage.t)
  : option nat :=
  match l with
  | [] => None
  | m :: rest =>
      if WhatsAppMessage.timestamp m <? previous then Some index
      else out_of_order (S index) (WhatsAppMessage.timestamp m) rest
  end.

(** The first [telegramId] that is in the set of those met before. *)
Fixpoint met_before (seen : gset Z) (l : list WhatsAppMessage.t) : option Z :=
  match l with
  | [] => None
  | m :: rest =>
      if bool_decide (WhatsAppMessage.telegramId m ∈ seen)
      then Some (WhatsAppMessage.telegramId m)
      else met_before ({[WhatsAppMessage.telegramId m]} ∪ seen) rest
  end.

(** What a property of one of the two count objects holds: a number, or the
    text that [+ 1] made of a value that is no number. *)
Inductive Count : Type :=
| Number (n : Z)
| Text (s : string).

(** [counts[key] = (counts[key] || 0) + 1].  A key that the object does not
    have yet and does not inherit starts at 1; under an inherited name the
    value found is a function, and [+ 1] makes a text of it; an assignment
    of a text to [__proto__] is ignored. *)
Definition count_one (key : string) (counts : gmap string Count) : gmap string Count :=
  match counts !! key with
  | Some (Number n) => <[key := Number (n + 1)]> counts
  | Some (Text s) => <[key := Text (s +:+ "1")]> counts
  | None =>
      match inherited key with
      | Some text =>
          if key =s "__proto__" then counts
          else <[key := Text (text +:+ "1")]> counts
      | None => <[key := Number 1]> counts
      end
  end.

(** [static _calculateActualCounts(messages)]: the two count objects. *)
Definition _calculateActualCounts (messages : list WhatsAppMessage.t)
  : gmap string Count * gmap string Count :=
  fold_left
    (fun '(messageTypes, mediaTypes) message =>
       (count_one (WhatsAppMessage.type message) messageTypes,
        if negb (WhatsAppMessage.type message =s "text")
           && truthy (WhatsAppMessage.mediaType message)
        then count_one (default EmptyString (WhatsAppMessage.mediaType message)) mediaTypes
        else mediaTypes))
    messages (∅, ∅).

(** The text of [counts[key] || 0] in a template literal. *)
Definition found (key : string) (counts : gmap string Count) : string :=
  match counts !! key with
  | Some (Number n) => show n
  | Some (Text s) => s
  | None => default "0" (inherited key)
  end.

(** The loop over [Object.entries] of one of the two count objects of the
    statistics: [counts[type] !== count] throws. *)
Fixpoint check_counts (what : string) (entries : list (string * Z))
    (counts : gmap string Count) : completion unit :=
  match entries with
  | [] => Normal tt
  | (type, count) :: rest =>
      match counts !! type with
      | Some (Number n) =>
          if n =? count then check_counts what rest counts
          else Throw ("Statistics mismatch for " +:+ what +:+ " type '" +:+ type
                      +:+ "': expected " +:+ show count +:+ ", found "
                      +:+ found type counts)
      | _ => Throw ("Statistics mismatch for " +:+ what +:+ " type '" +:+ type
                    +:+ "': expected " +:+ show count +:+ ", found "
                    +:+ found type counts)
      end
  end.

(** [static _validateBusinessRules(data)]. *)
Definition _validateBusinessRules (data : Data) : completion unit :=
  if negb (_isValidSemVer (d_version data))
  then Throw ("Invalid semantic version: " +:+ d_version data)
  else
    match match d_messages data with
          | first :: rest => out_of_order 1 (WhatsAppMessage.timestamp first) rest
          | [] => None
          end with
    | Some i =>
        Throw ("Messages must be sorted by timestamp. Message at index "
               +:+ show (Z.of_nat i) +:+ " is out of order.")
    | None =>
        match met_before ∅ (d_messages data) with
        | Some telegramId =>
            Throw ("Duplicate telegramId reference: " +:+ show telegramId)
        | None =>
            let actualCounts := _calculateActualCounts (d_messages data) in
            let! _ := check_counts "message" (s_messageTypes (d_statistics data))
                        (fst actualCounts) in
            let! _ := check_counts "media" (s_mediaTypes (d_statistics data))
                        (snd actualCounts) in
            let supported := Z.of_nat (length (d_messages data)) in
            let skipped := Z.of_nat (length (default [] (d_skippedMessages data))) in
            if negb (m_totalMessages (d_metadata data) =? supported + skipped)
            then Throw ("Metadata totalMessages mismatch: expected "
                        +:+ show (supported + skipped) +:+ ", found "
                        +:+ show (m_totalMessages (d_metadata data)))
            else if negb (m_supportedMessages (d_metadata data) =? supported)
            then Throw ("Metadata supportedMessages mismatch: expected "
                        +:+ show supported +:+ ", found "
                        +:+ show (m_supportedMessages (d_metadata data)))
            else if negb (m_skippedMessages (d_metadata data) =? skipped)
            then Throw ("Metadata skippedMessages mismatch: expected "
                        +:+ show skipped +:+ ", found "
                        +:+ show (m_skippedMessages (d_metadata data)))
            else Normal tt
        end
    end.

(** [static validate(data)]; [schema_errors] is what the compiled ajv schema
    reports on [data] ([None] when it is valid). *)
Definition validate (schema_errors : option string) (data : Data) : completion unit :=
  match schema_errors with
  | Some errors => Throw ("ImportPlan validation failed: " +:+ errors)
  | None => _validateBusinessRules data
  end.

(** [constructor(data)]: the messages stay the plain objects of [data]. *)
Definition new (data : Data) : t :=
  {| version := d_version data;
     messages := d_messages data;
     skippedMessages := default [] (d_skippedMessages data) |}.

(** [static fromData(data)]. *)
Definition fromData (schema_errors : option string) (data : Data) : completion t :=
  let! _ := validate schema_errors data in
  Normal (new data).

End ImportPlan.

(** ** The environment of a run *)

(** The spec's two classes of channel errors.  The client library only
    throws an [Error] with a message; the scope is what the cause really was. *)
Inductive ErrorScope : Type := JobScoped | ConnectionScoped.

(** What one of the five [_send...Message] methods does when it is called. *)
Inductive SendOutcome : Type :=
| Delivered (serialized : string)
| Raised (scope : ErrorScope) (message : string).

(** What the outside contributes to one iteration of the delivery loop: the
    value of the pause flag when the loop tests it, the value of
    [Math.random()], the answer of the channel, and the time (in ms) that each
    awaited promise takes beyond what was asked for. *)
Record Tick : Type := {
  pause_seen : bool;
  random : CLIConfig.Random;
  wait_lag : N;
  delay_lag : N;
  outcome : SendOutcome;
  send_lag : N;
  record_lag : N
}.

(** [connects] tells whether the WhatsApp client gets connected;
    [connect_error] is the message of the error it throws when it does not. *)
Record World : Type := {
  checks : WhatsAppMessage.Checks;
  uuid : string -> bool;
  connects : bool;
  connect_error : string;
  tick : nat -> Tick
}.

(** ** src/services/WhatsAppImporter.js *)

Module WhatsAppImporter.

(** The importer is always driven with a progress tracker ([ExecuteCommand]
    passes the one it has initialised), so the branches under
    [if (this.progressTracker)] are the ones modelled. *)

(** One call of [_processSingleMessage], as seen from outside: the clock
    reading at the call, the job, and whether it reported success. *)
Record Attempt : Type := {
  at_ms : Z;
  job : string;
  delivered : bool
}.

(** Everything a run reads and writes: the rate limiter of the runtime
    state, the tracker with the two ledger files, the clock ([Date.now()]),
    and the attempts made so far. *)
Record State : Type := {
  runtimeState : RuntimeState.t;
  progressTracker : ProgressTracker.t;
  disk : ProgressTracker.Disk;
  clock : Z;
  attempts : list Attempt
}.

Record Options : Type := {
  dryRun : bool;
  resume : bool
}.

(** The object returned by [_processSingleMessage]. *)
Record MessageResult : Type := {
  success : bool;
  skipped : bool;
  error : option string;
  whatsappMessageId : option string
}.

(** The [result] object of [_processMessages] and [executeImport]. *)
Record RunResult : Type := {
  r_status : string;
  r_totalMessages : Z;
  r_processedMessages : Z;
  r_successfulMessages : Z;
  r_failedMessages : Z;
  r_skippedMessages : Z;
  r_errors : list (string * option string)
}.

Definition with_r_status (v : string) (r : RunResult) : RunResult :=
  {| r_status := v;
     r_totalMessages := r_totalMessages r;
     r_processedMessages := r_processedMessages r;
     r_successfulMessages := r_successfulMessages r;
     r_failedMessages := r_failedMessages r;
     r_skippedMessages := r_skippedMessages r;
     r_errors := r_errors r |}.

(** [_sleep(ms)]: the timer fires after at least [ms] milliseconds. *)
Definition _sleep (ms : Z) (lag : N) (now : Z) : Z :=
  now + Z.max 0 ms + Z.of_N lag.

(** [_waitForRateLimit()]: the clock after the two sleeps. *)
Definition _waitForRateLimit (config : CLIConfig.t) (tk : Tick) (st : State) : Z :=
  let waitTime := RuntimeState.getRequiredWaitTime (clock st) config (runtimeState st) in
  let now1 := if 0 <? waitTime then _sleep waitTime (wait_lag tk) (clock st) else clock st in
  let randomDelay := CLIConfig.getRandomSleepDuration (random tk) config * 1000 in
  _sleep randomDelay (delay_lag tk) now1.

(** The [switch] of [_processSingleMessage]: the channel is called for the
    five known types. *)
Definition send (tk : Tick) (m : WhatsAppMessage.t) : SendOutcome :=
  if WhatsAppMessage.includes ["text"; "image"; "video"; "audio"; "document"]
       (WhatsAppMessage.type m)
  then outcome tk
  else Raised JobScoped ("Unsupported message type: " +:+ WhatsAppMessage.type m).

(** The [catch] block of [_processSingleMessage]. *)
Definition failed_message (shape : WhatsAppMessage.Shape) (c : WhatsAppMessage.Checks)
    (now : Z) (e : string) (m : WhatsAppMessage.t)
  : (WhatsAppMessage.t * Z) * completion MessageResult :=
  let '(m1, r) :=
    WhatsAppMessage.call shape "markAsFailed"
      (WhatsAppMessage.markAsFailed c now (Some e)) m in
  ((m1, now),
   let! _ := r in
   Normal {| success := false; skipped := false;
             error := Some e; whatsappMessageId := None |}).

(** [_processSingleMessage(message, options)], called at time [now] with a
    message of the given shape; the result carries the message as mutated and
    the clock at the return. *)
Definition _processSingleMessage (shape : WhatsAppMessage.Shape)
    (c : WhatsAppMessage.Checks) (tk : Tick)
    (options : Options) (now : Z) (m : WhatsAppMessage.t)
  : (WhatsAppMessage.t * Z) * completion MessageResult :=
  if dryRun options then
    ((m, now), Normal {| success := true; skipped := false;
                         error := None; whatsappMessageId := None |})
  else
    match WhatsAppMessage.call shape "markAsProcessing"
            (WhatsAppMessage.markAsProcessing c now) m with
    | (m1, Throw e) => failed_message shape c now e m1
    | (m1, Normal _) =>
        let now1 := now + Z.of_N (send_lag tk) in
        match send tk m1 with
        | Raised _ e => failed_message shape c now1 e m1
        | Delivered wid =>
            match WhatsAppMessage.call shape "markAsSent"
                    (WhatsAppMessage.markAsSent c now1) m1 with
            | (m2, Throw e) => failed_message shape c now1 e m2
            | (m2, Normal _) =>
                ((m2, now1), Normal {| success := true; skipped := false;
                                       error := None; whatsappMessageId := Some wid |})
            end
        end
    end.

Definition with_ledger (st : State) (ledger : ProgressTracker.t * ProgressTracker.Disk)
    (now : Z) : State :=
  {| runtimeState := runtimeState st;
     progressTracker := fst ledger;
     disk := snd ledger;
     clock := now;
     attempts := attempts st |}.

(** The [catch] block of the loop body: the failure is counted and recorded;
    an error thrown here leaves the loop. *)
Definition record_failure (w : World) (tk : Tick) (m : WhatsAppMessage.t) (e : string)
    (st : State) (res : RunResult) : (State * RunResult) * completion unit :=
  let res1 :=
    {| r_status := r_status res;
       r_totalMessages := r_totalMessages res;
       r_processedMessages := r_processedMessages res + 1;
       r_successfulMessages := r_successfulMessages res;
       r_failedMessages := r_failedMessages res + 1;
       r_skippedMessages := r_skippedMessages res;
       r_errors := r_errors res ++ [(WhatsAppMessage.id m, Some e)] |} in
  match ProgressRecord.create (uuid w) (clock st) (WhatsAppMessage.id m)
          (WhatsAppMessage.telegramId m) "failed" (Some e) None with
  | Throw e' => ((st, res1), Throw e')
  | Normal record =>
      let '(ledger, r) :=
        ProgressTracker.recordProgress (uuid w) (clock st) record
          (progressTracker st) (disk st) in
      ((with_ledger st ledger (clock st + Z.of_N (record_lag tk)), res1),
       let! _ := r in Normal tt)
  end.

(** The counters of the [try] block after [_processSingleMessage] returned. *)
Definition count (m : WhatsAppMessage.t) (mr : MessageResult) (res : RunResult) : RunResult :=
  {| r_status := r_status res;
     r_totalMessages := r_totalMessages res;
     r_processedMessages := r_processedMessages res + 1;
     r_successfulMessages :=
       if success mr then r_successfulMessages res + 1 else r_successfulMessages res;
     r_failedMessages :=
       if success mr || skipped mr then r_failedMessages res else r_failedMessages res + 1;
     r_skippedMessages :=
       if negb (success mr) && skipped mr
       then r_skippedMessages res + 1 else r_skippedMessages res;
     r_errors :=
       if success mr || skipped mr then r_errors res
       else r_errors res ++ [(WhatsAppMessage.id m, error mr)] |}.

(** The rest of the [try] block: the record is created and recorded, and the
    rate limiter is updated after a success. *)
Definition record_result (w : World) (tk : Tick) (m : WhatsAppMessage.t)
    (mr : MessageResult) (st : State) (res : RunResult)
  : (State * RunResult) * completion unit :=
  match ProgressRecord.create (uuid w) (clock st) (WhatsAppMessage.id m)
          (WhatsAppMessage.telegramId m)
          (if success mr then "sent" else "failed")
          (or_null (error mr)) (or_null (whatsappMessageId mr)) with
  | Throw e => record_failure w tk m e st res
  | Normal record =>
      let '(ledger, r) :=
        ProgressTracker.recordProgress (uuid w) (clock st) record
          (progressTracker st) (disk st) in
      let st1 := with_ledger st ledger (clock st + Z.of_N (record_lag tk)) in
      match r with
      | Throw e => record_failure w tk m e st1 res
      | Normal _ =>
          ((if success mr
            then {| runtimeState := RuntimeState.updateRateLimit (clock st1) (runtimeState st1);
                    progressTracker := progressTracker st1;
                    disk := disk st1;
                    clock := clock st1;
                    attempts := attempts st1 |}
            else st1, res), Normal tt)
      end
  end.

(** The body of the [for] loop of [_processMessages] for the message [m],
    below the test of the pause flag. *)
Definition iteration (shape : WhatsAppMessage.Shape) (w : World) (config : CLIConfig.t)
    (options : Options) (tk : Tick) (m : WhatsAppMessage.t) (st : State) (res : RunResult)
  : (State * RunResult * WhatsAppMessage.t) * completion unit :=
  let called := _waitForRateLimit config tk st in
  let '((m1, now1), r) := _processSingleMessage shape (checks w) tk options called m in
  let attempt b := {| at_ms := called; job := WhatsAppMessage.id m; delivered := b |} in
  let st1 b :=
    {| runtimeState := runtimeState st;
       progressTracker := progressTracker st;
       disk := disk st;
       clock := now1;
       attempts := attempts st ++ [attempt b] |} in
  match r with
  | Throw e =>
      let '((st2, res2), c) := record_failure w tk m1 e (st1 false) res in
      ((st2, res2, m1), c)
  | Normal mr =>
      let '((st2, res2), c) :=
        record_result w tk m1 mr (st1 (success mr)) (count m1 mr res) in
      ((st2, res2, m1), c)
  end.

(** The [for] loop of [_processMessages], from iteration [i] on. *)
Fixpoint loop (shape : WhatsAppMessage.Shape) (w : World) (config : CLIConfig.t)
    (options : Options) (i : nat)
    (messages : list WhatsAppMessage.t) (st : State) (res : RunResult)
  : (State * RunResult * list WhatsAppMessage.t) * completion unit :=
  match messages with
  | [] => ((st, res, []), Normal tt)
  | m :: rest =>
      if pause_seen (tick w i) then
        ((st, with_r_status "paused" res, m :: rest), Normal tt)
      else
        match iteration shape w config options (tick w i) m st res with
        | ((st1, res1, m1), Throw e) => ((st1, res1, m1 :: rest), Throw e)
        | ((st1, res1, m1), Normal _) =>
            let '((st2, res2, rest2), c) :=
              loop shape w config options (S i) rest st1 res1 in
            ((st2, res2, m1 :: rest2), c)
        end
  end.

(** [_processMessages(messages, options)] for messages of the given shape. *)
Definition _processMessages (shape : WhatsAppMessage.Shape) (w : World)
    (config : CLIConfig.t) (options : Options)
    (messages : list WhatsAppMessage.t) (st : State)
  : (State * list WhatsAppMessage.t) * completion RunResult :=
  let result :=
    {| r_status := "running";
       r_totalMessages := Z.of_nat (length messages);
       r_processedMessages := 0;
       r_successfulMessages := 0;
       r_failedMessages := 0;
       r_skippedMessages := 0;
       r_errors := [] |} in
  let '((st1, res1, messages1), c) := loop shape w config options 0 messages st result in
  ((st1, messages1),
   let! _ := c in
   Normal (if r_processedMessages res1 =? r_totalMessages res1
           then with_r_status (if r_failedMessages res1 =? 0
                               then "completed" else "completed_with_errors") res1
           else res1)).

(** The [else] branch of [_getMessagesToProcess]: every message is reset. *)
Definition reset (m : WhatsAppMessage.t) : WhatsAppMessage.t :=
  if negb (WhatsAppMessage.status m =s "pending")
  then WhatsAppMessage.with_sentAt None
         (WhatsAppMessage.with_errorMessage None
            (WhatsAppMessage.with_status "pending" m))
  else m.

(** [_getMessagesToProcess(plan, options)]: the plan as mutated, and the
    messages selected. *)
Definition _getMessagesToProcess (plan : ImportPlan.t) (options : Options)
  : ImportPlan.t * list WhatsAppMessage.t :=
  if resume options then (plan, ImportPlan.getUnprocessedMessages plan)
  else
    let plan1 := ImportPlan.with_messages (map reset (ImportPlan.messages plan)) plan in
    (plan1, ImportPlan.messages plan1).

(** [executeImport(plan, progressTracker, options)] for a plan whose
    messages have the given shape; [isConnected] is the field of the
    importer.  The messages returned are the selected ones as the loop left
    them. *)
Definition executeImport (shape : WhatsAppMessage.Shape) (w : World)
    (config : CLIConfig.t) (isConnected : bool)
    (options : Options) (plan : ImportPlan.t) (st : State)
  : (State * list WhatsAppMessage.t) * completion RunResult :=
  if negb isConnected && negb (dryRun options) then
    ((st, []), Throw "WhatsApp client not connected. Call connect() first.")
  else
    let '(_, messagesToProcess) := _getMessagesToProcess plan options in
    match messagesToProcess with
    | [] =>
        ((st, []),
         Normal {| r_status := "completed";
                   r_totalMessages := 0;
                   r_processedMessages := 0;
                   r_successfulMessages := 0;
                   r_failedMessages := 0;
                   r_skippedMessages := 0;
                   r_errors := [] |})
    | _ =>
        match _processMessages shape w config options messagesToProcess st with
        | ((st1, ms), Normal result) => ((st1, ms), Normal result)
        | ((st1, ms), Throw e) =>
            let '(ledger, r) :=
              ProgressTracker.updateProgress (clock st1) "failed"
                (progressTracker st1) (disk st1) in
            ((with_ledger st1 ledger (clock st1), ms),
             let! _ := r in Throw e)
        end
    end.

(** The event emitter of the importer.  [eventListeners] is a [Map] from
    event names to arrays of listeners; a listener is a function, known here
    by its identity. *)
Definition Listener : Type := nat.

(** [_setupEventHandlers()]. *)
Definition _setupEventHandlers : gmap string (list Listener) :=
  <["error" := []]> (<["stopped" := []]> (<["resumed" := []]> (<["paused" := []]>
    (<["disconnected" := []]> (<["connected" := []]> (<["progress" := []]> ∅)))))).

(** [on(event, listener)]. *)
Definition on (event : string) (listener : Listener) (ls : gmap string (list Listener))
  : gmap string (list Listener) :=
  match ls !! event with
  | Some registered => <[event := (registered ++ [listener])%list]> ls
  | None => ls
  end.

(** [listeners.splice(listeners.indexOf(listener), 1)] when the index is
    found: the first occurrence is removed. *)
Fixpoint remove_first (listener : Listener) (registered : list Listener) : list Listener :=
  match registered with
  | [] => []
  | l :: rest => if Nat.eqb l listener then rest else l :: remove_first listener rest
  end.

(** [off(event, listener)]. *)
Definition off (event : string) (listener : Listener) (ls : gmap string (list Listener))
  : gmap string (list Listener) :=
  match ls !! event with
  | Some registered => <[event := remove_first listener registered]> ls
  | None => ls
  end.

(** [_emit(event, ...args)]: the listeners that are called, in order.  An
    error thrown by a listener is logged and the next listener is called. *)
Definition _emit (event : string) (ls : gmap string (list Listener)) : list Listener :=
  default [] (ls !! event).

End WhatsAppImporter.

(** ** src/cli/commands/ExecuteCommand.js *)

Module ExecuteCommand.

(** The options that the command line passes to [execute]: [--dry-run],
    [--resume], [--target-chat] and [--sleep] (the text '3-10' when the
    option is not given); an option that is absent is the empty string.  The
    options [--format], [--log-level] and [--debug] only change what is
    printed. *)
Record Options : Type := {
  dryRun : bool;
  resume : bool;
  targetChat : string;
  sleep : string
}.

(** What the methods of the command throw: an [ExecuteCommandError] with its
    exit code, or any other error. *)
Inductive Thrown : Type :=
| ExecuteCommandError (message : string) (code : Z)
| Error (message : string).

(** How [execute] ends: it returns the result of the importer, or
    [_handleError] exits the process with a code. *)
Inductive Exit : Type :=
| Success (result : WhatsAppImporter.RunResult)
| Failure (code : Z) (message : string).

(** [_handleError(error, options)]: the code of an [ExecuteCommandError],
    and 99 for any other error. *)
Definition _handleError (error : Thrown) : Exit :=
  match error with
  | ExecuteCommandError message code => Failure code message
  | Error message => Failure 99 message
  end.

(** What the file system holds at the path given to the command.  The file
    import-plan.json is there or not when the folder is checked; when it is
    read, it is gone ([ENOENT]), or [fs.readFile] fails otherwise, with a
    message, or [JSON.parse] fails with the message of its [SyntaxError], or
    the content is parsed, and the compiled ajv schema of [ImportPlan]
    reports [schema_errors] on it. *)
Inductive PlanFile : Type :=
| Gone
| Unreadable (message : string)
| Malformed (message : string)
| Parsed (data : ImportPlan.Data) (schema_errors : option string).

Inductive Folder : Type :=
| Missing
| NotADirectory
| Directory (plan_file : option PlanFile).

(** [_validateAndResolvePaths(planPath)]: the file import-plan.json of the
    folder. *)
Definition _validateAndResolvePaths (folder : Folder) : PlanFile + Thrown :=
  match folder with
  | Missing => inr (ExecuteCommandError "Import plan folder not found" 10)
  | NotADirectory => inr (ExecuteCommandError "Import plan path must be a directory" 10)
  | Directory None => inr (ExecuteCommandError "import-plan.json not found in folder" 10)
  | Directory (Some file) => inl file
  end.

(** [_updateConfigFromOptions(options)]: the configuration of the command
    afterwards.  The command line has no option [maxRetries]. *)
Definition _updateConfigFromOptions (options : Options) (config : CLIConfig.t)
  : CLIConfig.t + Thrown :=
  if sleep options =s EmptyString then inl config
  else
    match CLIConfig.parseSleepRange (sleep options) with
    | Throw e => inr (ExecuteCommandError ("Invalid sleep range format: " +:+ e) 16)
    | Normal sleepRange =>
        match CLIConfig.merge
                {| CLIConfig.d_sleepRange := Some sleepRange;
                   CLIConfig.d_whatsappTimeout := None;
                   CLIConfig.d_maxRetries := None;
                   CLIConfig.d_maxFileSize := None;
                   CLIConfig.d_supportedMediaTypes := None;
                   CLIConfig.d_logLevel := None;
                   CLIConfig.d_outputFormat := None |} config with
        | Throw e => inr (Error e)
        | Normal merged => inl merged
        end
    end.

(** [_isValidWhatsAppId(chatId)], the pattern [/^[\w.-]+@(c|g)\.us$/]. *)
Definition _isValidWhatsAppId (chatId : string) : bool :=
  match split_at at_sign (list_ascii_of_string chatId) with
  | Some (a :: name, server) =>
      forallb (fun x => is_alnum x || Ascii.eqb x underscore
                        || Ascii.eqb x dot || Ascii.eqb x hyphen) (a :: name)
      && ((string_of_list_ascii server =s "c.us") || (string_of_list_ascii server =s "g.us"))
  | _ => false
  end.

(** [_validateRequiredOptions(options)]. *)
Definition _validateRequiredOptions (options : Options) : unit + Thrown :=
  if targetChat options =s EmptyString
  then inr (ExecuteCommandError "Target chat ID is required (--target-chat)" 16)
  else if negb (_isValidWhatsAppId (targetChat options))
  then inr (ExecuteCommandError "Invalid target chat ID format" 16)
  else if sleep options =s EmptyString then inl tt
  else
    match CLIConfig.parseSleepRange (sleep options) with
    | Throw e => inr (ExecuteCommandError ("Invalid sleep range format: " +:+ e) 16)
    | Normal _ => inl tt
    end.

(** [FileUtils.readJSON(filePath)]. *)
Definition readJSON (absolutePath : string) (file : PlanFile)
  : completion (ImportPlan.Data * option string) :=
  match file with
  | Gone => Throw ("File not found: " +:+ absolutePath)
  | Unreadable message =>
      Throw ("Failed to read JSON file: " +:+ absolutePath +:+ " - " +:+ message)
  | Malformed message =>
      Throw ("Invalid JSON in file: " +:+ absolutePath +:+ " - " +:+ message)
  | Parsed data schema_errors => Normal (data, schema_errors)
  end.

(** [_loadImportPlan(planPath)]: the plan, or an error whose code follows
    from the text of the message caught. *)
Definition _loadImportPlan (planPath : string) (file : PlanFile) : ImportPlan.t + Thrown :=
  match (let! read := readJSON planPath file in
         let! _ := ImportPlan.validate (snd read) (fst read) in
         ImportPlan.fromData (snd read) (fst read)) with
  | Normal plan => inl plan
  | Throw e =>
      if str_includes "not found" e
      then inr (ExecuteCommandError "Import plan file not found" 10)
      else if str_includes "validation failed" e
      then inr (ExecuteCommandError "Invalid import plan format" 11)
      else inr (ExecuteCommandError ("Failed to load import plan: " +:+ e) 11)
  end.

(** The body of the [for] loop of [_syncPlanWithProgress] for one message
    of the given shape. *)
Definition sync_message (shape : WhatsAppMessage.Shape) (c : WhatsAppMessage.Checks)
    (now : Z) (tracker : ProgressTracker.t) (m : WhatsAppMessage.t)
  : WhatsAppMessage.t * completion unit :=
  if ProgressTracker.isMessageSuccessful tracker (WhatsAppMessage.id m) then
    match WhatsAppMessage.call shape "markAsProcessing"
            (WhatsAppMessage.markAsProcessing c now) m with
    | (m1, Throw e) => (m1, Throw e)
    | (m1, Normal _) =>
        let '(m2, r) :=
          WhatsAppMessage.call shape "markAsSent" (WhatsAppMessage.markAsSent c now) m1 in
        (m2, let! _ := r in Normal tt)
    end
  else if ProgressTracker.isMessageFailed tracker (WhatsAppMessage.id m) then
    match WhatsAppMessage.call shape "markAsProcessing"
            (WhatsAppMessage.markAsProcessing c now) m with
    | (m1, Throw e) => (m1, Throw e)
    | (m1, Normal _) =>
        let '(m2, r) :=
          WhatsAppMessage.call shape "markAsFailed"
            (WhatsAppMessage.markAsFailed c now (Some "Previous attempt failed")) m1 in
        (m2, let! _ := r in Normal tt)
    end
  else (m, Normal tt).

(** [_syncPlanWithProgress(plan)]: the messages of the plan, of the given
    shape, as mutated. *)
Fixpoint _syncPlanWithProgress (shape : WhatsAppMessage.Shape)
    (c : WhatsAppMessage.Checks) (now : Z)
    (tracker : ProgressTracker.t) (messages : list WhatsAppMessage.t)
  : list WhatsAppMessage.t * completion unit :=
  match messages with
  | [] => ([], Normal tt)
  | m :: rest =>
      match sync_message shape c now tracker m with
      | (m1, Throw e) => (m1 :: rest, Throw e)
      | (m1, Normal _) =>
          let '(rest1, r) := _syncPlanWithProgress shape c now tracker rest in
          (m1 :: rest1, r)
      end
  end.

(** [_initializeProgressTracking(outputPath, planPath, plan, options)]: the
    tracker, the ledger files and the plan as synchronised; every error is
    turned into an [ExecuteCommandError] with code 12. *)
Definition _initializeProgressTracking (w : World) (now : Z) (planPath : string)
    (plan : ImportPlan.t) (dk : ProgressTracker.Disk)
  : (ProgressTracker.t * ProgressTracker.Disk * ImportPlan.t) * completion unit :=
  let fail e := Throw ("Failed to initialize progress tracking: " +:+ e) in
  match ProgressTracker.progress_json dk with
  | Some _ =>
      match ProgressTracker.load (uuid w) now planPath dk with
      | ((tr, dk1), Throw e) => ((tr, dk1, plan), fail e)
      | ((tr, dk1), Normal _) =>
          let '(messages, r) :=
            _syncPlanWithProgress WhatsAppMessage.Plain (checks w) now tr
              (ImportPlan.messages plan) in
          ((tr, dk1, ImportPlan.with_messages messages plan),
           match r with
           | Throw e => fail e
           | Normal _ => Normal tt
           end)
      end
  | None =>
      match ProgressTracker.create (uuid w) now planPath
              (ImportPlan.getMessageCount plan) dk with
      | ((tr, dk1), Throw e) => ((tr, dk1, plan), fail e)
      | ((tr, dk1), Normal _) => ((tr, dk1, plan), Normal tt)
      end
  end.

(** [_executeImport(plan, options)]; an error of the importer becomes an
    [ExecuteCommandError] with code 14. *)
Definition _executeImport (w : World) (config : CLIConfig.t) (isConnected : bool)
    (options : Options) (plan : ImportPlan.t) (st : WhatsAppImporter.State)
  : (WhatsAppImporter.State * list WhatsAppMessage.t)
    * completion WhatsAppImporter.RunResult :=
  let shouldResume :=
    resume options
    || match ProgressTracker.progressSummary (WhatsAppImporter.progressTracker st) with
       | Some s => 0 <? ProgressSummary.processedMessages s
       | None => false
       end in
  let importOptions :=
    {| WhatsAppImporter.dryRun := dryRun options;
       WhatsAppImporter.resume := shouldResume |} in
  let plan1 :=
    ImportPlan.with_messages
      (map (WhatsAppMessage.with_chatId (targetChat options)) (ImportPlan.messages plan))
      plan in
  let '(out, r) :=
    WhatsAppImporter.executeImport WhatsAppMessage.Plain w config isConnected
      importOptions plan1 st in
  (out, rethrow "Import execution failed: " r).

(** The state of a fresh process started at time [now] over the ledger files
    [dk]: a new [RuntimeState], no attempt made. *)
Definition boot (now : Z) (tr : ProgressTracker.t) (dk : ProgressTracker.Disk)
  : WhatsAppImporter.State :=
  {| WhatsAppImporter.runtimeState := RuntimeState.new;
     WhatsAppImporter.progressTracker := tr;
     WhatsAppImporter.disk := dk;
     WhatsAppImporter.clock := now;
     WhatsAppImporter.attempts := [] |}.

(** [_connectToWhatsApp(options)]: [connect()] of the new importer wraps the
    error of the client, and the command wraps it again. *)
Definition _connectToWhatsApp (w : World) : unit + Thrown :=
  if connects w then inl tt
  else inr (ExecuteCommandError
              ("WhatsApp connection failed: "
               +:+ ("Failed to connect to WhatsApp: " +:+ connect_error w)) 13).

(** The steps of [execute] once the configuration is set and the plan is
    loaded: progress tracking, the new importer and its connection, the
    import, and the test of the result. *)
Definition execute_loaded (w : World) (config : CLIConfig.t) (now : Z) (planPath : string)
    (options : Options) (plan : ImportPlan.t) (dk : ProgressTracker.Disk)
  : WhatsAppImporter.State * Exit :=
  match _initializeProgressTracking w now planPath plan dk with
  | ((tr, dk1, _), Throw e) => (boot now tr dk1, Failure 12 e)
  | ((tr, dk1, plan1), Normal _) =>
      match (if dryRun options then inl tt else _connectToWhatsApp w) with
      | inr error => (boot now tr dk1, _handleError error)
      | inl _ =>
          match _executeImport w config (negb (dryRun options)) options plan1
                  (boot now tr dk1) with
          | ((st, _), Throw e) => (st, Failure 14 e)
          | ((st, _), Normal result) =>
              if WhatsAppImporter.r_status result =s "failed" then
                (st, Failure 15 ("Import failed: "
                                 +:+ match WhatsAppImporter.r_errors result with
                                     | (_, Some e) :: _ =>
                                         if e =s EmptyString then "Unknown error" else e
                                     | _ => "Unknown error"
                                     end))
              else (st, Success result)
          end
      end
  end.

(** [execute(importPlanPath, options)] in a process started at time [now]:
    [planPath] is the path of import-plan.json in the resolved folder,
    [folder] what the file system holds there and [dk] the ledger files of
    the folder.  The result is the final state of the process and how the
    command ends; until the tracker is created the state holds a tracker
    that is not initialised. *)
Definition execute (w : World) (now : Z) (planPath : string) (options : Options)
    (folder : Folder) (dk : ProgressTracker.Disk)
  : WhatsAppImporter.State * Exit :=
  let stop error := (boot now (ProgressTracker.new planPath) dk, _handleError error) in
  match _validateAndResolvePaths folder with
  | inr error => stop error
  | inl file =>
      match _updateConfigFromOptions options CLIConfig.createDefault with
      | inr error => stop error
      | inl config =>
          match _validateRequiredOptions options with
          | inr error => stop error
          | inl _ =>
              match _loadImportPlan planPath file with
              | inr error => stop error
              | inl plan => execute_loaded w config now planPath options plan dk
              end
          end
      end
  end.

(** The log of the ledger after a run, and the jobs it attempted, in order. *)
Definition log_after (out : WhatsAppImporter.State * Exit) : list ProgressRecord.Data :=
  ProgressTracker.progress_jsonl (WhatsAppImporter.disk (fst out)).

Definition attempted (out : WhatsAppImporter.State * Exit) : list string :=
  map WhatsAppImporter.job (WhatsAppImporter.attempts (fst out)).

End ExecuteCommand.

(** ** Notions used to state the properties *)

(** A sequence of [recordProgress] calls, each with the time at which it is
    made; a call that throws leaves the ledger as the call left it. *)
Fixpoint record_all (uuid : string -> bool)
    (calls : list (Z * ProgressRecord.t))
    (tr : ProgressTracker.t) (dk : ProgressTracker.Disk)
  : ProgressTracker.t * ProgressTracker.Disk :=
  match calls with
  | [] => (tr, dk)
  | (now, record) :: rest =>
      let '((tr1, dk1), _) := ProgressTracker.recordProgress uuid now record tr dk in
      record_all uuid rest tr1 dk1
  end.

(** The latest entry of the log for a job: the last line with its id. *)
Definition latest_entry (log : list ProgressRecord.Data) (messageId : string)
  : option ProgressRecord.Data :=
  last (List.filter (fun d => ProgressRecord.d_messageId d =s messageId) log).

(** The lines of the log with status 'sent'. *)
Definition sent_entries (log : list ProgressRecord.Data) : list ProgressRecord.Data :=
  List.filter (fun d => ProgressRecord.d_status d =s "sent") log.

(** The summary invariant of the data model. *)
Definition reconciled (s : ProgressSummary.t) : Prop :=
  ProgressSummary.processedMessages s
  = ProgressSummary.successfulMessages s + ProgressSummary.failedMessages s.

(** What [ProgressSummary.validate] asks of a summary, the bound of the
    processed count by the total left aside: a summary that is 'completed'
    has processed at least the total. *)
Definition sound_but_for_the_count (s : ProgressSummary.t) : Prop :=
  0 <= ProgressSummary.successfulMessages s
  /\ 0 <= ProgressSummary.failedMessages s
  /\ reconciled s
  /\ 0 <= ProgressSummary.currentPosition s <= ProgressSummary.totalMessages s
  /\ ProgressSummary.startedAt s <= ProgressSummary.lastUpdated s
  /\ In (ProgressSummary.status s) ["running"; "completed"; "failed"; "paused"]
  /\ (ProgressSummary.status s = "completed" ->
      ProgressSummary.currentPosition s = ProgressSummary.totalMessages s
      /\ ProgressSummary.totalMessages s <= ProgressSummary.processedMessages s).

(** The attempts a run added to those of the state it started from. *)
Definition new_attempts (before after : WhatsAppImporter.State)
  : list WhatsAppImporter.Attempt :=
  drop (length (WhatsAppImporter.attempts before)) (WhatsAppImporter.attempts after).

(** The lines a run appended to the log. *)
Definition new_entries (before after : WhatsAppImporter.State)
  : list ProgressRecord.Data :=
  drop (length (ProgressTracker.progress_jsonl (WhatsAppImporter.disk before)))
       (ProgressTracker.progress_jsonl (WhatsAppImporter.disk after)).

(** The log and the summary of the ledger in a state of the run. *)
Definition log_of (st : WhatsAppImporter.State) : list ProgressRecord.Data :=
  ProgressTracker.progress_jsonl (WhatsAppImporter.disk st).

Definition summary_of (st : WhatsAppImporter.State) : option ProgressSummary.t :=
  ProgressTracker.progressSummary (WhatsAppImporter.progressTracker st).

(** The state in which [ExecuteCommand] hands the ledger to the importer:
    the tracker is initialised, so it has a summary, and the clock shows a
    time after the epoch. *)
Definition ready (st : WhatsAppImporter.State) : Prop :=
  ProgressTracker.isInitialized (WhatsAppImporter.progressTracker st) = true
  /\ is_Some (summary_of st)
  /\ 0 <= WhatsAppImporter.clock st.

(** Whether a call of [_processSingleMessage] reported success. *)
Definition reported (r : completion WhatsAppImporter.MessageResult) : bool :=
  match r with
  | Normal mr => WhatsAppImporter.success mr
  | Throw _ => false
  end.

(** The object literal [recordData] of [ProgressRecord.create]. *)
Definition created_data (now : Z) (messageId : string) (telegramId : Z)
    (status : string) (errorMessage sentMessageId : option string)
  : ProgressRecord.Data :=
  {| ProgressRecord.d_messageId := messageId;
     ProgressRecord.d_telegramId := telegramId;
     ProgressRecord.d_status := status;
     ProgressRecord.d_timestamp := now;
     ProgressRecord.d_errorMessage := errorMessage;
     ProgressRecord.d_retryCount := Some (if status =s "failed" then 1 else 0);
     ProgressRecord.d_sentMessageId := sentMessageId |}.

(** The ledger after a [recordProgress] that returned. *)
Definition recorded (now : Z) (record : ProgressRecord.t) (s : ProgressSummary.t)
    (tr : ProgressTracker.t) (dk : ProgressTracker.Disk)
  : ProgressTracker.t * ProgressTracker.Disk :=
  let s' := ProgressSummary.updateFromRecord now record s in
  ({| ProgressTracker.planPath := ProgressTracker.planPath tr;
      ProgressTracker.progressSummary := Some s';
      ProgressTracker.progressRecords :=
        <[ProgressRecord.messageId record := record]> (ProgressTracker.progressRecords tr);
      ProgressTracker.isInitialized := ProgressTracker.isInitialized tr |},
   {| ProgressTracker.progress_json := Some s';
      ProgressTracker.progress_jsonl :=
        ProgressTracker.progress_jsonl dk ++ [ProgressRecord.toJSON record] |}).

(** A line written for the job [id] by the executor: its status is 'sent' or
    'failed' and its retry count is the constant of [ProgressRecord.create]. *)
Definition shaped (id : string) (d : ProgressRecord.Data) : Prop :=
  ProgressRecord.d_messageId d = id
  /\ (ProgressRecord.d_status d = "sent" \/ ProgressRecord.d_status d = "failed")
  /\ ProgressRecord.d_retryCount d
     = Some (if ProgressRecord.d_status d =s "failed" then 1 else 0).

(** The attempt [a] and the line [d] that one iteration of the loop produced
    for the message [m] under the tick [tk]. *)
Definition attempt_entry (shape : WhatsAppMessage.Shape) (w : World)
    (options : WhatsAppImporter.Options) (tk : Tick)
    (m : WhatsAppMessage.t) (a : WhatsAppImporter.Attempt) (d : ProgressRecord.Data) : Prop :=
  WhatsAppImporter.job a = WhatsAppMessage.id m
  /\ ProgressRecord.d_messageId d = WhatsAppMessage.id m
  /\ ProgressRecord.d_status d = (if WhatsAppImporter.delivered a then "sent" else "failed")
  /\ ProgressRecord.d_retryCount d = Some (if WhatsAppImporter.delivered a then 0 else 1)
  /\ WhatsAppImporter.delivered a
     = reported (snd (WhatsAppImporter._processSingleMessage shape (checks w) tk options
                        (WhatsAppImporter.at_ms a) m)).

Definition successes (l : list WhatsAppImporter.Attempt) : Z :=
  Z.of_nat (length (List.filter WhatsAppImporter.delivered l)).

Definition failures (l : list WhatsAppImporter.Attempt) : Z :=
  Z.of_nat (length (List.filter (fun a => negb (WhatsAppImporter.delivered a)) l)).

(** What [_syncPlanWithProgress] leaves of a message [m] of the plan when it
    returns: the message [m'] has the id of [m], is 'sent' when the tracker
    holds a 'sent' record for it, 'failed' when it holds a 'failed' one, and
    is untouched otherwise. *)
Definition synced (tr : ProgressTracker.t) (m m' : WhatsAppMessage.t) : Prop :=
  WhatsAppMessage.id m' = WhatsAppMessage.id m
  /\ if ProgressTracker.isMessageSuccessful tr (WhatsAppMessage.id m)
     then WhatsAppMessage.status m' = "sent"
     else if ProgressTracker.isMessageFailed tr (WhatsAppMessage.id m)
          then WhatsAppMessage.status m' = "failed"
          else m' = m.

(** The configuration of the command once the options are read: the default
    one with the sleep range of the options. *)
Definition configured (min max : Z) : CLIConfig.t :=
  {| CLIConfig.sleepRange_min := min;
     CLIConfig.sleepRange_max := max;
     CLIConfig.whatsappTimeout := CLIConfig.whatsappTimeout CLIConfig.createDefault;
     CLIConfig.maxRetries := CLIConfig.maxRetries CLIConfig.createDefault;
     CLIConfig.maxFileSize := CLIConfig.maxFileSize CLIConfig.createDefault;
     CLIConfig.supportedMediaTypes := CLIConfig.supportedMediaTypes CLIConfig.createDefault;
     CLIConfig.logLevel := CLIConfig.logLevel CLIConfig.createDefault;
     CLIConfig.outputFormat := CLIConfig.outputFormat CLIConfig.createDefault |}.

(** The message has one of the five types the channel can send. *)
Definition known_type (m : WhatsAppMessage.t) : Prop :=
  WhatsAppMessage.includes ["text"; "image"; "video"; "audio"; "document"]
    (WhatsAppMessage.type m) = true.

(** A message as the plan generator writes it, seen at the time [now]:
    pending, not sent, dated in the past, of one of the five types. *)
Definition deliverable (now : Z) (m : WhatsAppMessage.t) : Prop :=
  WhatsAppMessage.status m = "pending"
  /\ WhatsAppMessage.sentAt m = None
  /\ WhatsAppMessage.timestamp m <= now
  /\ known_type m.

(** Validators that accept every message, and media files that exist. *)
Definition lenient (c : WhatsAppMessage.Checks) : Prop :=
  (forall m, WhatsAppMessage.schema_errors c m = None)
  /\ (forall p, WhatsAppMessage.existsSync c p = true).

(** How the loop handles the message [m] when its send is answered by the
    outcome of the tick [tk]: [m'] is the message afterwards, [a] the attempt
    and [d] the line appended to the log.  A send that is delivered leaves the
    message and the line 'sent'; a send that raises leaves them 'failed', with
    the message of the error. *)
Definition handled (tk : Tick) (m m' : WhatsAppMessage.t)
    (a : WhatsAppImporter.Attempt) (d : ProgressRecord.Data) : Prop :=
  WhatsAppMessage.id m' = WhatsAppMessage.id m
  /\ WhatsAppImporter.job a = WhatsAppMessage.id m
  /\ ProgressRecord.d_messageId d = WhatsAppMessage.id m
  /\ match outcome tk with
     | Delivered _ =>
         WhatsAppImporter.delivered a = true
         /\ WhatsAppMessage.status m' = "sent"
         /\ ProgressRecord.d_status d = "sent"
     | Raised _ e =>
         WhatsAppImporter.delivered a = false
         /\ WhatsAppMessage.status m' = "failed"
         /\ WhatsAppMessage.errorMessage m' = Some e
         /\ ProgressRecord.d_status d = "failed"
         /\ ProgressRecord.d_errorMessage d = Some e
     end.

(** A dry run in which nothing goes wrong: the process starts after the
    epoch, the options are accepted, the content of import-plan.json passes
    the business rules of the plan, its messages are pending and have a
    well-formed id, as the plan generator writes them, and nobody pauses. *)
Definition clean_rehearsal (w : World) (now : Z) (options : ExecuteCommand.Options)
    (data : ImportPlan.Data) : Prop :=
  0 <= now
  /\ ExecuteCommand.dryRun options = true
  /\ ExecuteCommand._validateRequiredOptions options = inl tt
  /\ ImportPlan._validateBusinessRules data = Normal tt
  /\ (forall m, In m (ImportPlan.d_messages data) ->
      WhatsAppMessage.status m = "pending" /\ uuid w (WhatsAppMessage.id m) = true)
  /\ (forall k, pause_seen (tick w k) = false).

(** The folder that holds import-plan.json with the content [data], accepted
    by the schema. *)
Definition folder_with (data : ImportPlan.Data) : ExecuteCommand.Folder :=
  ExecuteCommand.Directory (Some (ExecuteCommand.Parsed data None)).

(** A record after a sequence of failed retries: each is an [updateStatus]
    to 'failed', made at a time with an error message. *)
Fixpoint fail_again (retries : list (Z * string)) (r : ProgressRecord.t) : ProgressRecord.t :=
  match retries with
  | [] => r
  | (now, e) :: rest =>
      fail_again rest (fst (ProgressRecord.updateStatus now "failed" (Some e) None r))
  end.

(** The rate limiter after the successful sends made at the times [sent]. *)
Definition after_sends (sent : list Z) (rs : RuntimeState.t) : RuntimeState.t :=
  fold_left (fun limiter now => RuntimeState.updateRateLimit now limiter) sent rs.

(** A call of [on] or [off] of the importer. *)
Inductive Registration : Type :=
| On (event : string) (listener : WhatsAppImporter.Listener)
| Off (event : string) (listener : WhatsAppImporter.Listener).

(** The listeners of a new importer after a sequence of such calls. *)
Fixpoint registered (calls : list Registration)
    (ls : gmap string (list WhatsAppImporter.Listener))
  : gmap string (list WhatsAppImporter.Listener) :=
  match calls with
  | [] => ls
  | On event listener :: rest => registered rest (WhatsAppImporter.on event listener ls)
  | Off event listener :: rest => registered rest (WhatsAppImporter.off event listener ls)
  end.

(** ** Sample data *)

Definition accepting : WhatsAppMessage.Checks :=
  {| WhatsAppMessage.schema_errors := fun _ => None;
     WhatsAppMessage.existsSync := fun _ => true |}.

Definition quiet (o : SendOutcome) : Tick :=
  {| pause_seen := false;
     random := (1%N, 1%N);
     wait_lag := 2%N;
     delay_lag := 3%N;
     outcome := o;
     send_lag := 40%N;
     record_lag := 5%N |}.

(** A world in which every send is delivered. *)
Definition calm : World :=
  {| checks := accepting;
     uuid := fun _ => true;
     connects := true;
     connect_error := EmptyString;
     tick := fun _ => quiet (Delivered "true_491234@c.us_3EB0") |}.

(** A world in which the first send fails because the session is gone. *)
Definition disconnected_once : World :=
  {| checks := accepting;
     uuid := fun _ => true;
     connects := true;
     connect_error := EmptyString;
     tick := fun i =>
       match i with
       | O => quiet (Raised ConnectionScoped "Session closed. Most likely the page has been closed.")
       | _ => quiet (Delivered "true_491234@c.us_3EB1")
       end |}.

Definition text_message (id : string) (telegramId : Z) : WhatsAppMessage.t :=
  {| WhatsAppMessage.id := id;
     WhatsAppMessage.telegramId := telegramId;
     WhatsAppMessage.type := "text";
     WhatsAppMessage.content := "hello";
     WhatsAppMessage.mediaPath := None;
     WhatsAppMessage.mediaType := None;
     WhatsAppMessage.timestamp := 1735732800000 + telegramId * 1000;
     WhatsAppMessage.sender := "Test User";
     WhatsAppMessage.chatId := "test@c.us";
     WhatsAppMessage.quotedMessage := None;
     WhatsAppMessage.status := "pending";
     WhatsAppMessage.errorMessage := None;
     WhatsAppMessage.sentAt := None |}.

Definition job_id (n : nat) : string :=
  "00000000-0000-4000-8000-" +:+ show (100000000000 + Z.of_nat n).

(** A plan of [n] pending text messages, numbered from 1. *)
Definition plan_of (n : nat) : ImportPlan.t :=
  {| ImportPlan.version := "1.0.0";
     ImportPlan.messages :=
       map (fun i => text_message (job_id i) (Z.of_nat i)) (seq 1 n);
     ImportPlan.skippedMessages := [] |}.

(** The content of import-plan.json for that plan, and a folder that holds
    the file, accepted by the schema. *)
Definition plan_data (n : nat) : ImportPlan.Data :=
  {| ImportPlan.d_version := "1.0.0";
     ImportPlan.d_metadata :=
       {| ImportPlan.m_totalMessages := Z.of_nat n;
          ImportPlan.m_supportedMessages := Z.of_nat n;
          ImportPlan.m_skippedMessages := 0 |};
     ImportPlan.d_messages :=
       map (fun i => text_message (job_id i) (Z.of_nat i)) (seq 1 n);
     ImportPlan.d_skippedMessages := Some [];
     ImportPlan.d_statistics :=
       {| ImportPlan.s_messageTypes := match n with O => [] | _ => [("text", Z.of_nat n)] end;
          ImportPlan.s_mediaTypes := [] |} |}.

Definition folder_of (n : nat) : ExecuteCommand.Folder := folder_with (plan_data n).

Definition no_ledger : ProgressTracker.Disk :=
  {| ProgressTracker.progress_json := None;
     ProgressTracker.progress_jsonl := [] |}.

Definition entry (n : nat) (status : string) (error sentId : option string) (retry : Z)
  : ProgressRecord.Data :=
  {| ProgressRecord.d_messageId := job_id n;
     ProgressRecord.d_telegramId := Z.of_nat n;
     ProgressRecord.d_status := status;
     ProgressRecord.d_timestamp := 1735732800000 + Z.of_nat n * 60000;
     ProgressRecord.d_errorMessage := error;
     ProgressRecord.d_retryCount := Some retry;
     ProgressRecord.d_sentMessageId := sentId |}.

(** The ledger of the resume scenario: five jobs, the first two sent, the
    third failed. *)
Definition interrupted_ledger : ProgressTracker.Disk :=
  {| ProgressTracker.progress_json :=
       Some {| ProgressSummary.planPath := "/out/import-plan.json";
               ProgressSummary.startedAt := 1735732800000;
               ProgressSummary.lastUpdated := 1735732980000;
               ProgressSummary.totalMessages := 5;
               ProgressSummary.processedMessages := 3;
               ProgressSummary.successfulMessages := 2;
               ProgressSummary.failedMessages := 1;
               ProgressSummary.currentPosition := 3;
               ProgressSummary.status := "paused" |};
     ProgressTracker.progress_jsonl :=
       [entry 1 "sent" None (Some "whatsapp_msg_1") 0;
        entry 2 "sent" None (Some "whatsapp_msg_2") 0;
        entry 3 "failed" (Some "Rate limit exceeded") None 1] |}.


Definition live (resume : bool) : ExecuteCommand.Options :=
  {| ExecuteCommand.dryRun := false;
     ExecuteCommand.resume := resume;
     ExecuteCommand.targetChat := "491234@c.us";
     ExecuteCommand.sleep := "3-10" |}.

Definition started : Z := 1735740000000.

(** The state in which the importer receives a new ledger for two jobs. *)
Definition handed_over : WhatsAppImporter.State :=
  let ledger :=
    fst (ProgressTracker.create (fun _ => true) started "/out/import-plan.json" 2 no_ledger) in
  ExecuteCommand.boot started (fst ledger) (snd ledger).

(** The same for a new ledger of [n] jobs. *)
Definition handed_over_for (n : nat) : WhatsAppImporter.State :=
  let ledger :=
    fst (ProgressTracker.create (fun _ => true) started "/out/import-plan.json"
           (Z.of_nat n) no_ledger) in
  ExecuteCommand.boot started (fst ledger) (snd ledger).

Definition sending : WhatsAppImporter.Options :=
  {| WhatsAppImporter.dryRun := false; WhatsAppImporter.resume := false |}.

(** A summary on which nothing has been recorded, and one of an empty plan. *)
Definition untouched_summary (total : Z) : ProgressSummary.t :=
  {| ProgressSummary.planPath := "/out/import-plan.json";
     ProgressSummary.startedAt := started;
     ProgressSummary.lastUpdated := started;
     ProgressSummary.totalMessages := total;
     ProgressSummary.processedMessages := 0;
     ProgressSummary.successfulMessages := 0;
     ProgressSummary.failedMessages := 0;
     ProgressSummary.currentPosition := 0;
     ProgressSummary.status := "running" |}.

(** The options of a dry run. *)
Definition rehearsal : ExecuteCommand.Options :=
  {| ExecuteCommand.dryRun := true;
     ExecuteCommand.resume := false;
     ExecuteCommand.targetChat := "491234@c.us";
     ExecuteCommand.sleep := "3-10" |}.


(** A world without WhatsApp: the client does not connect and every send
    would fail. *)
Definition unreachable : World :=
  {| checks := accepting;
     uuid := fun _ => true;
     connects := false;
     connect_error := "auth timeout";
     tick := fun _ => quiet (Raised ConnectionScoped "Session closed.") |}.

(** A world whose validator refuses the id 'job-2', and a plan that has a
    message with that id between two well-formed ones. *)
Definition picky : World :=
  {| checks := accepting;
     uuid := fun id => negb (id =s "job-2");
     connects := true;
     connect_error := EmptyString;
     tick := fun _ => quiet (Delivered "true_491234@c.us_3EB0") |}.

Definition plan_with_bad_id : ImportPlan.t :=
  {| ImportPlan.version := "1.0.0";
     ImportPlan.messages :=
       [text_message (job_id 1) 1; text_message "job-2" 2; text_message (job_id 3) 3];
     ImportPlan.skippedMessages := [] |}.

(** ** Theorems *)

(** C7. Terminal-state immutability: when the status of a message is 'sent'
    or 'skipped', [updateStatus] to any status whatever, with any error
    message, throws the invalid-transition error and returns the message
    unchanged; so do [markAsProcessing], [markAsSent], [markAsFailed] and
    [markAsSkipped]. *)
Theorem terminal_state_immutability (c : WhatsAppMessage.Checks) (now : Z)
    (m : WhatsAppMessage.t) (newStatus : string) (error : option string) :
  WhatsAppMessage.status m = "sent" \/ WhatsAppMessage.status m = "skipped" ->
  WhatsAppMessage.updateStatus c now newStatus error m
  = (m, Throw ("Invalid status transition from '" +:+ WhatsAppMessage.status m
               +:+ "' to '" +:+ newStatus +:+ "'. Valid transitions: "))
  /\ WhatsAppMessage.markAsProcessing c now m
     = (m, Throw ("Invalid status transition from '" +:+ WhatsAppMessage.status m
                  +:+ "' to 'processing'. Valid transitions: "))
  /\ WhatsAppMessage.markAsSent c now m
     = (m, Throw ("Invalid status transition from '" +:+ WhatsAppMessage.status m
                  +:+ "' to 'sent'. Valid transitions: "))
  /\ WhatsAppMessage.markAsFailed c now error m
     = (m, Throw ("Invalid status transition from '" +:+ WhatsAppMessage.status m
                  +:+ "' to 'failed'. Valid transitions: "))
  /\ WhatsAppMessage.markAsSkipped c now m
     = (m, Throw ("Invalid status transition from '" +:+ WhatsAppMessage.status m
                  +:+ "' to 'skipped'. Valid transitions: ")).
Proof.
  intros H.
  assert (G : forall s e, WhatsAppMessage.updateStatus c now s e m
    = (m, Throw ("Invalid status transition from '" +:+ WhatsAppMessage.status m
               +:+ "' to '" +:+ s +:+ "'. Valid transitions: "))).
  { intros s e. unfold WhatsAppMessage.updateStatus, WhatsAppMessage.canTransitionTo.
    destruct H as [H | H]; rewrite H; reflexivity. }
  repeat split; apply G.
Qed.

Lemma terminal_state_immutability_witness :
  WhatsAppMessage.updateStatus accepting started "processing" None
    (WhatsAppMessage.with_status "sent" (text_message (job_id 1) 1))
  = (WhatsAppMessage.with_status "sent" (text_message (job_id 1) 1),
     Throw "Invalid status transition from 'sent' to 'processing'. Valid transitions: ").
Proof.
  apply (terminal_state_immutability accepting started
           (WhatsAppMessage.with_status "sent" (text_message (job_id 1) 1))
           "processing" None).
  left. reflexivity.
Defined.

(** C10. Zero-denominator reporting: [getSuccessRate] returns 100 whenever
    [processedMessages] is 0 and [getCompletionPercentage] returns 100
    whenever [totalMessages] is 0; in every other state each function is the
    rounded binary64 quotient, so both are defined on every summary and the
    division is only reached with a denominator other than 0. *)
Theorem percentages_guard_zero_denominator (s : ProgressSummary.t) :
  (ProgressSummary.processedMessages s = 0 ->
   ProgressSummary.getSuccessRate s = num 100)
  /\ (ProgressSummary.totalMessages s = 0 ->
      ProgressSummary.getCompletionPercentage s = num 100)
  /\ (ProgressSummary.processedMessages s <> 0 ->
      ProgressSummary.getSuccessRate s
      = ProgressSummary.percentage (ProgressSummary.successfulMessages s)
          (ProgressSummary.processedMessages s))
  /\ (ProgressSummary.totalMessages s <> 0 ->
      ProgressSummary.getCompletionPercentage s
      = ProgressSummary.percentage (ProgressSummary.processedMessages s)
          (ProgressSummary.totalMessages s)).
Proof.
  unfold ProgressSummary.getSuccessRate, ProgressSummary.getCompletionPercentage.
  repeat split; intros H.
  - rewrite H. reflexivity.
  - rewrite H. reflexivity.
  - destruct (Z.eqb_spec (ProgressSummary.processedMessages s) 0); [contradiction | reflexivity].
  - destruct (Z.eqb_spec (ProgressSummary.totalMessages s) 0); [contradiction | reflexivity].
Qed.

Lemma percentages_guard_zero_denominator_witness :
  ProgressSummary.getSuccessRate (untouched_summary 5) = num 100
  /\ ProgressSummary.getCompletionPercentage (untouched_summary 0) = num 100.
Proof.
  split.
  - apply (proj1 (percentages_guard_zero_denominator (untouched_summary 5))).
    reflexivity.
  - apply (proj1 (proj2 (percentages_guard_zero_denominator (untouched_summary 0)))).
    reflexivity.
Defined.

(** Without the guard the quotient of an untouched summary is not a number;
    and the rounding is that of the binary64 product, not of the exact
    quotient: 29 of 200 is 14.5 percent and yields 14. *)
Example unguarded_quotient_is_nan : ProgressSummary.percentage 0 0 = S754_nan.
Proof. vm_compute. reflexivity. Qed.

Example percentage_29_of_200 : ProgressSummary.percentage 29 200 = num 14.
Proof. vm_compute. reflexivity. Qed.

Example percentage_1_of_8 : ProgressSummary.percentage 1 8 = num 13.
Proof. vm_compute. reflexivity. Qed.

(** Basic facts about strings. *)
Lemma append_nonempty (a : Ascii.ascii) (p s : string) : String a p +:+ s <> EmptyString.
Proof. simpl. discriminate. Qed.

(** updateStatus *)
Lemma updateStatus_keeps (c : WhatsAppMessage.Checks) now s e m :
  let m' := fst (WhatsAppMessage.updateStatus c now s e m) in
  WhatsAppMessage.id m' = WhatsAppMessage.id m
  /\ WhatsAppMessage.telegramId m' = WhatsAppMessage.telegramId m
  /\ WhatsAppMessage.type m' = WhatsAppMessage.type m.
Proof.
  unfold WhatsAppMessage.updateStatus.
  destruct (negb _); simpl; [auto |].
  destruct (s =s "failed"), (truthy e), (s =s "sent"); simpl; auto.
Qed.

Lemma updateStatus_normal (c : WhatsAppMessage.Checks) now s e m m' tr :
  WhatsAppMessage.updateStatus c now s e m = (m', Normal tr) ->
  WhatsAppMessage.status m' = s.
Proof.
  unfold WhatsAppMessage.updateStatus.
  destruct (negb _); [discriminate |].
  intros H. injection H as <- _.
  destruct (s =s "failed"), (truthy e), (s =s "sent"); reflexivity.
Qed.

Lemma validate_throw_nonempty (c : WhatsAppMessage.Checks) now m e :
  WhatsAppMessage.validate c now m = Throw e -> e <> EmptyString.
Proof.
  unfold WhatsAppMessage.validate, WhatsAppMessage._validateBusinessRules.
  destruct (WhatsAppMessage.schema_errors c m).
  - intros [= <-]. apply append_nonempty.
  - destruct (_ && _ && _); [intros [= <-]; apply append_nonempty |].
    destruct (now <? _); [intros [= <-]; apply append_nonempty |].
    destruct (WhatsAppMessage.sentAt m); [| discriminate].
    destruct (_ && _); [intros [= <-]; apply append_nonempty | discriminate].
Qed.

Lemma updateStatus_throw_nonempty (c : WhatsAppMessage.Checks) now s err m m' e :
  WhatsAppMessage.updateStatus c now s err m = (m', Throw e) -> e <> EmptyString.
Proof.
  unfold WhatsAppMessage.updateStatus.
  destruct (negb _).
  - intros [= _ <-].
    destruct (WhatsAppMessage.statusTransitions _); [apply append_nonempty | discriminate].
  - intros [= _ H]. revert H.
    destruct (WhatsAppMessage.validate _ _ _) eqn:V; simpl; [discriminate |].
    intros [= <-]. eapply validate_throw_nonempty; eauto.
Qed.

(** _processSingleMessage *)
Lemma failed_message_facts {shape} (c : WhatsAppMessage.Checks) now e m m1 now1 r :
  WhatsAppImporter.failed_message shape c now e m = ((m1, now1), r) ->
  WhatsAppMessage.id m1 = WhatsAppMessage.id m
  /\ WhatsAppMessage.telegramId m1 = WhatsAppMessage.telegramId m
  /\ now1 = now
  /\ match r with
     | Normal mr =>
         WhatsAppImporter.success mr = false
         /\ WhatsAppImporter.skipped mr = false
         /\ WhatsAppImporter.error mr = Some e
         /\ WhatsAppImporter.whatsappMessageId mr = None
     | Throw e' => e' <> EmptyString
     end.
Proof.
  unfold WhatsAppImporter.failed_message, WhatsAppMessage.markAsFailed.
  destruct shape; simpl.
  - pose proof (updateStatus_keeps c now "failed" (Some e) m) as K.
    destruct (WhatsAppMessage.updateStatus c now "failed" (Some e) m) as [m2 r2] eqn:U.
    simpl in K. intros [= <- <- <-].
    destruct K as (K1 & K2 & _). repeat split; auto.
    destruct r2; simpl; [auto |].
    eapply updateStatus_throw_nonempty; eauto.
  - intros [= <- <- <-]. repeat split; discriminate.
Qed.

Lemma psm_facts {shape} (c : WhatsAppMessage.Checks) tk options now m m1 now1 r :
  WhatsAppImporter._processSingleMessage shape c tk options now m = ((m1, now1), r) ->
  WhatsAppMessage.id m1 = WhatsAppMessage.id m
  /\ WhatsAppMessage.telegramId m1 = WhatsAppMessage.telegramId m
  /\ now <= now1
  /\ match r with
     | Normal mr =>
         WhatsAppImporter.skipped mr = false
         /\ (WhatsAppImporter.success mr = true ->
             WhatsAppImporter.error mr = None
             /\ (WhatsAppImporter.dryRun options = true
                 \/ exists wid, outcome tk = Delivered wid))
         /\ (WhatsAppImporter.success mr = false ->
             (exists e, WhatsAppImporter.error mr = Some e)
             /\ WhatsAppImporter.whatsappMessageId mr = None)
     | Throw e => e <> EmptyString
     end.
Proof.
  unfold WhatsAppImporter._processSingleMessage.
  destruct (WhatsAppImporter.dryRun options) eqn:D.
  { intros [= <- <- <-]. repeat split; auto; try lia. discriminate. }
  assert (F : forall t e mm, t >= now ->
            WhatsAppMessage.id mm = WhatsAppMessage.id m ->
            WhatsAppMessage.telegramId mm = WhatsAppMessage.telegramId m ->
            WhatsAppImporter.failed_message shape c t e mm = ((m1, now1), r) ->
            WhatsAppMessage.id m1 = WhatsAppMessage.id m
            /\ WhatsAppMessage.telegramId m1 = WhatsAppMessage.telegramId m
            /\ now <= now1
            /\ match r with
               | Normal mr =>
                 WhatsAppImporter.skipped mr = false
                 /\ (WhatsAppImporter.success mr = true ->
                     WhatsAppImporter.error mr = None
                     /\ (false = true \/ exists wid, outcome tk = Delivered wid))
                 /\ (WhatsAppImporter.success mr = false ->
                     (exists e, WhatsAppImporter.error mr = Some e)
                     /\ WhatsAppImporter.whatsappMessageId mr = None)
               | Throw e => e <> EmptyString
               end).
  { intros t e mm Ht I1 I2 E. apply failed_message_facts in E.
    destruct E as (E1 & E2 & -> & E4). repeat split; try congruence; try lia.
    destruct r; [| exact E4]. destruct E4 as (S1 & S2 & S3 & S4).
    repeat split; auto; try congruence. eauto. }
  destruct shape; cbn [WhatsAppMessage.call].
  2:{ intros E. eapply F in E; eauto. lia. }
  unfold WhatsAppMessage.markAsProcessing, WhatsAppMessage.markAsSent.
  pose proof (updateStatus_keeps c now "processing" None m) as K.
  destruct (WhatsAppMessage.updateStatus c now "processing" None m) as [m2 r2] eqn:U.
  simpl in K. destruct K as (K1 & K2 & K3).
  destruct r2.
  2:{ intros E. eapply F in E; eauto. lia. }
  destruct (WhatsAppImporter.send tk m2) eqn:S.
  2:{ intros E. eapply F in E; eauto. lia. }
  pose proof (updateStatus_keeps c (now + Z.of_N (send_lag tk)) "sent" None m2) as K'.
  destruct (WhatsAppMessage.updateStatus c _ "sent" None m2) as [m3 r3] eqn:U'.
  simpl in K'. destruct K' as (K1' & K2' & K3').
  destruct r3.
  2:{ intros E. eapply F in E; eauto; try congruence. lia. }
  intros [= <- <- <-]. repeat split; try congruence; try lia.
  - right. unfold WhatsAppImporter.send in S.
    destruct (WhatsAppMessage.includes _ _); [eauto | discriminate].
  - discriminate.
  - discriminate.
Qed.

(** Ledger entries *)

Lemma toJSON_new (data : ProgressRecord.Data) n :
  ProgressRecord.d_retryCount data = Some n ->
  ProgressRecord.toJSON (ProgressRecord.new data) = data.
Proof. destruct data; simpl; intros ->; reflexivity. Qed.

Lemma create_normal uuid now id tid status err wid r :
  ProgressRecord.create uuid now id tid status err wid = Normal r ->
  r = ProgressRecord.new (created_data now id tid status err wid)
  /\ ProgressRecord.validate uuid now (created_data now id tid status err wid) = Normal tt.
Proof.
  unfold ProgressRecord.create, ProgressRecord.fromData. fold (created_data now id tid status err wid).
  destruct (ProgressRecord.validate _ _ _) as [[] |]; simpl; [| discriminate].
  intros [= <-]. auto.
Qed.

Lemma record_validate_ok uuid now id tid status err wid :
  uuid id = true -> 0 <= now ->
  (status = "sent" /\ truthy err = false) \/ (status = "failed" /\ truthy err = true) ->
  ProgressRecord.validate uuid now (created_data now id tid status err wid) = Normal tt.
Proof.
  intros U N H.
  unfold ProgressRecord.validate, ProgressRecord.schema_violations,
    ProgressRecord._validateBusinessRules, created_data; simpl.
  rewrite U.
  assert ((now <? 0) = false) as -> by lia.
  assert ((now + 60000 <? now) = false) as -> by lia.
  destruct H as [[-> T] | [-> T]]; rewrite T; reflexivity.
Qed.

Lemma create_ok uuid now id tid status err wid :
  uuid id = true -> 0 <= now ->
  (status = "sent" /\ truthy err = false) \/ (status = "failed" /\ truthy err = true) ->
  ProgressRecord.create uuid now id tid status err wid
  = Normal (ProgressRecord.new (created_data now id tid status err wid)).
Proof.
  intros U N H. unfold ProgressRecord.create, ProgressRecord.fromData.
  fold (created_data now id tid status err wid).
  rewrite record_validate_ok by assumption. reflexivity.
Qed.

Lemma record_validate_throw uuid now data e :
  ProgressRecord.validate uuid now data = Throw e ->
  e <> EmptyString /\ str_includes "not found" e = false.
Proof.
  unfold ProgressRecord.validate, ProgressRecord.schema_violations,
    ProgressRecord._validateBusinessRules.
  destruct (uuid _), (_ || _), (ProgressRecord.d_timestamp data <? 0),
    (ProgressRecord.d_retryCount data) as [n |];
    try destruct (n <? 0); try destruct (10 <? n); simpl;
    repeat match goal with
    | |- context [if ?b then _ else _] => destruct b
    end;
    intros [= <-]; split; try discriminate; vm_compute; reflexivity.
Qed.

Lemma create_throw uuid now id tid status err wid e :
  ProgressRecord.create uuid now id tid status err wid = Throw e ->
  e <> EmptyString.
Proof.
  unfold ProgressRecord.create, ProgressRecord.fromData.
  destruct (ProgressRecord.validate _ _ _) eqn:V; simpl; [discriminate |].
  intros [= <-]. eapply record_validate_throw; eauto.
Qed.

(** recordProgress *)

Lemma recordProgress_ok uuid now record tr dk s :
  ProgressTracker.isInitialized tr = true ->
  ProgressTracker.progressSummary tr = Some s ->
  ProgressRecord.validate uuid now (ProgressRecord.toJSON record) = Normal tt ->
  ProgressTracker.recordProgress uuid now record tr dk
  = (recorded now record s tr dk, Normal record).
Proof.
  intros I S V. unfold ProgressTracker.recordProgress.
  rewrite I, V. simpl. rewrite S. reflexivity.
Qed.

Lemma recordProgress_throw uuid now record tr dk out e :
  ProgressTracker.recordProgress uuid now record tr dk = (out, Throw e) ->
  e <> EmptyString.
Proof.
  unfold ProgressTracker.recordProgress.
  destruct (negb _); [intros [= _ <-]; discriminate |].
  destruct (ProgressRecord.validate _ _ _); [| intros [= _ <-]; apply append_nonempty].
  simpl. destruct (ProgressTracker.progressSummary tr);
    [discriminate | intros [= _ <-]; apply append_nonempty].
Qed.

Lemma recordProgress_log uuid now record tr dk tr' dk' r :
  ProgressTracker.recordProgress uuid now record tr dk = ((tr', dk'), r) ->
  ProgressTracker.progress_jsonl dk' = ProgressTracker.progress_jsonl dk
  \/ ProgressTracker.progress_jsonl dk'
     = (ProgressTracker.progress_jsonl dk ++ [ProgressRecord.toJSON record])%list.
Proof.
  unfold ProgressTracker.recordProgress.
  destruct (negb _); [intros [= _ <- _]; auto |].
  destruct (ProgressRecord.validate _ _ _); [| intros [= _ <- _]; auto].
  simpl. destruct (ProgressTracker.progressSummary tr); intros [= _ <- _]; auto.
Qed.

(** The loop body *)

Lemma record_failure_ok (w : World) tk m e st res s :
  ready st -> summary_of st = Some s ->
  uuid w (WhatsAppMessage.id m) = true -> e <> EmptyString ->
  exists st' res',
    WhatsAppImporter.record_failure w tk m e st res = ((st', res'), Normal tt)
    /\ ready st'
    /\ WhatsAppImporter.clock st <= WhatsAppImporter.clock st'
    /\ WhatsAppImporter.attempts st' = WhatsAppImporter.attempts st
    /\ WhatsAppImporter.runtimeState st' = WhatsAppImporter.runtimeState st
    /\ log_of st'
       = (log_of st ++ [created_data (WhatsAppImporter.clock st) (WhatsAppMessage.id m)
                         (WhatsAppMessage.telegramId m) "failed" (Some e) None])%list
    /\ summary_of st'
       = Some (ProgressSummary.updateFromRecord (WhatsAppImporter.clock st)
                 (ProgressRecord.new
                    (created_data (WhatsAppImporter.clock st) (WhatsAppMessage.id m)
                       (WhatsAppMessage.telegramId m) "failed" (Some e) None)) s)
    /\ ProgressTracker.progress_json (WhatsAppImporter.disk st') = summary_of st'
    /\ WhatsAppImporter.r_status res' = WhatsAppImporter.r_status res.
Proof.
  intros (I & _ & C) S U E. unfold summary_of in S.
  unfold WhatsAppImporter.record_failure.
  assert (T : truthy (Some e) = true).
  { simpl. destruct (String.eqb_spec e EmptyString); [contradiction | reflexivity]. }
  rewrite create_ok by (auto; right; auto).
  erewrite recordProgress_ok; eauto.
  2:{ erewrite toJSON_new by reflexivity. apply record_validate_ok; auto. }
  eexists _, _. split; [reflexivity |].
  unfold ready, log_of, summary_of; simpl.
  erewrite toJSON_new by reflexivity.
  repeat split; auto; try lia.
Qed.

Lemma record_result_ok (w : World) tk m mr st res s :
  ready st -> summary_of st = Some s ->
  uuid w (WhatsAppMessage.id m) = true ->
  WhatsAppImporter.skipped mr = false ->
  (WhatsAppImporter.success mr = true -> WhatsAppImporter.error mr = None) ->
  (WhatsAppImporter.success mr = false ->
   (exists e, WhatsAppImporter.error mr = Some e)
   /\ WhatsAppImporter.whatsappMessageId mr = None) ->
  exists st' res' d,
    WhatsAppImporter.record_result w tk m mr st res = ((st', res'), Normal tt)
    /\ ready st'
    /\ WhatsAppImporter.clock st <= WhatsAppImporter.clock st'
    /\ WhatsAppImporter.attempts st' = WhatsAppImporter.attempts st
    /\ WhatsAppImporter.runtimeState st'
       = (if WhatsAppImporter.success mr
          then RuntimeState.updateRateLimit (WhatsAppImporter.clock st')
                 (WhatsAppImporter.runtimeState st)
          else WhatsAppImporter.runtimeState st)
    /\ log_of st' = (log_of st ++ [d])%list
    /\ ProgressRecord.d_messageId d = WhatsAppMessage.id m
    /\ ProgressRecord.d_status d = (if WhatsAppImporter.success mr then "sent" else "failed")
    /\ ProgressRecord.d_retryCount d = Some (if WhatsAppImporter.success mr then 0 else 1)
    /\ summary_of st'
       = Some (ProgressSummary.updateFromRecord (WhatsAppImporter.clock st)
                 (ProgressRecord.new d) s)
    /\ ProgressTracker.progress_json (WhatsAppImporter.disk st') = summary_of st'
    /\ WhatsAppImporter.r_status res' = WhatsAppImporter.r_status res.
Proof.
  intros R S U K Hs Hf. pose proof R as (I & _ & C).
  unfold WhatsAppImporter.record_result.
  destruct (WhatsAppImporter.success mr) eqn:OK.
  - rewrite (Hs eq_refl). change (or_null None) with (@None string).
    rewrite create_ok by (auto; left; auto).
    erewrite recordProgress_ok; eauto.
    2:{ erewrite toJSON_new by reflexivity. apply record_validate_ok; auto. }
    eexists _, _, _. split; [reflexivity |].
    unfold ready, log_of, summary_of; simpl.
    erewrite toJSON_new by reflexivity.
    repeat split; auto; try lia.
  - destruct (Hf eq_refl) as ((e & He) & Hw). rewrite He, Hw.
    change (or_null None) with (@None string).
    destruct (String.eqb_spec e EmptyString) as [-> | Ne].
    + (* an empty message: the record is refused, the catch block records *)
      change (or_null (Some EmptyString)) with (@None string).
      destruct (ProgressRecord.create _ _ _ _ "failed" None None) eqn:Cr.
      { apply create_normal in Cr. destruct Cr as [_ V].
        unfold ProgressRecord.validate, ProgressRecord.schema_violations,
          ProgressRecord._validateBusinessRules, created_data in V; simpl in V.
        rewrite U in V. assert ((WhatsAppImporter.clock st <? 0) = false) as E0 by lia.
        rewrite E0 in V. discriminate. }
      apply create_throw in Cr.
      destruct (record_failure_ok w tk m message st res s R S U Cr)
        as (st' & res' & E & R' & C' & A' & RS' & L' & S' & J' & St').
      rewrite E. eexists _, _, _. split; [reflexivity |].
      repeat split; eauto; apply R'.
    + assert (T : or_null (Some e) = Some e).
      { unfold or_null; simpl. destruct (String.eqb_spec e EmptyString); [contradiction | reflexivity]. }
      rewrite T.
      rewrite create_ok.
      2: auto. 2: auto.
      2:{ right. split; auto. simpl.
          destruct (String.eqb_spec e EmptyString); [contradiction | reflexivity]. }
      erewrite recordProgress_ok; eauto.
      2:{ erewrite toJSON_new by reflexivity. apply record_validate_ok; auto.
          right. split; auto. simpl.
          destruct (String.eqb_spec e EmptyString); [contradiction | reflexivity]. }
      eexists _, _, _. split; [reflexivity |].
      unfold ready, log_of, summary_of; simpl.
      erewrite toJSON_new by reflexivity.
      repeat split; auto; try lia.
Qed.

Lemma wait_lower config tk st :
  WhatsAppImporter.clock st <= WhatsAppImporter._waitForRateLimit config tk st.
Proof.
  unfold WhatsAppImporter._waitForRateLimit, WhatsAppImporter._sleep.
  destruct (0 <? _); lia.
Qed.

Lemma iteration_ok {shape} (w : World) config options tk m st res s :
  ready st -> summary_of st = Some s ->
  uuid w (WhatsAppMessage.id m) = true ->
  exists st' res' m' a d,
    WhatsAppImporter.iteration shape w config options tk m st res = ((st', res', m'), Normal tt)
    /\ ready st'
    /\ WhatsAppImporter.clock st <= WhatsAppImporter.at_ms a
    /\ WhatsAppImporter.at_ms a <= WhatsAppImporter.clock st'
    /\ WhatsAppImporter.attempts st' = (WhatsAppImporter.attempts st ++ [a])%list
    /\ WhatsAppImporter.job a = WhatsAppMessage.id m
    /\ WhatsAppImporter.at_ms a = WhatsAppImporter._waitForRateLimit config tk st
    /\ WhatsAppImporter.delivered a
       = reported (snd (WhatsAppImporter._processSingleMessage shape (checks w) tk options
                          (WhatsAppImporter.at_ms a) m))
    /\ WhatsAppImporter.runtimeState st'
       = (if WhatsAppImporter.delivered a
          then RuntimeState.updateRateLimit (WhatsAppImporter.clock st')
                 (WhatsAppImporter.runtimeState st)
          else WhatsAppImporter.runtimeState st)
    /\ log_of st' = (log_of st ++ [d])%list
    /\ ProgressRecord.d_messageId d = WhatsAppMessage.id m
    /\ ProgressRecord.d_status d = (if WhatsAppImporter.delivered a then "sent" else "failed")
    /\ ProgressRecord.d_retryCount d = Some (if WhatsAppImporter.delivered a then 0 else 1)
    /\ (exists t, summary_of st'
                  = Some (ProgressSummary.updateFromRecord t (ProgressRecord.new d) s))
    /\ ProgressTracker.progress_json (WhatsAppImporter.disk st') = summary_of st'
    /\ WhatsAppImporter.r_status res' = WhatsAppImporter.r_status res.
Proof.
  intros R S U. pose proof R as (I & Q & C).
  unfold WhatsAppImporter.iteration.
  pose proof (wait_lower config tk st) as W.
  set (called := WhatsAppImporter._waitForRateLimit config tk st) in *.
  destruct (WhatsAppImporter._processSingleMessage shape (checks w) tk options called m)
    as [[m1 now1] r] eqn:P.
  destruct (psm_facts _ _ _ _ _ _ _ _ P) as (P1 & P2 & P3 & P4).
  destruct r as [mr | e].
  - destruct P4 as (K & Hs & Hf).
    set (st1 := {| WhatsAppImporter.runtimeState := WhatsAppImporter.runtimeState st;
                   WhatsAppImporter.progressTracker := WhatsAppImporter.progressTracker st;
                   WhatsAppImporter.disk := WhatsAppImporter.disk st;
                   WhatsAppImporter.clock := now1;
                   WhatsAppImporter.attempts := _ |}).
    assert (R1 : ready st1) by (unfold ready; simpl; repeat split; auto; lia).
    assert (S1 : summary_of st1 = Some s) by exact S.
    assert (U1 : uuid w (WhatsAppMessage.id m1) = true) by congruence.
    destruct (record_result_ok w tk m1 mr st1 (WhatsAppImporter.count m1 mr res) s
                R1 S1 U1 K (fun H => proj1 (Hs H)) Hf)
      as (st' & res' & d & E & R' & C' & A' & RS' & L' & D1 & D2 & D3 & S' & J' & St').
    rewrite E.
    exists st', res', m1,
      {| WhatsAppImporter.at_ms := called;
         WhatsAppImporter.job := WhatsAppMessage.id m;
         WhatsAppImporter.delivered := WhatsAppImporter.success mr |}, d.
    split; [reflexivity |]. simpl. rewrite P. simpl.
    repeat split; try apply R'; auto.
    all: try (simpl in C'; lia).
    all: try congruence.
    all: eauto.
  - set (st1 := {| WhatsAppImporter.runtimeState := WhatsAppImporter.runtimeState st;
                   WhatsAppImporter.progressTracker := WhatsAppImporter.progressTracker st;
                   WhatsAppImporter.disk := WhatsAppImporter.disk st;
                   WhatsAppImporter.clock := now1;
                   WhatsAppImporter.attempts := _ |}).
    assert (R1 : ready st1) by (unfold ready; simpl; repeat split; auto; lia).
    assert (S1 : summary_of st1 = Some s) by exact S.
    assert (U1 : uuid w (WhatsAppMessage.id m1) = true) by congruence.
    destruct (record_failure_ok w tk m1 e st1 res s R1 S1 U1 P4)
      as (st' & res' & E & R' & C' & A' & RS' & L' & S' & J' & St').
    rewrite E.
    exists st', res', m1,
      {| WhatsAppImporter.at_ms := called;
         WhatsAppImporter.job := WhatsAppMessage.id m;
         WhatsAppImporter.delivered := false |},
      (created_data now1 (WhatsAppMessage.id m1) (WhatsAppMessage.telegramId m1)
         "failed" (Some e) None).
    split; [reflexivity |]. simpl. rewrite P. simpl.
    repeat split; try apply R'; auto.
    all: try (simpl in C'; lia).
    all: try congruence.
    all: eauto.
Qed.

Lemma updateFromRecord_counts t d s (b : bool) :
  ProgressRecord.d_status d = (if b then "sent" else "failed") ->
  let s' := ProgressSummary.updateFromRecord t (ProgressRecord.new d) s in
  ProgressSummary.totalMessages s' = ProgressSummary.totalMessages s
  /\ ProgressSummary.successfulMessages s'
     = ProgressSummary.successfulMessages s + (if b then 1 else 0)
  /\ ProgressSummary.failedMessages s'
     = ProgressSummary.failedMessages s + (if b then 0 else 1)
  /\ ProgressSummary.processedMessages s'
     = ProgressSummary.successfulMessages s' + ProgressSummary.failedMessages s'.
Proof.
  intros H. unfold ProgressSummary.updateFromRecord. simpl. rewrite H.
  destruct b; simpl;
    repeat match goal with |- context [if ?c then _ else _] => destruct c end;
    simpl; repeat split; lia.
Qed.

Lemma loop_ok {shape} (w : World) config options messages :
  forall i st res s,
  ready st -> summary_of st = Some s ->
  (forall m, In m messages -> uuid w (WhatsAppMessage.id m) = true) ->
  (forall k, (i <= k < i + length messages)%nat -> pause_seen (tick w k) = false) ->
  exists st' res' ms' new_a new_d s',
    WhatsAppImporter.loop shape w config options i messages st res = ((st', res', ms'), Normal tt)
    /\ ready st'
    /\ WhatsAppImporter.clock st <= WhatsAppImporter.clock st'
    /\ WhatsAppImporter.attempts st' = (WhatsAppImporter.attempts st ++ new_a)%list
    /\ log_of st' = (log_of st ++ new_d)%list
    /\ length new_a = length messages
    /\ length new_d = length messages
    /\ (forall k m, messages !! k = Some m ->
        exists a d, new_a !! k = Some a /\ new_d !! k = Some d
                    /\ attempt_entry shape w options (tick w (i + k)) m a d
                    /\ WhatsAppImporter.clock st <= WhatsAppImporter.at_ms a)
    /\ RuntimeState.messageCount (WhatsAppImporter.runtimeState st')
       = RuntimeState.messageCount (WhatsAppImporter.runtimeState st) + successes new_a
    /\ RuntimeState.dailyLimit (WhatsAppImporter.runtimeState st')
       = RuntimeState.dailyLimit (WhatsAppImporter.runtimeState st)
    /\ summary_of st' = Some s'
    /\ ProgressTracker.progress_json (WhatsAppImporter.disk st')
       = (if messages is [] then ProgressTracker.progress_json (WhatsAppImporter.disk st)
          else Some s')
    /\ ProgressSummary.totalMessages s' = ProgressSummary.totalMessages s
    /\ ProgressSummary.successfulMessages s'
       = ProgressSummary.successfulMessages s + successes new_a
    /\ ProgressSummary.failedMessages s'
       = ProgressSummary.failedMessages s + failures new_a
    /\ (messages <> [] ->
        ProgressSummary.processedMessages s'
        = ProgressSummary.successfulMessages s' + ProgressSummary.failedMessages s')
    /\ WhatsAppImporter.r_status res' = WhatsAppImporter.r_status res.
Proof.
  induction messages as [| m rest IH]; intros i st res s R Sm U NP.
  - exists st, res, [], [], [], s. simpl.
    unfold successes, failures; simpl.
    rewrite !app_nil_r. repeat split; auto; try lia; try apply R.
    + intros k m H. rewrite lookup_nil in H. discriminate.
    + congruence.
  - simpl. rewrite (NP i) by (simpl; lia).
    destruct (iteration_ok (shape := shape) w config options (tick w i) m st res s R Sm)
      as (st1 & res1 & m1 & a & d & E & R1 & C0 & C1 & A1 & J1 & T1 & D1 & RS1 & L1
          & I1 & S1 & Y1 & (t & SM1) & PJ1 & ST1).
    { apply U. left. reflexivity. }
    rewrite E.
    destruct (IH (S i) st1 res1 _ R1 SM1) as
      (st2 & res2 & ms2 & na & nd & s2 & E2 & R2 & C2 & A2 & L2 & LA & LD & PK & MC & DL
       & SM2 & PJ2 & TT & SS & FF & PP & ST2).
    { intros m' Hm'. apply U. right. exact Hm'. }
    { intros k Hk. apply NP. simpl. lia. }
    rewrite E2.
    exists st2, res2, (m1 :: ms2), (a :: na), (d :: nd), s2.
    destruct (updateFromRecord_counts t d s (WhatsAppImporter.delivered a) S1)
      as (U1 & U2 & U3 & U4).
    split; [reflexivity |].
    split; [exact R2 |].
    split; [lia |].
    split; [rewrite A2, A1, <- app_assoc; reflexivity |].
    split; [rewrite L2, L1, <- app_assoc; reflexivity |].
    split; [simpl; congruence |].
    split; [simpl; congruence |].
    split.
    { intros [| k] m' Hk; simpl in Hk.
      - injection Hk as <-. exists a, d. rewrite Nat.add_0_r.
        repeat split; auto; try (rewrite D1, T1; reflexivity).
      - destruct (PK k m' Hk) as (a' & d' & Ha' & Hd' & AE & Ca).
        exists a', d'. replace (i + S k)%nat with (S i + k)%nat by lia.
        repeat split; auto; try apply AE. lia. }
    assert (SU : successes (a :: na)
                 = (if WhatsAppImporter.delivered a then 1 else 0) + successes na).
    { unfold successes. simpl. destruct (WhatsAppImporter.delivered a); simpl; lia. }
    assert (FU : failures (a :: na)
                 = (if WhatsAppImporter.delivered a then 0 else 1) + failures na).
    { unfold failures. simpl. destruct (WhatsAppImporter.delivered a); simpl; lia. }
    split.
    { rewrite MC, RS1, SU. destruct (WhatsAppImporter.delivered a); simpl; lia. }
    split.
    { rewrite DL, RS1. destruct (WhatsAppImporter.delivered a); reflexivity. }
    split; [exact SM2 |].
    split.
    { rewrite PJ2. destruct rest; [| reflexivity].
      simpl in E2. injection E2 as <- _ _. rewrite PJ1, SM1. congruence. }
    split; [congruence |].
    split; [rewrite SS, U2, SU; lia |].
    split; [rewrite FF, U3, FU; lia |].
    split.
    { intros _. destruct rest as [| m' rest'].
      - simpl in E2. injection E2 as <- _ _. rewrite SM1 in SM2.
        injection SM2 as <-. exact U4.
      - apply PP. discriminate. }
    congruence.
Qed.

(** Frame facts that hold for every run, whatever the environment. *)

Lemma created_shaped now id tid (b : bool) err wid :
  shaped id (created_data now id tid (if b then "sent" else "failed") err wid).
Proof. destruct b; repeat split; simpl; auto. Qed.

Lemma record_failure_frame (w : World) tk m e st res st' res' c :
  WhatsAppImporter.record_failure w tk m e st res = ((st', res'), c) ->
  WhatsAppImporter.attempts st' = WhatsAppImporter.attempts st
  /\ WhatsAppImporter.clock st <= WhatsAppImporter.clock st'
  /\ WhatsAppImporter.runtimeState st' = WhatsAppImporter.runtimeState st
  /\ exists new, log_of st' = (log_of st ++ new)%list
                 /\ Forall (shaped (WhatsAppMessage.id m)) new.
Proof.
  unfold WhatsAppImporter.record_failure.
  destruct (ProgressRecord.create _ _ _ _ _ _ _) as [record |] eqn:Cr.
  - apply create_normal in Cr. destruct Cr as [-> _].
    destruct (ProgressTracker.recordProgress _ _ _ _ _) as [[tr dk] r] eqn:Rp.
    apply recordProgress_log in Rp.
    intros [= <- _ _]. unfold log_of; simpl. repeat split; try lia.
    destruct Rp as [-> | ->].
    + exists []. rewrite app_nil_r. auto.
    + eexists. split; [reflexivity |]. constructor; [| constructor].
      erewrite toJSON_new by reflexivity. apply (created_shaped _ _ _ false).
  - intros [= <- _ _]. repeat split; try lia.
    exists []. rewrite app_nil_r. auto.
Qed.

Lemma record_result_frame (w : World) tk m mr st res st' res' c :
  WhatsAppImporter.record_result w tk m mr st res = ((st', res'), c) ->
  WhatsAppImporter.attempts st' = WhatsAppImporter.attempts st
  /\ WhatsAppImporter.clock st <= WhatsAppImporter.clock st'
  /\ (WhatsAppImporter.success mr = false ->
      WhatsAppImporter.runtimeState st' = WhatsAppImporter.runtimeState st)
  /\ exists new, log_of st' = (log_of st ++ new)%list
                 /\ Forall (shaped (WhatsAppMessage.id m)) new.
Proof.
  unfold WhatsAppImporter.record_result.
  destruct (ProgressRecord.create _ _ _ _ _ _ _) as [record |] eqn:Cr.
  - apply create_normal in Cr. destruct Cr as [-> _].
    destruct (ProgressTracker.recordProgress _ _ _ _ _) as [[tr dk] r] eqn:Rp.
    apply recordProgress_log in Rp.
    assert (L : exists new,
               ProgressTracker.progress_jsonl dk
               = (log_of st ++ new)%list /\ Forall (shaped (WhatsAppMessage.id m)) new).
    { destruct Rp as [-> | ->].
      - exists []. rewrite app_nil_r. auto.
      - eexists. split; [reflexivity |]. constructor; [| constructor].
        erewrite toJSON_new by reflexivity. apply created_shaped. }
    destruct L as (new & L1 & L2).
    destruct r.
    + intros [= <- _ _]. destruct (WhatsAppImporter.success mr); simpl;
        (repeat split; try lia; try discriminate; eauto).
    + intros H. apply record_failure_frame in H.
      destruct H as (A & C & RS & new' & L1' & L2'). simpl in *.
      repeat split; auto; try lia.
      exists (new ++ new')%list. split.
      * rewrite L1'. unfold log_of at 1; simpl. rewrite L1, app_assoc. reflexivity.
      * apply Forall_app; auto.
  - intros H. apply record_failure_frame in H.
    destruct H as (A & C & RS & L). repeat split; auto.
Qed.

Lemma iteration_frame {shape} (w : World) config options tk m st res st' res' m' c :
  WhatsAppImporter.iteration shape w config options tk m st res = ((st', res', m'), c) ->
  exists a,
    WhatsAppImporter.attempts st' = (WhatsAppImporter.attempts st ++ [a])%list
    /\ WhatsAppImporter.job a = WhatsAppMessage.id m
    /\ WhatsAppImporter.at_ms a = WhatsAppImporter._waitForRateLimit config tk st
    /\ WhatsAppImporter.at_ms a <= WhatsAppImporter.clock st'
    /\ (WhatsAppImporter.delivered a = false ->
        WhatsAppImporter.runtimeState st' = WhatsAppImporter.runtimeState st)
    /\ exists new, log_of st' = (log_of st ++ new)%list
                   /\ Forall (shaped (WhatsAppMessage.id m)) new.
Proof.
  unfold WhatsAppImporter.iteration.
  set (called := WhatsAppImporter._waitForRateLimit config tk st).
  destruct (WhatsAppImporter._processSingleMessage shape (checks w) tk options called m)
    as [[m1 now1] r] eqn:P.
  destruct (psm_facts _ _ _ _ _ _ _ _ P) as (P1 & P2 & P3 & _).
  destruct r as [mr | e].
  - destruct (WhatsAppImporter.record_result _ _ _ _ _ _) as [[st2 res2] c2] eqn:E.
    apply record_result_frame in E. destruct E as (A & C & RS & new & L1 & L2).
    intros [= <- _ _ _]. simpl in *.
    eexists. split; [exact A |]. simpl. rewrite <- P1.
    repeat split; auto; try lia. eauto.
  - destruct (WhatsAppImporter.record_failure _ _ _ _ _ _) as [[st2 res2] c2] eqn:E.
    apply record_failure_frame in E. destruct E as (A & C & RS & new & L1 & L2).
    intros [= <- _ _ _]. simpl in *.
    eexists. split; [exact A |]. simpl. rewrite <- P1.
    repeat split; auto; try lia. eauto.
Qed.

Lemma random_in_range (r : CLIConfig.Random) (c : CLIConfig.t) :
  CLIConfig.sleepRange_min c <= CLIConfig.sleepRange_max c ->
  CLIConfig.sleepRange_min c <= CLIConfig.getRandomSleepDuration r c
  <= CLIConfig.sleepRange_max c.
Proof.
  intros H. unfold CLIConfig.getRandomSleepDuration, CLIConfig.floor_random.
  destruct r as [a b]; simpl.
  set (n := CLIConfig.sleepRange_max c - CLIConfig.sleepRange_min c + 1).
  set (q := Z.of_N a + Z.of_N b + 1).
  assert (Hq : 0 < q) by (unfold q; lia).
  assert (Hn : 0 < n) by (unfold n; lia).
  assert (L : 0 <= Z.of_N a * n / q) by (apply Z.div_pos; nia).
  assert (Up : Z.of_N a * n / q < n).
  { apply Z.div_lt_upper_bound; [lia |]. unfold q. nia. }
  lia.
Qed.

Lemma wait_floor config tk st :
  CLIConfig.sleepRange_min config <= CLIConfig.sleepRange_max config ->
  WhatsAppImporter.clock st
  + Z.max 0 (CLIConfig.sleepRange_min config * 1000
             - (WhatsAppImporter.clock st
                - RuntimeState.lastMessageTime (WhatsAppImporter.runtimeState st)))
  + CLIConfig.sleepRange_min config * 1000
  <= WhatsAppImporter._waitForRateLimit config tk st.
Proof.
  intros H.
  unfold WhatsAppImporter._waitForRateLimit, WhatsAppImporter._sleep,
    RuntimeState.getRequiredWaitTime.
  pose proof (random_in_range (random tk) config H) as [R1 R2].
  destruct (0 <? _) eqn:E; lia.
Qed.

Lemma loop_frame {shape} (w : World) config options messages :
  forall i st res st' res' ms' c,
  WhatsAppImporter.loop shape w config options i messages st res = ((st', res', ms'), c) ->
  WhatsAppImporter.clock st <= WhatsAppImporter.clock st'
  /\ exists new_a new_d,
      WhatsAppImporter.attempts st' = (WhatsAppImporter.attempts st ++ new_a)%list
      /\ log_of st' = (log_of st ++ new_d)%list
      /\ (forall a, In a new_a ->
          In (WhatsAppImporter.job a) (map WhatsAppMessage.id messages))
      /\ (forall d, In d new_d ->
          exists a, In a new_a /\ shaped (WhatsAppImporter.job a) d).
Proof.
  induction messages as [| m rest IH]; intros i st res st' res' ms' c; simpl.
  - intros [= <- _ _ _]. split; [lia |]. exists [], [].
    rewrite !app_nil_r. repeat split; auto; intros ? [].
  - destruct (pause_seen (tick w i)).
    { intros [= <- _ _ _]. split; [lia |]. exists [], [].
      rewrite !app_nil_r. repeat split; auto; intros ? []. }
    destruct (WhatsAppImporter.iteration shape _ _ _ _ _ _ _) as [[[st1 res1] m1] c1] eqn:E.
    pose proof (wait_lower config (tick w i) st) as W.
    apply iteration_frame in E.
    destruct E as (a & A & J & T & C & _ & new & L1 & L2).
    assert (Hnew : forall d, In d new -> shaped (WhatsAppImporter.job a) d).
    { intros d Hd. rewrite J.
      rewrite Forall_forall in L2. apply L2. apply list_elem_of_In. exact Hd. }
    destruct c1 as [[] | e].
    + destruct (WhatsAppImporter.loop shape w config options (S i) rest st1 res1)
        as [[[st2 res2] rest2] c2] eqn:E2.
      apply IH in E2. destruct E2 as (C2 & na & nd & A2 & D2 & J2 & S2).
      intros [= <- _ _ _]. split; [lia |].
      exists (a :: na), (new ++ nd)%list.
      split; [rewrite A2, A, <- app_assoc; reflexivity |].
      split; [rewrite D2, L1, <- app_assoc; reflexivity |].
      split.
      * intros a0 [<- | Ha0]; [left; auto | right; auto].
      * intros d Hd. apply in_app_or in Hd. destruct Hd as [Hd | Hd].
        -- exists a. split; [left; reflexivity | auto].
        -- destruct (S2 d Hd) as (a0 & M0 & Sh). exists a0. split; [right |]; auto.
    + intros [= <- _ _ _]. split; [lia |].
      exists [a], new. repeat split; auto.
      -- intros a0 [<- | []]. left; auto.
      -- intros d Hd. exists a. split; [left; reflexivity | auto].
Qed.

(** Pacing of the attempts of a run. *)
Lemma loop_paced {shape} (w : World) config options messages :
  CLIConfig.sleepRange_min config <= CLIConfig.sleepRange_max config ->
  forall i st res st' res' ms' c,
  WhatsAppImporter.loop shape w config options i messages st res = ((st', res', ms'), c) ->
  exists new_a,
    WhatsAppImporter.attempts st' = (WhatsAppImporter.attempts st ++ new_a)%list
    /\ (forall a, In a new_a ->
        WhatsAppImporter.clock st + CLIConfig.sleepRange_min config * 1000
        <= WhatsAppImporter.at_ms a)
    /\ (forall (j k : nat) a b, new_a !! j = Some a -> new_a !! k = Some b -> (j < k)%nat ->
        WhatsAppImporter.at_ms a + CLIConfig.sleepRange_min config * 1000
        <= WhatsAppImporter.at_ms b).
Proof.
  intros Hc.
  induction messages as [| m rest IH]; intros i st res st' res' ms' c; simpl.
  - intros [= <- _ _ _]. exists []. rewrite app_nil_r.
    repeat split; auto; [intros ? [] | intros j k a b H; rewrite lookup_nil in H; discriminate].
  - destruct (pause_seen (tick w i)).
    { intros [= <- _ _ _]. exists []. rewrite app_nil_r.
      repeat split; auto; [intros ? [] | intros j k a b H; rewrite lookup_nil in H; discriminate]. }
    destruct (WhatsAppImporter.iteration shape _ _ _ _ _ _ _) as [[[st1 res1] m1] c1] eqn:E.
    pose proof (wait_floor config (tick w i) st Hc) as W.
    pose proof (wait_lower config (tick w i) st) as W0.
    apply iteration_frame in E.
    destruct E as (a & A & J & T & C & _).
    assert (Fa : WhatsAppImporter.clock st + CLIConfig.sleepRange_min config * 1000
                 <= WhatsAppImporter.at_ms a) by lia.
    destruct c1 as [[] | e].
    + destruct (WhatsAppImporter.loop shape w config options (S i) rest st1 res1)
        as [[[st2 res2] rest2] c2] eqn:E2.
      pose proof (loop_frame _ _ _ _ _ _ _ _ _ _ _ E2) as [Mono _].
      apply IH in E2. destruct E2 as (na & A2 & F2 & P2).
      intros [= <- _ _ _].
      exists (a :: na).
      split; [rewrite A2, A, <- app_assoc; reflexivity |].
      split.
      * intros a0 [<- | Ha0]; [exact Fa |]. specialize (F2 a0 Ha0). lia.
      * intros [| j] [| k] x y Hx Hy Hjk; simpl in *; try lia.
        -- injection Hx as <-.
           assert (In y na) by (apply list_elem_of_In; eapply list_elem_of_lookup_2; eauto).
           specialize (F2 y H). lia.
        -- eapply P2; eauto. lia.
    + intros [= <- _ _ _]. exists [a]. split; [exact A |]. split.
      * intros a0 [<- | []]. exact Fa.
      * intros [| j] [| k] x y Hx Hy Hjk; simpl in *; try lia.
        -- rewrite lookup_nil in Hy. discriminate.
        -- rewrite lookup_nil in Hy. discriminate.
Qed.

(** The replay of the log *)
Lemma latest_entry_cons d log id :
  latest_entry (d :: log) id
  = match latest_entry log id with
    | Some x => Some x
    | None => if ProgressRecord.d_messageId d =s id then Some d else None
    end.
Proof.
  unfold latest_entry. simpl.
  destruct (ProgressRecord.d_messageId d =s id);
    [| destruct (last _); reflexivity].
  destruct (List.filter _ log) as [| x l]; [reflexivity |].
  rewrite last_cons. destruct (last (x :: l)) eqn:E; [reflexivity |].
  apply last_None in E. discriminate.
Qed.

Lemma fromData_normal uuid now data r :
  ProgressRecord.fromData uuid now data = Normal r -> r = ProgressRecord.new data.
Proof.
  unfold ProgressRecord.fromData.
  destruct (ProgressRecord.validate _ _ _); simpl; congruence.
Qed.

Lemma fromData_throw uuid now data e :
  ProgressRecord.fromData uuid now data = Throw e ->
  str_includes "not found" e = false.
Proof.
  unfold ProgressRecord.fromData.
  destruct (ProgressRecord.validate _ _ _) eqn:V; simpl; [discriminate |].
  intros [= <-]. eapply record_validate_throw; eauto.
Qed.

Lemma load_lines_normal uuid now lines :
  forall records records',
  ProgressTracker.load_lines uuid now lines records = (records', Normal tt) ->
  forall id,
    records' !! id
    = match latest_entry lines id with
      | Some d => Some (ProgressRecord.new d)
      | None => records !! id
      end.
Proof.
  induction lines as [| d rest IH]; intros records records'; simpl.
  - intros [= <-] id. reflexivity.
  - destruct (ProgressRecord.fromData uuid now d) as [r |] eqn:F; [| discriminate].
    apply fromData_normal in F. subst r.
    intros H id. rewrite (IH _ _ H id), latest_entry_cons.
    destruct (latest_entry rest id); [reflexivity |].
    simpl. destruct (String.eqb_spec (ProgressRecord.d_messageId d) id) as [-> | Ne].
    + rewrite lookup_insert_eq. reflexivity.
    + rewrite lookup_insert_ne by exact Ne. reflexivity.
Qed.

Lemma load_lines_throw uuid now lines :
  forall records records' e,
  ProgressTracker.load_lines uuid now lines records = (records', Throw e) ->
  str_includes "not found" e = false.
Proof.
  induction lines as [| d rest IH]; intros records records' e; simpl.
  - discriminate.
  - destruct (ProgressRecord.fromData uuid now d) as [r |] eqn:F.
    + apply IH.
    + intros [= _ <-]. eapply fromData_throw; eauto.
Qed.

(** [initialize] *)
Lemma initialize_facts uuid now total planPath dk tr' dk' c :
  ProgressTracker.initialize uuid now total (ProgressTracker.new planPath) dk
  = ((tr', dk'), c) ->
  ProgressTracker.progress_jsonl dk' = ProgressTracker.progress_jsonl dk
  /\ (c = Normal tt ->
      ProgressTracker.isInitialized tr' = true
      /\ (forall id,
           ProgressTracker.progressRecords tr' !! id
           = ProgressRecord.new <$> latest_entry (ProgressTracker.progress_jsonl dk) id)
      /\ exists s,
           ProgressTracker.progressSummary tr' = Some s
           /\ ProgressTracker.progress_json dk' = Some s
           /\ match ProgressTracker.progress_json dk with
              | Some s0 => s = s0
              | None => ProgressSummary.create now planPath total = Normal s
              end).
Proof.
  unfold ProgressTracker.initialize.
  destruct (ProgressTracker.progress_json dk) as [s0 |] eqn:J.
  - destruct (ProgressSummary.fromData s0) as [s |] eqn:F.
    + assert (s = s0) as ->.
      { unfold ProgressSummary.fromData in F.
        destruct (ProgressSummary.validate s0); simpl in F; congruence. }
      unfold ProgressTracker._loadProgressRecords.
      destruct (ProgressTracker.load_lines _ _ _ _) as [records cl] eqn:L.
      destruct cl as [[] | e].
      * intros [= <- <- <-]. split; [reflexivity |]. intros _.
        split; [reflexivity |]. split.
        -- intros id. simpl. rewrite (load_lines_normal _ _ _ _ _ L id).
           simpl. destruct (latest_entry _ id); [reflexivity |]. apply lookup_empty.
        -- exists s0. simpl. auto.
      * rewrite (load_lines_throw _ _ _ _ _ _ L).
        intros [= <- <- <-]. split; [reflexivity |]. discriminate.
    + intros [= <- <- <-]. split; [reflexivity |]. discriminate.
  - simpl ProgressTracker.planPath.
    destruct (ProgressSummary.create now planPath total) as [s |] eqn:F.
    + unfold ProgressTracker._loadProgressRecords.
      simpl ProgressTracker.progress_jsonl. simpl ProgressTracker.progressRecords.
      destruct (ProgressTracker.load_lines _ _ _ _) as [records cl] eqn:L.
      destruct cl as [[] | e].
      * intros [= <- <- <-]. split; [reflexivity |]. intros _.
        split; [reflexivity |]. split.
        -- intros id. simpl. rewrite (load_lines_normal _ _ _ _ _ L id).
           simpl. destruct (latest_entry _ id); [reflexivity |]. apply lookup_empty.
        -- exists s. simpl. auto.
      * rewrite (load_lines_throw _ _ _ _ _ _ L).
        intros [= <- <- <-]. split; [reflexivity |]. discriminate.
    + intros [= <- <- <-]. split; [reflexivity |]. discriminate.
Qed.

(** [_syncPlanWithProgress] *)

Lemma sync_message_normal {shape} (c : WhatsAppMessage.Checks) now tr m m' :
  ExecuteCommand.sync_message shape c now tr m = (m', Normal tt) -> synced tr m m'.
Proof.
  unfold ExecuteCommand.sync_message, synced,
    WhatsAppMessage.markAsProcessing, WhatsAppMessage.markAsSent, WhatsAppMessage.markAsFailed.
  destruct shape; cbn [WhatsAppMessage.call].
  2:{ destruct (ProgressTracker.isMessageSuccessful tr _); [discriminate |].
      destruct (ProgressTracker.isMessageFailed tr _); [discriminate |].
      intros [= <-]. auto. }
  destruct (ProgressTracker.isMessageSuccessful tr _).
  - pose proof (updateStatus_keeps c now "processing" None m) as K.
    destruct (WhatsAppMessage.updateStatus c now "processing" None m) as [m1 r1].
    simpl in K. destruct K as (K1 & _).
    destruct r1; [| discriminate].
    pose proof (updateStatus_keeps c now "sent" None m1) as K'.
    destruct (WhatsAppMessage.updateStatus c now "sent" None m1) as [m2 r2] eqn:U2.
    simpl in K'. destruct K' as (K1' & _).
    destruct r2; [| discriminate].
    intros [= <-]. split; [congruence |]. eapply updateStatus_normal; eauto.
  - destruct (ProgressTracker.isMessageFailed tr _).
    + pose proof (updateStatus_keeps c now "processing" None m) as K.
      destruct (WhatsAppMessage.updateStatus c now "processing" None m) as [m1 r1].
      simpl in K. destruct K as (K1 & _).
      destruct r1; [| discriminate].
      pose proof (updateStatus_keeps c now "failed" (Some "Previous attempt failed") m1) as K'.
      destruct (WhatsAppMessage.updateStatus c now "failed" _ m1) as [m2 r2] eqn:U2.
      simpl in K'. destruct K' as (K1' & _).
      destruct r2; [| discriminate].
      intros [= <-]. split; [congruence |]. eapply updateStatus_normal; eauto.
    + intros [= <-]. auto.
Qed.

Lemma sync_normal {shape} (c : WhatsAppMessage.Checks) now tr messages :
  forall messages',
  ExecuteCommand._syncPlanWithProgress shape c now tr messages = (messages', Normal tt) ->
  Forall2 (synced tr) messages messages'.
Proof.
  induction messages as [| m rest IH]; intros messages'; simpl.
  - intros [= <-]. constructor.
  - destruct (ExecuteCommand.sync_message shape c now tr m) as [m1 r1] eqn:E.
    destruct r1 as [[] |]; [| discriminate].
    destruct (ExecuteCommand._syncPlanWithProgress shape c now tr rest) as [rest1 r] eqn:E2.
    intros [= <- ->]. constructor.
    + exact (sync_message_normal (shape := shape) c now tr m m1 E).
    + apply IH. reflexivity.
Qed.

(** On the plain objects of a loaded plan the first message with a record
    stops the synchronisation, and nothing is changed. *)
Lemma sync_plain (c : WhatsAppMessage.Checks) now tr messages :
  forall messages' r,
  ExecuteCommand._syncPlanWithProgress WhatsAppMessage.Plain c now tr messages
  = (messages', r) ->
  messages' = messages
  /\ match r with
     | Normal _ =>
         forall m, In m messages ->
           ProgressTracker.isMessageSuccessful tr (WhatsAppMessage.id m) = false
           /\ ProgressTracker.isMessageFailed tr (WhatsAppMessage.id m) = false
     | Throw e =>
         e = "message.markAsProcessing is not a function"
         /\ exists m, In m messages
              /\ (ProgressTracker.isMessageSuccessful tr (WhatsAppMessage.id m) = true
                  \/ ProgressTracker.isMessageFailed tr (WhatsAppMessage.id m) = true)
     end.
Proof.
  induction messages as [| m rest IH]; intros messages' r; simpl.
  - intros [= <- <-]. split; [reflexivity |]. intros m [].
  - unfold ExecuteCommand.sync_message. cbn [WhatsAppMessage.call].
    destruct (ProgressTracker.isMessageSuccessful tr (WhatsAppMessage.id m)) eqn:Su.
    { intros [= <- <-]. split; [reflexivity |]. split; [reflexivity |].
      exists m. split; [left; reflexivity | left; exact Su]. }
    destruct (ProgressTracker.isMessageFailed tr (WhatsAppMessage.id m)) eqn:Fa.
    { intros [= <- <-]. split; [reflexivity |]. split; [reflexivity |].
      exists m. split; [left; reflexivity | right; exact Fa]. }
    destruct (ExecuteCommand._syncPlanWithProgress WhatsAppMessage.Plain c now tr rest)
      as [rest1 r1] eqn:E.
    destruct (IH rest1 r1 eq_refl) as [-> H].
    intros [= <- <-]. split; [reflexivity |].
    destruct r1 as [[] | e].
    + intros m' [<- | Hm']; [split; assumption | apply H; exact Hm'].
    + destruct H as (-> & m' & Hm' & Hr). split; [reflexivity |].
      exists m'. split; [right; exact Hm' | exact Hr].
Qed.

(** [_initializeProgressTracking] *)
Lemma with_messages_same (p : ImportPlan.t) :
  ImportPlan.with_messages (ImportPlan.messages p) p = p.
Proof. destruct p; reflexivity. Qed.

Lemma init_facts (w : World) now planPath plan dk tr dk1 plan1 c :
  ExecuteCommand._initializeProgressTracking w now planPath plan dk
  = ((tr, dk1, plan1), c) ->
  ProgressTracker.progress_jsonl dk1 = ProgressTracker.progress_jsonl dk
  /\ plan1 = plan
  /\ (c = Normal tt ->
      ProgressTracker.isInitialized tr = true
      /\ (forall id,
           ProgressTracker.progressRecords tr !! id
           = ProgressRecord.new <$> latest_entry (ProgressTracker.progress_jsonl dk) id)
      /\ exists s,
           ProgressTracker.progressSummary tr = Some s
           /\ ProgressTracker.progress_json dk1 = Some s
           /\ match ProgressTracker.progress_json dk with
              | Some s0 =>
                  s = s0
                  /\ forall m, In m (ImportPlan.messages plan) ->
                       ProgressTracker.isMessageSuccessful tr (WhatsAppMessage.id m) = false
                       /\ ProgressTracker.isMessageFailed tr (WhatsAppMessage.id m) = false
              | None =>
                  ProgressSummary.create now planPath (ImportPlan.getMessageCount plan)
                  = Normal s
              end).
Proof.
  unfold ExecuteCommand._initializeProgressTracking.
  destruct (ProgressTracker.progress_json dk) as [s0 |] eqn:J.
  - unfold ProgressTracker.load. rewrite J.
    destruct (ProgressTracker.initialize _ _ _ _ _) as [[tr0 dk0] c0] eqn:I.
    apply initialize_facts in I. destruct I as (L & N).
    destruct c0 as [[] | e].
    + destruct (N eq_refl) as (N1 & N2 & s & N3 & N4 & N5). rewrite J in N5.
      destruct (ExecuteCommand._syncPlanWithProgress WhatsAppMessage.Plain _ _ _ _)
        as [messages r] eqn:Sy.
      apply sync_plain in Sy. destruct Sy as [-> Sy].
      rewrite with_messages_same.
      intros [= <- <- <- <-]. split; [exact L |]. split; [reflexivity |].
      destruct r as [[] | e]; [| discriminate]. intros _.
      split; [exact N1 |]. split; [exact N2 |].
      exists s. split; [exact N3 |]. split; [exact N4 |]. split; [exact N5 | exact Sy].
    + intros [= <- <- <- <-]. split; [exact L |]. split; [reflexivity | discriminate].
  - unfold ProgressTracker.create.
    destruct (ProgressTracker.initialize _ _ _ _ _) as [[tr0 dk0] c0] eqn:I.
    apply initialize_facts in I. destruct I as (L & N).
    destruct c0 as [[] | e].
    + destruct (N eq_refl) as (N1 & N2 & s & N3 & N4 & N5). rewrite J in N5.
      intros [= <- <- <- <-]. split; [exact L |]. split; [reflexivity |]. intros _.
      split; [exact N1 |]. split; [exact N2 |].
      exists s. split; [exact N3 |]. split; [exact N4 | exact N5].
    + intros [= <- <- <- <-]. split; [exact L |]. split; [reflexivity | discriminate].
Qed.

(** [executeImport] and [execute] *)
Lemma updateProgress_log now status tr dk tr' dk' c :
  ProgressTracker.updateProgress now status tr dk = ((tr', dk'), c) ->
  ProgressTracker.progress_jsonl dk' = ProgressTracker.progress_jsonl dk.
Proof.
  unfold ProgressTracker.updateProgress.
  destruct (negb _); [intros [= _ <- _]; reflexivity |].
  destruct (ProgressTracker.progressSummary tr); intros [= _ <- _]; reflexivity.
Qed.

Lemma executeImport_frame {shape} (w : World) config conn options plan st st' ms' c :
  WhatsAppImporter.executeImport shape w config conn options plan st = ((st', ms'), c) ->
  exists new_a new_d,
    WhatsAppImporter.attempts st' = (WhatsAppImporter.attempts st ++ new_a)%list
    /\ log_of st' = (log_of st ++ new_d)%list
    /\ (forall a, In a new_a ->
        In (WhatsAppImporter.job a)
           (map WhatsAppMessage.id (snd (WhatsAppImporter._getMessagesToProcess plan options))))
    /\ (forall d, In d new_d ->
        exists a, In a new_a /\ shaped (WhatsAppImporter.job a) d).
Proof.
  unfold WhatsAppImporter.executeImport.
  assert (Z0 : exists new_a new_d,
    WhatsAppImporter.attempts st = (WhatsAppImporter.attempts st ++ new_a)%list
    /\ log_of st = (log_of st ++ new_d)%list
    /\ (forall a, In a new_a ->
        In (WhatsAppImporter.job a)
           (map WhatsAppMessage.id (snd (WhatsAppImporter._getMessagesToProcess plan options))))
    /\ (forall d, In d new_d ->
        exists a, In a new_a /\ shaped (WhatsAppImporter.job a) d)).
  { exists [], []. rewrite !app_nil_r. repeat split; auto; intros ? []. }
  destruct (negb conn && negb (WhatsAppImporter.dryRun options)).
  { intros [= <- _ _]. exact Z0. }
  destruct (WhatsAppImporter._getMessagesToProcess plan options) as [plan' todo] eqn:G.
  simpl in *.
  destruct todo as [| m0 todo'].
  { intros [= <- _ _]. exact Z0. }
  unfold WhatsAppImporter._processMessages.
  destruct (WhatsAppImporter.loop shape _ _ _ _ _ _ _) as [[[st1 res1] ms1] c1] eqn:L.
  apply loop_frame in L. destruct L as (_ & new_a & new_d & A & D & J & S).
  destruct c1 as [[] | e]; simpl.
  - intros [= <- _ _]. exists new_a, new_d. auto.
  - destruct (ProgressTracker.updateProgress _ _ _ _) as [[tr2 dk2] r2] eqn:Up.
    apply updateProgress_log in Up.
    intros [= <- _ _]. exists new_a, new_d. unfold log_of in *; simpl.
    rewrite Up. auto.
Qed.

Lemma reset_id m : WhatsAppMessage.id (WhatsAppImporter.reset m) = WhatsAppMessage.id m.
Proof. unfold WhatsAppImporter.reset. destruct (negb _); reflexivity. Qed.

Lemma todo_from_plan plan options m :
  In m (snd (WhatsAppImporter._getMessagesToProcess plan options)) ->
  exists m0, In m0 (ImportPlan.messages plan)
             /\ WhatsAppMessage.id m = WhatsAppMessage.id m0
             /\ (WhatsAppImporter.resume options = true ->
                 m = m0 /\ WhatsAppMessage.status m0 = "pending").
Proof.
  unfold WhatsAppImporter._getMessagesToProcess.
  destruct (WhatsAppImporter.resume options); simpl.
  - unfold ImportPlan.getUnprocessedMessages. intros H.
    apply List.filter_In in H. destruct H as [H1 H2].
    exists m. repeat split; auto. apply String.eqb_eq. exact H2.
  - intros H. apply in_map_iff in H. destruct H as (m0 & <- & H).
    exists m0. repeat split; auto using reset_id; discriminate.
Qed.

Lemma isMessageSuccessful_latest tr log id :
  (forall i, ProgressTracker.progressRecords tr !! i
             = ProgressRecord.new <$> latest_entry log i) ->
  ProgressTracker.isMessageSuccessful tr id
  = match latest_entry log id with
    | Some d => ProgressRecord.d_status d =s "sent"
    | None => false
    end.
Proof.
  intros H. unfold ProgressTracker.isMessageSuccessful. rewrite H.
  destruct (latest_entry log id); reflexivity.
Qed.

Lemma isMessageFailed_latest tr log id :
  (forall i, ProgressTracker.progressRecords tr !! i
             = ProgressRecord.new <$> latest_entry log i) ->
  ProgressTracker.isMessageFailed tr id
  = match latest_entry log id with
    | Some d => ProgressRecord.d_status d =s "failed"
    | None => false
    end.
Proof.
  intros H. unfold ProgressTracker.isMessageFailed. rewrite H.
  destruct (latest_entry log id); reflexivity.
Qed.

Lemma Forall2_In_r {A B : Type} (R : A -> B -> Prop) (l : list A) (l' : list B) :
  Forall2 R l l' -> forall y, In y l' -> exists x, In x l /\ R x y.
Proof.
  induction 1 as [| x y l l' Hxy _ IH]; intros z; simpl.
  - intros [].
  - intros [<- | Hz].
    + exists x. auto.
    + destruct (IH z Hz) as (x0 & H0 & H1). exists x0. auto.
Qed.

(** When the ledger is loaded and a message of the plan has a record that is
    'sent' or 'failed', the command ends with code 12. *)
Lemma init_throws_on_a_record (w : World) now planPath plan dk m :
  is_Some (ProgressTracker.progress_json dk) ->
  In m (ImportPlan.messages plan) ->
  (exists d, latest_entry (ProgressTracker.progress_jsonl dk) (WhatsAppMessage.id m) = Some d
             /\ (ProgressRecord.d_status d = "sent" \/ ProgressRecord.d_status d = "failed")) ->
  exists e, snd (ExecuteCommand._initializeProgressTracking w now planPath plan dk) = Throw e.
Proof.
  intros [s0 J] Hm (d & Ld & Sd).
  destruct (ExecuteCommand._initializeProgressTracking w now planPath plan dk)
    as [[[tr dk1] plan1] c] eqn:I.
  destruct c as [[] | e]; [exfalso | exists e; reflexivity].
  apply init_facts in I. destruct I as (_ & _ & N).
  destruct (N eq_refl) as (_ & N2 & s & _ & _ & N5). rewrite J in N5.
  destruct N5 as [_ N5]. destruct (N5 m Hm) as [Su Fa].
  rewrite (isMessageSuccessful_latest _ _ _ N2), Ld in Su.
  rewrite (isMessageFailed_latest _ _ _ N2), Ld in Fa.
  destruct Sd as [Sd | Sd]; rewrite Sd in *; discriminate.
Qed.

(** The steps of [execute] behind the loading of the plan, with the test of
    the connection written out. *)
Lemma execute_loaded_eq (w : World) config now planPath options plan dk :
  ExecuteCommand.execute_loaded w config now planPath options plan dk
  = match ExecuteCommand._initializeProgressTracking w now planPath plan dk with
    | ((tr, dk1, _), Throw e) => (ExecuteCommand.boot now tr dk1, ExecuteCommand.Failure 12 e)
    | ((tr, dk1, plan1), Normal _) =>
        if negb (ExecuteCommand.dryRun options) && negb (connects w) then
          (ExecuteCommand.boot now tr dk1,
           ExecuteCommand.Failure 13
             ("WhatsApp connection failed: "
              +:+ ("Failed to connect to WhatsApp: " +:+ connect_error w)))
        else
          match ExecuteCommand._executeImport w config (negb (ExecuteCommand.dryRun options))
                  options plan1 (ExecuteCommand.boot now tr dk1) with
          | ((st, _), Throw e) => (st, ExecuteCommand.Failure 14 e)
          | ((st, _), Normal result) =>
              if WhatsAppImporter.r_status result =s "failed" then
                (st, ExecuteCommand.Failure 15
                       ("Import failed: "
                        +:+ match WhatsAppImporter.r_errors result with
                            | (_, Some e) :: _ =>
                                if e =s EmptyString then "Unknown error" else e
                            | _ => "Unknown error"
                            end))
              else (st, ExecuteCommand.Success result)
          end
    end.
Proof.
  unfold ExecuteCommand.execute_loaded, ExecuteCommand._connectToWhatsApp.
  destruct (ExecuteCommand._initializeProgressTracking w now planPath plan dk)
    as [[[tr dk1] plan1] [[] | e]]; [| reflexivity].
  destruct (ExecuteCommand.dryRun options), (connects w); reflexivity.
Qed.

Lemma execute_loaded_frame (w : World) config now planPath options plan dk :
  let run := ExecuteCommand.execute_loaded w config now planPath options plan dk in
  (exists new_d,
     ExecuteCommand.log_after run = (ProgressTracker.progress_jsonl dk ++ new_d)%list
     /\ forall d, In d new_d ->
        exists j, In j (ExecuteCommand.attempted run) /\ shaped j d)
  /\ (forall j, In j (ExecuteCommand.attempted run) ->
      In j (map WhatsAppMessage.id (ImportPlan.messages plan)))
  /\ (is_Some (ProgressTracker.progress_json dk) ->
      forall j d, In j (ExecuteCommand.attempted run) ->
      latest_entry (ProgressTracker.progress_jsonl dk) j = Some d ->
      ProgressRecord.d_status d <> "sent" /\ ProgressRecord.d_status d <> "failed").
Proof.
  intros run. subst run. rewrite execute_loaded_eq.
  unfold ExecuteCommand.log_after, ExecuteCommand.attempted.
  destruct (ExecuteCommand._initializeProgressTracking w now planPath plan dk)
    as [[[tr dk1] plan1] c] eqn:I.
  apply init_facts in I. destruct I as (L & -> & N).
  assert (Z0 : forall code msg,
    let run := (ExecuteCommand.boot now tr dk1, ExecuteCommand.Failure code msg) in
    (exists new_d,
       ProgressTracker.progress_jsonl (WhatsAppImporter.disk (fst run))
       = (ProgressTracker.progress_jsonl dk ++ new_d)%list
       /\ forall d, In d new_d ->
          exists j, In j (map WhatsAppImporter.job (WhatsAppImporter.attempts (fst run)))
                    /\ shaped j d)
    /\ (forall j, In j (map WhatsAppImporter.job (WhatsAppImporter.attempts (fst run))) ->
        In j (map WhatsAppMessage.id (ImportPlan.messages plan)))
    /\ (is_Some (ProgressTracker.progress_json dk) ->
        forall j d, In j (map WhatsAppImporter.job (WhatsAppImporter.attempts (fst run))) ->
        latest_entry (ProgressTracker.progress_jsonl dk) j = Some d ->
        ProgressRecord.d_status d <> "sent" /\ ProgressRecord.d_status d <> "failed")).
  { intros code msg. simpl. split; [| split].
    - exists []. rewrite app_nil_r. split; [exact L | intros ? []].
    - intros ? [].
    - intros ? ? ? []. }
  destruct c as [[] | e]; [| apply Z0].
  destruct (negb (ExecuteCommand.dryRun options) && negb (connects w)); [apply Z0 |].
  clear Z0.
  destruct (N eq_refl) as (N1 & N2 & s & N3 & N4 & N5). clear N.
  unfold ExecuteCommand._executeImport.
  set (importOptions := {| WhatsAppImporter.dryRun := _; WhatsAppImporter.resume := _ |}).
  set (plan2 := ImportPlan.with_messages _ plan).
  destruct (WhatsAppImporter.executeImport WhatsAppMessage.Plain _ _ _ _ _ _)
    as [[st ms] r] eqn:E.
  apply executeImport_frame in E.
  destruct E as (new_a & new_d & A & D & J & S).
  simpl in A. unfold log_of in D; simpl in D. rewrite L in D.
  assert (Ids : forall a, In a new_a ->
            exists m0, In m0 (ImportPlan.messages plan)
                       /\ WhatsAppImporter.job a = WhatsAppMessage.id m0).
  { intros a Ha. specialize (J a Ha). apply in_map_iff in J.
    destruct J as (m & Em & Hm).
    apply todo_from_plan in Hm. destruct Hm as (m1 & H1 & E1 & _).
    unfold plan2 in H1; simpl in H1. apply in_map_iff in H1.
    destruct H1 as (m0 & <- & H0). exists m0. split; [exact H0 |].
    rewrite <- Em, E1. reflexivity. }
  assert (Fin : forall ex : ExecuteCommand.Exit,
    let run := (st, ex) in
    (exists new_d,
       ProgressTracker.progress_jsonl (WhatsAppImporter.disk (fst run))
       = (ProgressTracker.progress_jsonl dk ++ new_d)%list
       /\ forall d, In d new_d ->
          exists j, In j (map WhatsAppImporter.job (WhatsAppImporter.attempts (fst run)))
                    /\ shaped j d)
    /\ (forall j, In j (map WhatsAppImporter.job (WhatsAppImporter.attempts (fst run))) ->
        In j (map WhatsAppMessage.id (ImportPlan.messages plan)))
    /\ (is_Some (ProgressTracker.progress_json dk) ->
        forall j d, In j (map WhatsAppImporter.job (WhatsAppImporter.attempts (fst run))) ->
        latest_entry (ProgressTracker.progress_jsonl dk) j = Some d ->
        ProgressRecord.d_status d <> "sent" /\ ProgressRecord.d_status d <> "failed"));
  [| destruct r as [result | e]; simpl;
     [destruct (WhatsAppImporter.r_status result =s "failed") |];
     exact (Fin (ExecuteCommand.Failure 0 EmptyString))].
  intros ex; simpl.
  split; [| split].
  - exists new_d. split; [exact D |].
    intros d Hd. destruct (S d Hd) as (a & Ha & Sh).
    exists (WhatsAppImporter.job a). split; [| exact Sh].
    rewrite A. apply in_map. exact Ha.
  - intros j Hj. rewrite A in Hj. apply in_map_iff in Hj.
    destruct Hj as (a & <- & Ha).
    destruct (Ids a Ha) as (m0 & H0 & E0).
    apply in_map_iff. exists m0. split; [congruence | exact H0].
  - intros [s0 J0] j d Hj Lat.
    rewrite A in Hj. apply in_map_iff in Hj.
    destruct Hj as (a & <- & Ha).
    destruct (Ids a Ha) as (m0 & H0 & E0).
    rewrite J0 in N5. destruct N5 as [_ N5]. destruct (N5 m0 H0) as [Su Fa].
    rewrite (isMessageSuccessful_latest _ _ _ N2) in Su.
    rewrite (isMessageFailed_latest _ _ _ N2) in Fa.
    rewrite <- E0, Lat in Su, Fa.
    split; intros Hd; rewrite Hd in *; discriminate.
Qed.

(** The steps of [execute] before the plan is handed over *)

Lemma parseSleepRange_bounds (rangeString : string) (min max : Z) :
  CLIConfig.parseSleepRange rangeString = Normal (min, max) ->
  1 <= min <= max /\ max <= 60
  /\ (digits (list_ascii_of_string (trim rangeString)) = true -> min = max).
Proof.
  intros P. unfold CLIConfig.parseSleepRange in P.
  destruct (digits (list_ascii_of_string (trim rangeString))).
  - destruct (Z.ltb_spec (parseInt (list_ascii_of_string (trim rangeString))) 1);
      [discriminate P |].
    destruct (Z.ltb_spec 60 (parseInt (list_ascii_of_string (trim rangeString))));
      [discriminate P |].
    simpl in P. injection P as <- <-. repeat split; lia.
  - destruct (split_at hyphen _) as [[first second] |]; [| discriminate P].
    destruct (digits first && digits second); [| discriminate P].
    destruct (Z.ltb_spec (parseInt first) 1); [discriminate P |].
    destruct (Z.ltb_spec 60 (parseInt second)); [discriminate P |].
    simpl in P.
    destruct (Z.ltb_spec (parseInt second) (parseInt first)); [discriminate P |].
    injection P as <- <-. split; [lia |]. split; [lia |]. intros F. discriminate F.
Qed.

Lemma merge_sleepRange (min max : Z) :
  1 <= min <= max -> max <= 60 ->
  CLIConfig.merge
    {| CLIConfig.d_sleepRange := Some (min, max);
       CLIConfig.d_whatsappTimeout := None;
       CLIConfig.d_maxRetries := None;
       CLIConfig.d_maxFileSize := None;
       CLIConfig.d_supportedMediaTypes := None;
       CLIConfig.d_logLevel := None;
       CLIConfig.d_outputFormat := None |} CLIConfig.createDefault
  = Normal (configured min max).
Proof.
  intros B1 B2.
  assert (E1 : (min <? 1) = false) by lia.
  assert (E2 : (60 <? min) = false) by lia.
  assert (E3 : (max <? 1) = false) by lia.
  assert (E4 : (60 <? max) = false) by lia.
  assert (E5 : (max <? min) = false) by lia.
  unfold CLIConfig.merge, CLIConfig.fromData, CLIConfig.validate,
    CLIConfig.schema_violations, CLIConfig._validateBusinessRules, CLIConfig.bounds.
  cbn [CLIConfig.d_sleepRange CLIConfig.d_whatsappTimeout CLIConfig.d_maxRetries
       CLIConfig.d_maxFileSize CLIConfig.d_supportedMediaTypes CLIConfig.d_logLevel
       CLIConfig.d_outputFormat default fmap option_fmap option_map fst snd].
  unfold id. cbn [fst snd].
  rewrite E1, E2, E3, E4, E5.
  reflexivity.
Qed.

Lemma configured_default : configured 3 10 = CLIConfig.createDefault.
Proof. reflexivity. Qed.

Lemma loadImportPlan_cases (planPath : string) (file : ExecuteCommand.PlanFile) :
  (exists code message,
     ExecuteCommand._loadImportPlan planPath file
     = inr (ExecuteCommand.ExecuteCommandError message code)
     /\ (code = 10 \/ code = 11))
  \/ (exists data,
        file = ExecuteCommand.Parsed data None
        /\ ImportPlan._validateBusinessRules data = Normal tt
        /\ ExecuteCommand._loadImportPlan planPath file = inl (ImportPlan.new data)).
Proof.
  unfold ExecuteCommand._loadImportPlan.
  assert (T : forall e,
    exists code message,
      (if str_includes "not found" e
       then inr (ExecuteCommand.ExecuteCommandError "Import plan file not found" 10)
       else if str_includes "validation failed" e
       then inr (ExecuteCommand.ExecuteCommandError "Invalid import plan format" 11)
       else inr (ExecuteCommand.ExecuteCommandError
                   ("Failed to load import plan: " +:+ e) 11))
      = (inr (ExecuteCommand.ExecuteCommandError message code)
         : ImportPlan.t + ExecuteCommand.Thrown)
      /\ (code = 10 \/ code = 11)).
  { intros e. destruct (str_includes "not found" e); [eexists _, _; split; [reflexivity | auto] |].
    destruct (str_includes "validation failed" e); eexists _, _; split; try reflexivity; auto. }
  destruct file as [| message | message | data [errors |]];
    cbn [ExecuteCommand.readJSON bind fst snd ImportPlan.validate].
  - left. apply T.
  - left. apply T.
  - left. apply T.
  - left. apply T.
  - unfold ImportPlan.fromData, ImportPlan.validate.
    destruct (ImportPlan._validateBusinessRules data) as [[] | e] eqn:V; simpl.
    + right. exists data. auto.
    + left. apply T.
Qed.

Lemma execute_cases (w : World) now planPath options folder dk :
  (exists code message,
     ExecuteCommand.execute w now planPath options folder dk
     = (ExecuteCommand.boot now (ProgressTracker.new planPath) dk,
        ExecuteCommand.Failure code message)
     /\ (code = 10 \/ code = 11 \/ code = 16))
  \/ (exists data min max,
        folder = ExecuteCommand.Directory (Some (ExecuteCommand.Parsed data None))
        /\ ImportPlan._validateBusinessRules data = Normal tt
        /\ ExecuteCommand._isValidWhatsAppId (ExecuteCommand.targetChat options) = true
        /\ 1 <= min <= max /\ max <= 60
        /\ ExecuteCommand.execute w now planPath options folder dk
           = ExecuteCommand.execute_loaded w (configured min max) now planPath options
               (ImportPlan.new data) dk).
Proof.
  unfold ExecuteCommand.execute.
  destruct folder as [| | [file |]]; simpl;
    try (left; eexists _, _; split; [reflexivity | auto]).
  unfold ExecuteCommand._updateConfigFromOptions, ExecuteCommand._validateRequiredOptions.
  destruct (ExecuteCommand.sleep options =s EmptyString) eqn:Sl.
  - destruct (ExecuteCommand.targetChat options =s EmptyString); simpl;
      [left; eexists _, _; split; [reflexivity | auto] |].
    destruct (ExecuteCommand._isValidWhatsAppId (ExecuteCommand.targetChat options)) eqn:Id;
      simpl; [| left; eexists _, _; split; [reflexivity | auto]].
    destruct (loadImportPlan_cases planPath file) as [(code & message & -> & C) | (data & -> & V & ->)].
    + left. exists code, message. split; [reflexivity |]. destruct C; auto.
    + right. exists data, 3, 10. rewrite configured_default.
      repeat split; auto; lia.
  - destruct (CLIConfig.parseSleepRange (ExecuteCommand.sleep options)) as [[min max] | e] eqn:P;
      simpl; [| left; eexists _, _; split; [reflexivity | auto]].
    destruct (parseSleepRange_bounds _ _ _ P) as (B1 & B2 & _).
    rewrite (merge_sleepRange min max B1 B2).
    destruct (ExecuteCommand.targetChat options =s EmptyString); simpl;
      [left; eexists _, _; split; [reflexivity | auto] |].
    destruct (ExecuteCommand._isValidWhatsAppId (ExecuteCommand.targetChat options)) eqn:Id;
      simpl; [| left; eexists _, _; split; [reflexivity | auto]].
    destruct (loadImportPlan_cases planPath file) as [(code & message & -> & C) | (data & -> & V & ->)].
    + left. exists code, message. split; [reflexivity |]. destruct C; auto.
    + right. exists data, min, max. repeat split; auto; lia.
Qed.

Lemma execute_frame (w : World) now planPath options folder dk :
  let run := ExecuteCommand.execute w now planPath options folder dk in
  (exists new_d,
     ExecuteCommand.log_after run = (ProgressTracker.progress_jsonl dk ++ new_d)%list
     /\ forall d, In d new_d ->
        exists j, In j (ExecuteCommand.attempted run) /\ shaped j d)
  /\ (forall j, In j (ExecuteCommand.attempted run) ->
      exists data,
        folder = ExecuteCommand.Directory (Some (ExecuteCommand.Parsed data None))
        /\ In j (map WhatsAppMessage.id (ImportPlan.d_messages data)))
  /\ (is_Some (ProgressTracker.progress_json dk) ->
      forall j d, In j (ExecuteCommand.attempted run) ->
      latest_entry (ProgressTracker.progress_jsonl dk) j = Some d ->
      ProgressRecord.d_status d <> "sent" /\ ProgressRecord.d_status d <> "failed").
Proof.
  intros run. subst run.
  destruct (execute_cases w now planPath options folder dk)
    as [(code & message & -> & _) | (data & min & max & -> & V & Id & B1 & B2 & ->)].
  - unfold ExecuteCommand.log_after, ExecuteCommand.attempted. simpl.
    split; [| split].
    + exists []. rewrite app_nil_r. split; [reflexivity | intros ? []].
    + intros ? [].
    + intros ? ? ? [].
  - destruct (execute_loaded_frame w (configured min max) now planPath options
                (ImportPlan.new data) dk) as (F1 & F2 & F3).
    split; [exact F1 |]. split; [| exact F3].
    intros j Hj. exists data. split; [reflexivity |]. exact (F2 j Hj).
Qed.

Lemma psm_raised {shape} (c : WhatsAppMessage.Checks) tk options now m scope e :
  WhatsAppImporter.dryRun options = false ->
  outcome tk = Raised scope e ->
  reported (snd (WhatsAppImporter._processSingleMessage shape c tk options now m)) = false.
Proof.
  intros D O.
  destruct (WhatsAppImporter._processSingleMessage shape c tk options now m) as [[m1 now1] r] eqn:P.
  apply psm_facts in P. destruct P as (_ & _ & _ & P).
  destruct r as [mr |]; simpl; [| reflexivity].
  destruct P as (_ & Hs & _).
  destruct (WhatsAppImporter.success mr); [| reflexivity].
  destruct (Hs eq_refl) as [_ [H | [wid H]]]; congruence.
Qed.

Lemma map_eq_pointwise {A B C : Type} (f : A -> C) (g : B -> C) (l1 : list A) :
  forall l2 : list B,
  length l1 = length l2 ->
  (forall k y, l2 !! k = Some y -> exists x, l1 !! k = Some x /\ f x = g y) ->
  map f l1 = map g l2.
Proof.
  induction l1 as [| x l1 IH]; intros [| y l2] Len H; simpl in *; try discriminate.
  - reflexivity.
  - destruct (H 0%nat y eq_refl) as (x0 & [= <-] & E). rewrite E. f_equal.
    apply IH; [lia |]. intros k z Hz. apply (H (S k) z Hz).
Qed.

(** A live run over messages that are instances *)

Lemma psm_live (c : WhatsAppMessage.Checks) tk options now m :
  WhatsAppImporter.dryRun options = false ->
  lenient c -> deliverable now m ->
  match outcome tk with
  | Delivered wid =>
      exists m',
        WhatsAppImporter._processSingleMessage WhatsAppMessage.Instance c tk options now m
        = ((m', now + Z.of_N (send_lag tk)),
           Normal {| WhatsAppImporter.success := true;
                     WhatsAppImporter.skipped := false;
                     WhatsAppImporter.error := None;
                     WhatsAppImporter.whatsappMessageId := Some wid |})
        /\ WhatsAppMessage.id m' = WhatsAppMessage.id m
        /\ WhatsAppMessage.telegramId m' = WhatsAppMessage.telegramId m
        /\ WhatsAppMessage.status m' = "sent"
  | Raised _ e =>
      e <> EmptyString ->
      exists m',
        WhatsAppImporter._processSingleMessage WhatsAppMessage.Instance c tk options now m
        = ((m', now + Z.of_N (send_lag tk)),
           Normal {| WhatsAppImporter.success := false;
                     WhatsAppImporter.skipped := false;
                     WhatsAppImporter.error := Some e;
                     WhatsAppImporter.whatsappMessageId := None |})
        /\ WhatsAppMessage.id m' = WhatsAppMessage.id m
        /\ WhatsAppMessage.telegramId m' = WhatsAppMessage.telegramId m
        /\ WhatsAppMessage.status m' = "failed"
        /\ WhatsAppMessage.errorMessage m' = Some e
  end.
Proof.
  intros D [Sc Ex] (St & Sa & Ts & Kt).
  unfold WhatsAppImporter._processSingleMessage. rewrite D.
  assert (T1 : (now <? WhatsAppMessage.timestamp m) = false) by lia.
  assert (T2 : (now + Z.of_N (send_lag tk) <? WhatsAppMessage.timestamp m) = false)
    by (apply Z.ltb_ge; lia).
  clear Ts. unfold known_type in Kt.
  destruct m as [id tid ty co mp mt ts se ch qm st em sa]. simpl in *. subst st sa.
  unfold WhatsAppMessage.markAsProcessing, WhatsAppMessage.updateStatus,
    WhatsAppMessage.canTransitionTo, WhatsAppMessage.validate,
    WhatsAppMessage._validateBusinessRules.
  simpl. rewrite Sc, Ex. simpl.
  rewrite andb_false_r, T1. simpl.
  unfold WhatsAppImporter.send. simpl.
  rewrite Kt.
  destruct (outcome tk) as [wid | scope e].
  - unfold WhatsAppMessage.markAsSent, WhatsAppMessage.updateStatus,
      WhatsAppMessage.canTransitionTo, WhatsAppMessage.validate,
      WhatsAppMessage._validateBusinessRules.
    simpl. rewrite Sc, Ex. simpl.
    rewrite andb_false_r, T2.
    rewrite andb_false_r. simpl.
    eexists. split; [reflexivity |]. simpl. auto.
  - intros Ne.
    assert (Te : (e =s EmptyString) = false) by (apply String.eqb_neq; exact Ne).
    unfold WhatsAppImporter.failed_message, WhatsAppMessage.call,
      WhatsAppMessage.markAsFailed, WhatsAppMessage.updateStatus,
      WhatsAppMessage.canTransitionTo, WhatsAppMessage.validate,
      WhatsAppMessage._validateBusinessRules.
    simpl. rewrite Te. simpl. rewrite Sc, Ex. simpl.
    rewrite ?Te. simpl.
    rewrite ?andb_false_r, ?T2. simpl.
    eexists. split; [reflexivity |]. simpl. auto.
Qed.

Lemma iteration_live (w : World) config options tk m st res s :
  ready st -> summary_of st = Some s ->
  uuid w (WhatsAppMessage.id m) = true ->
  WhatsAppImporter.dryRun options = false ->
  lenient (checks w) -> deliverable (WhatsAppImporter.clock st) m ->
  (forall scope e, outcome tk = Raised scope e -> e <> EmptyString) ->
  exists st' res' m' a d t,
    WhatsAppImporter.iteration WhatsAppMessage.Instance w config options tk m st res
    = ((st', res', m'), Normal tt)
    /\ ready st'
    /\ WhatsAppImporter.clock st <= WhatsAppImporter.clock st'
    /\ WhatsAppImporter.attempts st' = (WhatsAppImporter.attempts st ++ [a])%list
    /\ log_of st' = (log_of st ++ [d])%list
    /\ handled tk m m' a d
    /\ summary_of st' = Some (ProgressSummary.updateFromRecord t (ProgressRecord.new d) s)
    /\ ProgressTracker.progress_json (WhatsAppImporter.disk st') = summary_of st'
    /\ WhatsAppImporter.r_status res' = WhatsAppImporter.r_status res
    /\ WhatsAppImporter.r_totalMessages res' = WhatsAppImporter.r_totalMessages res
    /\ WhatsAppImporter.r_processedMessages res'
       = WhatsAppImporter.r_processedMessages res + 1
    /\ WhatsAppImporter.r_failedMessages res'
       = WhatsAppImporter.r_failedMessages res
         + (if WhatsAppImporter.delivered a then 0 else 1).
Proof.
  intros R S U D Le (St & Sa & Ts & Kt) Ne. pose proof R as (I & Q & C).
  unfold summary_of in S.
  unfold WhatsAppImporter.iteration.
  pose proof (wait_lower config tk st) as W.
  set (called := WhatsAppImporter._waitForRateLimit config tk st) in *.
  assert (Dv : deliverable called m) by (unfold deliverable; repeat split; auto; lia).
  pose proof (psm_live (checks w) tk options called m D Le Dv) as P.
  unfold handled.
  destruct (outcome tk) as [wid | scope e] eqn:O.
  - destruct P as (m1 & -> & I1 & I2 & S1).
    unfold WhatsAppImporter.record_result.
    cbn [WhatsAppImporter.success WhatsAppImporter.error WhatsAppImporter.whatsappMessageId
         WhatsAppImporter.clock WhatsAppImporter.progressTracker WhatsAppImporter.disk].
    change (or_null None) with (@None string).
    rewrite create_ok; [| congruence | lia | left; auto].
    erewrite recordProgress_ok; [| exact I | exact S |].
    2:{ erewrite toJSON_new by reflexivity. apply record_validate_ok; [congruence | lia | left; auto]. }
    eexists _, _, _, _, _, _. split; [reflexivity |].
    unfold ready, log_of, summary_of. simpl.
    erewrite toJSON_new by reflexivity. 
    repeat split; auto; try lia; eauto; simpl; lia.
  - specialize (P (Ne scope e eq_refl)).
    destruct P as (m1 & -> & I1 & I2 & S1 & E1).
    assert (T : truthy (Some e) = true).
    { simpl. destruct (String.eqb_spec e EmptyString) as [Z | _]; [| reflexivity].
      destruct (Ne scope e eq_refl Z). }
    assert (T' : or_null (Some e) = Some e).
    { unfold or_null. rewrite T. reflexivity. }
    unfold WhatsAppImporter.record_result.
    cbn [WhatsAppImporter.success WhatsAppImporter.error WhatsAppImporter.whatsappMessageId
         WhatsAppImporter.clock WhatsAppImporter.progressTracker WhatsAppImporter.disk].
    rewrite T'. change (or_null None) with (@None string).
    rewrite create_ok; [| congruence | lia | right; auto].
    erewrite recordProgress_ok; [| exact I | exact S |].
    2:{ erewrite toJSON_new by reflexivity. apply record_validate_ok; [congruence | lia | right; auto]. }
    eexists _, _, _, _, _, _. split; [reflexivity |].
    unfold ready, log_of, summary_of. simpl.
    erewrite toJSON_new by reflexivity.
    repeat split; auto; try lia; eauto; simpl; lia.
Qed.

Lemma updateFromRecord_completed (t : Z) (record : ProgressRecord.t) (s : ProgressSummary.t) :
  let s' := ProgressSummary.updateFromRecord t record s in
  ProgressSummary.totalMessages s' <= ProgressSummary.processedMessages s' ->
  ProgressSummary.status s' = "completed".
Proof.
  unfold ProgressSummary.updateFromRecord.
  match goal with |- context [?a <=? ?b] => destruct (Z.leb_spec a b) as [H | H] end.
  - intros _. reflexivity.
  - destruct (_ && _); simpl; intros H'; lia.
Qed.

Lemma deliverable_later (now now' : Z) (m : WhatsAppMessage.t) :
  now <= now' -> deliverable now m -> deliverable now' m.
Proof. intros H (A & B & C & D). unfold deliverable. repeat split; auto; lia. Qed.

Lemma handled_status (tk : Tick) m m' a d :
  handled tk m m' a d ->
  ProgressRecord.d_status d = (if WhatsAppImporter.delivered a then "sent" else "failed").
Proof.
  intros (_ & _ & _ & H). destruct (outcome tk).
  - destruct H as (-> & _ & ->). reflexivity.
  - destruct H as (-> & _ & _ & -> & _). reflexivity.
Qed.

Lemma loop_live (w : World) config options messages :
  WhatsAppImporter.dryRun options = false -> lenient (checks w) ->
  forall i st res s,
  ready st -> summary_of st = Some s ->
  (forall m, In m messages ->
     uuid w (WhatsAppMessage.id m) = true /\ deliverable (WhatsAppImporter.clock st) m) ->
  (forall k, (i <= k < i + length messages)%nat ->
     pause_seen (tick w k) = false
     /\ forall scope e, outcome (tick w k) = Raised scope e -> e <> EmptyString) ->
  exists st' res' ms' new_a new_d s',
    WhatsAppImporter.loop WhatsAppMessage.Instance w config options i messages st res
    = ((st', res', ms'), Normal tt)
    /\ ready st'
    /\ WhatsAppImporter.clock st <= WhatsAppImporter.clock st'
    /\ WhatsAppImporter.attempts st' = (WhatsAppImporter.attempts st ++ new_a)%list
    /\ log_of st' = (log_of st ++ new_d)%list
    /\ length new_a = length messages
    /\ length new_d = length messages
    /\ (forall k m, messages !! k = Some m ->
        exists m' a d, ms' !! k = Some m' /\ new_a !! k = Some a /\ new_d !! k = Some d
                       /\ handled (tick w (i + k)) m m' a d)
    /\ summary_of st' = Some s'
    /\ ProgressSummary.totalMessages s' = ProgressSummary.totalMessages s
    /\ ProgressSummary.failedMessages s'
       = ProgressSummary.failedMessages s + failures new_a
    /\ (messages <> [] ->
        ProgressTracker.progress_json (WhatsAppImporter.disk st') = Some s'
        /\ (ProgressSummary.totalMessages s' <= ProgressSummary.processedMessages s' ->
            ProgressSummary.status s' = "completed"))
    /\ WhatsAppImporter.r_status res' = WhatsAppImporter.r_status res
    /\ WhatsAppImporter.r_totalMessages res' = WhatsAppImporter.r_totalMessages res
    /\ WhatsAppImporter.r_processedMessages res'
       = WhatsAppImporter.r_processedMessages res + Z.of_nat (length messages)
    /\ WhatsAppImporter.r_failedMessages res'
       = WhatsAppImporter.r_failedMessages res + failures new_a.
Proof.
  intros D Le.
  induction messages as [| m rest IH]; intros i st res s R Sm U NP.
  - exists st, res, [], [], [], s. simpl.
    unfold failures; simpl. rewrite !app_nil_r.
    split; [reflexivity |]. split; [exact R |].
    repeat split; auto; try lia.
    + intros k m H. rewrite lookup_nil in H. discriminate.
    + congruence.
    + congruence.
  - simpl. destruct (NP i) as [NPi NEi]; [simpl; lia |]. rewrite NPi.
    destruct (U m (or_introl eq_refl)) as [Um Dm].
    destruct (iteration_live w config options (tick w i) m st res s R Sm Um D Le Dm NEi)
      as (st1 & res1 & m1 & a & d & t & E & R1 & C1 & A1 & L1 & H1 & SM1 & PJ1
          & ST1 & TT1 & PR1 & FA1).
    rewrite E.
    destruct (IH (S i) st1 res1 _ R1 SM1) as
      (st2 & res2 & ms2 & na & nd & s2 & E2 & R2 & C2 & A2 & L2 & LA & LD & PK
       & SM2 & TT & FF & PP & ST2 & TT2 & PR2 & FA2).
    { intros m' Hm'. destruct (U m' (or_intror Hm')) as [U' D'].
      split; [exact U' |]. eapply deliverable_later; eauto. }
    { intros k Hk. apply NP. simpl. lia. }
    rewrite E2.
    exists st2, res2, (m1 :: ms2), (a :: na), (d :: nd), s2.
    destruct (updateFromRecord_counts t d s (WhatsAppImporter.delivered a)
                (handled_status _ _ _ _ _ H1)) as (U1 & U2 & U3 & U4).
    assert (FU : failures (a :: na)
                 = (if WhatsAppImporter.delivered a then 0 else 1) + failures na).
    { unfold failures. simpl. destruct (WhatsAppImporter.delivered a); simpl; lia. }
    split; [reflexivity |].
    split; [exact R2 |].
    split; [lia |].
    split; [rewrite A2, A1, <- app_assoc; reflexivity |].
    split; [rewrite L2, L1, <- app_assoc; reflexivity |].
    split; [simpl; congruence |].
    split; [simpl; congruence |].
    split.
    { intros [| k] m' Hk; simpl in Hk.
      - injection Hk as <-. exists m1, a, d. rewrite Nat.add_0_r. auto.
      - destruct (PK k m' Hk) as (m'' & a' & d' & Hm' & Ha' & Hd' & HH).
        exists m'', a', d'. replace (i + S k)%nat with (S i + k)%nat by lia. auto. }
    split; [exact SM2 |].
    split; [congruence |].
    split; [rewrite FF, U3, FU; lia |].
    split.
    { intros _. destruct rest as [| m' rest'].
      - simpl in E2. injection E2 as <- _ _. rewrite SM1 in SM2. injection SM2 as <-.
        split; [rewrite PJ1; exact SM1 |].
        apply updateFromRecord_completed.
      - apply PP. discriminate. }
    split; [congruence |].
    split; [congruence |].
    split; [rewrite PR2, PR1; simpl length; lia |].
    rewrite FA2, FA1, FU. lia.
Qed.

Lemma failures_pos (l : list WhatsAppImporter.Attempt) (a : WhatsAppImporter.Attempt) :
  In a l -> WhatsAppImporter.delivered a = false -> 0 < failures l.
Proof.
  unfold failures. induction l as [| b l IH]; simpl; [intros [] |].
  intros [-> | H] D.
  - rewrite D. simpl. lia.
  - specialize (IH H D). destruct (WhatsAppImporter.delivered b); simpl; lia.
Qed.

(** C3, amended. A connection-scoped error is not fatal.  For a live run of
    [_processMessages] over messages that are ready to be sent (instances
    that are pending, dated in the past and of a known type, under
    validators that accept them), with a ledger that is ready and no pause:
    whenever the channel raises an error with a message while a job is sent,
    whatever its scope, the job is marked 'failed' with that message, a
    'failed' line with the message is appended to the log for it, and the
    loop goes on.  Every job is attempted, in the order of the list; the call
    returns a result and throws nothing; the result counts one failure per
    send that raised and is 'completed_with_errors' if a send raised,
    'completed' otherwise; the summary counts the same failures, and its
    status is 'completed' once as many jobs are processed as the plan has. *)
Theorem channel_errors_are_recorded_and_skipped (w : World) (config : CLIConfig.t)
    (options : WhatsAppImporter.Options) (messages : list WhatsAppMessage.t)
    (st : WhatsAppImporter.State) :
  ready st ->
  WhatsAppImporter.dryRun options = false ->
  lenient (checks w) ->
  (forall m, In m messages ->
     uuid w (WhatsAppMessage.id m) = true /\ deliverable (WhatsAppImporter.clock st) m) ->
  (forall k, (k < length messages)%nat -> pause_seen (tick w k) = false) ->
  (forall k scope e, (k < length messages)%nat ->
     outcome (tick w k) = Raised scope e -> e <> EmptyString) ->
  exists st' ms' result,
    WhatsAppImporter._processMessages WhatsAppMessage.Instance w config options messages st
    = ((st', ms'), Normal result)
    /\ length (new_attempts st st') = length messages
    /\ (forall k m, messages !! k = Some m ->
        exists m' a d,
          ms' !! k = Some m'
          /\ new_attempts st st' !! k = Some a
          /\ new_entries st st' !! k = Some d
          /\ handled (tick w k) m m' a d)
    /\ WhatsAppImporter.r_failedMessages result = failures (new_attempts st st')
    /\ WhatsAppImporter.r_status result
       = (if WhatsAppImporter.r_failedMessages result =? 0
          then "completed" else "completed_with_errors")
    /\ (forall k scope e, (k < length messages)%nat ->
        outcome (tick w k) = Raised scope e ->
        WhatsAppImporter.r_status result = "completed_with_errors")
    /\ exists s s',
         summary_of st = Some s /\ summary_of st' = Some s'
         /\ ProgressSummary.failedMessages s'
            = ProgressSummary.failedMessages s + failures (new_attempts st st')
         /\ (messages <> [] ->
             ProgressSummary.totalMessages s' <= ProgressSummary.processedMessages s' ->
             ProgressSummary.status s' = "completed").
Proof.
  intros R D Le U NP NE. pose proof R as (_ & [s Sm] & _).
  unfold WhatsAppImporter._processMessages.
  set (res0 := {| WhatsAppImporter.r_status := "running" |}).
  destruct (loop_live w config options messages D Le 0%nat st res0 s R Sm U)
    as (st' & res' & ms' & new_a & new_d & s' & E & R' & C' & A & L & LA & LD & PK
        & SM & TT & FF & PP & ST & TM & PR & FA).
  { intros k Hk. split; [apply NP; lia |]. intros scope e. apply NE. lia. }
  rewrite E. simpl.
  eexists st', ms', _. split; [reflexivity |].
  assert (NA : new_attempts st st' = new_a).
  { unfold new_attempts. rewrite A. apply drop_app_length. }
  assert (ND : new_entries st st' = new_d).
  { unfold new_entries. fold (log_of st) (log_of st'). rewrite L. apply drop_app_length. }
  rewrite NA, ND.
  assert (PT : (WhatsAppImporter.r_processedMessages res'
                =? WhatsAppImporter.r_totalMessages res') = true).
  { rewrite PR, TM. simpl. apply Z.eqb_eq. lia. }
  rewrite PT.
  split; [exact LA |]. split; [exact PK |].
  split; [simpl; rewrite FA; simpl; lia |].
  split; [reflexivity |].
  split.
  { intros k scope e Hk O.
    apply lookup_lt_is_Some in Hk. destruct Hk as [m Hm].
    destruct (PK k m Hm) as (m' & a & d & _ & Ha & _ & (_ & _ & _ & H)).
    simpl in H. rewrite O in H. destruct H as (Da & _).
    assert (Pos : 0 < failures new_a).
    { apply (failures_pos new_a a); [| exact Da].
      apply list_elem_of_In. eapply list_elem_of_lookup_2. exact Ha. }
    simpl. rewrite FA. simpl.
    destruct (Z.eqb_spec (0 + failures new_a) 0); [lia | reflexivity]. }
  exists s, s'. split; [exact Sm |]. split; [exact SM |]. split; [exact FF |].
  intros Hne. apply (proj2 (PP Hne)).
Qed.

Lemma handed_over_ready : ready handed_over.
Proof.
  unfold ready. split; [reflexivity |]. split; [eexists; reflexivity |].
  vm_compute. discriminate.
Qed.

Lemma channel_errors_are_recorded_and_skipped_witness :
  outcome (tick disconnected_once 0)
  = Raised ConnectionScoped "Session closed. Most likely the page has been closed."
  /\ exists st' ms' result,
       WhatsAppImporter._processMessages WhatsAppMessage.Instance disconnected_once
         CLIConfig.createDefault sending (ImportPlan.messages (plan_of 2)) handed_over
       = ((st', ms'), Normal result)
       /\ length (new_attempts handed_over st') = 2%nat
       /\ (forall k m, ImportPlan.messages (plan_of 2) !! k = Some m ->
           exists m' a d,
             ms' !! k = Some m'
             /\ new_attempts handed_over st' !! k = Some a
             /\ new_entries handed_over st' !! k = Some d
             /\ handled (tick disconnected_once k) m m' a d)
       /\ WhatsAppImporter.r_failedMessages result = failures (new_attempts handed_over st')
       /\ WhatsAppImporter.r_status result = "completed_with_errors".
Proof.
  split; [reflexivity |].
  destruct (channel_errors_are_recorded_and_skipped disconnected_once CLIConfig.createDefault
              sending (ImportPlan.messages (plan_of 2)) handed_over)
    as (st' & ms' & result & E & H1 & H2 & H3 & H4 & H5 & _).
  - exact handed_over_ready.
  - reflexivity.
  - split; reflexivity.
  - intros m [<- | [<- | []]]; (split; [reflexivity |]);
      unfold deliverable, known_type; repeat split; vm_compute; congruence.
  - intros [| [| k]] Hk; reflexivity.
  - intros [| [| k]] scope e Hk O.
    + simpl in O. injection O as _ <-. discriminate.
    + simpl in O. discriminate O.
    + simpl in Hk. lia.
  - exists st', ms', result. split; [exact E |]. split; [exact H1 |].
    split; [exact H2 |]. split; [exact H3 |].
    apply (H5 0%nat ConnectionScoped
             "Session closed. Most likely the page has been closed."); [simpl; lia | reflexivity].
Defined.

(** C3 as stated fails: [executeImport], connected, is given a plan of two
    messages, and the channel raises a connection-scoped error on the first
    send.  The second job is attempted all the same, the first is recorded as
    a 'failed' line, the call returns 'completed_with_errors' and throws
    nothing, and the summary ends 'completed', not 'failed'. *)
Lemma connection_error_does_not_stop_the_run :
  let run := WhatsAppImporter.executeImport WhatsAppMessage.Instance disconnected_once
               CLIConfig.createDefault true sending (plan_of 2) handed_over in
  outcome (tick disconnected_once 0)
  = Raised ConnectionScoped "Session closed. Most likely the page has been closed."
  /\ map WhatsAppImporter.job (WhatsAppImporter.attempts (fst (fst run)))
     = [job_id 1; job_id 2]
  /\ map (fun d => (ProgressRecord.d_messageId d, ProgressRecord.d_status d))
         (log_of (fst (fst run)))
     = [(job_id 1, "failed"); (job_id 2, "sent")]
  /\ (exists result, snd run = Normal result
                     /\ WhatsAppImporter.r_status result = "completed_with_errors")
  /\ ProgressSummary.status <$> summary_of (fst (fst run)) = Some "completed".
Proof.
  vm_compute. repeat split. eexists. split; reflexivity.
Qed.

(** C8. Pacing floor: with [sleepRange.min <= sleepRange.max], any two
    attempts of a run (hence any two consecutive successful ones) are at
    least [minDelay] apart on the clock; before each attempt
    [_waitForRateLimit] lets at least
    [max(0, minDelay - elapsed since lastMessageTime)] and then a random
    delay pass, the random delay lies in [[minDelay, maxDelay]], an
    iteration whose attempt did not report success leaves the rate limiter,
    and so [lastMessageTime], untouched, and, with a ledger that is ready
    and a job id that is well formed, an iteration whose attempt reported
    success sets [lastMessageTime] to the time of its [updateRateLimit],
    which is not before the attempt, and counts the message. *)
Theorem pacing_floor {shape} (w : World) (config : CLIConfig.t)
    (options : WhatsAppImporter.Options) (messages : list WhatsAppMessage.t)
    (st : WhatsAppImporter.State) :
  CLIConfig.sleepRange_min config <= CLIConfig.sleepRange_max config ->
  let minDelay := CLIConfig.sleepRange_min config * 1000 in
  let out := WhatsAppImporter._processMessages shape w config options messages st in
  (forall (j k : nat) a b,
     new_attempts st (fst (fst out)) !! j = Some a ->
     new_attempts st (fst (fst out)) !! k = Some b ->
     (j < k)%nat ->
     WhatsAppImporter.at_ms a + minDelay <= WhatsAppImporter.at_ms b)
  /\ (forall tk st0,
        WhatsAppImporter.clock st0
        + Z.max 0 (minDelay
                   - (WhatsAppImporter.clock st0
                      - RuntimeState.lastMessageTime (WhatsAppImporter.runtimeState st0)))
        + minDelay
        <= WhatsAppImporter._waitForRateLimit config tk st0)
  /\ (forall r, minDelay <= CLIConfig.getRandomSleepDuration r config * 1000
                <= CLIConfig.sleepRange_max config * 1000)
  /\ (forall tk m st0 res st1 res1 m1 c a,
        WhatsAppImporter.iteration shape w config options tk m st0 res = ((st1, res1, m1), c) ->
        last (WhatsAppImporter.attempts st1) = Some a ->
        WhatsAppImporter.delivered a = false ->
        WhatsAppImporter.runtimeState st1 = WhatsAppImporter.runtimeState st0)
  /\ (forall tk m st0 res,
        ready st0 -> uuid w (WhatsAppMessage.id m) = true ->
        exists st1 res1 m1 a,
          WhatsAppImporter.iteration shape w config options tk m st0 res
          = ((st1, res1, m1), Normal tt)
          /\ last (WhatsAppImporter.attempts st1) = Some a
          /\ WhatsAppImporter.at_ms a = WhatsAppImporter._waitForRateLimit config tk st0
          /\ (WhatsAppImporter.delivered a = true ->
              WhatsAppImporter.runtimeState st1
              = RuntimeState.updateRateLimit (WhatsAppImporter.clock st1)
                  (WhatsAppImporter.runtimeState st0)
              /\ RuntimeState.lastMessageTime (WhatsAppImporter.runtimeState st1)
                 = WhatsAppImporter.clock st1
              /\ RuntimeState.messageCount (WhatsAppImporter.runtimeState st1)
                 = RuntimeState.messageCount (WhatsAppImporter.runtimeState st0) + 1
              /\ WhatsAppImporter.at_ms a <= WhatsAppImporter.clock st1)).
Proof.
  intros Hc minDelay out. split; [| split; [| split; [| split]]].
  - subst out. unfold WhatsAppImporter._processMessages.
    destruct (WhatsAppImporter.loop shape _ _ _ _ _ _ _) as [[[st1 res1] ms1] c1] eqn:L.
    apply (loop_paced w config options messages Hc) in L.
    destruct L as (new_a & A & _ & P). simpl.
    assert (NA : new_attempts st st1 = new_a).
    { unfold new_attempts. rewrite A. apply drop_app_length. }
    rewrite NA. intros j k a b Ha Hb Hjk. eapply P; eauto.
  - intros tk st0. apply wait_floor. exact Hc.
  - intros r. pose proof (random_in_range r config Hc). subst minDelay. lia.
  - intros tk m st0 res st1 res1 m1 c a E La Da.
    apply iteration_frame in E. destruct E as (a' & A & _ & _ & _ & RS & _).
    rewrite A, last_snoc in La. injection La as ->. auto.
  - intros tk m st0 res R U. pose proof R as (_ & [s Sm] & _).
    destruct (iteration_ok (shape := shape) w config options tk m st0 res s R Sm U)
      as (st1 & res1 & m1 & a & d & E & _ & _ & C1 & A1 & _ & T1 & _ & RS1 & _).
    exists st1, res1, m1, a. split; [exact E |].
    split; [rewrite A1; apply last_snoc |]. split; [exact T1 |].
    intros Da. rewrite Da in RS1. rewrite RS1.
    split; [reflexivity |]. split; [reflexivity |]. split; [reflexivity | exact C1].
Qed.

Lemma summary_validate_reconciled s :
  ProgressSummary.validate s = Normal tt -> reconciled s.
Proof.
  unfold ProgressSummary.validate, ProgressSummary._validateBusinessRules, reconciled.
  destruct (ProgressSummary.schema_violations s); [| discriminate].
  destruct (Z.eqb_spec (ProgressSummary.processedMessages s)
              (ProgressSummary.successfulMessages s + ProgressSummary.failedMessages s));
    simpl; [auto | discriminate].
Qed.

Lemma create_summary_reconciled now planPath total s :
  ProgressSummary.create now planPath total = Normal s -> reconciled s.
Proof.
  unfold ProgressSummary.create, ProgressSummary.fromData.
  destruct (ProgressSummary.validate _) as [[] |] eqn:V; simpl; [| discriminate].
  intros [= <-]. apply summary_validate_reconciled. exact V.
Qed.

Lemma initialize_reconciled uuid now total planPath dk tr' dk' :
  ProgressTracker.initialize uuid now total (ProgressTracker.new planPath) dk
  = ((tr', dk'), Normal tt) ->
  exists s, ProgressTracker.progressSummary tr' = Some s /\ reconciled s.
Proof.
  intros I. pose proof I as I'. apply initialize_facts in I'.
  destruct I' as (_ & N). destruct (N eq_refl) as (_ & _ & s & S1 & _ & S3).
  exists s. split; [exact S1 |].
  destruct (ProgressTracker.progress_json dk) as [s0 |] eqn:J.
  - subst s0. unfold ProgressTracker.initialize in I. rewrite J in I.
    unfold ProgressSummary.fromData in I.
    destruct (ProgressSummary.validate s) as [[] |] eqn:V; simpl in I.
    + apply summary_validate_reconciled. exact V.
    + discriminate.
  - eapply create_summary_reconciled; eauto.
Qed.

Lemma record_validate_status uuid now data :
  ProgressRecord.validate uuid now data = Normal tt ->
  ProgressRecord.d_status data = "sent" \/ ProgressRecord.d_status data = "failed".
Proof.
  unfold ProgressRecord.validate, ProgressRecord.schema_violations.
  destruct (uuid _); [| discriminate]. simpl.
  destruct (String.eqb_spec (ProgressRecord.d_status data) "sent"); [auto |].
  destruct (String.eqb_spec (ProgressRecord.d_status data) "failed"); [auto |].
  discriminate.
Qed.

Lemma recordProgress_step uuid now record tr dk tr' dk' r s :
  ProgressTracker.recordProgress uuid now record tr dk = ((tr', dk'), Normal r) ->
  ProgressTracker.progressSummary tr = Some s ->
  exists s',
    ProgressTracker.progressSummary tr' = Some s'
    /\ ((ProgressSummary.successfulMessages s' = ProgressSummary.successfulMessages s + 1
         /\ ProgressSummary.failedMessages s' = ProgressSummary.failedMessages s)
        \/ (ProgressSummary.successfulMessages s' = ProgressSummary.successfulMessages s
            /\ ProgressSummary.failedMessages s' = ProgressSummary.failedMessages s + 1))
    /\ reconciled s'.
Proof.
  unfold ProgressTracker.recordProgress.
  destruct (negb _); [discriminate |].
  destruct (ProgressRecord.validate _ _ _) as [[] |] eqn:V; [| discriminate].
  apply record_validate_status in V. simpl in V.
  intros H S. simpl in H. rewrite S in H. injection H as <- _ _.
  eexists. split; [reflexivity |].
  unfold ProgressSummary.updateFromRecord, reconciled.
  destruct V as [-> | ->]; simpl;
    repeat match goal with |- context [if ?c then _ else _] => destruct c end;
    simpl; split; auto; lia.
Qed.

Lemma recordProgress_reconciled uuid now record tr dk tr' dk' c :
  ProgressTracker.recordProgress uuid now record tr dk = ((tr', dk'), c) ->
  (exists s, ProgressTracker.progressSummary tr = Some s /\ reconciled s) ->
  exists s', ProgressTracker.progressSummary tr' = Some s' /\ reconciled s'.
Proof.
  intros H (s & S & R). destruct c as [r | e].
  - destruct (recordProgress_step _ _ _ _ _ _ _ _ _ H S) as (s' & S' & _ & R'). eauto.
  - unfold ProgressTracker.recordProgress in H.
    destruct (negb _); [injection H as <- _ _; eauto |].
    destruct (ProgressRecord.validate _ _ _); [| injection H as <- _ _; eauto].
    simpl in H. rewrite S in H. discriminate.
Qed.

(** C5. Status reconciliation invariant: after every sequence of
    [recordProgress] calls on the tracker that [ProgressTracker.create]
    returned, the summary satisfies
    [processedMessages = successfulMessages + failedMessages]; and every
    [recordProgress] that returns adds one to exactly one of the two counters
    and sets [processedMessages] to their sum. *)
Theorem status_reconciliation (uuid : string -> bool) (now total : Z) (planPath : string)
    (dk0 : ProgressTracker.Disk) (tr : ProgressTracker.t) (dk : ProgressTracker.Disk) :
  ProgressTracker.create uuid now planPath total dk0 = ((tr, dk), Normal tt) ->
  (forall calls,
     exists s, ProgressTracker.progressSummary (fst (record_all uuid calls tr dk)) = Some s
               /\ reconciled s)
  /\ (forall t record tr1 dk1 tr2 dk2 r s,
        ProgressTracker.progressSummary tr1 = Some s ->
        ProgressTracker.recordProgress uuid t record tr1 dk1 = ((tr2, dk2), Normal r) ->
        exists s',
          ProgressTracker.progressSummary tr2 = Some s'
          /\ ((ProgressSummary.successfulMessages s' = ProgressSummary.successfulMessages s + 1
               /\ ProgressSummary.failedMessages s' = ProgressSummary.failedMessages s)
              \/ (ProgressSummary.successfulMessages s' = ProgressSummary.successfulMessages s
                  /\ ProgressSummary.failedMessages s' = ProgressSummary.failedMessages s + 1))
          /\ ProgressSummary.processedMessages s'
             = ProgressSummary.successfulMessages s' + ProgressSummary.failedMessages s').
Proof.
  intros C. split.
  - apply initialize_reconciled in C. revert tr dk C.
    intros tr dk C calls. revert tr dk C.
    induction calls as [| [t record] rest IH]; intros tr dk C; simpl.
    + exact C.
    + destruct (ProgressTracker.recordProgress uuid t record tr dk) as [[tr1 dk1] c] eqn:E.
      apply IH. eapply recordProgress_reconciled; eauto.
  - intros t record tr1 dk1 tr2 dk2 r s S E.
    eapply recordProgress_step; eauto.
Qed.

Lemma status_reconciliation_witness :
  exists s,
    ProgressTracker.progressSummary
      (fst (record_all (fun _ => true)
              [(started + 1000,
                ProgressRecord.new (created_data (started + 1000) (job_id 1) 1
                                      "failed" (Some "Chat not found") None));
               (started + 9000,
                ProgressRecord.new (created_data (started + 9000) (job_id 2) 2
                                      "sent" None (Some "true_491234@c.us_3EB0")))]
              (fst (fst (ProgressTracker.create (fun _ => true) started
                           "/out/import-plan.json" 5 no_ledger)))
              (snd (fst (ProgressTracker.create (fun _ => true) started
                           "/out/import-plan.json" 5 no_ledger)))))
    = Some s /\ reconciled s.
Proof.
  apply (proj1 (status_reconciliation (fun _ => true) started 5 "/out/import-plan.json"
                  no_ledger _ _ eq_refl)).
Defined.

(** C6. Processed-count bound, evaluated where the code breaks it: on a new
    ledger for one job, a failed attempt followed by a successful retry of
    the same job leaves a summary with [processedMessages = 2] and
    [totalMessages = 1] and status 'completed'; [ProgressSummary.validate]
    refuses that very summary, and the next [ProgressTracker.load] throws. *)
Theorem processed_count_exceeds_total :
  let ledger := fst (ProgressTracker.create (fun _ => true) started
                       "/out/import-plan.json" 1 no_ledger) in
  let calls :=
    [(started + 1000,
      ProgressRecord.new (created_data (started + 1000) (job_id 1) 1
                            "failed" (Some "Chat not found") None));
     (started + 9000,
      ProgressRecord.new (created_data (started + 9000) (job_id 1) 1
                            "sent" None (Some "true_491234@c.us_3EB0")))] in
  let after := record_all (fun _ => true) calls (fst ledger) (snd ledger) in
  exists s,
    ProgressTracker.progressSummary (fst after) = Some s
    /\ ProgressTracker.progress_json (snd after) = Some s
    /\ ProgressSummary.totalMessages s = 1
    /\ ProgressSummary.processedMessages s = 2
    /\ ProgressSummary.status s = "completed"
    /\ ProgressSummary.validate s
       = Throw "Processed messages (2) cannot exceed total messages (1)"
    /\ threw (snd (ProgressTracker.load (fun _ => true) (started + 60000)
                     "/out/import-plan.json" (snd after))) = true.
Proof. vm_compute. eexists. repeat split. Qed.

(** A first run that is a dry run *)

Lemma psm_dry {shape} (c : WhatsAppMessage.Checks) tk options now m :
  WhatsAppImporter.dryRun options = true ->
  reported (snd (WhatsAppImporter._processSingleMessage shape c tk options now m)) = true.
Proof.
  intros D. unfold WhatsAppImporter._processSingleMessage. rewrite D. reflexivity.
Qed.

Lemma create_summary_ok now planPath total :
  0 <= total ->
  ProgressSummary.create now planPath total
  = Normal {| ProgressSummary.planPath := planPath;
              ProgressSummary.startedAt := now;
              ProgressSummary.lastUpdated := now;
              ProgressSummary.totalMessages := total;
              ProgressSummary.processedMessages := 0;
              ProgressSummary.successfulMessages := 0;
              ProgressSummary.failedMessages := 0;
              ProgressSummary.currentPosition := 0;
              ProgressSummary.status := "running" |}.
Proof.
  intros H.
  unfold ProgressSummary.create, ProgressSummary.fromData, ProgressSummary.validate,
    ProgressSummary.schema_violations, ProgressSummary._validateBusinessRules.
  simpl.
  assert ((total <? 0) = false) as -> by lia.
  assert ((now <? now) = false) as -> by lia.
  reflexivity.
Qed.

Lemma init_fresh (w : World) now planPath plan dk :
  ProgressTracker.progress_json dk = None ->
  ProgressTracker.progress_jsonl dk = [] ->
  exists tr dk1 s,
    ExecuteCommand._initializeProgressTracking w now planPath plan dk
    = ((tr, dk1, plan), Normal tt)
    /\ ProgressTracker.isInitialized tr = true
    /\ ProgressTracker.progressSummary tr = Some s
    /\ ProgressTracker.progress_json dk1 = Some s
    /\ ProgressTracker.progress_jsonl dk1 = []
    /\ ProgressSummary.successfulMessages s = 0
    /\ ProgressSummary.failedMessages s = 0
    /\ ProgressSummary.processedMessages s = 0.
Proof.
  intros J L.
  unfold ExecuteCommand._initializeProgressTracking. rewrite J.
  unfold ProgressTracker.create, ProgressTracker.initialize. rewrite J.
  rewrite create_summary_ok by (unfold ImportPlan.getMessageCount; lia).
  unfold ProgressTracker._loadProgressRecords. simpl. rewrite L. simpl.
  eexists _, _, _. split; [reflexivity |]. simpl. repeat split; auto.
Qed.

Lemma filter_all {A : Type} (f : A -> bool) (l : list A) :
  (forall x, In x l -> f x = true) -> List.filter f l = l.
Proof.
  induction l as [| x l IH]; intros H; simpl; [reflexivity |].
  rewrite (H x) by (left; reflexivity). f_equal. apply IH.
  intros y Hy. apply H. right. exact Hy.
Qed.

Lemma map_id_on {A : Type} (f : A -> A) (l : list A) :
  (forall x, In x l -> f x = x) -> map f l = l.
Proof.
  induction l as [| x l IH]; intros H; simpl; [reflexivity |].
  rewrite (H x) by (left; reflexivity). f_equal. apply IH.
  intros y Hy. apply H. right. exact Hy.
Qed.

Lemma todo_all plan options :
  (forall m, In m (ImportPlan.messages plan) -> WhatsAppMessage.status m = "pending") ->
  snd (WhatsAppImporter._getMessagesToProcess plan options) = ImportPlan.messages plan.
Proof.
  intros H. unfold WhatsAppImporter._getMessagesToProcess.
  destruct (WhatsAppImporter.resume options); simpl.
  - apply filter_all. intros m Hm. rewrite (H m Hm). reflexivity.
  - apply map_id_on. intros m Hm. unfold WhatsAppImporter.reset.
    rewrite (H m Hm). reflexivity.
Qed.

Lemma all_delivered (l : list WhatsAppImporter.Attempt) :
  (forall a, In a l -> WhatsAppImporter.delivered a = true) ->
  successes l = Z.of_nat (length l) /\ failures l = 0.
Proof.
  intros H. unfold successes, failures.
  rewrite filter_all by exact H. split; [reflexivity |].
  assert (E : List.filter (fun a => negb (WhatsAppImporter.delivered a)) l = []).
  { induction l as [| a l IH]; simpl; [reflexivity |].
    rewrite (H a) by (left; reflexivity). simpl. apply IH.
    intros b Hb. apply H. right. exact Hb. }
  rewrite E. reflexivity.
Qed.

Lemma latest_sent log id :
  (forall d, In d log -> ProgressRecord.d_status d = "sent") ->
  (exists d, In d log /\ ProgressRecord.d_messageId d = id) ->
  exists d, latest_entry log id = Some d /\ ProgressRecord.d_status d = "sent".
Proof.
  intros All (d0 & H0 & E0). unfold latest_entry.
  destruct (last (List.filter _ log)) as [d |] eqn:L.
  - exists d. split; [reflexivity |]. apply All.
    apply last_Some_elem_of in L. apply list_elem_of_In in L.
    apply List.filter_In in L. apply L.
  - apply last_None in L.
    assert (In d0 (List.filter (fun d => ProgressRecord.d_messageId d =s id) log)).
    { apply List.filter_In. split; [exact H0 |]. apply String.eqb_eq. exact E0. }
    rewrite L in H. destruct H.
Qed.

Lemma first_run_loaded (w : World) config now planPath options plan dk :
  ProgressTracker.progress_json dk = None ->
  ProgressTracker.progress_jsonl dk = [] ->
  0 <= now ->
  ExecuteCommand.dryRun options = true ->
  (forall m, In m (ImportPlan.messages plan) ->
     WhatsAppMessage.status m = "pending" /\ uuid w (WhatsAppMessage.id m) = true) ->
  (forall k, pause_seen (tick w k) = false) ->
  let run := ExecuteCommand.execute_loaded w config now planPath options plan dk in
  (exists result, snd run = ExecuteCommand.Success result)
  /\ ExecuteCommand.attempted run = map WhatsAppMessage.id (ImportPlan.messages plan)
  /\ length (ExecuteCommand.log_after run) = length (ImportPlan.messages plan)
  /\ (forall d, In d (ExecuteCommand.log_after run) -> ProgressRecord.d_status d = "sent")
  /\ (forall m, In m (ImportPlan.messages plan) ->
      exists d, In d (ExecuteCommand.log_after run)
                /\ ProgressRecord.d_messageId d = WhatsAppMessage.id m)
  /\ exists s, ProgressTracker.progress_json (WhatsAppImporter.disk (fst run)) = Some s
               /\ (ImportPlan.messages plan <> [] -> 0 < ProgressSummary.processedMessages s).
Proof.
  intros J L N0 Dry HM NP. intros run. subst run.
  rewrite execute_loaded_eq.
  unfold ExecuteCommand.attempted, ExecuteCommand.log_after.
  destruct (init_fresh w now planPath plan dk J L)
    as (tr & dk1 & s & I & I1 & I2 & I3 & I4 & I5 & I6 & I7).
  rewrite I.
  assert (Cn : negb (ExecuteCommand.dryRun options) && negb (connects w) = false).
  { rewrite Dry. reflexivity. }
  rewrite Cn.
  unfold ExecuteCommand._executeImport.
  set (importOptions := {| WhatsAppImporter.dryRun := _; WhatsAppImporter.resume := _ |}).
  set (plan2 := ImportPlan.with_messages _ plan).
  set (st0 := ExecuteCommand.boot now tr dk1).
  unfold WhatsAppImporter.executeImport.
  assert (Cc : negb (negb (ExecuteCommand.dryRun options))
               && negb (WhatsAppImporter.dryRun importOptions) = false).
  { simpl. destruct (ExecuteCommand.dryRun options); reflexivity. }
  rewrite Cc.
  assert (P2 : forall m, In m (ImportPlan.messages plan2) ->
            WhatsAppMessage.status m = "pending").
  { intros m Hm. unfold plan2 in Hm; simpl in Hm. apply in_map_iff in Hm.
    destruct Hm as (m0 & <- & H0). simpl. apply (HM m0 H0). }
  assert (U0 : forall m, In m (ImportPlan.messages plan2) ->
            uuid w (WhatsAppMessage.id m) = true).
  { intros m Hm. unfold plan2 in Hm; simpl in Hm. apply in_map_iff in Hm.
    destruct Hm as (m1 & <- & H1). simpl. apply (HM m1 H1). }
  pose proof (todo_all plan2 importOptions P2) as T.
  destruct (WhatsAppImporter._getMessagesToProcess plan2 importOptions) as [p todo].
  simpl in T. subst todo.
  destruct (ImportPlan.messages plan) as [| m0 rest] eqn:Em.
  { simpl. repeat split; auto.
    - eexists. reflexivity.
    - rewrite I4. reflexivity.
    - rewrite I4. intros ? [].
    - intros ? [].
    - exists s. split; [exact I3 |]. congruence. }
  assert (R0 : ready st0).
  { unfold ready, summary_of, st0; simpl. rewrite I2. repeat split; eauto. }
  unfold WhatsAppImporter._processMessages.
  set (res0 := {| WhatsAppImporter.r_status := "running" |}).
  destruct (loop_ok (shape := WhatsAppMessage.Plain) w config importOptions (ImportPlan.messages plan2) 0%nat st0 res0 s
              R0 I2 U0 (fun k _ => NP k))
    as (st' & res' & ms' & new_a & new_d & s' & E & R' & C' & A & Lg & LA & LD & PK
        & _ & _ & SM & PJ & _ & SS & FF & PP & St).
  assert (Eplan2 : ImportPlan.messages plan2
                   = WhatsAppMessage.with_chatId (ExecuteCommand.targetChat options) m0
                     :: map (WhatsAppMessage.with_chatId (ExecuteCommand.targetChat options)) rest).
  { reflexivity. }
  rewrite Eplan2 in *. cbn [map]. rewrite E. clear E. simpl in A. unfold log_of in Lg; simpl in Lg.
  rewrite I4 in Lg. simpl in Lg.
  assert (Dl : forall k m a, (m0 :: rest) !! k = Some m -> new_a !! k = Some a ->
            WhatsAppImporter.delivered a = true /\ WhatsAppImporter.job a = WhatsAppMessage.id m).
  { intros k m a Hm Ha.
    assert (Hm2 : (WhatsAppMessage.with_chatId (ExecuteCommand.targetChat options) m0
                   :: map (WhatsAppMessage.with_chatId (ExecuteCommand.targetChat options)) rest)
                  !! k = Some (WhatsAppMessage.with_chatId (ExecuteCommand.targetChat options) m)).
    { change (map (WhatsAppMessage.with_chatId (ExecuteCommand.targetChat options)) (m0 :: rest)
              !! k = Some (WhatsAppMessage.with_chatId (ExecuteCommand.targetChat options) m)).
      clear -Hm. revert k Hm. generalize (m0 :: rest).
      induction l as [| x l IH]; intros [| k] H; simpl in *; try discriminate.
      - congruence.
      - apply IH. exact H. }
    destruct (PK k _ Hm2) as (a' & d & Ha' & Hd & (J1 & J2 & J3 & J4 & J5) & Ca).
    rewrite Ha in Ha'. injection Ha' as <-.
    split; [| exact J1].
    rewrite J5. apply psm_dry. exact Dry. }
  assert (AllD : forall a, In a new_a -> WhatsAppImporter.delivered a = true).
  { intros a Ha. apply list_elem_of_In, list_elem_of_lookup in Ha. destruct Ha as [k Hk].
    assert (Hlt : (k < length (m0 :: rest))%nat).
    { apply lookup_lt_Some in Hk. simpl in LA |- *. rewrite length_map in LA. lia. }
    apply lookup_lt_is_Some in Hlt. destruct Hlt as [m Hm].
    apply (Dl k m a Hm Hk). }
  destruct (all_delivered new_a AllD) as [Su Fa].
  assert (Fin : forall ex : ExecuteCommand.Exit,
    map WhatsAppImporter.job (WhatsAppImporter.attempts st')
    = map WhatsAppMessage.id (m0 :: rest)
    /\ length (ProgressTracker.progress_jsonl (WhatsAppImporter.disk st'))
       = length (m0 :: rest)
    /\ (forall d, In d (ProgressTracker.progress_jsonl (WhatsAppImporter.disk st')) ->
        ProgressRecord.d_status d = "sent")
    /\ (forall m, In m (m0 :: rest) ->
        exists d, In d (ProgressTracker.progress_jsonl (WhatsAppImporter.disk st'))
                  /\ ProgressRecord.d_messageId d = WhatsAppMessage.id m)
    /\ exists s1, ProgressTracker.progress_json (WhatsAppImporter.disk st') = Some s1
                  /\ (m0 :: rest <> [] -> 0 < ProgressSummary.processedMessages s1)).
  { intros _. rewrite A, Lg.
    assert (LenA : length new_a = length (m0 :: rest)).
    { rewrite LA. simpl. rewrite length_map. reflexivity. }
    assert (LenD : length new_d = length (m0 :: rest)).
    { rewrite LD. simpl. rewrite length_map. reflexivity. }
    split; [| split; [| split; [| split]]].
    - apply map_eq_pointwise; [exact LenA |].
      intros k m Hm.
      assert (Hlt : (k < length new_a)%nat) by (rewrite LenA; eapply lookup_lt_Some; eauto).
      apply lookup_lt_is_Some in Hlt. destruct Hlt as [a Ha].
      exists a. split; [exact Ha |]. apply (Dl k m a Hm Ha).
    - exact LenD.
    - intros d Hd. apply list_elem_of_In, list_elem_of_lookup in Hd. destruct Hd as [k Hk].
      assert (Hlt : (k < length (WhatsAppMessage.with_chatId (ExecuteCommand.targetChat options) m0
                   :: map (WhatsAppMessage.with_chatId (ExecuteCommand.targetChat options)) rest))%nat).
      { apply lookup_lt_Some in Hk. lia. }
      apply lookup_lt_is_Some in Hlt. destruct Hlt as [m Hm].
      destruct (PK k m Hm) as (a' & d' & Ha' & Hd' & (J1 & J2 & J3 & J4 & J5) & Ca).
      rewrite Hk in Hd'. injection Hd' as <-. rewrite J3.
      rewrite AllD; [reflexivity |].
      apply list_elem_of_In. eapply list_elem_of_lookup_2. exact Ha'.
    - intros m Hm. apply list_elem_of_In, list_elem_of_lookup in Hm. destruct Hm as [k Hk].
      assert (Hk2 : (WhatsAppMessage.with_chatId (ExecuteCommand.targetChat options) m0
                   :: map (WhatsAppMessage.with_chatId (ExecuteCommand.targetChat options)) rest)
                  !! k = Some (WhatsAppMessage.with_chatId (ExecuteCommand.targetChat options) m)).
      { change (map (WhatsAppMessage.with_chatId (ExecuteCommand.targetChat options)) (m0 :: rest)
                !! k = Some (WhatsAppMessage.with_chatId (ExecuteCommand.targetChat options) m)).
        clear -Hk. revert k Hk. generalize (m0 :: rest).
        induction l as [| x l IH]; intros [| k] H; simpl in *; try discriminate.
        - congruence.
        - apply IH. exact H. }
      destruct (PK k _ Hk2) as (a' & d & Ha' & Hd & (J1 & J2 & J3 & J4 & J5) & Ca).
      exists d. split; [| exact J2].
      apply list_elem_of_In. eapply list_elem_of_lookup_2. exact Hd.
    - exists s'. split; [exact PJ |]. intros _.
      rewrite PP by discriminate. rewrite SS, FF, Su, Fa, I5, I6.
      rewrite LenA. simpl. lia. }
  simpl.
  destruct (_ =? _); simpl.
  - destruct (_ =? _); simpl;
      (split; [eexists; reflexivity | exact (Fin (ExecuteCommand.Failure 0 EmptyString))]).
  - rewrite St. simpl.
    split; [eexists; reflexivity | exact (Fin (ExecuteCommand.Failure 0 EmptyString))].
Qed.

Lemma execute_valid (w : World) now planPath options data dk :
  ExecuteCommand._validateRequiredOptions options = inl tt ->
  ImportPlan._validateBusinessRules data = Normal tt ->
  exists min max,
    1 <= min <= max /\ max <= 60
    /\ ExecuteCommand.execute w now planPath options (folder_with data) dk
       = ExecuteCommand.execute_loaded w (configured min max) now planPath options
           (ImportPlan.new data) dk.
Proof.
  intros VO VB. unfold ExecuteCommand.execute, folder_with.
  cbn [ExecuteCommand._validateAndResolvePaths].
  rewrite VO.
  assert (Ld : ExecuteCommand._loadImportPlan planPath (ExecuteCommand.Parsed data None)
               = inl (ImportPlan.new data)).
  { unfold ExecuteCommand._loadImportPlan, ImportPlan.fromData, ImportPlan.validate.
    simpl. rewrite VB. reflexivity. }
  rewrite Ld.
  unfold ExecuteCommand._updateConfigFromOptions.
  unfold ExecuteCommand._validateRequiredOptions in VO.
  destruct (ExecuteCommand.sleep options =s EmptyString).
  - exists 3, 10. rewrite configured_default. repeat split; lia.
  - destruct (ExecuteCommand.targetChat options =s EmptyString); [discriminate VO |].
    destruct (negb _); [discriminate VO |].
    destruct (CLIConfig.parseSleepRange (ExecuteCommand.sleep options))
      as [[min max] | e] eqn:P; [| discriminate VO].
    destruct (parseSleepRange_bounds _ _ _ P) as (B1 & B2 & _).
    rewrite (merge_sleepRange min max B1 B2).
    exists min, max. repeat split; lia.
Qed.

Lemma first_run (w : World) now planPath options data dk :
  ProgressTracker.progress_json dk = None ->
  ProgressTracker.progress_jsonl dk = [] ->
  clean_rehearsal w now options data ->
  let run := ExecuteCommand.execute w now planPath options (folder_with data) dk in
  (exists result, snd run = ExecuteCommand.Success result)
  /\ ExecuteCommand.attempted run = map WhatsAppMessage.id (ImportPlan.d_messages data)
  /\ length (ExecuteCommand.log_after run) = length (ImportPlan.d_messages data)
  /\ (forall d, In d (ExecuteCommand.log_after run) -> ProgressRecord.d_status d = "sent")
  /\ (forall m, In m (ImportPlan.d_messages data) ->
      exists d, In d (ExecuteCommand.log_after run)
                /\ ProgressRecord.d_messageId d = WhatsAppMessage.id m)
  /\ exists s, ProgressTracker.progress_json (WhatsAppImporter.disk (fst run)) = Some s
               /\ (ImportPlan.d_messages data <> [] -> 0 < ProgressSummary.processedMessages s).
Proof.
  intros J L (N0 & Dry & VO & VB & HM & NP) run. subst run.
  destruct (execute_valid w now planPath options data dk VO VB) as (min & max & _ & _ & ->).
  exact (first_run_loaded w (configured min max) now planPath options (ImportPlan.new data) dk
           J L N0 Dry HM NP).
Qed.



Lemma a_clean_rehearsal : clean_rehearsal unreachable started rehearsal (plan_data 3).
Proof.
  unfold clean_rehearsal. split; [unfold started; lia |].
  split; [reflexivity |]. split; [reflexivity |]. split; [reflexivity |].
  split; [| reflexivity].
  intros m [<- | [<- | [<- | []]]]; split; reflexivity.
Qed.


(** C2. Resume retry classification, evaluated on the five-job scenario:
    jobs 1 and 2 are 'sent' and job 3 is 'failed' in the ledger, and the
    record of job 3 satisfies [canRetry].  The resumed run of [execute]
    attempts no job at all: the synchronisation of the plan with the ledger
    calls [markAsProcessing] on the plain object of job 1, and the command
    ends with code 12.  On messages that are instances the synchronisation
    returns and marks job 3 'failed', and the resumed [executeImport]
    attempts jobs 4 and 5 only. *)
Theorem failed_job_is_not_retried_on_resume :
  let run := ExecuteCommand.execute calm started "/out/import-plan.json"
               (live true) (folder_of 5) interrupted_ledger in
  let loaded := ProgressTracker.load (uuid calm) started "/out/import-plan.json"
                  interrupted_ledger in
  let synced := ExecuteCommand._syncPlanWithProgress WhatsAppMessage.Instance
                  (checks calm) started (fst (fst loaded))
                  (ImportPlan.d_messages (plan_data 5)) in
  let resumed := WhatsAppImporter.executeImport WhatsAppMessage.Instance calm
                   CLIConfig.createDefault true
                   {| WhatsAppImporter.dryRun := false; WhatsAppImporter.resume := true |}
                   (ImportPlan.with_messages (fst synced) (ImportPlan.new (plan_data 5)))
                   (ExecuteCommand.boot started (fst (fst loaded)) (snd (fst loaded))) in
  (exists d, latest_entry (ProgressTracker.progress_jsonl interrupted_ledger) (job_id 3) = Some d
             /\ ProgressRecord.d_status d = "failed"
             /\ ProgressRecord.canRetry (ProgressRecord.new d) = true)
  /\ snd run
     = ExecuteCommand.Failure 12
         "Failed to initialize progress tracking: message.markAsProcessing is not a function"
  /\ ExecuteCommand.attempted run = []
  /\ snd synced = Normal tt
  /\ map WhatsAppMessage.status (fst synced)
     = ["sent"; "sent"; "failed"; "pending"; "pending"]
  /\ map WhatsAppImporter.job (WhatsAppImporter.attempts (fst (fst resumed)))
     = [job_id 4; job_id 5]
  /\ exists result, snd resumed = Normal result
                    /\ WhatsAppImporter.r_status result = "completed".
Proof.
  vm_compute. split; [eexists; repeat split |].
  repeat split. eexists. split; reflexivity.
Qed.

(** C4. Daily rate ceiling, evaluated on a plan of 1001 jobs that are all
    delivered: the limit of the rate limiter is 1000.  [executeImport],
    connected and given the 1001 messages as instances, has the counter at
    1000 after the first 1000 jobs and still attempts and delivers job 1001;
    it returns 'completed' and leaves the counter at 1001.  A dry run of
    [execute] over the same plan counts 1001 messages in the same way and
    ends 'completed'. *)
Theorem daily_limit_is_not_consulted :
  let run := WhatsAppImporter.executeImport WhatsAppMessage.Instance calm
               CLIConfig.createDefault true sending (plan_of 1001) (handed_over_for 1001) in
  let limiter := WhatsAppImporter.runtimeState (fst (fst run)) in
  let dry := ExecuteCommand.execute calm started "/out/import-plan.json" rehearsal
               (folder_of 1001) no_ledger in
  length (WhatsAppImporter.attempts (fst (fst run))) = 1001%nat
  /\ (exists a, last (WhatsAppImporter.attempts (fst (fst run))) = Some a
                /\ WhatsAppImporter.job a = job_id 1001
                /\ WhatsAppImporter.delivered a = true)
  /\ length (sent_entries (log_of (fst (fst run)))) = 1001%nat
  /\ RuntimeState.dailyLimit limiter = 1000
  /\ RuntimeState.messageCount limiter = 1001
  /\ RuntimeState.messageCount
       (WhatsAppImporter.runtimeState
          (fst (fst (WhatsAppImporter.executeImport WhatsAppMessage.Instance calm
                       CLIConfig.createDefault true sending (plan_of 1000)
                       (handed_over_for 1000))))) = 1000
  /\ (exists result, snd run = Normal result
                     /\ WhatsAppImporter.r_status result = "completed")
  /\ length (ExecuteCommand.attempted dry) = 1001%nat
  /\ RuntimeState.messageCount (WhatsAppImporter.runtimeState (fst dry)) = 1001
  /\ (exists result, snd dry = ExecuteCommand.Success result
                     /\ WhatsAppImporter.r_status result = "completed").
Proof.
  vm_compute. repeat split; try (eexists; split; reflexivity).
  eexists. repeat split.
Qed.

(** C9. Retry count is constant per record: a record returned by
    [ProgressRecord.create] has [retryCount = 1] and satisfies [canRetry]
    when its status is 'failed', and has [retryCount = 0] when its status is
    'sent'; and whatever the ledger already holds, every line that a run of
    [execute] appends to the log is 'sent' with retry count 0, or 'failed'
    with retry count 1 and [canRetry].  The same holds of the steps of
    [execute] behind the loading of the plan, for every configuration and
    every plan, and of every call of [executeImport], whether the messages
    are instances or plain objects. *)
Theorem retry_count_is_constant_per_record :
  (forall (uuid : string -> bool) (now : Z) (messageId : string) (telegramId : Z)
          (status : string) (errorMessage sentMessageId : option string)
          (record : ProgressRecord.t),
     ProgressRecord.create uuid now messageId telegramId status errorMessage sentMessageId
     = Normal record ->
     ProgressRecord.status record = status
     /\ (status = "failed" ->
         ProgressRecord.retryCount record = 1 /\ ProgressRecord.canRetry record = true)
     /\ (status = "sent" -> ProgressRecord.retryCount record = 0))
  /\ (forall (w : World) (now : Z) (planPath : string)
             (options : ExecuteCommand.Options) (folder : ExecuteCommand.Folder)
             (dk : ProgressTracker.Disk),
        exists written,
          ExecuteCommand.log_after
            (ExecuteCommand.execute w now planPath options folder dk)
          = (ProgressTracker.progress_jsonl dk ++ written)%list
          /\ forall d, In d written ->
               (ProgressRecord.d_status d = "sent"
                /\ ProgressRecord.d_retryCount d = Some 0)
               \/ (ProgressRecord.d_status d = "failed"
                   /\ ProgressRecord.d_retryCount d = Some 1
                   /\ ProgressRecord.canRetry (ProgressRecord.new d) = true))
  /\ (forall (w : World) (config : CLIConfig.t) (now : Z) (planPath : string)
             (options : ExecuteCommand.Options) (plan : ImportPlan.t)
             (dk : ProgressTracker.Disk),
        exists written,
          ExecuteCommand.log_after
            (ExecuteCommand.execute_loaded w config now planPath options plan dk)
          = (ProgressTracker.progress_jsonl dk ++ written)%list
          /\ forall d, In d written ->
               (ProgressRecord.d_status d = "sent"
                /\ ProgressRecord.d_retryCount d = Some 0)
               \/ (ProgressRecord.d_status d = "failed"
                   /\ ProgressRecord.d_retryCount d = Some 1
                   /\ ProgressRecord.canRetry (ProgressRecord.new d) = true))
  /\ (forall (shape : WhatsAppMessage.Shape) (w : World) (config : CLIConfig.t)
             (isConnected : bool) (options : WhatsAppImporter.Options)
             (plan : ImportPlan.t) (st : WhatsAppImporter.State),
        exists written,
          log_of (fst (fst (WhatsAppImporter.executeImport shape w config isConnected
                              options plan st)))
          = (log_of st ++ written)%list
          /\ forall d, In d written ->
               (ProgressRecord.d_status d = "sent"
                /\ ProgressRecord.d_retryCount d = Some 0)
               \/ (ProgressRecord.d_status d = "failed"
                   /\ ProgressRecord.d_retryCount d = Some 1
                   /\ ProgressRecord.canRetry (ProgressRecord.new d) = true)).
Proof.
  assert (Sh : forall j d, shaped j d ->
            (ProgressRecord.d_status d = "sent"
             /\ ProgressRecord.d_retryCount d = Some 0)
            \/ (ProgressRecord.d_status d = "failed"
                /\ ProgressRecord.d_retryCount d = Some 1
                /\ ProgressRecord.canRetry (ProgressRecord.new d) = true)).
  { intros j d (_ & St & Rc).
    unfold ProgressRecord.canRetry, ProgressRecord.new; simpl.
    destruct St as [St | St]; rewrite St in *; simpl in Rc; rewrite Rc; simpl; auto. }
  split; [| split; [| split]].
  - intros uuid now messageId telegramId status errorMessage sentMessageId record C.
    apply create_normal in C. destruct C as [-> _].
    split; [reflexivity |]. split; intros ->; simpl; auto.
  - intros w now planPath options folder dk.
    destruct (execute_frame w now planPath options folder dk)
      as ((written & D & F) & _ & _).
    exists written. split; [exact D |].
    intros d Hd. destruct (F d Hd) as (j & _ & H). exact (Sh j d H).
  - intros w config now planPath options plan dk.
    destruct (execute_loaded_frame w config now planPath options plan dk)
      as ((written & D & F) & _ & _).
    exists written. split; [exact D |].
    intros d Hd. destruct (F d Hd) as (j & _ & H). exact (Sh j d H).
  - intros shape w config isConnected options plan st.
    destruct (WhatsAppImporter.executeImport shape w config isConnected options plan st)
      as [[st' ms'] c] eqn:E.
    apply executeImport_frame in E. destruct E as (new_a & new_d & _ & L & _ & F).
    exists new_d. split; [exact L |].
    intros d Hd. destruct (F d Hd) as (a & _ & H). exact (Sh _ d H).
Qed.

Lemma retry_count_is_constant_per_record_witness :
  exists record,
    ProgressRecord.create (fun _ => true) started (job_id 1) 1 "failed"
      (Some "Evaluation failed: chat not found") None = Normal record
    /\ ProgressRecord.retryCount record = 1
    /\ ProgressRecord.canRetry record = true.
Proof.
  destruct (ProgressRecord.create (fun _ => true) started (job_id 1) 1 "failed"
              (Some "Evaluation failed: chat not found") None) as [record | e] eqn:C.
  - exists record. split; [reflexivity |].
    apply (proj1 retry_count_is_constant_per_record _ _ _ _ _ _ _ _ C).
    reflexivity.
  - vm_compute in C. discriminate C.
Defined.

Lemma pacing_floor_witness :
  exists a b,
    new_attempts handed_over
      (fst (fst (WhatsAppImporter._processMessages WhatsAppMessage.Instance calm CLIConfig.createDefault sending
                   (ImportPlan.messages (plan_of 2)) handed_over))) !! 0%nat = Some a
    /\ new_attempts handed_over
         (fst (fst (WhatsAppImporter._processMessages WhatsAppMessage.Instance calm CLIConfig.createDefault sending
                      (ImportPlan.messages (plan_of 2)) handed_over))) !! 1%nat = Some b
    /\ WhatsAppImporter.at_ms a + 3000 <= WhatsAppImporter.at_ms b.
Proof.
  set (attempts :=
         new_attempts handed_over
           (fst (fst (WhatsAppImporter._processMessages WhatsAppMessage.Instance calm CLIConfig.createDefault sending
                        (ImportPlan.messages (plan_of 2)) handed_over)))).
  destruct (attempts !! 0%nat) as [a |] eqn:A; [| vm_compute in A; discriminate A].
  destruct (attempts !! 1%nat) as [b |] eqn:B; [| vm_compute in B; discriminate B].
  exists a, b. split; [reflexivity |]. split; [reflexivity |].
  apply (proj1 (pacing_floor calm CLIConfig.createDefault sending
                  (ImportPlan.messages (plan_of 2)) handed_over
                  ltac:(simpl; lia)) 0%nat 1%nat a b A B).
  lia.
Defined.

(** * Further properties of the code *)
Lemma includes_one (x y : string) :
  WhatsAppMessage.includes [y] x = true -> x = y.
Proof.
  unfold WhatsAppMessage.includes. simpl. rewrite orb_false_r.
  intros H. apply String.eqb_eq in H. exact H.
Qed.

Lemma canTransitionTo_table (m : WhatsAppMessage.t) (s : string) :
  WhatsAppMessage.canTransitionTo m s = true ->
  (WhatsAppMessage.status m = "pending" /\ s = "processing")
  \/ (WhatsAppMessage.status m = "processing"
      /\ (s = "sent" \/ s = "failed" \/ s = "skipped"))
  \/ (WhatsAppMessage.status m = "failed" /\ s = "processing").
Proof.
  unfold WhatsAppMessage.canTransitionTo, WhatsAppMessage.statusTransitions.
  destruct (String.eqb_spec (WhatsAppMessage.status m) "pending") as [E | _].
  { intros H. left. split; [exact E | exact (includes_one _ _ H)]. }
  destruct (String.eqb_spec (WhatsAppMessage.status m) "processing") as [E | _].
  { intros H. right. left. split; [exact E |].
    unfold WhatsAppMessage.includes in H. simpl in H. rewrite orb_false_r in H.
    apply orb_true_iff in H. destruct H as [H | H].
    - left. apply String.eqb_eq. exact H.
    - apply orb_true_iff in H. destruct H as [H | H]; apply String.eqb_eq in H; auto. }
  destruct (String.eqb_spec (WhatsAppMessage.status m) "sent") as [_ | _].
  { intros H. discriminate H. }
  destruct (String.eqb_spec (WhatsAppMessage.status m) "failed") as [E | _].
  { intros H. right. right. split; [exact E | exact (includes_one _ _ H)]. }
  destruct (String.eqb_spec (WhatsAppMessage.status m) "skipped") as [_ | _];
    intros H; discriminate H.
Qed.

(** X1. Status transitions of a message follow the table: when
    [updateStatus] completes, the old and the new status are one of
    pending -> processing, processing -> sent, failed or skipped, and
    failed -> processing, the message carries the new status and the returned
    object names both; when [canTransitionTo] answers no, [updateStatus]
    throws and leaves the message as it was; and from 'pending' the only
    status that can be reached is 'processing'. *)
Theorem transitions_follow_the_table (c : WhatsAppMessage.Checks) (now : Z)
    (newStatus : string) (error : option string) (m : WhatsAppMessage.t) :
  (forall m' tr,
     WhatsAppMessage.updateStatus c now newStatus error m = (m', Normal tr) ->
     ((WhatsAppMessage.status m = "pending" /\ newStatus = "processing")
      \/ (WhatsAppMessage.status m = "processing"
          /\ (newStatus = "sent" \/ newStatus = "failed" \/ newStatus = "skipped"))
      \/ (WhatsAppMessage.status m = "failed" /\ newStatus = "processing"))
     /\ WhatsAppMessage.status m' = newStatus
     /\ WhatsAppMessage.from tr = WhatsAppMessage.status m
     /\ WhatsAppMessage.to tr = newStatus)
  /\ (WhatsAppMessage.canTransitionTo m newStatus = false ->
      fst (WhatsAppMessage.updateStatus c now newStatus error m) = m
      /\ threw (snd (WhatsAppMessage.updateStatus c now newStatus error m)) = true)
  /\ (WhatsAppMessage.status m = "pending" -> newStatus <> "processing" ->
      WhatsAppMessage.canTransitionTo m newStatus = false).
Proof.
  split; [| split].
  - intros m' tr U. unfold WhatsAppMessage.updateStatus in U.
    destruct (WhatsAppMessage.canTransitionTo m newStatus) eqn:T; simpl in U;
      [| inversion U].
    split; [exact (canTransitionTo_table m newStatus T) |].
    injection U as Em Er.
    destruct (WhatsAppMessage.validate c now _) eqn:V in Er; simpl in Er; [| discriminate Er].
    injection Er as <-. simpl. split; [| split; reflexivity].
    subst m'.
    destruct (newStatus =s "sent"), ((newStatus =s "failed") && truthy error),
      (negb (newStatus =s "failed")); reflexivity.
  - intros T. unfold WhatsAppMessage.updateStatus. rewrite T. simpl. split; reflexivity.
  - intros P N. destruct (WhatsAppMessage.canTransitionTo m newStatus) eqn:T; [| reflexivity].
    apply canTransitionTo_table in T.
    destruct T as [[_ E] | [[E _] | [E _]]]; [contradiction | |]; rewrite P in E; discriminate E.
Qed.

Lemma transitions_follow_the_table_witness :
  WhatsAppMessage.status
    (fst (WhatsAppMessage.updateStatus accepting started "processing" None
            (text_message (job_id 1) 1))) = "processing"
  /\ WhatsAppMessage.canTransitionTo (text_message (job_id 1) 1) "sent" = false.
Proof.
  split.
  - destruct (WhatsAppMessage.updateStatus accepting started "processing" None
                (text_message (job_id 1) 1)) as [m' [tr | e]] eqn:U.
    + apply (proj1 (transitions_follow_the_table accepting started "processing" None
                      (text_message (job_id 1) 1)) m' tr U).
    + vm_compute in U. discriminate U.
  - apply (proj2 (proj2 (transitions_follow_the_table accepting started "sent" None
                           (text_message (job_id 1) 1)))).
    + reflexivity.
    + discriminate.
Defined.

Lemma validate_normal_dated (c : WhatsAppMessage.Checks) (now : Z) (m : WhatsAppMessage.t) :
  WhatsAppMessage.validate c now m = Normal tt ->
  WhatsAppMessage.timestamp m <= now
  /\ (forall s, WhatsAppMessage.sentAt m = Some s -> s <> 0 -> WhatsAppMessage.timestamp m <= s).
Proof.
  unfold WhatsAppMessage.validate, WhatsAppMessage._validateBusinessRules.
  destruct (WhatsAppMessage.schema_errors c m); [discriminate |].
  destruct (_ && _ && _); [discriminate |].
  destruct (Z.ltb_spec now (WhatsAppMessage.timestamp m)) as [_ | T]; [discriminate |].
  intros V. split; [exact T |].
  intros s E N. rewrite E in V.
  destruct (Z.eqb_spec s 0) as [Z0 | _]; [contradiction |]. simpl in V.
  destruct (Z.ltb_spec s (WhatsAppMessage.timestamp m)) as [_ | L]; [discriminate | exact L].
Qed.

(** X2. A completed [updateStatus] leaves a message that [validate] accepts,
    with a timestamp that is not in the future.  'sent' stores the time of
    the call in [sentAt] and clears the error message; 'failed' stores the
    error message given, or keeps the old one when none is given, and leaves
    [sentAt]; every other status clears the error message and leaves
    [sentAt].  No other field of the message changes. *)
Theorem completed_transition_leaves_a_valid_message (c : WhatsAppMessage.Checks) (now : Z)
    (newStatus : string) (error : option string) (m m' : WhatsAppMessage.t)
    (tr : WhatsAppMessage.Transition) :
  WhatsAppMessage.updateStatus c now newStatus error m = (m', Normal tr) ->
  WhatsAppMessage.validate c now m' = Normal tt
  /\ WhatsAppMessage.timestamp m' <= now
  /\ (newStatus = "sent" ->
      WhatsAppMessage.sentAt m' = Some now /\ WhatsAppMessage.errorMessage m' = None)
  /\ (newStatus = "failed" ->
      WhatsAppMessage.errorMessage m'
      = (if truthy error then error else WhatsAppMessage.errorMessage m)
      /\ WhatsAppMessage.sentAt m' = WhatsAppMessage.sentAt m)
  /\ (newStatus <> "sent" -> newStatus <> "failed" ->
      WhatsAppMessage.errorMessage m' = None
      /\ WhatsAppMessage.sentAt m' = WhatsAppMessage.sentAt m)
  /\ WhatsAppMessage.with_sentAt (WhatsAppMessage.sentAt m)
       (WhatsAppMessage.with_errorMessage (WhatsAppMessage.errorMessage m)
          (WhatsAppMessage.with_status (WhatsAppMessage.status m) m')) = m.
Proof.
  intros U. unfold WhatsAppMessage.updateStatus in U.
  destruct (WhatsAppMessage.canTransitionTo m newStatus); simpl in U; [| inversion U].
  injection U as Em Er.
  assert (V : WhatsAppMessage.validate c now m' = Normal tt).
  { rewrite <- Em. destruct (WhatsAppMessage.validate c now _) as [[] |]; [reflexivity |].
    discriminate Er. }
  split; [exact V |]. split; [exact (proj1 (validate_normal_dated c now m' V)) |].
  clear Er V. subst m'. destruct m as [i t ty co mp mt ts se ch q st em sa].
  destruct (String.eqb_spec newStatus "sent") as [S | S];
    destruct (String.eqb_spec newStatus "failed") as [F | F]; simpl.
  - subst newStatus. discriminate F.
  - repeat split; try reflexivity; intros; try contradiction; subst; discriminate.
  - destruct (truthy error); simpl; repeat split; try reflexivity; intros;
      try contradiction; subst; discriminate.
  - repeat split; try reflexivity; intros; contradiction.
Qed.

Lemma completed_transition_leaves_a_valid_message_witness :
  WhatsAppMessage.timestamp
    (fst (WhatsAppMessage.markAsProcessing accepting started (text_message (job_id 1) 1)))
  <= started.
Proof.
  unfold WhatsAppMessage.markAsProcessing.
  destruct (WhatsAppMessage.updateStatus accepting started "processing" None
              (text_message (job_id 1) 1)) as [m' [tr | e]] eqn:U.
  - apply (completed_transition_leaves_a_valid_message accepting started "processing" None
             (text_message (job_id 1) 1) m' tr U).
  - vm_compute in U. discriminate U.
Defined.

Lemma validateArray_each_spec (c : WhatsAppMessage.Checks) (now : nat -> Z)
    (messages : list WhatsAppMessage.t) :
  forall (index : nat) (ids : gset string) (duplicateIds : list string),
  match WhatsAppMessage.validateArray_each c now index messages ids duplicateIds with
  | Normal found =>
      (forall k m, messages !! k = Some m ->
                   WhatsAppMessage.validate c (now (index + k)%nat) m = Normal tt)
      /\ exists extra,
           found = (duplicateIds ++ extra)%list
           /\ (extra = [] <->
               NoDup (map WhatsAppMessage.id messages)
               /\ forall x, x ∈ map WhatsAppMessage.id messages -> x ∉ ids)
  | Throw e =>
      exists k m, messages !! k = Some m
                  /\ WhatsAppMessage.validate c (now (index + k)%nat) m = Throw e
                  /\ forall j m', (j < k)%nat -> messages !! j = Some m' ->
                       WhatsAppMessage.validate c (now (index + j)%nat) m' = Normal tt
  end.
Proof.
  induction messages as [| m rest IH]; intros index ids duplicateIds; simpl.
  - split; [intros k m H; discriminate H |].
    exists []. split; [rewrite app_nil_r; reflexivity |].
    split; [| reflexivity]. intros _. split; [constructor |].
    intros x H. apply elem_of_nil in H. contradiction.
  - destruct (WhatsAppMessage.validate c (now index) m) as [[] |] eqn:V; simpl.
    2:{ exists 0%nat, m. rewrite Nat.add_0_r. split; [reflexivity |]. split; [exact V |].
        intros j m' L. lia. }
    specialize (IH (S index)
                  (if bool_decide (WhatsAppMessage.id m ∈ ids) then ids
                   else {[WhatsAppMessage.id m]} ∪ ids)
                  (if bool_decide (WhatsAppMessage.id m ∈ ids)
                   then (duplicateIds ++ [WhatsAppMessage.id m])%list else duplicateIds)).
    destruct (WhatsAppMessage.validateArray_each c now (S index) rest _ _) as [found | e].
    + destruct IH as (A & extra & E & N). split.
      * intros [| k] m' H; simpl in H.
        -- injection H as <-. rewrite Nat.add_0_r. exact V.
        -- replace (index + S k)%nat with (S index + k)%nat by lia. exact (A k m' H).
      * case_bool_decide as D.
        -- exists (WhatsAppMessage.id m :: extra). split.
           ++ rewrite E, <- app_assoc. reflexivity.
           ++ split; [discriminate |]. intros [_ F]. exfalso.
              apply (F (WhatsAppMessage.id m)); [left | exact D].
        -- exists extra. split; [exact E |]. rewrite N, NoDup_cons. split.
           ++ intros [ND F]. split; [split; [| exact ND] |].
              ** intros I. apply (F _ I). apply elem_of_union. left.
                 apply elem_of_singleton. reflexivity.
              ** intros x I. apply elem_of_cons in I. destruct I as [-> | I]; [exact D |].
                 intros Hx. apply (F x I). apply elem_of_union. right. exact Hx.
           ++ intros [[NI ND] F]. split; [exact ND |]. intros x I.
              intros Hx. apply elem_of_union in Hx. destruct Hx as [Hx | Hx].
              --- apply elem_of_singleton in Hx. subst x. contradiction.
              --- apply (F x); [right; exact I | exact Hx].
    + destruct IH as (k & m' & H & T & B). exists (S k), m'.
      replace (index + S k)%nat with (S index + k)%nat by lia.
      split; [exact H |]. split; [exact T |].
      intros [| j] m'' L Hj; simpl in Hj.
      * injection Hj as <-. rewrite Nat.add_0_r. exact V.
      * replace (index + S j)%nat with (S index + j)%nat by lia.
        apply (B j m''); [lia | exact Hj].
Qed.

(** X3. [validateArray] returns exactly when every message of the array
    passes [validate] and no two messages have the same id.  When it throws,
    the error is that of the first message that fails [validate], or, ids
    being repeated, the message 'Duplicate message IDs found: ...' with at
    least one id listed. *)
Theorem validateArray_accepts_valid_messages_with_distinct_ids
    (c : WhatsAppMessage.Checks) (now : nat -> Z) (messages : list WhatsAppMessage.t) :
  (WhatsAppMessage.validateArray c now messages = Normal tt <->
   (forall k m, messages !! k = Some m -> WhatsAppMessage.validate c (now k) m = Normal tt)
   /\ NoDup (map WhatsAppMessage.id messages))
  /\ (forall e, WhatsAppMessage.validateArray c now messages = Throw e ->
      (exists k m, messages !! k = Some m
                   /\ WhatsAppMessage.validate c (now k) m = Throw e
                   /\ forall j m', (j < k)%nat -> messages !! j = Some m' ->
                        WhatsAppMessage.validate c (now j) m' = Normal tt)
      \/ (~ NoDup (map WhatsAppMessage.id messages)
          /\ exists duplicateIds,
               duplicateIds <> []
               /\ e = "Duplicate message IDs found: " +:+ join duplicateIds)).
Proof.
  unfold WhatsAppMessage.validateArray.
  pose proof (validateArray_each_spec c now messages 0 ∅ []) as S.
  destruct (WhatsAppMessage.validateArray_each c now 0 messages ∅ []) as [found | e0];
    simpl in *.
  - destruct S as (A & extra & -> & N). destruct extra as [| x extra]; simpl.
    + split.
      * split; [intros _ | reflexivity]. split; [exact A |].
        apply N. reflexivity.
      * intros e H. discriminate H.
    + split.
      * split; [intros H; discriminate H |]. intros [_ ND]. exfalso.
        assert (x :: extra = []) as H; [| discriminate H].
        apply N. split; [exact ND |]. intros y _. apply not_elem_of_empty.
      * intros e H. injection H as <-. right. split.
        -- intros ND. assert (x :: extra = []) as H; [| discriminate H].
           apply N. split; [exact ND |]. intros y _. apply not_elem_of_empty.
        -- exists (x :: extra). split; [discriminate | reflexivity].
  - destruct S as (k & m & H & T & B). split.
    + split; [intros F; discriminate F |]. intros [A _].
      rewrite (A k m H) in T. discriminate T.
    + intros e F. injection F as <-. left. exists k, m. auto.
Qed.

Lemma validateArray_accepts_valid_messages_with_distinct_ids_witness :
  WhatsAppMessage.validateArray accepting (fun _ => started)
    [text_message (job_id 1) 1; text_message (job_id 2) 2] = Normal tt.
Proof.
  apply (proj1 (validateArray_accepts_valid_messages_with_distinct_ids accepting
                  (fun _ => started)
                  [text_message (job_id 1) 1; text_message (job_id 2) 2])).
  split.
  - intros [| [| k]] m H; simpl in H; try discriminate H; injection H as <-;
      vm_compute; reflexivity.
  - vm_compute. apply NoDup_cons. split.
    + intros H. apply elem_of_cons in H. destruct H as [H | H]; [discriminate H |].
      apply elem_of_nil in H. exact H.
    + apply NoDup_cons. split; [| constructor]. intros H. apply elem_of_nil in H. exact H.
Defined.

Lemma updateStatus_failed_again (now : Z) (e : string) (r : ProgressRecord.t) :
  ProgressRecord.status r = "failed" -> e <> EmptyString ->
  ProgressRecord.updateStatus now "failed" (Some e) None r
  = (ProgressRecord.mk (ProgressRecord.messageId r) (ProgressRecord.telegramId r) "failed" now
       (Some e) (ProgressRecord.retryCount r + 1) (ProgressRecord.sentMessageId r),
     Normal tt).
Proof.
  intros S N. unfold ProgressRecord.updateStatus, ProgressRecord.canTransitionTo.
  rewrite S. simpl.
  destruct (String.eqb_spec e EmptyString) as [E | _]; [contradiction | reflexivity].
Qed.

Lemma fail_again_counts (retries : list (Z * string)) :
  forall r,
  ProgressRecord.status r = "failed" ->
  (forall t e, In (t, e) retries -> e <> EmptyString) ->
  ProgressRecord.status (fail_again retries r) = "failed"
  /\ ProgressRecord.retryCount (fail_again retries r)
     = ProgressRecord.retryCount r + Z.of_nat (length retries)
  /\ ProgressRecord.messageId (fail_again retries r) = ProgressRecord.messageId r.
Proof.
  induction retries as [| [t e] rest IH]; intros r S N; simpl.
  - repeat split; [exact S | lia].
  - rewrite (updateStatus_failed_again t e r S); [| apply (N t e); left; reflexivity].
    simpl. edestruct IH as (A & B & C); [| | rewrite A, B, C; simpl].
    + reflexivity.
    + intros t' e' I. apply (N t' e'). right. exact I.
    + repeat split. lia.
Qed.

(** X4. The retry budget of a progress record: a record created 'failed'
    and updated to 'failed' again [n] times, each time with an error message,
    is 'failed' with [retryCount = 1 + n]; [canRetry] holds exactly while
    [n < 9]; from the tenth repetition on [ProgressRecord.validate] refuses
    the record as written by [toJSON]; and once the record has been updated
    to 'sent', every further [updateStatus] throws 'Invalid status transition
    from sent to ...' and changes nothing. *)
Theorem repeated_failures_use_up_the_retry_budget (uuid : string -> bool) (now : Z)
    (messageId : string) (telegramId : Z) (error : option string)
    (r : ProgressRecord.t) (retries : list (Z * string)) :
  ProgressRecord.create uuid now messageId telegramId "failed" error None = Normal r ->
  (forall t e, In (t, e) retries -> e <> EmptyString) ->
  let r' := fail_again retries r in
  ProgressRecord.status r' = "failed"
  /\ ProgressRecord.retryCount r' = 1 + Z.of_nat (length retries)
  /\ (ProgressRecord.canRetry r' = true <-> (length retries < 9)%nat)
  /\ ((10 <= length retries)%nat ->
      forall t, threw (ProgressRecord.validate uuid t (ProgressRecord.toJSON r')) = true)
  /\ (forall t s e w,
        ProgressRecord.updateStatus t s e w
          (fst (ProgressRecord.updateStatus t "sent" None w r'))
        = (fst (ProgressRecord.updateStatus t "sent" None w r'),
           Throw ("Invalid status transition from sent to " +:+ s))).
Proof.
  intros C N r'.
  apply create_normal in C. destruct C as [-> _].
  destruct (fail_again_counts retries
              (ProgressRecord.new (created_data now messageId telegramId "failed" error None)))
    as (S & R & _); [reflexivity | exact N |].
  fold r' in S, R. simpl in R.
  split; [exact S |]. split; [exact R |]. split; [| split].
  - unfold ProgressRecord.canRetry. rewrite S, R. simpl.
    destruct (Z.ltb_spec (1 + Z.of_nat (length retries)) 10); split; intros; try lia;
      try reflexivity; discriminate.
  - intros L t. unfold ProgressRecord.validate.
    destruct (ProgressRecord.schema_violations uuid (ProgressRecord.toJSON r')) eqn:E;
      [| reflexivity].
    exfalso.
    assert (I : In "/retryCount must be <= 10"
                  (ProgressRecord.schema_violations uuid (ProgressRecord.toJSON r'))).
    { unfold ProgressRecord.schema_violations. simpl. rewrite R.
      destruct (Z.ltb_spec 10 (1 + Z.of_nat (length retries))); [| lia].
      rewrite !in_app_iff. right. right. right. right. left. reflexivity. }
    rewrite E in I. destruct I.
  - intros t s e w.
    unfold ProgressRecord.updateStatus at 2 3. unfold ProgressRecord.canTransitionTo.
    rewrite S. simpl.
    unfold ProgressRecord.updateStatus, ProgressRecord.canTransitionTo. simpl. reflexivity.
Qed.

Lemma repeated_failures_use_up_the_retry_budget_witness :
  exists r,
    ProgressRecord.create (fun _ => true) started (job_id 1) 1 "failed"
      (Some "Chat not found") None = Normal r
    /\ ProgressRecord.retryCount
         (fail_again [(started + 60000, "Chat not found"); (started + 120000, "Timeout")] r)
       = 3.
Proof.
  destruct (ProgressRecord.create (fun _ => true) started (job_id 1) 1 "failed"
              (Some "Chat not found") None) as [r | e] eqn:C.
  - exists r. split; [reflexivity |].
    apply (repeated_failures_use_up_the_retry_budget (fun _ => true) started (job_id 1) 1
             (Some "Chat not found") r
             [(started + 60000, "Chat not found"); (started + 120000, "Timeout")] C).
    intros t e [H | [H | []]]; injection H as _ <-; discriminate.
  - vm_compute in C. discriminate C.
Defined.

Lemma updateFromRecord_step (now : Z) (record : ProgressRecord.t) (s : ProgressSummary.t) :
  let s' := ProgressSummary.updateFromRecord now record s in
  ProgressSummary.totalMessages s' = ProgressSummary.totalMessages s
  /\ ProgressSummary.planPath s' = ProgressSummary.planPath s
  /\ ProgressSummary.startedAt s' = ProgressSummary.startedAt s
  /\ ProgressSummary.successfulMessages s <= ProgressSummary.successfulMessages s'
     <= ProgressSummary.successfulMessages s + 1
  /\ ProgressSummary.failedMessages s <= ProgressSummary.failedMessages s'
     <= ProgressSummary.failedMessages s + 1
  /\ ProgressSummary.processedMessages s'
     = ProgressSummary.successfulMessages s' + ProgressSummary.failedMessages s'
  /\ (ProgressSummary.status s' = "completed"
      /\ ProgressSummary.totalMessages s <= ProgressSummary.processedMessages s'
      /\ ProgressSummary.currentPosition s' = ProgressSummary.totalMessages s
      \/ ProgressSummary.processedMessages s' < ProgressSummary.totalMessages s
         /\ ProgressSummary.currentPosition s' = ProgressSummary.currentPosition s
         /\ (ProgressSummary.status s' = "failed"
             \/ ProgressSummary.status s' = ProgressSummary.status s)).
Proof.
  unfold ProgressSummary.updateFromRecord.
  destruct (ProgressRecord.status record =s "sent");
    [| destruct (ProgressRecord.status record =s "failed")];
    match goal with
    | |- context [ ?a <=? ?b ] => destruct (Z.leb_spec a b)
    end; simpl;
    try (repeat split; try reflexivity; try lia; left; repeat split; try reflexivity; lia);
    match goal with
    | |- context [ if ?c then _ else _ ] => destruct c
    end; simpl;
    repeat split; try reflexivity; try lia; right; repeat split; auto; lia.
Qed.

Lemma recordProgress_summary (uuid : string -> bool) now record tr dk tr' dk' c s :
  ProgressTracker.recordProgress uuid now record tr dk = ((tr', dk'), c) ->
  ProgressTracker.progressSummary tr = Some s ->
  ProgressTracker.progressSummary tr' = Some s
  \/ ProgressTracker.progressSummary tr'
     = Some (ProgressSummary.updateFromRecord now record s).
Proof.
  unfold ProgressTracker.recordProgress. intros R S.
  destruct (ProgressTracker.isInitialized tr); simpl in R.
  2:{ injection R as <- _ _. left. exact S. }
  destruct (ProgressRecord.validate uuid now (ProgressRecord.toJSON record)).
  2:{ injection R as <- _ _. left. exact S. }
  simpl in R. rewrite S in R. injection R as <- _ _. right. reflexivity.
Qed.

(** X5. Along every sequence of [recordProgress] calls the summary of the
    tracker keeps its total, neither counter decreases, a summary that is
    'failed' stays 'failed' or becomes 'completed', and a summary that is
    'completed' with the total reached stays 'completed': no status goes back
    to 'running'. *)
Theorem summary_status_never_returns_to_running (uuid : string -> bool)
    (calls : list (Z * ProgressRecord.t)) (tr : ProgressTracker.t)
    (dk : ProgressTracker.Disk) (s : ProgressSummary.t) :
  ProgressTracker.progressSummary tr = Some s ->
  exists s',
    ProgressTracker.progressSummary (fst (record_all uuid calls tr dk)) = Some s'
    /\ ProgressSummary.totalMessages s' = ProgressSummary.totalMessages s
    /\ ProgressSummary.successfulMessages s <= ProgressSummary.successfulMessages s'
    /\ ProgressSummary.failedMessages s <= ProgressSummary.failedMessages s'
    /\ (ProgressSummary.status s = "failed" ->
        ProgressSummary.status s' = "failed" \/ ProgressSummary.status s' = "completed")
    /\ (ProgressSummary.status s = "completed" ->
        ProgressSummary.totalMessages s
        <= ProgressSummary.successfulMessages s + ProgressSummary.failedMessages s ->
        ProgressSummary.status s' = "completed").
Proof.
  revert tr dk s. induction calls as [| [now record] rest IH]; intros tr dk s S; simpl.
  - exists s. repeat split; auto; lia.
  - destruct (ProgressTracker.recordProgress uuid now record tr dk) as [[tr1 dk1] c] eqn:R.
    destruct (recordProgress_summary uuid now record tr dk tr1 dk1 c s R S) as [S1 | S1].
    + exact (IH tr1 dk1 s S1).
    + destruct (IH tr1 dk1 _ S1) as (s' & E & T & A & B & F & C).
      pose proof (updateFromRecord_step now record s) as U. simpl in U.
      destruct U as (U1 & _ & _ & U2 & U3 & U4 & U5).
      exists s'. split; [exact E |]. split; [congruence |].
      split; [lia |]. split; [lia |]. split.
      * intros Fs. destruct U5 as [(K & K1 & _) | (_ & _ & [K | K])].
        -- right. apply C; [exact K | lia].
        -- apply F. exact K.
        -- apply F. congruence.
      * intros Cs L. destruct U5 as [(K & K1 & _) | (K & _)].
        -- apply C; [exact K | lia].
        -- lia.
Qed.

Lemma summary_status_never_returns_to_running_witness :
  exists s',
    ProgressTracker.progressSummary
      (fst (record_all (fun _ => true)
              [(started + 1000,
                ProgressRecord.new (created_data (started + 1000) (job_id 1) 1
                                      "failed" (Some "Chat not found") None));
               (started + 9000,
                ProgressRecord.new (created_data (started + 9000) (job_id 2) 2
                                      "sent" None (Some "true_491234@c.us_3EB0")))]
              (fst (fst (ProgressTracker.create (fun _ => true) started
                           "/out/import-plan.json" 5 no_ledger)))
              (snd (fst (ProgressTracker.create (fun _ => true) started
                           "/out/import-plan.json" 5 no_ledger))))) = Some s'
    /\ ProgressSummary.totalMessages s' = 5.
Proof.
  destruct (summary_status_never_returns_to_running (fun _ => true)
              [(started + 1000,
                ProgressRecord.new (created_data (started + 1000) (job_id 1) 1
                                      "failed" (Some "Chat not found") None));
               (started + 9000,
                ProgressRecord.new (created_data (started + 9000) (job_id 2) 2
                                      "sent" None (Some "true_491234@c.us_3EB0")))]
              (fst (fst (ProgressTracker.create (fun _ => true) started
                           "/out/import-plan.json" 5 no_ledger)))
              (snd (fst (ProgressTracker.create (fun _ => true) started
                           "/out/import-plan.json" 5 no_ledger)))
              (untouched_summary 5) ltac:(vm_compute; reflexivity))
    as (s' & E & T & _).
  exists s'. split; [exact E | exact T].
Defined.

(** X6. The position of the summary stays within the plan: if
    [0 <= currentPosition <= totalMessages] then this holds again after
    [updateFromRecord]; [updatePosition] throws 'Position p out of range
    [0, total]' exactly for a position below 0 or above the total and
    otherwise changes the position (and the time of the last update) only;
    [pause] and [resume] leave the position alone. *)
Theorem position_stays_within_the_plan (now : Z) (s : ProgressSummary.t) :
  0 <= ProgressSummary.currentPosition s <= ProgressSummary.totalMessages s ->
  (forall record,
     0 <= ProgressSummary.currentPosition (ProgressSummary.updateFromRecord now record s)
     <= ProgressSummary.totalMessages (ProgressSummary.updateFromRecord now record s))
  /\ (forall position,
        match ProgressSummary.updatePosition now position s with
        | Normal s' =>
            0 <= position <= ProgressSummary.totalMessages s
            /\ ProgressSummary.currentPosition s' = position
            /\ ProgressSummary.totalMessages s' = ProgressSummary.totalMessages s
            /\ ProgressSummary.processedMessages s' = ProgressSummary.processedMessages s
            /\ ProgressSummary.successfulMessages s' = ProgressSummary.successfulMessages s
            /\ ProgressSummary.failedMessages s' = ProgressSummary.failedMessages s
            /\ ProgressSummary.status s' = ProgressSummary.status s
        | Throw e =>
            (position < 0 \/ ProgressSummary.totalMessages s < position)
            /\ e = "Position " +:+ show position +:+ " out of range [0, "
                   +:+ show (ProgressSummary.totalMessages s) +:+ "]"
        end)
  /\ ProgressSummary.currentPosition (ProgressSummary.pause now s)
     = ProgressSummary.currentPosition s
  /\ ProgressSummary.currentPosition (ProgressSummary.resume now s)
     = ProgressSummary.currentPosition s.
Proof.
  intros B. split; [| split; [| split]].
  - intros record. pose proof (updateFromRecord_step now record s) as U. simpl in U.
    destruct U as (U1 & _ & _ & _ & _ & _ & [(_ & _ & K) | (_ & K & _)]); rewrite K, U1; lia.
  - intros position. unfold ProgressSummary.updatePosition.
    destruct (Z.ltb_spec position 0); simpl.
    + split; [left; lia | reflexivity].
    + destruct (Z.ltb_spec (ProgressSummary.totalMessages s) position); simpl.
      * split; [right; lia | reflexivity].
      * repeat split; lia.
  - unfold ProgressSummary.pause. destruct (_ =s _); reflexivity.
  - unfold ProgressSummary.resume. destruct (_ =s _); reflexivity.
Qed.

Lemma position_stays_within_the_plan_witness :
  0 <= ProgressSummary.currentPosition
         (ProgressSummary.updateFromRecord (started + 1000)
            (ProgressRecord.new (created_data (started + 1000) (job_id 1) 1
                                   "sent" None None))
            (untouched_summary 1))
  <= ProgressSummary.totalMessages
       (ProgressSummary.updateFromRecord (started + 1000)
          (ProgressRecord.new (created_data (started + 1000) (job_id 1) 1
                                 "sent" None None))
          (untouched_summary 1)).
Proof.
  apply (proj1 (position_stays_within_the_plan (started + 1000) (untouched_summary 1)
                  ltac:(simpl; lia))).
Defined.

(** X7. [pause] and [resume] of the summary only toggle between 'running'
    and 'paused': [pause] acts on a 'running' summary only and [resume] on a
    'paused' one only, any other summary is returned unchanged, and pausing
    then resuming (or resuming then pausing) restores the summary up to the
    time of the last update. *)
Theorem pause_and_resume_only_toggle_running_and_paused (t1 t2 : Z) (s : ProgressSummary.t) :
  (ProgressSummary.status s = "running" ->
   ProgressSummary.pause t1 s
   = ProgressSummary.with_lastUpdated t1 (ProgressSummary.with_status "paused" s)
   /\ ProgressSummary.resume t2 (ProgressSummary.pause t1 s)
      = ProgressSummary.with_lastUpdated t2 s)
  /\ (ProgressSummary.status s = "paused" ->
      ProgressSummary.pause t2 (ProgressSummary.resume t1 s)
      = ProgressSummary.with_lastUpdated t2 s)
  /\ (ProgressSummary.status s <> "running" -> ProgressSummary.pause t1 s = s)
  /\ (ProgressSummary.status s <> "paused" -> ProgressSummary.resume t1 s = s).
Proof.
  destruct s as [p st lu tot pr su fa cu status].
  unfold ProgressSummary.pause, ProgressSummary.resume; simpl.
  split; [| split; [| split]].
  - intros ->. split; reflexivity.
  - intros ->. reflexivity.
  - intros N. destruct (String.eqb_spec status "running"); [contradiction | reflexivity].
  - intros N. destruct (String.eqb_spec status "paused"); [contradiction | reflexivity].
Qed.

Lemma pause_and_resume_only_toggle_running_and_paused_witness :
  ProgressSummary.resume (started + 2000) (ProgressSummary.pause (started + 1000)
                                             (untouched_summary 3))
  = ProgressSummary.with_lastUpdated (started + 2000) (untouched_summary 3).
Proof.
  apply (proj1 (pause_and_resume_only_toggle_running_and_paused (started + 1000)
                  (started + 2000) (untouched_summary 3))).
  reflexivity.
Defined.

Lemma new_toJSON (r : ProgressRecord.t) : ProgressRecord.new (ProgressRecord.toJSON r) = r.
Proof. destruct r. reflexivity. Qed.

Lemma recordProgress_normal uuid now record tr dk tr' dk' r :
  ProgressTracker.recordProgress uuid now record tr dk = ((tr', dk'), Normal r) ->
  exists s,
    ProgressTracker.isInitialized tr = true
    /\ ProgressTracker.progressSummary tr = Some s
    /\ ProgressRecord.validate uuid now (ProgressRecord.toJSON record) = Normal tt
    /\ (tr', dk') = recorded now record s tr dk
    /\ r = record.
Proof.
  unfold ProgressTracker.recordProgress. intros R.
  destruct (ProgressTracker.isInitialized tr) eqn:I; simpl in R; [| discriminate R].
  destruct (ProgressRecord.validate uuid now (ProgressRecord.toJSON record)) as [[] |] eqn:V;
    [| discriminate R].
  simpl in R. destruct (ProgressTracker.progressSummary tr) as [s |] eqn:S; [| discriminate R].
  exists s. injection R as <- <- <-. repeat split. 
Qed.

(** X8. After a [recordProgress] that returns, the tracker answers for the
    message of the record with that record: [getProgressRecord] returns its
    data, the message is processed, it is successful exactly when the record
    is 'sent' and failed exactly when it is 'failed', and the last line of the
    log is the record.  The answers for every other message id are those of
    before the call. *)
Theorem recordProgress_overrides_the_status_of_its_message (uuid : string -> bool) (now : Z)
    (record : ProgressRecord.t) (tr : ProgressTracker.t) (dk : ProgressTracker.Disk)
    (tr' : ProgressTracker.t) (dk' : ProgressTracker.Disk) (r : ProgressRecord.t) :
  ProgressTracker.recordProgress uuid now record tr dk = ((tr', dk'), Normal r) ->
  let id := ProgressRecord.messageId record in
  ProgressTracker.getProgressRecord tr' id = Some (ProgressRecord.toJSON record)
  /\ ProgressTracker.isMessageProcessed tr' id = true
  /\ ProgressTracker.isMessageSuccessful tr' id = (ProgressRecord.status record =s "sent")
  /\ ProgressTracker.isMessageFailed tr' id = (ProgressRecord.status record =s "failed")
  /\ ProgressTracker.isMessageFailed tr' id = negb (ProgressTracker.isMessageSuccessful tr' id)
  /\ last (ProgressTracker.progress_jsonl dk') = Some (ProgressRecord.toJSON record)
  /\ (forall other, other <> id ->
      ProgressTracker.getProgressRecord tr' other = ProgressTracker.getProgressRecord tr other
      /\ ProgressTracker.isMessageProcessed tr' other
         = ProgressTracker.isMessageProcessed tr other
      /\ ProgressTracker.isMessageSuccessful tr' other
         = ProgressTracker.isMessageSuccessful tr other
      /\ ProgressTracker.isMessageFailed tr' other
         = ProgressTracker.isMessageFailed tr other).
Proof.
  intros R id. apply recordProgress_normal in R.
  destruct R as (s & _ & _ & V & E & _). injection E as -> ->.
  unfold ProgressTracker.getProgressRecord, ProgressTracker.isMessageProcessed,
    ProgressTracker.isMessageSuccessful, ProgressTracker.isMessageFailed. simpl.
  fold id. rewrite lookup_insert_eq. simpl.
  split; [reflexivity |]. split; [reflexivity |].
  split; [reflexivity |]. split; [reflexivity |]. split.
  - apply record_validate_status in V. simpl in V. destruct V as [-> | ->]; reflexivity.
  - split; [apply last_snoc |].
    intros other N. rewrite lookup_insert_ne by (intros F; apply N; symmetry; exact F).
    repeat split.
Qed.

Lemma recordProgress_overrides_the_status_of_its_message_witness :
  ProgressTracker.isMessageSuccessful
    (fst (fst (ProgressTracker.recordProgress (fun _ => true) (started + 9000)
                 (ProgressRecord.new (created_data (started + 9000) (job_id 1) 1
                                        "sent" None (Some "true_491234@c.us_3EB0")))
                 (fst (fst (ProgressTracker.create (fun _ => true) started
                              "/out/import-plan.json" 5 no_ledger)))
                 (snd (fst (ProgressTracker.create (fun _ => true) started
                              "/out/import-plan.json" 5 no_ledger))))))
    (job_id 1) = true.
Proof.
  set (ledger := ProgressTracker.create (fun _ => true) started
                   "/out/import-plan.json" 5 no_ledger).
  set (record := ProgressRecord.new (created_data (started + 9000) (job_id 1) 1
                                       "sent" None (Some "true_491234@c.us_3EB0"))).
  destruct (ProgressTracker.recordProgress (fun _ => true) (started + 9000) record
              (fst (fst ledger)) (snd (fst ledger))) as [[tr' dk'] [r | e]] eqn:R.
  - destruct (recordProgress_overrides_the_status_of_its_message _ _ _ _ _ _ _ _ R)
      as (_ & _ & S & _).
    exact S.
  - vm_compute in R. discriminate R.
Defined.

Lemma validate_later (uuid : string -> bool) (t t' : Z) (d : ProgressRecord.Data) :
  ProgressRecord.validate uuid t d = Normal tt -> t <= t' ->
  ProgressRecord.validate uuid t' d = Normal tt.
Proof.
  unfold ProgressRecord.validate, ProgressRecord._validateBusinessRules.
  destruct (ProgressRecord.schema_violations uuid d); [| discriminate].
  destruct (_ && _); [discriminate |]. destruct (_ && _); [discriminate |].
  destruct (Z.ltb_spec (t + 60000) (ProgressRecord.d_timestamp d)); [discriminate |].
  intros V L.
  destruct (Z.ltb_spec (t' + 60000) (ProgressRecord.d_timestamp d)); [lia | exact V].
Qed.

Lemma load_lines_valid (uuid : string -> bool) (now : Z) (lines : list ProgressRecord.Data) :
  forall records records',
  ProgressTracker.load_lines uuid now lines records = (records', Normal tt) ->
  Forall (fun d => ProgressRecord.validate uuid now d = Normal tt) lines.
Proof.
  induction lines as [| d rest IH]; intros records records' L; simpl in L; [constructor |].
  unfold ProgressRecord.fromData in L.
  destruct (ProgressRecord.validate uuid now d) as [[] |] eqn:V; simpl in L; [| discriminate L].
  constructor; [exact V | exact (IH _ _ L)].
Qed.

Lemma load_lines_all_valid (uuid : string -> bool) (now : Z)
    (lines : list ProgressRecord.Data) :
  Forall (fun d => ProgressRecord.validate uuid now d = Normal tt) lines ->
  forall records, exists records',
    ProgressTracker.load_lines uuid now lines records = (records', Normal tt).
Proof.
  induction 1 as [| d rest V _ IH]; intros records; simpl.
  - eexists. reflexivity.
  - unfold ProgressRecord.fromData. rewrite V. simpl. apply IH.
Qed.

Lemma latest_entry_snoc log d id :
  latest_entry (log ++ [d]) id
  = if ProgressRecord.d_messageId d =s id then Some d else latest_entry log id.
Proof.
  unfold latest_entry. rewrite List.filter_app. simpl.
  destruct (ProgressRecord.d_messageId d =s id).
  - apply last_snoc.
  - rewrite app_nil_r. reflexivity.
Qed.

Lemma create_more (uuid : string -> bool) now planPath total dk tr' dk' :
  ProgressTracker.create uuid now planPath total dk = ((tr', dk'), Normal tt) ->
  ProgressTracker.planPath tr' = planPath
  /\ Forall (fun d => ProgressRecord.validate uuid now d = Normal tt)
       (ProgressTracker.progress_jsonl dk').
Proof.
  unfold ProgressTracker.create, ProgressTracker.initialize,
    ProgressTracker._loadProgressRecords.
  destruct (ProgressTracker.progress_json dk) as [s0 |].
  - destruct (ProgressSummary.fromData s0) as [s |]; [| discriminate].
    destruct (ProgressTracker.load_lines uuid now _ _) as [records [[] | e]] eqn:L.
    + intros [= <- <-]. split; [reflexivity |]. exact (load_lines_valid _ _ _ _ _ L).
    + destruct (str_includes "not found" e) eqn:I; [| discriminate].
      apply load_lines_throw in L. congruence.
  - destruct (ProgressSummary.create now _ total) as [s |]; [| discriminate].
    destruct (ProgressTracker.load_lines uuid now _ _) as [records [[] | e]] eqn:L.
    + intros [= <- <-]. split; [reflexivity |]. exact (load_lines_valid _ _ _ _ _ L).
    + destruct (str_includes "not found" e) eqn:I; [| discriminate].
      apply load_lines_throw in L. simpl in L. congruence.
Qed.

Lemma record_all_keeps_the_ledger (uuid : string -> bool) (T : Z) (planPath : string)
    (calls : list (Z * ProgressRecord.t)) :
  forall tr dk s,
  ProgressTracker.isInitialized tr = true ->
  ProgressTracker.planPath tr = planPath ->
  ProgressTracker.progressSummary tr = Some s ->
  ProgressTracker.progress_json dk = Some s ->
  (forall id, ProgressTracker.progressRecords tr !! id
              = ProgressRecord.new <$> latest_entry (ProgressTracker.progress_jsonl dk) id) ->
  Forall (fun d => exists t, t <= T /\ ProgressRecord.validate uuid t d = Normal tt)
    (ProgressTracker.progress_jsonl dk) ->
  (forall t r, In (t, r) calls -> t <= T) ->
  exists s',
    ProgressTracker.isInitialized (fst (record_all uuid calls tr dk)) = true
    /\ ProgressTracker.planPath (fst (record_all uuid calls tr dk)) = planPath
    /\ ProgressTracker.progressSummary (fst (record_all uuid calls tr dk)) = Some s'
    /\ ProgressTracker.progress_json (snd (record_all uuid calls tr dk)) = Some s'
    /\ (forall id,
          ProgressTracker.progressRecords (fst (record_all uuid calls tr dk)) !! id
          = ProgressRecord.new
              <$> latest_entry (ProgressTracker.progress_jsonl
                                  (snd (record_all uuid calls tr dk))) id)
    /\ Forall (fun d => exists t, t <= T /\ ProgressRecord.validate uuid t d = Normal tt)
         (ProgressTracker.progress_jsonl (snd (record_all uuid calls tr dk))).
Proof.
  induction calls as [| [now record] rest IH]; intros tr dk s I P S J M V B; simpl.
  - exists s. repeat split; assumption.
  - destruct (ProgressTracker.recordProgress uuid now record tr dk) as [[tr1 dk1] c] eqn:R.
    assert (B' : forall t r, In (t, r) rest -> t <= T).
    { intros t r H. apply (B t r). right. exact H. }
    destruct c as [r | e].
    + apply recordProgress_normal in R. destruct R as (s0 & _ & S0 & Vr & E & _).
      injection E as -> ->.
      eapply IH; simpl; try eassumption; try reflexivity.
      * intros id. rewrite latest_entry_snoc. simpl.
        destruct (String.eqb_spec (ProgressRecord.messageId record) id) as [-> | N].
        -- rewrite lookup_insert_eq. simpl. rewrite new_toJSON. reflexivity.
        -- rewrite lookup_insert_ne by exact N. apply M.
      * apply Forall_app. split; [exact V |]. constructor; [| constructor].
        exists now. split; [apply (B now record); left; reflexivity | exact Vr].
    + assert (E : tr1 = tr /\ dk1 = dk).
      { unfold ProgressTracker.recordProgress in R. rewrite I in R. simpl in R.
        destruct (ProgressRecord.validate uuid now (ProgressRecord.toJSON record));
          simpl in R; [rewrite S in R; discriminate R |].
        injection R as <- <- _. split; reflexivity. }
      destruct E as [-> ->]. eapply IH; eassumption.
Qed.

(** X9. Reloading restores the tracker: after [ProgressTracker.create] and
    any sequence of [recordProgress] calls, progress.json holds the summary
    kept in memory, and [load] at a later time returns exactly the tracker
    that wrote the files (same summary, same record for every message id) and
    leaves the files alone - unless [ProgressSummary.validate] refuses the
    summary, in which case [load] throws 'Failed to initialize progress
    tracking: Failed to load existing progress: ...' with the error of the
    validation. *)
Theorem reloading_the_ledger_restores_the_tracker (uuid : string -> bool) (now later : Z)
    (planPath : string) (total : Z) (dk0 : ProgressTracker.Disk)
    (tr0 : ProgressTracker.t) (dk1 : ProgressTracker.Disk)
    (calls : list (Z * ProgressRecord.t)) :
  ProgressTracker.create uuid now planPath total dk0 = ((tr0, dk1), Normal tt) ->
  now <= later ->
  (forall t r, In (t, r) calls -> t <= later) ->
  let tr := fst (record_all uuid calls tr0 dk1) in
  let dk := snd (record_all uuid calls tr0 dk1) in
  exists s,
    ProgressTracker.progressSummary tr = Some s
    /\ ProgressTracker.progress_json dk = Some s
    /\ ProgressTracker.load uuid later planPath dk
       = match ProgressSummary.validate s with
         | Normal _ => ((tr, dk), Normal tt)
         | Throw e =>
             ((ProgressTracker.new planPath, dk),
              Throw ("Failed to initialize progress tracking: "
                     +:+ ("Failed to load existing progress: " +:+ e)))
         end.
Proof.
  intros C L B tr dk.
  destruct (create_more uuid now planPath total dk0 tr0 dk1 C) as [P V0].
  unfold ProgressTracker.create in C.
  destruct (initialize_facts uuid now total planPath dk0 tr0 dk1 _ C) as (Lg & F).
  destruct (F eq_refl) as (I & M & s0 & S0 & J0 & _). clear F.
  destruct (record_all_keeps_the_ledger uuid later planPath calls tr0 dk1 s0 I P S0 J0)
    as (s & I' & P' & S & J & M' & V); [| | exact B |].
  { intros id. rewrite Lg. apply M. }
  { eapply Forall_impl; [exact V0 |]. intros d Vd. exists now. split; assumption. }
  fold tr in I', P', S, M'. fold dk in J, M', V.
  exists s. split; [exact S |]. split; [exact J |].
  unfold ProgressTracker.load, ProgressTracker.initialize. rewrite J.
  unfold ProgressSummary.fromData.
  destruct (ProgressSummary.validate s) as [[] | e]; simpl; [| reflexivity].
  unfold ProgressTracker._loadProgressRecords. simpl.
  destruct (load_lines_all_valid uuid later (ProgressTracker.progress_jsonl dk)) with (records := (∅ : gmap string ProgressRecord.t))
    as [records Ld].
  { eapply Forall_impl; [exact V |]. intros d (t & Lt & Vd).
    exact (validate_later uuid t later d Vd Lt). }
  rewrite Ld. f_equal. f_equal.
  assert (E : records = ProgressTracker.progressRecords tr).
  { apply map_eq. intros id. rewrite (load_lines_normal _ _ _ _ _ Ld id), M'.
    destruct (latest_entry _ id); reflexivity. }
  rewrite E. destruct tr as [p su re ini]. simpl in *. subst. reflexivity.
Qed.

Lemma reloading_the_ledger_restores_the_tracker_witness :
  exists s,
    ProgressTracker.progressSummary
      (fst (record_all (fun _ => true)
              [(started + 9000,
                ProgressRecord.new (created_data (started + 9000) (job_id 1) 1
                                      "sent" None (Some "true_491234@c.us_3EB0")))]
              (fst (fst (ProgressTracker.create (fun _ => true) started
                           "/out/import-plan.json" 2 no_ledger)))
              (snd (fst (ProgressTracker.create (fun _ => true) started
                           "/out/import-plan.json" 2 no_ledger))))) = Some s
    /\ ProgressSummary.successfulMessages s = 1.
Proof.
  destruct (reloading_the_ledger_restores_the_tracker (fun _ => true) started
              (started + 3600000) "/out/import-plan.json" 2 no_ledger
              (fst (fst (ProgressTracker.create (fun _ => true) started
                           "/out/import-plan.json" 2 no_ledger)))
              (snd (fst (ProgressTracker.create (fun _ => true) started
                           "/out/import-plan.json" 2 no_ledger)))
              [(started + 9000,
                ProgressRecord.new (created_data (started + 9000) (job_id 1) 1
                                      "sent" None (Some "true_491234@c.us_3EB0")))])
    as (s & S & _).
  - vm_compute. reflexivity.
  - lia.
  - intros t r [H | []]. injection H as <- _. lia.
  - exists s. split; [exact S |]. vm_compute in S. injection S as <-. reflexivity.
Defined.

(** X10. [resetProgress] is a fresh start: on a tracker that is not
    initialised it throws 'Progress tracker not initialized' and changes
    nothing; on an initialised tracker (with a total that is not negative) it
    returns what [ProgressTracker.create] returns for the same plan path and
    total over an empty output directory: an empty log, and no message
    processed. *)
Theorem resetProgress_is_a_fresh_start (uuid : string -> bool) (now : Z)
    (tr : ProgressTracker.t) (dk : ProgressTracker.Disk) :
  (ProgressTracker.isInitialized tr = false ->
   ProgressTracker.resetProgress now tr dk
   = ((tr, dk), Throw "Progress tracker not initialized"))
  /\ (forall s,
        ProgressTracker.isInitialized tr = true ->
        ProgressTracker.progressSummary tr = Some s ->
        0 <= ProgressSummary.totalMessages s ->
        ProgressTracker.resetProgress now tr dk
        = ProgressTracker.create uuid now (ProgressTracker.planPath tr)
            (ProgressSummary.totalMessages s) no_ledger
        /\ ProgressTracker.progress_jsonl (snd (fst (ProgressTracker.resetProgress now tr dk)))
           = []
        /\ forall id,
             ProgressTracker.isMessageProcessed
               (fst (fst (ProgressTracker.resetProgress now tr dk))) id = false).
Proof.
  split.
  - intros I. unfold ProgressTracker.resetProgress. rewrite I. reflexivity.
  - intros s I S T.
    assert (E : ProgressTracker.resetProgress now tr dk
                = ProgressTracker.create uuid now (ProgressTracker.planPath tr)
                    (ProgressSummary.totalMessages s) no_ledger).
    { unfold ProgressTracker.resetProgress, ProgressTracker.create,
        ProgressTracker.initialize. rewrite I. simpl. rewrite S.
      rewrite (create_summary_ok now (ProgressTracker.planPath tr) _ T). simpl.
      unfold ProgressTracker.with_summary, ProgressTracker.with_records,
        ProgressTracker.with_initialized, ProgressTracker._saveProgressSummary. simpl.
      rewrite I. reflexivity. }
    split; [exact E |]. rewrite E.
    unfold ProgressTracker.create, ProgressTracker.initialize. simpl.
    rewrite (create_summary_ok now (ProgressTracker.planPath tr) _ T). simpl.
    split; [reflexivity |]. intros id. reflexivity.
Qed.

Lemma resetProgress_is_a_fresh_start_witness :
  ProgressTracker.resetProgress (started + 5000)
    (WhatsAppImporter.progressTracker handed_over) (WhatsAppImporter.disk handed_over)
  = ProgressTracker.create (fun _ => true) (started + 5000) "/out/import-plan.json" 2
      no_ledger.
Proof.
  apply (proj2 (resetProgress_is_a_fresh_start (fun _ => true) (started + 5000)
                  (WhatsAppImporter.progressTracker handed_over)
                  (WhatsAppImporter.disk handed_over))
           (untouched_summary 2)).
  - reflexivity.
  - reflexivity.
  - simpl. lia.
Defined.

(** X11. [getRequiredWaitTime] is the time that opens the time window of
    the rate limiter: it is never negative, it is 0 when [canSendMessage]
    holds, sending is refused at every moment before the wait is over, and
    at the end of the wait [canSendMessage] depends on the daily count only.  Right
    after a send the wait is the minimum of the sleep range in
    milliseconds. *)
Theorem required_wait_opens_the_time_window (now : Z) (config : CLIConfig.t)
    (rs : RuntimeState.t) :
  let wait := RuntimeState.getRequiredWaitTime now config rs in
  0 <= wait
  /\ (RuntimeState.canSendMessage now config rs = true -> wait = 0)
  /\ RuntimeState.canSendMessage (now + wait) config rs
     = (RuntimeState.messageCount rs <? RuntimeState.dailyLimit rs)
  /\ (forall t, now <= t < now + wait -> RuntimeState.canSendMessage t config rs = false)
  /\ (forall sent,
        RuntimeState.getRequiredWaitTime sent config (RuntimeState.updateRateLimit sent rs)
        = Z.max 0 (CLIConfig.sleepRange_min config * 1000)).
Proof.
  unfold RuntimeState.getRequiredWaitTime, RuntimeState.canSendMessage. simpl.
  split; [lia |]. split; [| split; [| split]].
  - destruct (Z.ltb_spec (now - RuntimeState.lastMessageTime rs)
                (CLIConfig.sleepRange_min config * 1000)); [discriminate | lia].
  - destruct (Z.ltb_spec
                (now + Z.max 0 (CLIConfig.sleepRange_min config * 1000
                                - (now - RuntimeState.lastMessageTime rs))
                 - RuntimeState.lastMessageTime rs)
                (CLIConfig.sleepRange_min config * 1000)); [lia |].
    destruct (Z.leb_spec (RuntimeState.dailyLimit rs) (RuntimeState.messageCount rs));
      destruct (Z.ltb_spec (RuntimeState.messageCount rs) (RuntimeState.dailyLimit rs));
      try reflexivity; lia.
  - intros t B.
    destruct (Z.ltb_spec (t - RuntimeState.lastMessageTime rs)
                (CLIConfig.sleepRange_min config * 1000)); [reflexivity | lia].
  - intros sent. f_equal. lia.
Qed.

Lemma required_wait_opens_the_time_window_witness :
  RuntimeState.canSendMessage (started + 1000) CLIConfig.createDefault
    (RuntimeState.updateRateLimit started RuntimeState.new) = false.
Proof.
  apply (proj1 (proj2 (proj2 (proj2
           (required_wait_opens_the_time_window started CLIConfig.createDefault
              (RuntimeState.updateRateLimit started RuntimeState.new)))))).
  vm_compute. split; [discriminate | reflexivity].
Defined.

Lemma after_sends_count (sent : list Z) :
  forall rs,
  RuntimeState.messageCount (after_sends sent rs)
  = RuntimeState.messageCount rs + Z.of_nat (length sent)
  /\ RuntimeState.dailyLimit (after_sends sent rs) = RuntimeState.dailyLimit rs
  /\ RuntimeState.lastMessageTime (after_sends sent rs)
     = default (RuntimeState.lastMessageTime rs) (last sent).
Proof.
  unfold after_sends. induction sent as [| t rest IH]; intros rs; simpl.
  - repeat split. lia.
  - destruct (IH (RuntimeState.updateRateLimit t rs)) as (A & B & C).
    clear IH. rewrite A, B, C. simpl. repeat split; [lia |].
    rewrite last_cons. destruct (last rest); reflexivity.
Qed.

(** X12. The daily limit: after [n] calls of [updateRateLimit] on a new
    [RuntimeState] the message count is [n] and the limit is 1000; from 1000
    sends on [canSendMessage] refuses at every time, below 1000 it compares
    the time since the last send with the minimum of the sleep range, and
    [resetDailyLimit] brings the limiter back to this comparison. *)
Theorem limiter_refuses_at_the_daily_limit (sent : list Z) (now : Z) (config : CLIConfig.t) :
  let rs := after_sends sent RuntimeState.new in
  RuntimeState.messageCount rs = Z.of_nat (length sent)
  /\ RuntimeState.dailyLimit rs = 1000
  /\ ((1000 <= length sent)%nat -> RuntimeState.canSendMessage now config rs = false)
  /\ ((length sent < 1000)%nat ->
      RuntimeState.canSendMessage now config rs
      = (CLIConfig.sleepRange_min config * 1000 <=? now - default 0 (last sent)))
  /\ RuntimeState.canSendMessage now config (RuntimeState.resetDailyLimit rs)
     = (CLIConfig.sleepRange_min config * 1000 <=? now - default 0 (last sent)).
Proof.
  intros rs. destruct (after_sends_count sent RuntimeState.new) as (A & B & C).
  fold rs in A, B, C. simpl in A, B, C. rewrite Z.add_0_l in A.
  split; [exact A |]. split; [exact B |].
  unfold RuntimeState.canSendMessage. simpl. rewrite A, B, C.
  split; [| split].
  - intros L. destruct (_ <? _); [reflexivity |].
    destruct (Z.leb_spec 1000 (Z.of_nat (length sent))); [reflexivity | lia].
  - intros L.
    destruct (Z.ltb_spec (now - default 0 (last sent)) (CLIConfig.sleepRange_min config * 1000));
      destruct (Z.leb_spec (CLIConfig.sleepRange_min config * 1000) (now - default 0 (last sent)));
      try lia; try reflexivity.
    destruct (Z.leb_spec 1000 (Z.of_nat (length sent))); [lia | reflexivity].
  - destruct (Z.ltb_spec (now - default 0 (last sent)) (CLIConfig.sleepRange_min config * 1000));
      destruct (Z.leb_spec (CLIConfig.sleepRange_min config * 1000) (now - default 0 (last sent)));
      try lia; reflexivity.
Qed.

Lemma limiter_refuses_at_the_daily_limit_witness :
  RuntimeState.canSendMessage (started + 86400000) CLIConfig.createDefault
    (after_sends (map (fun k => started + Z.of_nat k * 10000) (seq 0 1000)) RuntimeState.new)
  = false.
Proof.
  apply (proj1 (proj2 (proj2
           (limiter_refuses_at_the_daily_limit
              (map (fun k => started + Z.of_nat k * 10000) (seq 0 1000))
              (started + 86400000) CLIConfig.createDefault)))).
  rewrite length_map, length_seq. lia.
Defined.

(** X13. [parseSleepRange] returns only ranges that the configuration
    accepts: whenever it returns [(min, max)], [1 <= min <= max <= 60], the
    two are equal for an input made of digits only, the business rules of
    [CLIConfig] accept the range, and every [getRandomSleepDuration] drawn
    from a configuration with this range lies between 1 and 60. *)
Theorem parseSleepRange_accepts_only_valid_ranges (rangeString : string) (min max : Z) :
  CLIConfig.parseSleepRange rangeString = Normal (min, max) ->
  1 <= min <= max /\ max <= 60
  /\ (digits (list_ascii_of_string (trim rangeString)) = true -> min = max)
  /\ CLIConfig._validateBusinessRules
       {| CLIConfig.d_sleepRange := Some (min, max);
          CLIConfig.d_whatsappTimeout := None;
          CLIConfig.d_maxRetries := None;
          CLIConfig.d_maxFileSize := None;
          CLIConfig.d_supportedMediaTypes := None;
          CLIConfig.d_logLevel := None;
          CLIConfig.d_outputFormat := None |} = Normal tt
  /\ (forall (random : CLIConfig.Random) (c : CLIConfig.t),
        CLIConfig.sleepRange_min c = min -> CLIConfig.sleepRange_max c = max ->
        1 <= CLIConfig.getRandomSleepDuration random c <= 60).
Proof.
  intros P.
  pose proof (parseSleepRange_bounds rangeString min max P) as B.
  destruct B as (B1 & B2 & B3). split; [exact B1 |]. split; [exact B2 |].
  split; [exact B3 |]. split.
  - unfold CLIConfig._validateBusinessRules. simpl.
    destruct (Z.ltb_spec max min); [lia |]. destruct (Z.ltb_spec min 1); [lia |].
    destruct (Z.ltb_spec 60 max); [lia | reflexivity].
  - intros random c Emin Emax.
    pose proof (random_in_range random c ltac:(lia)) as R. lia.
Qed.

Lemma parseSleepRange_accepts_only_valid_ranges_witness :
  CLIConfig._validateBusinessRules
    {| CLIConfig.d_sleepRange := Some (3, 10);
       CLIConfig.d_whatsappTimeout := None;
       CLIConfig.d_maxRetries := None;
       CLIConfig.d_maxFileSize := None;
       CLIConfig.d_supportedMediaTypes := None;
       CLIConfig.d_logLevel := None;
       CLIConfig.d_outputFormat := None |} = Normal tt.
Proof.
  destruct (parseSleepRange_accepts_only_valid_ranges " 3-10 " 3 10) as (_ & _ & _ & V & _).
  - vm_compute. reflexivity.
  - exact V.
Defined.

Lemma small_numbers (z : Z) : 1 <= z <= 60 -> In z (map Z.of_nat (seq 1 60)).
Proof.
  intros B. apply in_map_iff. exists (Z.to_nat z). split; [lia |].
  apply in_seq. lia.
Qed.

Lemma sleep_ranges_checked :
  forallb (fun a =>
    forallb (fun b =>
      implb (a <=? b)
        (match CLIConfig.parseSleepRange (show a +:+ "-" +:+ show b) with
         | Normal (x, y) => (x =? a) && (y =? b)
         | Throw _ => false
         end
         && threw (CLIConfig.parseSleepRange (show a +:+ "-" +:+ show b +:+ "s"))))
      (map Z.of_nat (seq 1 60))) (map Z.of_nat (seq 1 60)) = true.
Proof. vm_compute. reflexivity. Qed.

Lemma sleep_values_checked :
  forallb (fun a =>
    match CLIConfig.parseSleepRange (show a) with
    | Normal (x, y) => (x =? a) && (y =? a)
    | Throw _ => false
    end
    && threw (CLIConfig.parseSleepRange (show a +:+ "s")))
    (map Z.of_nat (seq 1 60)) = true.
Proof. vm_compute. reflexivity. Qed.

(** X14. [parseSleepRange] reads back what was written: for a range with
    [1 <= min <= max <= 60] it maps the text 'min-max' to [(min, max)] and the
    text 'min' to [(min, min)]; but it refuses the text that
    [formatSleepRange] produces, which ends in 's'. *)
Theorem parseSleepRange_reads_back_what_was_written (c : CLIConfig.t) :
  1 <= CLIConfig.sleepRange_min c -> CLIConfig.sleepRange_min c <= CLIConfig.sleepRange_max c ->
  CLIConfig.sleepRange_max c <= 60 ->
  CLIConfig.parseSleepRange
    (show (CLIConfig.sleepRange_min c) +:+ "-" +:+ show (CLIConfig.sleepRange_max c))
  = Normal (CLIConfig.sleepRange_min c, CLIConfig.sleepRange_max c)
  /\ CLIConfig.parseSleepRange (show (CLIConfig.sleepRange_min c))
     = Normal (CLIConfig.sleepRange_min c, CLIConfig.sleepRange_min c)
  /\ threw (CLIConfig.parseSleepRange (CLIConfig.formatSleepRange c)) = true.
Proof.
  intros L1 L2 L3.
  pose proof sleep_ranges_checked as K. rewrite forallb_forall in K.
  specialize (K (CLIConfig.sleepRange_min c)
                (small_numbers (CLIConfig.sleepRange_min c) ltac:(lia))).
  rewrite forallb_forall in K.
  specialize (K (CLIConfig.sleepRange_max c)
                (small_numbers (CLIConfig.sleepRange_max c) ltac:(lia))).
  destruct (Z.leb_spec (CLIConfig.sleepRange_min c) (CLIConfig.sleepRange_max c)); [| lia].
  cbn [implb] in K. apply andb_true_iff in K. destruct K as [K Ks].
  pose proof sleep_values_checked as V. rewrite forallb_forall in V.
  specialize (V (CLIConfig.sleepRange_min c)
                (small_numbers (CLIConfig.sleepRange_min c) ltac:(lia))).
  apply andb_true_iff in V. destruct V as [V Vs].
  split; [| split].
  - destruct (CLIConfig.parseSleepRange
                (show (CLIConfig.sleepRange_min c) +:+ "-"
                 +:+ show (CLIConfig.sleepRange_max c))) as [[x y] |]; [| discriminate K].
    apply andb_true_iff in K. destruct K as [Kx Ky].
    apply Z.eqb_eq in Kx, Ky. subst. reflexivity.
  - destruct (CLIConfig.parseSleepRange (show (CLIConfig.sleepRange_min c)))
      as [[x y] |]; [| discriminate V].
    apply andb_true_iff in V. destruct V as [Vx Vy].
    apply Z.eqb_eq in Vx, Vy. subst. reflexivity.
  - unfold CLIConfig.formatSleepRange.
    destruct (CLIConfig.sleepRange_min c =? CLIConfig.sleepRange_max c);
      [exact Vs | exact Ks].
Qed.

Lemma parseSleepRange_reads_back_what_was_written_witness :
  CLIConfig.parseSleepRange "3-10" = Normal (3, 10).
Proof.
  apply (proj1 (parseSleepRange_reads_back_what_was_written CLIConfig.createDefault
                  ltac:(simpl; lia) ltac:(simpl; lia) ltac:(simpl; lia))).
Defined.

Lemma successes_app (l1 l2 : list WhatsAppImporter.Attempt) :
  successes (l1 ++ l2) = successes l1 + successes l2
  /\ failures (l1 ++ l2) = failures l1 + failures l2.
Proof.
  unfold successes, failures. rewrite !List.filter_app, !length_app. lia.
Qed.

Lemma successes_one (a : WhatsAppImporter.Attempt) :
  successes [a] = (if WhatsAppImporter.delivered a then 1 else 0)
  /\ failures [a] = (if WhatsAppImporter.delivered a then 0 else 1).
Proof. unfold successes, failures. simpl. destruct (WhatsAppImporter.delivered a); auto. Qed.

Lemma successes_failures (l : list WhatsAppImporter.Attempt) :
  0 <= successes l /\ 0 <= failures l
  /\ successes l + failures l = Z.of_nat (length l).
Proof.
  unfold successes, failures. induction l as [| a l IH]; simpl; [lia |].
  destruct (WhatsAppImporter.delivered a); simpl; lia.
Qed.

Lemma failures_none (l : list WhatsAppImporter.Attempt) :
  failures l = 0 -> forall a, In a l -> WhatsAppImporter.delivered a = true.
Proof.
  unfold failures. induction l as [| b l IH]; simpl; [intros _ a [] |].
  destruct (WhatsAppImporter.delivered b) eqn:D; simpl; [| lia].
  intros F a [<- | I]; [exact D | exact (IH F a I)].
Qed.

Lemma record_failure_counts (w : World) tk m e st res st' res' c :
  WhatsAppImporter.record_failure w tk m e st res = ((st', res'), c) ->
  WhatsAppImporter.r_status res' = WhatsAppImporter.r_status res
  /\ WhatsAppImporter.r_totalMessages res' = WhatsAppImporter.r_totalMessages res
  /\ WhatsAppImporter.r_skippedMessages res' = WhatsAppImporter.r_skippedMessages res
  /\ WhatsAppImporter.r_successfulMessages res' = WhatsAppImporter.r_successfulMessages res
  /\ WhatsAppImporter.r_failedMessages res' = WhatsAppImporter.r_failedMessages res + 1
  /\ WhatsAppImporter.r_processedMessages res' = WhatsAppImporter.r_processedMessages res + 1
  /\ Z.of_nat (length (WhatsAppImporter.r_errors res'))
     = Z.of_nat (length (WhatsAppImporter.r_errors res)) + 1.
Proof.
  unfold WhatsAppImporter.record_failure.
  destruct (ProgressRecord.create _ _ _ _ _ _ _) as [record |].
  - destruct (ProgressTracker.recordProgress _ _ _ _ _) as [[tr dk] r].
    intros [= _ <- _]. simpl. rewrite length_app. simpl. repeat split; lia.
  - intros [= _ <- _]. simpl. rewrite length_app. simpl. repeat split; lia.
Qed.

Lemma record_result_counts (w : World) tk m mr st res st' res' c :
  WhatsAppImporter.record_result w tk m mr st res = ((st', res'), c) ->
  exists k,
    0 <= k <= 1
    /\ WhatsAppImporter.r_status res' = WhatsAppImporter.r_status res
    /\ WhatsAppImporter.r_totalMessages res' = WhatsAppImporter.r_totalMessages res
    /\ WhatsAppImporter.r_skippedMessages res' = WhatsAppImporter.r_skippedMessages res
    /\ WhatsAppImporter.r_successfulMessages res' = WhatsAppImporter.r_successfulMessages res
    /\ WhatsAppImporter.r_failedMessages res' = WhatsAppImporter.r_failedMessages res + k
    /\ WhatsAppImporter.r_processedMessages res' = WhatsAppImporter.r_processedMessages res + k
    /\ Z.of_nat (length (WhatsAppImporter.r_errors res'))
       = Z.of_nat (length (WhatsAppImporter.r_errors res)) + k.
Proof.
  unfold WhatsAppImporter.record_result.
  destruct (ProgressRecord.create _ _ _ _ _ _ _) as [record |].
  - destruct (ProgressTracker.recordProgress _ _ _ _ _) as [[tr dk] [r | e]].
    + intros [= _ <- _]. exists 0. repeat split; lia.
    + intros H. apply record_failure_counts in H. exists 1.
      destruct H as (A & B & C & D & E & F & G). repeat split; auto; lia.
  - intros H. apply record_failure_counts in H. exists 1.
    destruct H as (A & B & C & D & E & F & G). repeat split; auto; lia.
Qed.

Lemma iteration_counts {shape} (w : World) config options tk m st res st' res' m' c :
  WhatsAppImporter.iteration shape w config options tk m st res = ((st', res', m'), c) ->
  exists a k,
    WhatsAppImporter.attempts st' = (WhatsAppImporter.attempts st ++ [a])%list
    /\ 0 <= k <= 1
    /\ WhatsAppImporter.r_status res' = WhatsAppImporter.r_status res
    /\ WhatsAppImporter.r_totalMessages res' = WhatsAppImporter.r_totalMessages res
    /\ WhatsAppImporter.r_skippedMessages res' = WhatsAppImporter.r_skippedMessages res
    /\ WhatsAppImporter.r_successfulMessages res'
       = WhatsAppImporter.r_successfulMessages res + successes [a]
    /\ WhatsAppImporter.r_failedMessages res'
       = WhatsAppImporter.r_failedMessages res + failures [a] + k
    /\ WhatsAppImporter.r_processedMessages res'
       = WhatsAppImporter.r_processedMessages res + 1 + k
    /\ Z.of_nat (length (WhatsAppImporter.r_errors res'))
       = Z.of_nat (length (WhatsAppImporter.r_errors res)) + failures [a] + k.
Proof.
  unfold WhatsAppImporter.iteration.
  set (called := WhatsAppImporter._waitForRateLimit config tk st).
  destruct (WhatsAppImporter._processSingleMessage shape (checks w) tk options called m)
    as [[m1 now1] r] eqn:P.
  destruct (psm_facts _ _ _ _ _ _ _ _ P) as (_ & _ & _ & Pr).
  destruct r as [mr | e].
  - destruct Pr as (Sk & _).
    destruct (WhatsAppImporter.record_result _ _ _ _ _ _) as [[st2 res2] c2] eqn:E.
    pose proof (record_result_frame _ _ _ _ _ _ _ _ _ E) as (A & _).
    apply record_result_counts in E.
    destruct E as (k & K & E1 & E2 & E3 & E4 & E5 & E6 & E7).
    intros [= <- <- _ _]. simpl in A.
    eexists. exists k. split; [exact A |].
    destruct (successes_one {| WhatsAppImporter.at_ms := called;
                               WhatsAppImporter.job := WhatsAppMessage.id m;
                               WhatsAppImporter.delivered := WhatsAppImporter.success mr |})
      as [S1 F1].
    rewrite S1, F1. simpl. simpl in E1, E2, E3, E4, E5, E6, E7.
    rewrite Sk in *. rewrite orb_false_r, andb_false_r in *.
    destruct (WhatsAppImporter.success mr); simpl in *;
      try rewrite length_app in E7; simpl in E7; repeat split; auto; lia.
  - destruct (WhatsAppImporter.record_failure _ _ _ _ _ _) as [[st2 res2] c2] eqn:E.
    pose proof (record_failure_frame _ _ _ _ _ _ _ _ _ E) as (A & _).
    apply record_failure_counts in E. destruct E as (E1 & E2 & E3 & E4 & E5 & E6 & E7).
    intros [= <- <- _ _]. simpl in A.
    eexists. exists 0. split; [exact A |].
    unfold successes, failures. simpl. repeat split; auto; lia.
Qed.

Lemma loop_counts {shape} (w : World) config options messages :
  forall i st res st' res' ms' c,
  WhatsAppImporter.loop shape w config options i messages st res = ((st', res', ms'), c) ->
  exists new_a extra,
    WhatsAppImporter.attempts st' = (WhatsAppImporter.attempts st ++ new_a)%list
    /\ 0 <= extra
    /\ (length new_a <= length messages)%nat
    /\ (WhatsAppImporter.r_status res' = WhatsAppImporter.r_status res
        \/ WhatsAppImporter.r_status res' = "paused")
    /\ WhatsAppImporter.r_totalMessages res' = WhatsAppImporter.r_totalMessages res
    /\ WhatsAppImporter.r_skippedMessages res' = WhatsAppImporter.r_skippedMessages res
    /\ WhatsAppImporter.r_successfulMessages res'
       = WhatsAppImporter.r_successfulMessages res + successes new_a
    /\ WhatsAppImporter.r_failedMessages res'
       = WhatsAppImporter.r_failedMessages res + failures new_a + extra
    /\ WhatsAppImporter.r_processedMessages res'
       = WhatsAppImporter.r_processedMessages res + Z.of_nat (length new_a) + extra
    /\ Z.of_nat (length (WhatsAppImporter.r_errors res'))
       = Z.of_nat (length (WhatsAppImporter.r_errors res)) + failures new_a + extra.
Proof.
  induction messages as [| m rest IH]; intros i st res st' res' ms' c; simpl.
  - intros [= <- <- _ _]. exists [], 0. rewrite app_nil_r.
    unfold successes, failures. simpl. repeat split; auto; lia.
  - destruct (pause_seen (tick w i)).
    + intros [= <- <- _ _]. exists [], 0. rewrite app_nil_r.
      unfold successes, failures. simpl. repeat split; auto; lia.
    + destruct (WhatsAppImporter.iteration shape w config options (tick w i) m st res)
        as [[[st1 res1] m1] c1] eqn:It.
      apply iteration_counts in It.
      destruct It as (a & k & A & K & I1 & I2 & I3 & I4 & I5 & I6 & I7).
      destruct c1 as [[] | e].
      * destruct (WhatsAppImporter.loop shape w config options (S i) rest st1 res1)
          as [[[st2 res2] rest2] c2] eqn:L.
        apply IH in L.
        destruct L as (new_a & extra & A2 & X & Ln & L1 & L2 & L3 & L4 & L5 & L6 & L7).
        intros [= <- <- _ _]. exists (a :: new_a), (k + extra).
        destruct (successes_app [a] new_a) as [Sa Fa]. simpl in Sa, Fa.
        rewrite Sa, Fa, A2, A, <- app_assoc. simpl.
        repeat split; auto; try lia.
        destruct L1 as [L1 | L1]; [left; congruence | right; exact L1].
      * intros [= <- <- _ _]. exists [a], k. simpl.
        repeat split; auto; lia.
Qed.

Lemma processMessages_counts {shape} (w : World) (config : CLIConfig.t)
    (options : WhatsAppImporter.Options) (messages : list WhatsAppMessage.t)
    (st st' : WhatsAppImporter.State) (ms' : list WhatsAppMessage.t)
    (result : WhatsAppImporter.RunResult) :
  WhatsAppImporter._processMessages shape w config options messages st
  = ((st', ms'), Normal result) ->
  WhatsAppImporter.r_totalMessages result = Z.of_nat (length messages)
  /\ WhatsAppImporter.r_skippedMessages result = 0
  /\ WhatsAppImporter.r_processedMessages result
     = WhatsAppImporter.r_successfulMessages result
       + WhatsAppImporter.r_failedMessages result
  /\ Z.of_nat (length (WhatsAppImporter.r_errors result))
     = WhatsAppImporter.r_failedMessages result
  /\ WhatsAppImporter.r_successfulMessages result = successes (new_attempts st st')
  /\ failures (new_attempts st st') <= WhatsAppImporter.r_failedMessages result
  /\ (length (new_attempts st st') <= length messages)%nat
  /\ (WhatsAppImporter.r_status result = "completed"
      \/ WhatsAppImporter.r_status result = "completed_with_errors"
      \/ WhatsAppImporter.r_status result = "paused"
      \/ WhatsAppImporter.r_status result = "running")
  /\ (WhatsAppImporter.r_status result = "completed" ->
      WhatsAppImporter.r_failedMessages result = 0
      /\ length (new_attempts st st') = length messages
      /\ forall a, In a (new_attempts st st') -> WhatsAppImporter.delivered a = true)
  /\ (WhatsAppImporter.r_status result = "completed_with_errors" ->
      0 < WhatsAppImporter.r_failedMessages result).
Proof.
  unfold WhatsAppImporter._processMessages.
  destruct (WhatsAppImporter.loop shape w config options 0 messages st _)
    as [[[st1 res1] ms1] c] eqn:L.
  apply loop_counts in L.
  destruct L as (new_a & extra & A & X & Ln & L1 & L2 & L3 & L4 & L5 & L6 & L7).
  simpl in L1, L2, L3, L4, L5, L6, L7.
  destruct c as [[] | e]; simpl; [| discriminate].
  intros [= <- _ <-].
  assert (N : new_attempts st st1 = new_a).
  { unfold new_attempts. rewrite A, drop_app_length. reflexivity. }
  rewrite N. destruct (successes_failures new_a) as (S0 & F0 & SF).
  assert (C : forall r : WhatsAppImporter.RunResult,
             WhatsAppImporter.r_totalMessages r = WhatsAppImporter.r_totalMessages res1 ->
             WhatsAppImporter.r_skippedMessages r = WhatsAppImporter.r_skippedMessages res1 ->
             WhatsAppImporter.r_processedMessages r = WhatsAppImporter.r_processedMessages res1 ->
             WhatsAppImporter.r_successfulMessages r
             = WhatsAppImporter.r_successfulMessages res1 ->
             WhatsAppImporter.r_failedMessages r = WhatsAppImporter.r_failedMessages res1 ->
             WhatsAppImporter.r_errors r = WhatsAppImporter.r_errors res1 ->
             WhatsAppImporter.r_totalMessages r = Z.of_nat (length messages)
             /\ WhatsAppImporter.r_skippedMessages r = 0
             /\ WhatsAppImporter.r_processedMessages r
                = WhatsAppImporter.r_successfulMessages r + WhatsAppImporter.r_failedMessages r
             /\ Z.of_nat (length (WhatsAppImporter.r_errors r))
                = WhatsAppImporter.r_failedMessages r
             /\ WhatsAppImporter.r_successfulMessages r = successes new_a
             /\ failures new_a <= WhatsAppImporter.r_failedMessages r
             /\ (length new_a <= length messages)%nat).
  { intros r -> -> -> -> -> ->. repeat split; lia. }
  destruct (Z.eqb_spec (WhatsAppImporter.r_processedMessages res1)
              (WhatsAppImporter.r_totalMessages res1)) as [E | E].
  - destruct (Z.eqb_spec (WhatsAppImporter.r_failedMessages res1) 0) as [F | F].
    + destruct (C (WhatsAppImporter.with_r_status "completed" res1))
        as (C1 & C2 & C3 & C4 & C5 & C6 & C7); try reflexivity.
      split; [exact C1 |]. split; [exact C2 |]. split; [exact C3 |]. split; [exact C4 |].
      split; [exact C5 |]. split; [exact C6 |]. split; [exact C7 |].
      split; [left; reflexivity |]. split.
      * intros _. simpl. split; [exact F |]. split; [lia |].
        apply failures_none. lia.
      * intros H. discriminate H.
    + destruct (C (WhatsAppImporter.with_r_status "completed_with_errors" res1))
        as (C1 & C2 & C3 & C4 & C5 & C6 & C7); try reflexivity.
      split; [exact C1 |]. split; [exact C2 |]. split; [exact C3 |]. split; [exact C4 |].
      split; [exact C5 |]. split; [exact C6 |]. split; [exact C7 |].
      split; [right; left; reflexivity |]. split.
      * intros H. discriminate H.
      * intros _. simpl. lia.
  - destruct (C res1) as (C1 & C2 & C3 & C4 & C5 & C6 & C7); try reflexivity.
    split; [exact C1 |]. split; [exact C2 |]. split; [exact C3 |]. split; [exact C4 |].
    split; [exact C5 |]. split; [exact C6 |]. split; [exact C7 |].
    split; [destruct L1 as [-> | ->]; auto |].
    split; intros H; destruct L1 as [L1 | L1]; rewrite L1 in H; discriminate H.
Qed.

(** X15. The result object of [_processMessages] accounts for every
    attempt of the run: the total is the number of messages handed over,
    nothing is counted as skipped, processed = successful + failed, the list
    of errors has one entry per counted failure, the successes are exactly
    the delivered attempts, every failed attempt is counted as a failure, at
    most one attempt is made per message, and the status is 'completed' only
    if every message was attempted and delivered and 'completed_with_errors'
    only if a failure was counted. *)
Theorem run_result_accounts_for_every_attempt {shape} (w : World) (config : CLIConfig.t)
    (options : WhatsAppImporter.Options) (messages : list WhatsAppMessage.t)
    (st st' : WhatsAppImporter.State) (ms' : list WhatsAppMessage.t)
    (result : WhatsAppImporter.RunResult) :
  WhatsAppImporter._processMessages shape w config options messages st
  = ((st', ms'), Normal result) ->
  WhatsAppImporter.r_totalMessages result = Z.of_nat (length messages)
  /\ WhatsAppImporter.r_skippedMessages result = 0
  /\ WhatsAppImporter.r_processedMessages result
     = WhatsAppImporter.r_successfulMessages result
       + WhatsAppImporter.r_failedMessages result
  /\ Z.of_nat (length (WhatsAppImporter.r_errors result))
     = WhatsAppImporter.r_failedMessages result
  /\ WhatsAppImporter.r_successfulMessages result = successes (new_attempts st st')
  /\ failures (new_attempts st st') <= WhatsAppImporter.r_failedMessages result
  /\ (length (new_attempts st st') <= length messages)%nat
  /\ (WhatsAppImporter.r_status result = "completed"
      \/ WhatsAppImporter.r_status result = "completed_with_errors"
      \/ WhatsAppImporter.r_status result = "paused"
      \/ WhatsAppImporter.r_status result = "running")
  /\ (WhatsAppImporter.r_status result = "completed" ->
      WhatsAppImporter.r_failedMessages result = 0
      /\ length (new_attempts st st') = length messages
      /\ forall a, In a (new_attempts st st') -> WhatsAppImporter.delivered a = true)
  /\ (WhatsAppImporter.r_status result = "completed_with_errors" ->
      0 < WhatsAppImporter.r_failedMessages result).
Proof. exact (processMessages_counts w config options messages st st' ms' result). Qed.

Lemma run_result_accounts_for_every_attempt_witness :
  exists result,
    snd (WhatsAppImporter._processMessages WhatsAppMessage.Instance disconnected_once CLIConfig.createDefault sending
           (ImportPlan.messages (plan_of 2)) handed_over) = Normal result
    /\ WhatsAppImporter.r_processedMessages result
       = WhatsAppImporter.r_successfulMessages result
         + WhatsAppImporter.r_failedMessages result.
Proof.
  destruct (WhatsAppImporter._processMessages WhatsAppMessage.Instance disconnected_once CLIConfig.createDefault
              sending (ImportPlan.messages (plan_of 2)) handed_over)
    as [[st' ms'] [result | e]] eqn:P.
  - exists result. split; [reflexivity |].
    apply (run_result_accounts_for_every_attempt disconnected_once CLIConfig.createDefault
             sending (ImportPlan.messages (plan_of 2)) handed_over st' ms' result P).
  - vm_compute in P. discriminate P.
Defined.

Lemma executeImport_status {shape} (w : World) config conn options plan st out result :
  WhatsAppImporter.executeImport shape w config conn options plan st = (out, Normal result) ->
  WhatsAppImporter.r_status result = "completed"
  \/ WhatsAppImporter.r_status result = "completed_with_errors"
  \/ WhatsAppImporter.r_status result = "paused"
  \/ WhatsAppImporter.r_status result = "running".
Proof.
  unfold WhatsAppImporter.executeImport.
  destruct (negb conn && negb (WhatsAppImporter.dryRun options)); [discriminate |].
  destruct (WhatsAppImporter._getMessagesToProcess plan options) as [plan' todo].
  destruct todo as [| m0 todo'].
  - intros [= _ <-]. left. reflexivity.
  - destruct (WhatsAppImporter._processMessages shape w config options (m0 :: todo') st)
      as [[st1 ms] [r | e]] eqn:P.
    + intros [= _ <-].
      destruct (processMessages_counts _ _ _ _ _ _ _ _ P) as (_ & _ & _ & _ & _ & _ & _ & S & _).
      exact S.
    + destruct (ProgressTracker.updateProgress _ _ _ _) as [ledger [[] | e']]; discriminate.
Qed.

Lemma execute_loaded_exits (w : World) (config : CLIConfig.t) (now : Z)
    (planPath : string) (options : ExecuteCommand.Options) (plan : ImportPlan.t)
    (dk : ProgressTracker.Disk) :
  let run := ExecuteCommand.execute_loaded w config now planPath options plan dk in
  match snd run with
  | ExecuteCommand.Success result =>
      WhatsAppImporter.r_status result = "completed"
      \/ WhatsAppImporter.r_status result = "completed_with_errors"
      \/ WhatsAppImporter.r_status result = "paused"
      \/ WhatsAppImporter.r_status result = "running"
  | ExecuteCommand.Failure code message =>
      (code = 12
       /\ ExecuteCommand.attempted run = []
       /\ ExecuteCommand.log_after run = ProgressTracker.progress_jsonl dk)
      \/ (code = 13
          /\ ExecuteCommand.dryRun options = false /\ connects w = false
          /\ ExecuteCommand.attempted run = []
          /\ ExecuteCommand.log_after run = ProgressTracker.progress_jsonl dk)
      \/ code = 14
  end.
Proof.
  rewrite execute_loaded_eq.
  destruct (ExecuteCommand._initializeProgressTracking w now planPath plan dk)
    as [[[tr dk1] plan1] c] eqn:I.
  destruct (init_facts w now planPath plan dk tr dk1 plan1 c I) as [Lg _].
  destruct c as [[] | e]; simpl.
  2:{ left. repeat split. exact Lg. }
  destruct (ExecuteCommand.dryRun options) eqn:D, (connects w) eqn:Cn; simpl;
    try (right; left; repeat split; exact Lg).
  all: destruct (ExecuteCommand._executeImport w config _ options plan1 _)
         as [[st ms] [result | e]] eqn:E; simpl; try (right; right; reflexivity).
  all: unfold ExecuteCommand._executeImport in E;
    destruct (WhatsAppImporter.executeImport WhatsAppMessage.Plain w config _ _ _ _) as [out [r | e]] eqn:X;
    simpl in E; try discriminate E; injection E as _ <-;
    pose proof (executeImport_status _ _ _ _ _ _ _ _ X) as S;
    destruct (String.eqb_spec (WhatsAppImporter.r_status r) "failed") as [F | _];
    simpl; [| exact S];
    rewrite F in S; destruct S as [S | [S | [S | S]]]; discriminate S.
Qed.

(** X16. How [execute] can end: with a result whose status is 'completed',
    'completed_with_errors', 'paused' or 'running', or with one of the exit
    codes 10 (the folder or the plan file is missing), 11 (the plan file is
    refused), 16 (an option is refused), 12 (progress tracking), 13 (no
    connection, never in a dry run) and 14 (the importer threw).  With a
    code other than 14 no job was attempted and the log is untouched.  The
    exits with code 15, for a result of status 'failed', and with code 99,
    for an error that is no [ExecuteCommandError], are never taken. *)
Theorem execute_ends_with_a_known_exit (w : World) (now : Z)
    (planPath : string) (options : ExecuteCommand.Options)
    (folder : ExecuteCommand.Folder) (dk : ProgressTracker.Disk) :
  let run := ExecuteCommand.execute w now planPath options folder dk in
  match snd run with
  | ExecuteCommand.Success result =>
      WhatsAppImporter.r_status result = "completed"
      \/ WhatsAppImporter.r_status result = "completed_with_errors"
      \/ WhatsAppImporter.r_status result = "paused"
      \/ WhatsAppImporter.r_status result = "running"
  | ExecuteCommand.Failure code message =>
      ((code = 10 \/ code = 11 \/ code = 16 \/ code = 12)
       /\ ExecuteCommand.attempted run = []
       /\ ExecuteCommand.log_after run = ProgressTracker.progress_jsonl dk)
      \/ (code = 13
          /\ ExecuteCommand.dryRun options = false /\ connects w = false
          /\ ExecuteCommand.attempted run = []
          /\ ExecuteCommand.log_after run = ProgressTracker.progress_jsonl dk)
      \/ code = 14
  end.
Proof.
  intros run. subst run.
  destruct (execute_cases w now planPath options folder dk)
    as [(code & message & -> & C) | (data & min & max & _ & _ & _ & _ & _ & ->)].
  - simpl. left. split; [| split; reflexivity].
    destruct C as [C | [C | C]]; auto.
  - pose proof (execute_loaded_exits w (configured min max) now planPath options
                  (ImportPlan.new data) dk) as H.
    cbv zeta in H.
    destruct (snd (ExecuteCommand.execute_loaded w (configured min max) now planPath
                     options (ImportPlan.new data) dk)) as [result | code message].
    + exact H.
    + destruct H as [(C & A & L) | [H | H]]; auto.
      left. split; [auto |]. split; assumption.
Qed.

Lemma iteration_id {shape} (w : World) config options tk m st res st' res' m' c :
  WhatsAppImporter.iteration shape w config options tk m st res = ((st', res', m'), c) ->
  WhatsAppMessage.id m' = WhatsAppMessage.id m.
Proof.
  unfold WhatsAppImporter.iteration.
  destruct (WhatsAppImporter._processSingleMessage shape (checks w) tk options _ m)
    as [[m1 now1] r] eqn:P.
  destruct (psm_facts _ _ _ _ _ _ _ _ P) as (P1 & _).
  destruct r as [mr | e].
  - destruct (WhatsAppImporter.record_result _ _ _ _ _ _) as [[st2 res2] c2].
    intros [= _ _ <- _]. exact P1.
  - destruct (WhatsAppImporter.record_failure _ _ _ _ _ _) as [[st2 res2] c2].
    intros [= _ _ <- _]. exact P1.
Qed.

Lemma loop_order {shape} (w : World) config options messages :
  forall i st res st' res' ms' c,
  WhatsAppImporter.loop shape w config options i messages st res = ((st', res', ms'), c) ->
  exists n new_a,
    WhatsAppImporter.attempts st' = (WhatsAppImporter.attempts st ++ new_a)%list
    /\ (n <= length messages)%nat
    /\ map WhatsAppImporter.job new_a = take n (map WhatsAppMessage.id messages)
    /\ map WhatsAppMessage.id ms' = map WhatsAppMessage.id messages
    /\ drop n ms' = drop n messages
    /\ (forall p, (p < length messages)%nat -> pause_seen (tick w (i + p)) = true ->
        (n <= p)%nat)
    /\ (c = Normal tt -> (n < length messages)%nat ->
        pause_seen (tick w (i + n)) = true /\ WhatsAppImporter.r_status res' = "paused").
Proof.
  induction messages as [| m rest IH]; intros i st res st' res' ms' c; simpl.
  - intros [= <- _ <- _]. exists 0%nat, []. rewrite app_nil_r.
    repeat split; auto; intros; simpl in *; lia.
  - destruct (pause_seen (tick w i)) eqn:Pz.
    + intros [= <- <- <- _]. exists 0%nat, []. rewrite app_nil_r.
      split; [reflexivity |]. split; [lia |]. split; [reflexivity |].
      split; [reflexivity |]. split; [reflexivity |]. split; [intros; lia |].
      intros _ _. rewrite Nat.add_0_r. split; [exact Pz | reflexivity].
    + destruct (WhatsAppImporter.iteration shape w config options (tick w i) m st res)
        as [[[st1 res1] m1] c1] eqn:It.
      pose proof (iteration_id _ _ _ _ _ _ _ _ _ _ _ It) as Id.
      apply iteration_frame in It. destruct It as (a & A & J & _).
      destruct c1 as [[] | e].
      * destruct (WhatsAppImporter.loop shape w config options (S i) rest st1 res1)
          as [[[st2 res2] rest2] c2] eqn:L.
        apply IH in L. destruct L as (n & new_a & A2 & N & O & I2 & D & Pf & St).
        intros [= <- <- <- <-]. exists (S n), (a :: new_a).
        rewrite A2, A, <- app_assoc. simpl.
        split; [reflexivity |]. split; [lia |].
        split; [rewrite J, O; reflexivity |].
        split; [rewrite Id, I2; reflexivity |]. split; [exact D |]. split.
        -- intros [| p] Lp Hp.
           ++ rewrite Nat.add_0_r in Hp. congruence.
           ++ assert (n <= p)%nat; [| lia].
              apply Pf; [lia |]. replace (S i + p)%nat with (i + S p)%nat by lia. exact Hp.
        -- intros E Ln. replace (i + S n)%nat with (S i + n)%nat by lia.
           apply St; [exact E | lia].
      * intros [= <- _ <- <-]. exists 1%nat, [a]. simpl.
        split; [exact A |]. split; [lia |]. rewrite take_0, drop_0.
        split; [rewrite J; reflexivity |]. split; [rewrite Id; reflexivity |].
        split; [reflexivity |]. split.
        -- intros [| p] Lp Hp; [| lia]. rewrite Nat.add_0_r in Hp. congruence.
        -- intros E. discriminate E.
Qed.

(** X17. Jobs are attempted in plan order, without gaps: the jobs attempted
    by [_processMessages] are the first [n] messages handed over, in their
    order; the messages keep their ids and their places, the ones after the
    [n]-th are untouched; no job is attempted at or after the first iteration
    that sees the pause flag; and a run that returns before the end of the
    list stopped at a pause. *)
Theorem jobs_are_attempted_in_plan_order {shape} (w : World) (config : CLIConfig.t)
    (options : WhatsAppImporter.Options) (messages : list WhatsAppMessage.t)
    (st : WhatsAppImporter.State) :
  let out := WhatsAppImporter._processMessages shape w config options messages st in
  exists n,
    (n <= length messages)%nat
    /\ map WhatsAppImporter.job (new_attempts st (fst (fst out)))
       = take n (map WhatsAppMessage.id messages)
    /\ map WhatsAppMessage.id (snd (fst out)) = map WhatsAppMessage.id messages
    /\ drop n (snd (fst out)) = drop n messages
    /\ (forall p, (p < length messages)%nat -> pause_seen (tick w p) = true -> (n <= p)%nat)
    /\ (forall result, snd out = Normal result -> (n < length messages)%nat ->
        pause_seen (tick w n) = true).
Proof.
  unfold WhatsAppImporter._processMessages.
  destruct (WhatsAppImporter.loop shape w config options 0 messages st _)
    as [[[st1 res1] ms1] c] eqn:L.
  apply loop_order in L. destruct L as (n & new_a & A & N & O & I & D & Pf & St).
  simpl. exists n.
  assert (E : new_attempts st st1 = new_a).
  { unfold new_attempts. rewrite A, drop_app_length. reflexivity. }
  rewrite E. split; [exact N |]. split; [exact O |]. split; [exact I |].
  split; [exact D |]. split; [exact Pf |].
  intros result R Ln. destruct c as [[] | e]; [| discriminate R].
  apply (St eq_refl Ln).
Qed.

Lemma jobs_are_attempted_in_plan_order_witness :
  exists n,
    map WhatsAppImporter.job
      (new_attempts handed_over
         (fst (fst (WhatsAppImporter._processMessages WhatsAppMessage.Instance disconnected_once
                      CLIConfig.createDefault sending
                      (ImportPlan.messages (plan_of 2)) handed_over))))
    = take n (map WhatsAppMessage.id (ImportPlan.messages (plan_of 2))).
Proof.
  destruct (jobs_are_attempted_in_plan_order (shape := WhatsAppMessage.Instance)
              disconnected_once CLIConfig.createDefault
              sending (ImportPlan.messages (plan_of 2)) handed_over) as (n & _ & O & _).
  exists n. exact O.
Defined.

Lemma iteration_dry {shape} (w w' : World) config options tk tk' m st res :
  WhatsAppImporter.dryRun options = true ->
  checks w' = checks w -> uuid w' = uuid w ->
  random tk' = random tk -> wait_lag tk' = wait_lag tk -> delay_lag tk' = delay_lag tk ->
  record_lag tk' = record_lag tk ->
  WhatsAppImporter.iteration shape w' config options tk' m st res
  = WhatsAppImporter.iteration shape w config options tk m st res
  /\ snd (fst (WhatsAppImporter.iteration shape w config options tk m st res)) = m.
Proof.
  intros D C U R W Dl Rl.
  unfold WhatsAppImporter.iteration, WhatsAppImporter._waitForRateLimit,
    WhatsAppImporter._processSingleMessage, WhatsAppImporter.record_result,
    WhatsAppImporter.record_failure.
  rewrite D. simpl. rewrite ?C, ?U, ?R, ?W, ?Dl, ?Rl.
  split; [reflexivity |].
  destruct (ProgressRecord.create _ _ _ _ _ _ _) as [record |].
  - destruct (ProgressTracker.recordProgress _ _ _ _ _) as [[tr dk] [r | e]]; simpl.
    + reflexivity.
    + destruct (ProgressRecord.create _ _ _ _ _ _ _) as [record' |]; [| reflexivity].
      destruct (ProgressTracker.recordProgress _ _ _ _ _) as [[tr' dk'] r']. reflexivity.
  - destruct (ProgressRecord.create _ _ _ _ _ _ _) as [record' |]; [| reflexivity].
    destruct (ProgressTracker.recordProgress _ _ _ _ _) as [[tr' dk'] r']. reflexivity.
Qed.

Lemma loop_dry {shape} (w w' : World) config options messages :
  WhatsAppImporter.dryRun options = true ->
  checks w' = checks w -> uuid w' = uuid w ->
  (forall k, pause_seen (tick w' k) = pause_seen (tick w k)
             /\ random (tick w' k) = random (tick w k)
             /\ wait_lag (tick w' k) = wait_lag (tick w k)
             /\ delay_lag (tick w' k) = delay_lag (tick w k)
             /\ record_lag (tick w' k) = record_lag (tick w k)) ->
  forall i st res,
  WhatsAppImporter.loop shape w' config options i messages st res
  = WhatsAppImporter.loop shape w config options i messages st res
  /\ snd (fst (WhatsAppImporter.loop shape w config options i messages st res)) = messages.
Proof.
  intros D C U T. induction messages as [| m rest IH]; intros i st res; simpl.
  - split; reflexivity.
  - destruct (T i) as (T1 & T2 & T3 & T4 & T5). rewrite T1.
    destruct (pause_seen (tick w i)); [split; reflexivity |].
    destruct (iteration_dry (shape := shape) w w' config options (tick w i) (tick w' i) m st res
                D C U T2 T3 T4 T5) as [E M].
    rewrite E.
    destruct (WhatsAppImporter.iteration shape w config options (tick w i) m st res)
      as [[[st1 res1] m1] [[] | e]]; simpl in M; subst m1.
    + destruct (IH (S i) st1 res1) as [E2 M2]. rewrite E2.
      destruct (WhatsAppImporter.loop shape w config options (S i) rest st1 res1)
        as [[[st2 res2] rest2] c2]. simpl in M2. subst rest2. split; reflexivity.
    + split; reflexivity.
Qed.

(** X18. A dry run never consults the channel: two worlds that agree on
    everything but the connection and the outcome and duration of the sends
    give the same [execute] for a dry run - same final state, same ledger,
    same exit, and the same holds of the steps of [execute] behind the
    loading of the plan, for every configuration and every plan.  And in a
    dry run [_processMessages] leaves every message of the plan as it
    was. *)
Theorem dry_run_never_consults_the_channel {shape} (w w' : World) (now : Z)
    (planPath : string) (options : ExecuteCommand.Options) (folder : ExecuteCommand.Folder)
    (dk : ProgressTracker.Disk) :
  ExecuteCommand.dryRun options = true ->
  checks w' = checks w -> uuid w' = uuid w ->
  (forall k, pause_seen (tick w' k) = pause_seen (tick w k)
             /\ random (tick w' k) = random (tick w k)
             /\ wait_lag (tick w' k) = wait_lag (tick w k)
             /\ delay_lag (tick w' k) = delay_lag (tick w k)
             /\ record_lag (tick w' k) = record_lag (tick w k)) ->
  ExecuteCommand.execute w' now planPath options folder dk
  = ExecuteCommand.execute w now planPath options folder dk
  /\ (forall config plan,
        ExecuteCommand.execute_loaded w' config now planPath options plan dk
        = ExecuteCommand.execute_loaded w config now planPath options plan dk)
  /\ (forall config importOptions messages st,
        WhatsAppImporter.dryRun importOptions = true ->
        snd (fst (WhatsAppImporter._processMessages shape w config importOptions messages st))
        = messages).
Proof.
  intros D C U T.
  assert (EL : forall config plan,
               ExecuteCommand.execute_loaded w' config now planPath options plan dk
               = ExecuteCommand.execute_loaded w config now planPath options plan dk);
    [| split; [| split; [exact EL |]]].
  - intros config plan. rewrite !execute_loaded_eq.
    unfold ExecuteCommand._initializeProgressTracking.
    rewrite C, U, D. simpl.
    assert (E : forall plan1 st,
               ExecuteCommand._executeImport w' config false options plan1 st
               = ExecuteCommand._executeImport w config false options plan1 st).
    { intros plan1 st. unfold ExecuteCommand._executeImport, WhatsAppImporter.executeImport.
      rewrite D. simpl.
      destruct (WhatsAppImporter._getMessagesToProcess _ _) as [plan' todo].
      destruct todo as [| m0 todo']; [reflexivity |].
      unfold WhatsAppImporter._processMessages.
      destruct (loop_dry (shape := WhatsAppMessage.Plain) w w' config
                  {| WhatsAppImporter.dryRun := true;
                     WhatsAppImporter.resume :=
                       ExecuteCommand.resume options
                       || match ProgressTracker.progressSummary
                                  (WhatsAppImporter.progressTracker st) with
                          | Some s => 0 <? ProgressSummary.processedMessages s
                          | None => false
                          end |}
                  (m0 :: todo') eq_refl C U T 0%nat st
                  {| WhatsAppImporter.r_status := "running";
                     WhatsAppImporter.r_totalMessages := Z.of_nat (length (m0 :: todo'));
                     WhatsAppImporter.r_processedMessages := 0;
                     WhatsAppImporter.r_successfulMessages := 0;
                     WhatsAppImporter.r_failedMessages := 0;
                     WhatsAppImporter.r_skippedMessages := 0;
                     WhatsAppImporter.r_errors := [] |}) as [E _].
      rewrite E. reflexivity. }
    destruct (ProgressTracker.progress_json dk).
    + destruct (ProgressTracker.load _ _ _ _) as [[tr dk1] [[] | e]]; [| reflexivity].
      destruct (ExecuteCommand._syncPlanWithProgress WhatsAppMessage.Plain _ _ _ _)
        as [messages [[] | e]]; [| reflexivity].
      rewrite E. reflexivity.
    + destruct (ProgressTracker.create _ _ _ _ _) as [[tr dk1] [[] | e]]; [| reflexivity].
      rewrite E. reflexivity.
  - unfold ExecuteCommand.execute.
    destruct (ExecuteCommand._validateAndResolvePaths folder) as [file | error];
      [| reflexivity].
    destruct (ExecuteCommand._updateConfigFromOptions options CLIConfig.createDefault)
      as [config | error]; [| reflexivity].
    destruct (ExecuteCommand._validateRequiredOptions options) as [[] | error];
      [| reflexivity].
    destruct (ExecuteCommand._loadImportPlan planPath file) as [plan | error];
      [apply EL | reflexivity].
  - intros config importOptions messages st Di. unfold WhatsAppImporter._processMessages.
    destruct (loop_dry (shape := shape) w w config importOptions messages Di eq_refl eq_refl
                ltac:(intros k; repeat split) 0%nat st
                {| WhatsAppImporter.r_status := "running";
                   WhatsAppImporter.r_totalMessages := Z.of_nat (length messages);
                   WhatsAppImporter.r_processedMessages := 0;
                   WhatsAppImporter.r_successfulMessages := 0;
                   WhatsAppImporter.r_failedMessages := 0;
                   WhatsAppImporter.r_skippedMessages := 0;
                   WhatsAppImporter.r_errors := [] |}) as [_ M].
    destruct (WhatsAppImporter.loop shape w config importOptions 0 messages st _)
      as [[[st1 res1] ms1] c]. simpl in M. simpl. exact M.
Qed.

Lemma dry_run_never_consults_the_channel_witness :
  ExecuteCommand.execute unreachable started
    "/out/import-plan.json" rehearsal (folder_of 2) no_ledger
  = ExecuteCommand.execute calm started
      "/out/import-plan.json" rehearsal (folder_of 2) no_ledger.
Proof.
  apply (proj1 (dry_run_never_consults_the_channel (shape := WhatsAppMessage.Plain)
                  calm unreachable
                  started "/out/import-plan.json" rehearsal (folder_of 2) no_ledger
                  eq_refl eq_refl eq_refl ltac:(intros k; repeat split))).
Defined.

(** X19. A dry run is recorded as delivery: a dry run over a new output
    directory in which nothing goes wrong succeeds, attempts every job of
    the plan in order and writes one 'sent' line per job to the log; a second
    run over the same output directory - dry or not, whatever the options and
    the world - attempts nothing and leaves the log as it is.  When the plan
    has a job and the options of the second run are accepted, the second run
    ends with exit code 12: the synchronisation of the plan with the ledger
    fails on the first job that has a record. *)
Theorem dry_run_is_recorded_as_delivery (w1 w2 : World)
    (now1 now2 : Z) (planPath : string) (options1 options2 : ExecuteCommand.Options)
    (data : ImportPlan.Data) :
  clean_rehearsal w1 now1 options1 data ->
  let run1 := ExecuteCommand.execute w1 now1 planPath options1 (folder_with data)
                no_ledger in
  let run2 := ExecuteCommand.execute w2 now2 planPath options2 (folder_with data)
                (WhatsAppImporter.disk (fst run1)) in
  (exists result, snd run1 = ExecuteCommand.Success result)
  /\ ExecuteCommand.attempted run1 = map WhatsAppMessage.id (ImportPlan.d_messages data)
  /\ length (ExecuteCommand.log_after run1) = length (ImportPlan.d_messages data)
  /\ (forall d, In d (ExecuteCommand.log_after run1) -> ProgressRecord.d_status d = "sent")
  /\ ExecuteCommand.attempted run2 = []
  /\ ExecuteCommand.log_after run2 = ExecuteCommand.log_after run1
  /\ (ImportPlan.d_messages data <> [] ->
      ExecuteCommand._validateRequiredOptions options2 = inl tt ->
      exists e, snd run2 = ExecuteCommand.Failure 12 e).
Proof.
  intros TF run1 run2.
  destruct (first_run w1 now1 planPath options1 data no_ledger eq_refl eq_refl TF)
    as (R1 & A1 & L1 & S1 & I1 & s & J1 & P1).
  fold run1 in R1, A1, L1, S1, I1, J1.
  assert (Js : is_Some (ProgressTracker.progress_json (WhatsAppImporter.disk (fst run1))))
    by (rewrite J1; eauto).
  assert (Sent : forall m, In m (ImportPlan.d_messages data) ->
            exists d, latest_entry (ExecuteCommand.log_after run1) (WhatsAppMessage.id m)
                      = Some d /\ ProgressRecord.d_status d = "sent").
  { intros m Hm. apply latest_sent; [exact S1 |].
    destruct (I1 m Hm) as (d & Hd & Ed). exists d. auto. }
  destruct (execute_frame w2 now2 planPath options2 (folder_with data)
              (WhatsAppImporter.disk (fst run1))) as ((new_d & D2 & Sh2) & In2 & F2).
  fold run2 in D2, Sh2, In2, F2.
  assert (A2 : ExecuteCommand.attempted run2 = []).
  { destruct (ExecuteCommand.attempted run2) as [| j l] eqn:E; [reflexivity | exfalso].
    assert (Hj : In j (j :: l)) by (left; reflexivity).
    destruct (In2 j Hj) as (data' & Ef & Hin). injection Ef as <-.
    apply in_map_iff in Hin. destruct Hin as (m & Em & Hm).
    destruct (Sent m Hm) as (d & Ld & Sd). rewrite Em in Ld.
    destruct (F2 Js j d Hj Ld) as [NS _]. contradiction. }
  split; [exact R1 |]. split; [exact A1 |]. split; [exact L1 |]. split; [exact S1 |].
  split; [exact A2 |]. split.
  - destruct new_d as [| d l]; [rewrite app_nil_r in D2; exact D2 | exfalso].
    destruct (Sh2 d (or_introl eq_refl)) as (j & Hj & _).
    rewrite A2 in Hj. destruct Hj.
  - intros Ne VO. subst run2.
    destruct TF as (_ & _ & _ & VB & _).
    destruct (execute_valid w2 now2 planPath options2 data
                (WhatsAppImporter.disk (fst run1)) VO VB) as (min & max & _ & _ & ->).
    rewrite execute_loaded_eq.
    destruct (ImportPlan.d_messages data) as [| m rest] eqn:Em; [contradiction |].
    destruct (init_throws_on_a_record w2 now2 planPath (ImportPlan.new data)
                (WhatsAppImporter.disk (fst run1)) m Js) as [e He].
    { simpl. rewrite Em. left. reflexivity. }
    { destruct (Sent m (or_introl eq_refl)) as (d & Ld & Sd).
      exists d. split; [exact Ld | left; exact Sd]. }
    destruct (ExecuteCommand._initializeProgressTracking w2 now2 planPath
                (ImportPlan.new data) (WhatsAppImporter.disk (fst run1)))
      as [[[tr dk1] plan1] c].
    simpl in He. subst c. exists e. reflexivity.
Qed.

Lemma dry_run_is_recorded_as_delivery_witness :
  let run1 := ExecuteCommand.execute unreachable started "/out/import-plan.json"
                rehearsal (folder_of 3) no_ledger in
  let run2 := ExecuteCommand.execute calm (started + 3600000) "/out/import-plan.json"
                (live false) (folder_of 3) (WhatsAppImporter.disk (fst run1)) in
  ExecuteCommand.attempted run2 = []
  /\ exists e, snd run2 = ExecuteCommand.Failure 12 e.
Proof.
  destruct (dry_run_is_recorded_as_delivery unreachable calm started (started + 3600000)
              "/out/import-plan.json" rehearsal (live false) (plan_data 3)
              a_clean_rehearsal) as (_ & _ & _ & _ & A2 & _ & F).
  split; [exact A2 |]. apply F; [discriminate | reflexivity].
Defined.

Lemma reset_pending (m : WhatsAppMessage.t) :
  WhatsAppMessage.status (WhatsAppImporter.reset m) = "pending".
Proof.
  unfold WhatsAppImporter.reset.
  destruct (String.eqb_spec (WhatsAppMessage.status m) "pending") as [E | _]; simpl;
    [exact E | reflexivity].
Qed.

(** X20. Every message that [_getMessagesToProcess] selects is 'pending'
    and can move to 'processing'.  With [resume] the plan is left alone and
    the selection is its pending messages, in order; without it every message
    of the plan is selected, reset in place to 'pending' with error message
    and sending time cleared when it was not pending. *)
Theorem every_selected_message_is_pending (plan : ImportPlan.t)
    (options : WhatsAppImporter.Options) :
  let selected := snd (WhatsAppImporter._getMessagesToProcess plan options) in
  let plan' := fst (WhatsAppImporter._getMessagesToProcess plan options) in
  (forall m, In m selected ->
     WhatsAppMessage.status m = "pending"
     /\ WhatsAppMessage.canTransitionTo m "processing" = true)
  /\ (WhatsAppImporter.resume options = true ->
      plan' = plan
      /\ selected = List.filter (fun m => WhatsAppMessage.status m =s "pending")
                      (ImportPlan.messages plan))
  /\ (WhatsAppImporter.resume options = false ->
      selected = ImportPlan.messages plan'
      /\ map WhatsAppMessage.id selected = map WhatsAppMessage.id (ImportPlan.messages plan)
      /\ forall k m, ImportPlan.messages plan !! k = Some m ->
           selected !! k
           = Some (if WhatsAppMessage.status m =s "pending" then m
                   else WhatsAppMessage.with_sentAt None
                          (WhatsAppMessage.with_errorMessage None
                             (WhatsAppMessage.with_status "pending" m)))).
Proof.
  unfold WhatsAppImporter._getMessagesToProcess.
  destruct (WhatsAppImporter.resume options); simpl.
  - split; [| split; [intros _; split; reflexivity | intros H; discriminate H]].
    intros m Hm. unfold ImportPlan.getUnprocessedMessages in Hm.
    apply filter_In in Hm. destruct Hm as [_ Hm]. apply String.eqb_eq in Hm.
    split; [exact Hm |]. unfold WhatsAppMessage.canTransitionTo. rewrite Hm. reflexivity.
  - split; [| split; [intros H; discriminate H |]].
    + intros m Hm. apply in_map_iff in Hm. destruct Hm as (m0 & <- & _).
      pose proof (reset_pending m0) as P. split; [exact P |].
      unfold WhatsAppMessage.canTransitionTo. rewrite P. reflexivity.
    + intros _. split; [reflexivity |]. split.
      * rewrite map_map. apply map_ext. apply reset_id.
      * intros k m Hk.
        change (map WhatsAppImporter.reset (ImportPlan.messages plan))
          with (WhatsAppImporter.reset <$> ImportPlan.messages plan).
        rewrite list_lookup_fmap, Hk. simpl. unfold WhatsAppImporter.reset.
        destruct (WhatsAppMessage.status m =s "pending"); reflexivity.
Qed.

Lemma every_selected_message_is_pending_witness :
  WhatsAppMessage.canTransitionTo (text_message (job_id 1) 1) "processing" = true.
Proof.
  apply (proj1 (every_selected_message_is_pending (plan_of 2) sending)
           (text_message (job_id 1) 1)).
  left. reflexivity.
Defined.

Lemma create_malformed (uuid : string -> bool) now id tid status err wid :
  uuid id = false ->
  exists e, ProgressRecord.create uuid now id tid status err wid = Throw e.
Proof.
  intros U. unfold ProgressRecord.create, ProgressRecord.fromData, ProgressRecord.validate,
    ProgressRecord.schema_violations. simpl. rewrite U. simpl. eexists. reflexivity.
Qed.

Lemma record_failure_malformed (w : World) tk m e st res :
  uuid w (WhatsAppMessage.id m) = false ->
  exists res' e',
    WhatsAppImporter.record_failure w tk m e st res = ((st, res'), Throw e').
Proof.
  intros U. unfold WhatsAppImporter.record_failure.
  destruct (create_malformed (uuid w) (WhatsAppImporter.clock st) (WhatsAppMessage.id m)
              (WhatsAppMessage.telegramId m) "failed" (Some e) None U) as [e' ->].
  eexists. eexists. reflexivity.
Qed.

Lemma iteration_malformed {shape} (w : World) config options tk m st res :
  uuid w (WhatsAppMessage.id m) = false ->
  exists st' res' m' e a,
    WhatsAppImporter.iteration shape w config options tk m st res = ((st', res', m'), Throw e)
    /\ WhatsAppImporter.attempts st' = (WhatsAppImporter.attempts st ++ [a])%list
    /\ WhatsAppImporter.job a = WhatsAppMessage.id m
    /\ WhatsAppImporter.progressTracker st' = WhatsAppImporter.progressTracker st
    /\ WhatsAppImporter.disk st' = WhatsAppImporter.disk st
    /\ WhatsAppImporter.clock st <= WhatsAppImporter.clock st'.
Proof.
  intros U. unfold WhatsAppImporter.iteration.
  pose proof (wait_lower config tk st) as W.
  destruct (WhatsAppImporter._processSingleMessage shape (checks w) tk options _ m)
    as [[m1 now1] r] eqn:P.
  destruct (psm_facts _ _ _ _ _ _ _ _ P) as (P1 & _ & P3 & _).
  assert (U1 : uuid w (WhatsAppMessage.id m1) = false) by congruence.
  destruct r as [mr | e].
  - unfold WhatsAppImporter.record_result.
    destruct (create_malformed (uuid w) now1 (WhatsAppMessage.id m1)
                (WhatsAppMessage.telegramId m1)
                (if WhatsAppImporter.success mr then "sent" else "failed")
                (or_null (WhatsAppImporter.error mr))
                (or_null (WhatsAppImporter.whatsappMessageId mr)) U1) as [e' E].
    simpl. rewrite E.
    match goal with
    | |- context [WhatsAppImporter.record_failure w tk m1 e' ?s ?r] =>
        destruct (record_failure_malformed w tk m1 e' s r U1) as (res' & e'' & ->)
    end.
    do 5 eexists. split; [reflexivity |]. simpl. repeat split. lia.
  - match goal with
    | |- context [WhatsAppImporter.record_failure w tk m1 e ?s ?r] =>
        destruct (record_failure_malformed w tk m1 e s r U1) as (res' & e'' & ->)
    end.
    do 5 eexists. split; [reflexivity |]. simpl. repeat split. lia.
Qed.

Lemma loop_throws_on_malformed {shape} (w : World) config options messages :
  forall i st res st' res' ms' e,
  ready st ->
  WhatsAppImporter.loop shape w config options i messages st res = ((st', res', ms'), Throw e) ->
  exists m, In m messages /\ uuid w (WhatsAppMessage.id m) = false.
Proof.
  induction messages as [| m rest IH]; intros i st res st' res' ms' e R; simpl.
  - discriminate.
  - destruct (pause_seen (tick w i)); [discriminate |].
    destruct (uuid w (WhatsAppMessage.id m)) eqn:U.
    + destruct R as (I & [s Sm] & C).
      destruct (iteration_ok (shape := shape) w config options (tick w i) m st res s
                  (conj I (conj (ex_intro _ s Sm) C)) Sm U)
        as (st1 & res1 & m1 & a & d & E & R1 & _).
      rewrite E.
      destruct (WhatsAppImporter.loop shape w config options (S i) rest st1 res1)
        as [[[st2 res2] rest2] c2] eqn:L.
      intros [= _ _ _ ->].
      destruct (IH _ _ _ _ _ _ _ R1 L) as (x & Hx & Ux).
      exists x. split; [right; exact Hx | exact Ux].
    + intros _. exists m. split; [left; reflexivity | exact U].
Qed.

Lemma loop_stops_at_malformed {shape} (w : World) config options m post :
  uuid w (WhatsAppMessage.id m) = false ->
  forall pre i st res,
  ready st ->
  (forall x, In x pre -> uuid w (WhatsAppMessage.id x) = true) ->
  (forall k, (i <= k <= i + length pre)%nat -> pause_seen (tick w k) = false) ->
  exists st' res' ms' e new_a new_d,
    WhatsAppImporter.loop shape w config options i (pre ++ m :: post) st res
    = ((st', res', ms'), Throw e)
    /\ ready st'
    /\ WhatsAppImporter.attempts st' = (WhatsAppImporter.attempts st ++ new_a)%list
    /\ map WhatsAppImporter.job new_a = map WhatsAppMessage.id (pre ++ [m])
    /\ log_of st' = (log_of st ++ new_d)%list
    /\ map ProgressRecord.d_messageId new_d = map WhatsAppMessage.id pre.
Proof.
  intros U. induction pre as [| x pre IH]; intros i st res R Up Pz; simpl.
  - rewrite (Pz i) by (simpl; lia).
    destruct (iteration_malformed (shape := shape) w config options (tick w i) m st res U)
      as (st1 & res1 & m1 & e & a & E & A & J & T & D & C).
    rewrite E. exists st1, res1, (m1 :: post), e, [a], [].
    split; [reflexivity |]. split.
    { destruct R as (I & Sm & Cl). unfold ready, summary_of. rewrite T.
      repeat split; auto. lia. }
    split; [exact A |]. split; [simpl; rewrite J; reflexivity |].
    unfold log_of. rewrite D, app_nil_r. split; reflexivity.
  - rewrite (Pz i) by (simpl; lia).
    destruct R as (I & [s Sm] & Cl).
    destruct (iteration_ok (shape := shape) w config options (tick w i) x st res s
                (conj I (conj (ex_intro _ s Sm) Cl)) Sm (Up x (or_introl eq_refl)))
      as (st1 & res1 & x1 & a & d & E & R1 & _ & _ & A & J & _ & _ & _ & L & Dm & _).
    rewrite E.
    destruct (IH (S i) st1 res1 R1) as (st' & res' & ms' & e & new_a & new_d & E2 & R2
                                         & A2 & J2 & L2 & Dm2).
    { intros y Hy. apply Up. right. exact Hy. }
    { intros k Hk. apply Pz. simpl. lia. }
    rewrite E2. exists st', res', (x1 :: ms'), e, (a :: new_a), (d :: new_d).
    split; [reflexivity |]. split; [exact R2 |].
    split; [rewrite A2, A, <- app_assoc; reflexivity |].
    split; [simpl; rewrite J, J2; reflexivity |].
    split; [rewrite L2, L, <- app_assoc; reflexivity |].
    simpl. rewrite Dm, Dm2. reflexivity.
Qed.

(** X21. Only a job that cannot be recorded stops the run: when
    [executeImport] throws (connected, or in a dry run, on an initialised
    ledger), one of the selected messages has an id that is no UUID.  And at
    the first such message, unless the run is paused before, [executeImport]
    does throw: the jobs before it were attempted and recorded, this one was
    attempted but has no line in the log, the jobs after it were not
    attempted, and the summary in memory and in progress.json is 'failed'. *)
Theorem only_an_unrecordable_job_stops_the_run {shape} (w : World) (config : CLIConfig.t)
    (isConnected : bool) (options : WhatsAppImporter.Options) (plan : ImportPlan.t)
    (st : WhatsAppImporter.State) :
  ready st ->
  isConnected = true \/ WhatsAppImporter.dryRun options = true ->
  let selected := snd (WhatsAppImporter._getMessagesToProcess plan options) in
  let out := WhatsAppImporter.executeImport shape w config isConnected options plan st in
  (forall e, snd out = Throw e ->
     exists m, In m selected /\ uuid w (WhatsAppMessage.id m) = false)
  /\ (forall pre m post,
        selected = (pre ++ m :: post)%list ->
        (forall x, In x pre -> uuid w (WhatsAppMessage.id x) = true) ->
        uuid w (WhatsAppMessage.id m) = false ->
        (forall k, (k <= length pre)%nat -> pause_seen (tick w k) = false) ->
        threw (snd out) = true
        /\ map WhatsAppImporter.job (new_attempts st (fst (fst out)))
           = map WhatsAppMessage.id (pre ++ [m])
        /\ map ProgressRecord.d_messageId (new_entries st (fst (fst out)))
           = map WhatsAppMessage.id pre
        /\ exists s, summary_of (fst (fst out)) = Some s
                     /\ ProgressTracker.progress_json (WhatsAppImporter.disk (fst (fst out)))
                        = Some s
                     /\ ProgressSummary.status s = "failed").
Proof.
  intros R Conn selected out. subst selected out.
  unfold WhatsAppImporter.executeImport.
  assert (G : negb isConnected && negb (WhatsAppImporter.dryRun options) = false).
  { destruct Conn as [-> | ->]; [reflexivity | apply andb_false_r]. }
  rewrite G.
  destruct (WhatsAppImporter._getMessagesToProcess plan options) as [plan' todo]. simpl.
  split.
  - intros e. destruct todo as [| m0 todo']; [discriminate |].
    unfold WhatsAppImporter._processMessages.
    destruct (WhatsAppImporter.loop shape w config options 0 (m0 :: todo') st _)
      as [[[st1 res1] ms1] [[] | e1]] eqn:L; simpl; [discriminate |].
    intros _. exact (loop_throws_on_malformed _ _ _ _ _ _ _ _ _ _ _ R L).
  - intros pre m post -> Up U Pz.
    destruct (pre ++ m :: post)%list as [| m0 todo'] eqn:Sel;
      [destruct pre; discriminate Sel |].
    rewrite <- Sel. clear Sel m0 todo'.
    unfold WhatsAppImporter._processMessages.
    destruct (loop_stops_at_malformed (shape := shape) w config options m post U pre 0%nat st
                {| WhatsAppImporter.r_status := "running";
                   WhatsAppImporter.r_totalMessages :=
                     Z.of_nat (length (pre ++ m :: post));
                   WhatsAppImporter.r_processedMessages := 0;
                   WhatsAppImporter.r_successfulMessages := 0;
                   WhatsAppImporter.r_failedMessages := 0;
                   WhatsAppImporter.r_skippedMessages := 0;
                   WhatsAppImporter.r_errors := [] |} R Up
                ltac:(intros k Hk; apply Pz; lia))
      as (st' & res' & ms' & e & new_a & new_d & E & R' & A & J & L & Dm).
    rewrite E. simpl.
    destruct R' as (I' & [s' S'] & C'). unfold summary_of in S'.
    unfold ProgressTracker.updateProgress. rewrite I', S'. simpl.
    split; [reflexivity |].
    unfold new_attempts, new_entries. simpl.
    fold (log_of st). fold (log_of st'). rewrite A, L, !drop_app_length.
    split; [exact J |]. split; [exact Dm |].
    eexists. unfold summary_of. simpl. split; [reflexivity |]. split; reflexivity.
Qed.

Lemma only_an_unrecordable_job_stops_the_run_witness :
  threw (snd (WhatsAppImporter.executeImport WhatsAppMessage.Instance picky CLIConfig.createDefault true sending
                plan_with_bad_id handed_over)) = true.
Proof.
  apply (proj2 (only_an_unrecordable_job_stops_the_run picky CLIConfig.createDefault true
                  sending plan_with_bad_id handed_over handed_over_ready
                  (or_introl eq_refl))
           [text_message (job_id 1) 1] (text_message "job-2" 2) [text_message (job_id 3) 3]).
  - reflexivity.
  - intros x [<- | []]. reflexivity.
  - reflexivity.
  - intros k _. reflexivity.
Defined.

Lemma on_other (event other : string) (listener : WhatsAppImporter.Listener)
    (ls : gmap string (list WhatsAppImporter.Listener)) :
  other <> event ->
  WhatsAppImporter.on event listener ls !! other = ls !! other
  /\ WhatsAppImporter.off event listener ls !! other = ls !! other.
Proof.
  intros N. unfold WhatsAppImporter.on, WhatsAppImporter.off.
  destruct (ls !! event); [| split; reflexivity].
  rewrite !lookup_insert_ne by (intros E; apply N; symmetry; exact E).
  split; reflexivity.
Qed.

Lemma registered_unknown (calls : list Registration) :
  forall (ls : gmap string (list WhatsAppImporter.Listener)) (event : string),
  ls !! event = None -> registered calls ls !! event = None.
Proof.
  induction calls as [| [e l | e l] rest IH]; intros ls event H; simpl; [exact H | |];
    apply IH.
  - destruct (String.eqb_spec e event) as [-> | N].
    + unfold WhatsAppImporter.on. rewrite H. exact H.
    + rewrite (proj1 (on_other e event l ls (fun E => N (eq_sym E)))). exact H.
  - destruct (String.eqb_spec e event) as [-> | N].
    + unfold WhatsAppImporter.off. rewrite H. exact H.
    + rewrite (proj2 (on_other e event l ls (fun E => N (eq_sym E)))). exact H.
Qed.

Lemma remove_first_snoc (listener : WhatsAppImporter.Listener)
    (l : list WhatsAppImporter.Listener) :
  ~ In listener l ->
  WhatsAppImporter.remove_first listener (l ++ [listener]) = l.
Proof.
  induction l as [| x l IH]; intros N; simpl.
  - rewrite Nat.eqb_refl. reflexivity.
  - destruct (Nat.eqb_spec x listener) as [-> | _].
    + exfalso. apply N. left. reflexivity.
    + rewrite IH; [reflexivity |]. intros I. apply N. right. exact I.
Qed.

(** X22. Listeners exist for the seven events of the importer only:
    after any sequence of [on] and [off] calls, [on] with an event name
    outside 'progress', 'connected', 'disconnected', 'paused', 'resumed',
    'stopped', 'error' registers nothing, and [_emit] of such an event calls
    nobody; for one of the seven, [on] appends the listener behind the ones
    registered, and [off] of a listener just added (and not registered
    before) restores the list.  [on] and [off] for one event leave the
    listeners of every other event alone. *)
Theorem listeners_exist_for_the_seven_events_only (calls : list Registration)
    (event : string) (listener : WhatsAppImporter.Listener) :
  let ls := registered calls WhatsAppImporter._setupEventHandlers in
  (~ In event ["progress"; "connected"; "disconnected"; "paused"; "resumed"; "stopped";
               "error"] ->
   WhatsAppImporter._emit event ls = []
   /\ WhatsAppImporter._emit event (WhatsAppImporter.on event listener ls) = [])
  /\ (In event ["progress"; "connected"; "disconnected"; "paused"; "resumed"; "stopped";
                "error"] ->
      WhatsAppImporter._emit event (WhatsAppImporter.on event listener ls)
      = (WhatsAppImporter._emit event ls ++ [listener])%list
      /\ (~ In listener (WhatsAppImporter._emit event ls) ->
          WhatsAppImporter._emit event
            (WhatsAppImporter.off event listener (WhatsAppImporter.on event listener ls))
          = WhatsAppImporter._emit event ls))
  /\ (forall other, other <> event ->
      WhatsAppImporter._emit other (WhatsAppImporter.on event listener ls)
      = WhatsAppImporter._emit other ls
      /\ WhatsAppImporter._emit other (WhatsAppImporter.off event listener ls)
         = WhatsAppImporter._emit other ls).
Proof.
  intros ls. split; [| split].
  - intros N.
    assert (U : ls !! event = None).
    { apply registered_unknown. unfold WhatsAppImporter._setupEventHandlers.
      repeat (rewrite lookup_insert_ne;
              [| intros E; apply N; rewrite <- E; simpl; tauto]).
      apply lookup_empty. }
    unfold WhatsAppImporter._emit, WhatsAppImporter.on.
    unfold WhatsAppImporter.Listener in *. rewrite !U. split; reflexivity.
  - intros I.
    assert (K : exists l, ls !! event = Some l).
    { assert (K0 : exists l, WhatsAppImporter._setupEventHandlers !! event = Some l).
      { simpl in I.
        destruct I as [<- | [<- | [<- | [<- | [<- | [<- | [<- | []]]]]]]];
          exists []; vm_compute; reflexivity. }
      subst ls. revert K0. generalize WhatsAppImporter._setupEventHandlers.
      induction calls as [| [e l | e l] rest IH]; intros m [r R]; simpl;
        [exists r; exact R | |]; apply IH.
      - destruct (String.eqb_spec e event) as [-> | Ne].
        + unfold WhatsAppImporter.on. rewrite R, lookup_insert_eq. eexists. reflexivity.
        + rewrite (proj1 (on_other e event l m (fun E => Ne (eq_sym E)))). exists r. exact R.
      - destruct (String.eqb_spec e event) as [-> | Ne].
        + unfold WhatsAppImporter.off. rewrite R, lookup_insert_eq. eexists. reflexivity.
        + rewrite (proj2 (on_other e event l m (fun E => Ne (eq_sym E)))). exists r. exact R. }
    destruct K as [l K].
    unfold WhatsAppImporter._emit, WhatsAppImporter.on, WhatsAppImporter.off.
    unfold WhatsAppImporter.Listener in *.
    rewrite !K, !lookup_insert_eq. simpl. split; [reflexivity |].
    intros N. rewrite ?lookup_insert_eq. simpl. apply remove_first_snoc. exact N.
  - intros other N. unfold WhatsAppImporter._emit.
    destruct (on_other event other listener ls N) as [A B].
    unfold WhatsAppImporter.Listener in *. rewrite A, B. split; reflexivity.
Qed.

Lemma listeners_exist_for_the_seven_events_only_witness :
  WhatsAppImporter._emit "qr"
    (WhatsAppImporter.on "qr" 7%nat
       (registered [On "progress" 1%nat; On "qr" 2%nat]
          WhatsAppImporter._setupEventHandlers)) = []
  /\ WhatsAppImporter._emit "progress"
       (WhatsAppImporter.on "progress" 7%nat
          (registered [On "progress" 1%nat; On "qr" 2%nat]
             WhatsAppImporter._setupEventHandlers))
     = (WhatsAppImporter._emit "progress"
          (registered [On "progress" 1%nat; On "qr" 2%nat]
             WhatsAppImporter._setupEventHandlers) ++ [7%nat])%list.
Proof.
  split.
  - apply (proj1 (listeners_exist_for_the_seven_events_only
                    [On "progress" 1%nat; On "qr" 2%nat] "qr" 7%nat)).
    simpl. intros [H | [H | [H | [H | [H | [H | [H | []]]]]]]]; discriminate H.
  - apply (proj1 (proj2 (listeners_exist_for_the_seven_events_only
                           [On "progress" 1%nat; On "qr" 2%nat] "progress" 7%nat))).
    left. reflexivity.
Defined.

Lemma find_message_some (messageId : string) (l : list WhatsAppMessage.t) :
  forall index k m,
  ImportPlan.find_message messageId index l = Some (k, m) ->
  (index <= k)%nat
  /\ l !! (k - index)%nat = Some m
  /\ WhatsAppMessage.id m = messageId
  /\ forall j x, (j < k - index)%nat -> l !! j = Some x -> WhatsAppMessage.id x <> messageId.
Proof.
  induction l as [| y l IH]; intros index k m; simpl; [discriminate |].
  destruct (String.eqb_spec (WhatsAppMessage.id y) messageId) as [E | N].
  - intros [= <- <-]. rewrite Nat.sub_diag. repeat split; auto. intros j x L. lia.
  - intros F. apply IH in F. destruct F as (L & K & I & B).
    split; [lia |]. replace (k - index)%nat with (S (k - S index)) by lia.
    split; [exact K |]. split; [exact I |].
    intros [| j] x Lj Hj; simpl in Hj.
    + injection Hj as <-. exact N.
    + apply (B j x); [lia | exact Hj].
Qed.

Lemma find_message_none (messageId : string) (l : list WhatsAppMessage.t) :
  forall index,
  ImportPlan.find_message messageId index l = None <->
  forall m, In m l -> WhatsAppMessage.id m <> messageId.
Proof.
  induction l as [| y l IH]; intros index; simpl.
  - split; [intros _ m [] | reflexivity].
  - destruct (String.eqb_spec (WhatsAppMessage.id y) messageId) as [E | N].
    + split; [discriminate |]. intros H. exfalso. apply (H y); [left; reflexivity | exact E].
    + rewrite IH. split.
      * intros H m [<- | I]; [exact N | exact (H m I)].
      * intros H m I. apply H. right. exact I.
Qed.

(** X23. [ImportPlan.updateMessageStatus] changes one message, along the
    transition table: when it throws the plan is unchanged, and it throws
    'Message not found: id' when no message has the id; when it returns, the
    first message with the id either had the status already (and the plan is
    unchanged) or made one of the transitions pending -> processing,
    processing -> sent, failed or skipped, failed -> processing, and the
    messages of the plan differ at the place of this message only, where
    status, error message and sending time alone may differ. *)
Theorem updateMessageStatus_changes_one_message_along_the_table
    (c : WhatsAppMessage.Checks) (now : Z) (fresh messageId status : string)
    (errorMessage : option string) (sentAt : option Z) (p : ImportPlan.t) :
  let out := ImportPlan.updateMessageStatus c now fresh messageId status errorMessage
               sentAt p in
  (forall e, snd out = Throw e -> fst out = p)
  /\ ((forall m, In m (ImportPlan.messages p) -> WhatsAppMessage.id m <> messageId) ->
      snd out = Throw ("Message not found: " +:+ messageId))
  /\ (snd out = Normal tt ->
      exists k message,
        ImportPlan.messages p !! k = Some message
        /\ WhatsAppMessage.id message = messageId
        /\ (forall j m, (j < k)%nat -> ImportPlan.messages p !! j = Some m ->
            WhatsAppMessage.id m <> messageId)
        /\ (WhatsAppMessage.status message = status /\ fst out = p
            \/ WhatsAppMessage.status message <> status
               /\ (let previous :=
                     if WhatsAppMessage.status message =s EmptyString then "pending"
                     else WhatsAppMessage.status message in
                   (previous = "pending" /\ status = "processing")
                   \/ (previous = "processing"
                       /\ (status = "sent" \/ status = "failed" \/ status = "skipped"))
                   \/ (previous = "failed" /\ status = "processing"))
               /\ exists message',
                    ImportPlan.messages (fst out) = <[k := message']> (ImportPlan.messages p)
                    /\ WhatsAppMessage.status message' = status
                    /\ WhatsAppMessage.id message' = messageId
                    /\ WhatsAppMessage.errorMessage message'
                       = (if truthy errorMessage then errorMessage
                          else WhatsAppMessage.errorMessage message)
                    /\ WhatsAppMessage.with_sentAt (WhatsAppMessage.sentAt message)
                         (WhatsAppMessage.with_errorMessage
                            (WhatsAppMessage.errorMessage message)
                            (WhatsAppMessage.with_status
                               (WhatsAppMessage.status message) message'))
                       = message)).
Proof.
  intros out. subst out. unfold ImportPlan.updateMessageStatus.
  destruct (ImportPlan.find_message messageId 0 (ImportPlan.messages p))
    as [[k message] |] eqn:F.
  2:{ split; [intros e _; reflexivity |]. split; [intros _; reflexivity |].
      intros H. discriminate H. }
  apply find_message_some in F. destruct F as (_ & K & I & B).
  rewrite Nat.sub_0_r in K, B.
  assert (NF : ~ forall m, In m (ImportPlan.messages p) -> WhatsAppMessage.id m <> messageId).
  { intros H. apply (H message); [| exact I].
    apply list_elem_of_In. apply (list_elem_of_lookup_2 _ k). exact K. }
  destruct (String.eqb_spec (WhatsAppMessage.status message) status) as [E | NE].
  { split; [intros e H; discriminate H |]. split; [intros H; contradiction |].
    intros _. exists k, message. repeat split; auto. }
  unfold WhatsAppMessage.construct.
  destruct (WhatsAppMessage.validate c now _) as [[] | e]; simpl.
  2:{ split; [intros e' _; reflexivity |]. split; [intros H; contradiction |].
      intros H. discriminate H. }
  match goal with
  | |- context [WhatsAppMessage.canTransitionTo ?t status] =>
      destruct (WhatsAppMessage.canTransitionTo t status) eqn:T
  end; simpl.
  2:{ split; [intros e' _; reflexivity |]. split; [intros H; contradiction |].
      intros H. discriminate H. }
  apply canTransitionTo_table in T. simpl in T.
  split; [intros e' H; discriminate H |]. split; [intros H; contradiction |].
  intros _. exists k, message. split; [exact K |]. split; [exact I |].
  split; [exact B |]. right. split; [exact NE |]. split; [exact T |].
  eexists. split; [reflexivity |].
  destruct message as [i t ty co mp mt ts se ch q st em sa]. simpl in *.
  destruct (truthy errorMessage), sentAt as [z |]; try destruct (z =? 0); simpl;
    repeat split; auto.
Qed.

Lemma updateMessageStatus_changes_one_message_along_the_table_witness :
  snd (ImportPlan.updateMessageStatus accepting started (job_id 9) "no-such-id" "processing"
         None None (plan_of 2))
  = Throw "Message not found: no-such-id".
Proof.
  apply (proj1 (proj2 (updateMessageStatus_changes_one_message_along_the_table accepting
                         started (job_id 9) "no-such-id" "processing" None None
                         (plan_of 2)))).
  intros m [<- | [<- | []]]; vm_compute; discriminate.
Defined.

Lemma updateStatus_accepted (c : WhatsAppMessage.Checks) (now : Z) (s : string)
    (e : option string) (m : WhatsAppMessage.t) :
  (forall x, WhatsAppMessage.schema_errors c x = None) ->
  (forall p, WhatsAppMessage.existsSync c p = true) ->
  WhatsAppMessage.canTransitionTo m s = true ->
  WhatsAppMessage.timestamp m <= now ->
  WhatsAppMessage.sentAt m = None ->
  exists tr,
    WhatsAppMessage.updateStatus c now s e m
    = (let m1 := WhatsAppMessage.with_status s m in
       let m2 :=
         if (s =s "failed") && truthy e then WhatsAppMessage.with_errorMessage e m1
         else if negb (s =s "failed") then WhatsAppMessage.with_errorMessage None m1
         else m1 in
       if s =s "sent" then WhatsAppMessage.with_sentAt (Some now) m2 else m2,
       Normal tr).
Proof.
  intros Sc Ex T Ts Sa. unfold WhatsAppMessage.updateStatus. rewrite T. simpl.
  match goal with
  | |- context [WhatsAppMessage.validate c now ?x] =>
      assert (V : WhatsAppMessage.validate c now x = Normal tt)
  end.
  { unfold WhatsAppMessage.validate, WhatsAppMessage._validateBusinessRules.
    rewrite Sc, Ex. rewrite andb_false_r.
    destruct m as [i t ty co mp mt ts se ch q st em sa]. simpl in *. subst sa.
    destruct (s =s "sent"), ((s =s "failed") && truthy e), (negb (s =s "failed")); simpl;
      destruct (Z.ltb_spec now ts); try lia; try reflexivity;
      destruct (Z.ltb_spec now ts); try lia;
      destruct (now =? 0); reflexivity. }
  rewrite V. simpl. eexists. reflexivity.
Qed.

Lemma sync_message_accepted (c : WhatsAppMessage.Checks) (now : Z)
    (tr : ProgressTracker.t) (m : WhatsAppMessage.t) :
  (forall x, WhatsAppMessage.schema_errors c x = None) ->
  (forall p, WhatsAppMessage.existsSync c p = true) ->
  WhatsAppMessage.status m = "pending" ->
  WhatsAppMessage.timestamp m <= now ->
  WhatsAppMessage.sentAt m = None ->
  ExecuteCommand.sync_message WhatsAppMessage.Instance c now tr m
  = (if ProgressTracker.isMessageSuccessful tr (WhatsAppMessage.id m) then
       WhatsAppMessage.with_sentAt (Some now)
         (WhatsAppMessage.with_errorMessage None (WhatsAppMessage.with_status "sent" m))
     else if ProgressTracker.isMessageFailed tr (WhatsAppMessage.id m) then
       WhatsAppMessage.with_errorMessage (Some "Previous attempt failed")
         (WhatsAppMessage.with_status "failed" m)
     else m,
     Normal tt).
Proof.
  intros Sc Ex P Ts Sa. unfold ExecuteCommand.sync_message, WhatsAppMessage.call.
  assert (T1 : WhatsAppMessage.canTransitionTo m "processing" = true).
  { unfold WhatsAppMessage.canTransitionTo. rewrite P. reflexivity. }
  destruct (updateStatus_accepted c now "processing" None m Sc Ex T1 Ts Sa) as [t1 U1].
  simpl in U1. unfold WhatsAppMessage.markAsProcessing. rewrite U1.
  set (m1 := WhatsAppMessage.with_errorMessage None
               (WhatsAppMessage.with_status "processing" m)).
  destruct (ProgressTracker.isMessageSuccessful tr (WhatsAppMessage.id m)).
  - destruct (updateStatus_accepted c now "sent" None m1 Sc Ex eq_refl Ts Sa) as [t2 U2].
    unfold WhatsAppMessage.markAsSent. rewrite U2. simpl.
    destruct m; reflexivity.
  - destruct (ProgressTracker.isMessageFailed tr (WhatsAppMessage.id m)); [| reflexivity].
    destruct (updateStatus_accepted c now "failed" (Some "Previous attempt failed") m1
                Sc Ex eq_refl Ts Sa) as [t2 U2].
    unfold WhatsAppMessage.markAsFailed. rewrite U2. simpl.
    destruct m; reflexivity.
Qed.

(** X24. Synchronising a plan with the ledger ([_syncPlanWithProgress]).
    (1) On the plain objects of a loaded plan, which is what [execute] passes,
    the call changes no message; it returns exactly when no message of the
    plan has a 'sent' or a 'failed' record in the tracker, and it throws
    'message.markAsProcessing is not a function' otherwise.  (2) On pending
    messages that are instances, under validators that accept them, the call
    completes, keeps the ids and the order of the messages, marks 'sent'
    those the tracker knows as successful, 'failed' with 'Previous attempt
    failed' those it knows as failed, and leaves every other message
    untouched; so the unprocessed messages of the synchronised plan are
    exactly the messages without a record in the tracker. *)
Theorem resume_leaves_pending_the_jobs_without_a_record (c : WhatsAppMessage.Checks)
    (now : Z) (tr : ProgressTracker.t) (plan : ImportPlan.t) :
  (let out := ExecuteCommand._syncPlanWithProgress WhatsAppMessage.Plain c now tr
                (ImportPlan.messages plan) in
   fst out = ImportPlan.messages plan
   /\ (snd out = Normal tt <->
       forall m, In m (ImportPlan.messages plan) ->
         ProgressTracker.isMessageSuccessful tr (WhatsAppMessage.id m) = false
         /\ ProgressTracker.isMessageFailed tr (WhatsAppMessage.id m) = false)
   /\ (forall e, snd out = Throw e -> e = "message.markAsProcessing is not a function"))
  /\ ((forall x, WhatsAppMessage.schema_errors c x = None) ->
      (forall p, WhatsAppMessage.existsSync c p = true) ->
      (forall m, In m (ImportPlan.messages plan) ->
         WhatsAppMessage.status m = "pending"
         /\ WhatsAppMessage.timestamp m <= now
         /\ WhatsAppMessage.sentAt m = None) ->
      exists messages',
        ExecuteCommand._syncPlanWithProgress WhatsAppMessage.Instance c now tr
          (ImportPlan.messages plan)
        = (messages', Normal tt)
        /\ map WhatsAppMessage.id messages'
           = map WhatsAppMessage.id (ImportPlan.messages plan)
        /\ (forall k m, ImportPlan.messages plan !! k = Some m ->
            exists m', messages' !! k = Some m'
              /\ (ProgressTracker.isMessageSuccessful tr (WhatsAppMessage.id m) = true ->
                  WhatsAppMessage.status m' = "sent"
                  /\ WhatsAppMessage.sentAt m' = Some now
                  /\ WhatsAppMessage.errorMessage m' = None)
              /\ (ProgressTracker.isMessageSuccessful tr (WhatsAppMessage.id m) = false ->
                  ProgressTracker.isMessageFailed tr (WhatsAppMessage.id m) = true ->
                  WhatsAppMessage.status m' = "failed"
                  /\ WhatsAppMessage.errorMessage m' = Some "Previous attempt failed")
              /\ (ProgressTracker.isMessageSuccessful tr (WhatsAppMessage.id m) = false ->
                  ProgressTracker.isMessageFailed tr (WhatsAppMessage.id m) = false ->
                  m' = m))
        /\ ImportPlan.getUnprocessedMessages (ImportPlan.with_messages messages' plan)
           = List.filter
               (fun m => negb (ProgressTracker.isMessageSuccessful tr (WhatsAppMessage.id m))
                         && negb (ProgressTracker.isMessageFailed tr (WhatsAppMessage.id m)))
               (ImportPlan.messages plan)).
Proof.
  split.
  - destruct (ExecuteCommand._syncPlanWithProgress WhatsAppMessage.Plain c now tr
                (ImportPlan.messages plan)) as [messages' r] eqn:E.
    apply sync_plain in E. destruct E as [-> H]. simpl.
    split; [reflexivity |]. split; [split |].
    + intros ->. exact H.
    + intros No. destruct r as [[] | e]; [reflexivity | exfalso].
      destruct H as (_ & m & Hm & Hr). destruct (No m Hm) as [Su Fa].
      destruct Hr as [Hr | Hr]; congruence.
    + intros e ->. apply H.
  - intros Sc Ex. unfold ImportPlan.getUnprocessedMessages. simpl.
    generalize (ImportPlan.messages plan). clear plan.
    induction l as [| m rest IH]; intros H; simpl.
    + exists []. repeat split. intros k m Hk. discriminate Hk.
    + destruct (H m (or_introl eq_refl)) as (P & Ts & Sa).
      rewrite (sync_message_accepted c now tr m Sc Ex P Ts Sa).
      destruct (IH (fun x Hx => H x (or_intror Hx))) as (rest' & E & Ids & Each & Flt).
      rewrite E. eexists. split; [reflexivity |]. split; [| split].
      * simpl. rewrite Ids. f_equal.
        destruct (ProgressTracker.isMessageSuccessful tr _);
          [| destruct (ProgressTracker.isMessageFailed tr _)]; reflexivity.
      * intros [| k] x Hk; simpl in Hk.
        -- injection Hk as <-. eexists. split; [reflexivity |].
           destruct (ProgressTracker.isMessageSuccessful tr _);
             [| destruct (ProgressTracker.isMessageFailed tr _)];
             repeat split; intros; try discriminate; reflexivity.
        -- exact (Each k x Hk).
      * simpl. rewrite Flt.
        destruct (ProgressTracker.isMessageSuccessful tr _);
          [| destruct (ProgressTracker.isMessageFailed tr _)]; simpl; try reflexivity.
        rewrite P. reflexivity.
Qed.

Lemma resume_leaves_pending_the_jobs_without_a_record_witness :
  exists messages',
    ExecuteCommand._syncPlanWithProgress WhatsAppMessage.Instance accepting started
      (fst (fst (ProgressTracker.load (fun _ => true) started "/out/import-plan.json"
                   interrupted_ledger)))
      (ImportPlan.messages (plan_of 5))
    = (messages', Normal tt)
    /\ map WhatsAppMessage.id
         (ImportPlan.getUnprocessedMessages (ImportPlan.with_messages messages' (plan_of 5)))
       = [job_id 4; job_id 5].
Proof.
  destruct (proj2 (resume_leaves_pending_the_jobs_without_a_record accepting started
              (fst (fst (ProgressTracker.load (fun _ => true) started
                           "/out/import-plan.json" interrupted_ledger)))
              (plan_of 5)))
    as (messages' & E & _ & _ & F).
  - reflexivity.
  - reflexivity.
  - intros m H. simpl in H.
    destruct H as [<- | [<- | [<- | [<- | [<- | []]]]]]; simpl; unfold started;
      repeat split; lia.
  - exists messages'. split; [exact E |]. rewrite F. vm_compute. reflexivity.
Defined.

(** X25. The saved summary is the one in memory: after every operation of
    the tracker that returns - [initialize], [recordProgress],
    [updateProgress], [updatePosition], [resetProgress] - the tracker has a
    summary and progress.json holds that very summary.  [updateProgress] and
    [updatePosition] touch neither the log nor the records, an
    [updatePosition] that throws changes nothing at all, and [resetProgress]
    leaves an empty log and no record. *)
Theorem the_saved_summary_is_the_one_in_memory :
  (forall uuid now total planPath dk tr' dk',
     ProgressTracker.initialize uuid now total (ProgressTracker.new planPath) dk
     = ((tr', dk'), Normal tt) ->
     is_Some (ProgressTracker.progressSummary tr')
     /\ ProgressTracker.progress_json dk' = ProgressTracker.progressSummary tr')
  /\ (forall uuid now record tr dk tr' dk' r,
        ProgressTracker.recordProgress uuid now record tr dk = ((tr', dk'), Normal r) ->
        is_Some (ProgressTracker.progressSummary tr')
        /\ ProgressTracker.progress_json dk' = ProgressTracker.progressSummary tr')
  /\ (forall now status tr dk tr' dk',
        ProgressTracker.updateProgress now status tr dk = ((tr', dk'), Normal tt) ->
        is_Some (ProgressTracker.progressSummary tr')
        /\ ProgressTracker.progress_json dk' = ProgressTracker.progressSummary tr'
        /\ ProgressTracker.progress_jsonl dk' = ProgressTracker.progress_jsonl dk
        /\ ProgressTracker.progressRecords tr' = ProgressTracker.progressRecords tr)
  /\ (forall now position tr dk tr' dk' c,
        ProgressTracker.updatePosition now position tr dk = ((tr', dk'), c) ->
        match c with
        | Normal _ =>
            is_Some (ProgressTracker.progressSummary tr')
            /\ ProgressTracker.progress_json dk' = ProgressTracker.progressSummary tr'
            /\ ProgressTracker.progress_jsonl dk' = ProgressTracker.progress_jsonl dk
            /\ ProgressTracker.progressRecords tr' = ProgressTracker.progressRecords tr
        | Throw _ => tr' = tr /\ dk' = dk
        end)
  /\ (forall now tr dk tr' dk',
        ProgressTracker.resetProgress now tr dk = ((tr', dk'), Normal tt) ->
        is_Some (ProgressTracker.progressSummary tr')
        /\ ProgressTracker.progress_json dk' = ProgressTracker.progressSummary tr'
        /\ ProgressTracker.progress_jsonl dk' = []
        /\ ProgressTracker.progressRecords tr' = ∅).
Proof.
  split; [| split; [| split; [| split]]].
  - intros uuid now total planPath dk tr' dk' I.
    destruct (initialize_facts uuid now total planPath dk tr' dk' _ I) as (_ & F).
    destruct (F eq_refl) as (_ & _ & s & S & J & _). rewrite S, J. split; [eexists |]; reflexivity.
  - intros uuid now record tr dk tr' dk' r R. apply recordProgress_normal in R.
    destruct R as (s & _ & _ & _ & E & _). injection E as -> ->. simpl.
    split; [eexists |]; reflexivity.
  - intros now status tr dk tr' dk'. unfold ProgressTracker.updateProgress.
    destruct (ProgressTracker.isInitialized tr); simpl; [| discriminate].
    destruct (ProgressTracker.progressSummary tr); [| discriminate].
    intros [= <- <-]. simpl. repeat split. eexists. reflexivity.
  - intros now position tr dk tr' dk' c. unfold ProgressTracker.updatePosition.
    destruct (ProgressTracker.isInitialized tr); simpl.
    2:{ intros [= <- <- <-]. split; reflexivity. }
    destruct (ProgressTracker.progressSummary tr) as [s |].
    2:{ intros [= <- <- <-]. split; reflexivity. }
    destruct (ProgressSummary.updatePosition now position s) as [s1 | e].
    + intros [= <- <- <-]. simpl. repeat split. eexists. reflexivity.
    + intros [= <- <- <-]. split; reflexivity.
  - intros now tr dk tr' dk'. unfold ProgressTracker.resetProgress.
    destruct (ProgressTracker.isInitialized tr); simpl; [| discriminate].
    destruct (ProgressTracker.progressSummary tr) as [s |]; [| discriminate].
    destruct (ProgressSummary.create now _ _) as [s1 | e]; [| discriminate].
    intros [= <- <-]. simpl. repeat split. eexists. reflexivity.
Qed.

Lemma the_saved_summary_is_the_one_in_memory_witness :
  ProgressTracker.progress_json
    (snd (fst (ProgressTracker.updatePosition (started + 1000) 1
                 (WhatsAppImporter.progressTracker handed_over)
                 (WhatsAppImporter.disk handed_over))))
  = ProgressTracker.progressSummary
      (fst (fst (ProgressTracker.updatePosition (started + 1000) 1
                   (WhatsAppImporter.progressTracker handed_over)
                   (WhatsAppImporter.disk handed_over)))).
Proof.
  destruct (ProgressTracker.updatePosition (started + 1000) 1
              (WhatsAppImporter.progressTracker handed_over)
              (WhatsAppImporter.disk handed_over)) as [[tr' dk'] [[] | e]] eqn:U.
  - apply (proj1 (proj2 (proj2 (proj2 the_saved_summary_is_the_one_in_memory)))
             (started + 1000) 1 _ _ tr' dk' (Normal tt) U).
  - vm_compute in U. discriminate U.
Defined.

(** The summary stays valid while the count fits the plan *)

Lemma includes_In (l : list string) (x : string) :
  WhatsAppMessage.includes l x = true <-> In x l.
Proof.
  unfold WhatsAppMessage.includes. rewrite existsb_exists. split.
  - intros (y & Hy & E). apply String.eqb_eq in E. subst y. exact Hy.
  - intros H. exists x. split; [exact H | apply String.eqb_refl].
Qed.

Lemma validate_sound (s : ProgressSummary.t) :
  ProgressSummary.validate s = Normal tt ->
  sound_but_for_the_count s
  /\ ProgressSummary.processedMessages s <= ProgressSummary.totalMessages s.
Proof.
  unfold ProgressSummary.validate, ProgressSummary.schema_violations,
    ProgressSummary._validateBusinessRules.
  destruct (Z.ltb_spec (ProgressSummary.totalMessages s) 0) as [| T]; [discriminate |].
  destruct (Z.ltb_spec (ProgressSummary.processedMessages s) 0) as [| P]; [discriminate |].
  destruct (Z.ltb_spec (ProgressSummary.successfulMessages s) 0) as [| S]; [discriminate |].
  destruct (Z.ltb_spec (ProgressSummary.failedMessages s) 0) as [| F]; [discriminate |].
  destruct (Z.ltb_spec (ProgressSummary.currentPosition s) 0) as [| C]; [discriminate |].
  destruct (WhatsAppMessage.includes _ (ProgressSummary.status s)) eqn:E; [| discriminate].
  apply includes_In in E. simpl app.
  destruct (Z.eqb_spec (ProgressSummary.processedMessages s)
              (ProgressSummary.successfulMessages s + ProgressSummary.failedMessages s))
    as [R |]; cbn [orb negb andb]; [| discriminate].
  destruct (Z.ltb_spec (ProgressSummary.totalMessages s)
              (ProgressSummary.processedMessages s)) as [| B]; [discriminate |].
  destruct (Z.ltb_spec (ProgressSummary.totalMessages s)
              (ProgressSummary.currentPosition s)) as [| B'];
    cbn [orb negb andb]; [discriminate |].
  destruct (Z.ltb_spec (ProgressSummary.lastUpdated s) (ProgressSummary.startedAt s))
    as [| L]; [discriminate |].
  destruct (String.eqb_spec (ProgressSummary.status s) "completed") as [K | K].
  - destruct (Z.eqb_spec (ProgressSummary.currentPosition s)
                (ProgressSummary.totalMessages s)) as [K1 |]; [| discriminate].
    destruct (Z.eqb_spec (ProgressSummary.processedMessages s)
                (ProgressSummary.totalMessages s)) as [K2 |]; [| discriminate].
    intros _. unfold sound_but_for_the_count, reconciled.
    split; [| lia]. split; [lia |]. split; [lia |]. split; [exact R |].
    split; [lia |]. split; [lia |]. split; [exact E |]. intros _. lia.
  - intros _. unfold sound_but_for_the_count, reconciled.
    split; [| lia]. split; [lia |]. split; [lia |]. split; [exact R |].
    split; [lia |]. split; [lia |]. split; [exact E |]. intros K'. contradiction.
Qed.

Lemma sound_validate (s : ProgressSummary.t) :
  sound_but_for_the_count s ->
  ProgressSummary.processedMessages s <= ProgressSummary.totalMessages s ->
  ProgressSummary.validate s = Normal tt.
Proof.
  intros (S & F & R & C & L & E & K) B. unfold reconciled in R.
  apply includes_In in E.
  unfold ProgressSummary.validate, ProgressSummary.schema_violations,
    ProgressSummary._validateBusinessRules.
  destruct (Z.ltb_spec (ProgressSummary.totalMessages s) 0); [lia |].
  destruct (Z.ltb_spec (ProgressSummary.processedMessages s) 0); [lia |].
  destruct (Z.ltb_spec (ProgressSummary.successfulMessages s) 0); [lia |].
  destruct (Z.ltb_spec (ProgressSummary.failedMessages s) 0); [lia |].
  destruct (Z.ltb_spec (ProgressSummary.currentPosition s) 0); [lia |].
  rewrite E. simpl app.
  destruct (Z.eqb_spec (ProgressSummary.processedMessages s)
              (ProgressSummary.successfulMessages s + ProgressSummary.failedMessages s));
    [| contradiction]. cbn [orb negb andb].
  destruct (Z.ltb_spec (ProgressSummary.totalMessages s)
              (ProgressSummary.processedMessages s)); [lia |].
  destruct (Z.ltb_spec (ProgressSummary.totalMessages s)
              (ProgressSummary.currentPosition s)); [lia |].
  cbn [orb negb andb].
  destruct (Z.ltb_spec (ProgressSummary.lastUpdated s) (ProgressSummary.startedAt s));
    [lia |].
  destruct (String.eqb_spec (ProgressSummary.status s) "completed") as [K' | K'].
  - destruct (K K') as [K1 K2].
    destruct (Z.eqb_spec (ProgressSummary.currentPosition s)
                (ProgressSummary.totalMessages s)); [| contradiction].
    destruct (Z.eqb_spec (ProgressSummary.processedMessages s)
                (ProgressSummary.totalMessages s)); [reflexivity | lia].
  - reflexivity.
Qed.

Lemma updateFromRecord_sound (t : Z) (record : ProgressRecord.t) (s : ProgressSummary.t) :
  ProgressSummary.startedAt s <= t ->
  sound_but_for_the_count s ->
  sound_but_for_the_count (ProgressSummary.updateFromRecord t record s).
Proof.
  intros T (S & F & R & C & L & E & K). unfold reconciled in R.
  unfold sound_but_for_the_count, reconciled, ProgressSummary.updateFromRecord.
  set (successful := if ProgressRecord.status record =s "sent"
                     then ProgressSummary.successfulMessages s + 1
                     else ProgressSummary.successfulMessages s).
  set (failed := if ProgressRecord.status record =s "sent"
                 then ProgressSummary.failedMessages s
                 else if ProgressRecord.status record =s "failed"
                      then ProgressSummary.failedMessages s + 1
                      else ProgressSummary.failedMessages s).
  assert (S' : ProgressSummary.successfulMessages s <= successful).
  { unfold successful. destruct (_ =s _); lia. }
  assert (F' : ProgressSummary.failedMessages s <= failed).
  { unfold failed. destruct (_ =s _); [lia |]. destruct (_ =s _); lia. }
  destruct (Z.leb_spec (ProgressSummary.totalMessages s) (successful + failed)) as [D | D].
  - simpl. split; [lia |]. split; [lia |]. split; [reflexivity |]. split; [lia |].
    split; [exact T |]. split; [auto |]. intros _. split; [reflexivity | exact D].
  - destruct ((0 <? failed) && (successful =? 0)); simpl.
    + split; [lia |]. split; [lia |]. split; [reflexivity |]. split; [lia |].
      split; [exact T |]. split; [auto |]. intros A. discriminate A.
    + split; [lia |]. split; [lia |]. split; [reflexivity |]. split; [lia |].
      split; [exact T |]. split; [exact E |]. intros A. destruct (K A). lia.
Qed.

Lemma record_all_sound (uuid : string -> bool) (calls : list (Z * ProgressRecord.t))
    (tr : ProgressTracker.t) (dk : ProgressTracker.Disk) (s : ProgressSummary.t) :
  ProgressTracker.progressSummary tr = Some s ->
  sound_but_for_the_count s ->
  (forall t r, In (t, r) calls -> ProgressSummary.startedAt s <= t) ->
  exists s',
    ProgressTracker.progressSummary (fst (record_all uuid calls tr dk)) = Some s'
    /\ sound_but_for_the_count s'.
Proof.
  revert tr dk s. induction calls as [| [now record] rest IH]; intros tr dk s S V B; simpl.
  - exists s. split; assumption.
  - destruct (ProgressTracker.recordProgress uuid now record tr dk) as [[tr1 dk1] c] eqn:R.
    destruct (recordProgress_summary uuid now record tr dk tr1 dk1 c s R S) as [S1 | S1].
    + apply (IH tr1 dk1 s S1 V). intros t r H. apply (B t r). right. exact H.
    + apply (IH tr1 dk1 _ S1).
      * apply updateFromRecord_sound; [| exact V]. apply (B now record). left. reflexivity.
      * intros t r H.
        destruct (updateFromRecord_step now record s) as (_ & _ & St & _).
        rewrite St. apply (B t r). right. exact H.
Qed.

(** X26. The summary stays valid while the count fits the plan: starting
    from a tracker whose summary [ProgressSummary.validate] accepts, after any
    sequence of [recordProgress] calls made at or after the start of the
    import, [ProgressSummary.validate] accepts the summary of the tracker if
    and only if its processed count does not exceed its total. *)
Theorem summary_is_valid_while_the_count_fits (uuid : string -> bool)
    (calls : list (Z * ProgressRecord.t)) (tr : ProgressTracker.t)
    (dk : ProgressTracker.Disk) (s : ProgressSummary.t) :
  ProgressTracker.progressSummary tr = Some s ->
  ProgressSummary.validate s = Normal tt ->
  (forall t r, In (t, r) calls -> ProgressSummary.startedAt s <= t) ->
  exists s',
    ProgressTracker.progressSummary (fst (record_all uuid calls tr dk)) = Some s'
    /\ (ProgressSummary.validate s' = Normal tt
        <-> ProgressSummary.processedMessages s' <= ProgressSummary.totalMessages s').
Proof.
  intros S V B.
  destruct (record_all_sound uuid calls tr dk s S (proj1 (validate_sound s V)) B)
    as (s' & S' & V').
  exists s'. split; [exact S' |]. split.
  - intros H. exact (proj2 (validate_sound s' H)).
  - intros H. exact (sound_validate s' V' H).
Qed.

Lemma summary_is_valid_while_the_count_fits_witness :
  exists s',
    ProgressTracker.progressSummary
      (fst (record_all (fun _ => true)
              [(started + 1000,
                ProgressRecord.new (created_data (started + 1000) (job_id 1) 1
                                      "failed" (Some "Chat not found") None));
               (started + 9000,
                ProgressRecord.new (created_data (started + 9000) (job_id 2) 2
                                      "sent" None (Some "true_491234@c.us_3EB0")))]
              (fst (fst (ProgressTracker.create (fun _ => true) started
                           "/out/import-plan.json" 5 no_ledger)))
              (snd (fst (ProgressTracker.create (fun _ => true) started
                           "/out/import-plan.json" 5 no_ledger))))) = Some s'
    /\ ProgressSummary.validate s' = Normal tt.
Proof.
  destruct (summary_is_valid_while_the_count_fits (fun _ => true)
              [(started + 1000,
                ProgressRecord.new (created_data (started + 1000) (job_id 1) 1
                                      "failed" (Some "Chat not found") None));
               (started + 9000,
                ProgressRecord.new (created_data (started + 9000) (job_id 2) 2
                                      "sent" None (Some "true_491234@c.us_3EB0")))]
              (fst (fst (ProgressTracker.create (fun _ => true) started
                           "/out/import-plan.json" 5 no_ledger)))
              (snd (fst (ProgressTracker.create (fun _ => true) started
                           "/out/import-plan.json" 5 no_ledger)))
              (untouched_summary 5))
    as (s' & E & V).
  - vm_compute. reflexivity.
  - vm_compute. reflexivity.
  - intros t r [H | [H | []]]; injection H as <- _; vm_compute; discriminate.
  - exists s'. split; [exact E |]. apply V.
    vm_compute in E. injection E as <-. vm_compute. discriminate.
Defined.

(** A ledger with processed jobs makes the run a resumed one *)

(** X27. A ledger with processed jobs makes the run a resumed one: when
    progress.json exists and its processed count is above 0, [execute]
    without the resume option does exactly what [execute] with the resume
    option does - same final state, same ledger, same exit; and the same
    holds of the steps of [execute] behind the loading of the plan, for
    every configuration and every plan. *)
Theorem a_ledger_with_processed_jobs_implies_resume (w : World)
    (now : Z) (planPath : string) (dryRun : bool) (targetChat sleep : string)
    (folder : ExecuteCommand.Folder) (dk : ProgressTracker.Disk) (s : ProgressSummary.t) :
  ProgressTracker.progress_json dk = Some s ->
  0 < ProgressSummary.processedMessages s ->
  ExecuteCommand.execute w now planPath
    {| ExecuteCommand.dryRun := dryRun;
       ExecuteCommand.resume := false;
       ExecuteCommand.targetChat := targetChat;
       ExecuteCommand.sleep := sleep |} folder dk
  = ExecuteCommand.execute w now planPath
      {| ExecuteCommand.dryRun := dryRun;
         ExecuteCommand.resume := true;
         ExecuteCommand.targetChat := targetChat;
         ExecuteCommand.sleep := sleep |} folder dk
  /\ (forall config plan,
        ExecuteCommand.execute_loaded w config now planPath
          {| ExecuteCommand.dryRun := dryRun;
             ExecuteCommand.resume := false;
             ExecuteCommand.targetChat := targetChat;
             ExecuteCommand.sleep := sleep |} plan dk
        = ExecuteCommand.execute_loaded w config now planPath
            {| ExecuteCommand.dryRun := dryRun;
               ExecuteCommand.resume := true;
               ExecuteCommand.targetChat := targetChat;
               ExecuteCommand.sleep := sleep |} plan dk).
Proof.
  intros J P.
  assert (EL : forall config plan,
    ExecuteCommand.execute_loaded w config now planPath
      {| ExecuteCommand.dryRun := dryRun;
         ExecuteCommand.resume := false;
         ExecuteCommand.targetChat := targetChat;
         ExecuteCommand.sleep := sleep |} plan dk
    = ExecuteCommand.execute_loaded w config now planPath
        {| ExecuteCommand.dryRun := dryRun;
           ExecuteCommand.resume := true;
           ExecuteCommand.targetChat := targetChat;
           ExecuteCommand.sleep := sleep |} plan dk).
  { intros config plan. rewrite !execute_loaded_eq.
    destruct (ExecuteCommand._initializeProgressTracking w now planPath plan dk)
      as [[[tr dk1] plan1] [[] | e]] eqn:I; [| reflexivity].
    assert (S : ProgressTracker.progressSummary tr = Some s).
    { apply init_facts in I. destruct I as (_ & _ & N).
      destruct (N eq_refl) as (_ & _ & s1 & S1 & _ & E). rewrite J in E.
      destruct E as [-> _]. exact S1. }
    simpl ExecuteCommand.dryRun.
    destruct (negb dryRun && negb (connects w)); [reflexivity |].
    unfold ExecuteCommand._executeImport. simpl. rewrite S.
    replace (0 <? ProgressSummary.processedMessages s) with true
      by (symmetry; apply Z.ltb_lt; exact P).
    reflexivity. }
  split; [| exact EL].
  unfold ExecuteCommand.execute.
  destruct (ExecuteCommand._validateAndResolvePaths folder) as [file | error];
    [| reflexivity].
  unfold ExecuteCommand._updateConfigFromOptions, ExecuteCommand._validateRequiredOptions.
  cbn [ExecuteCommand.sleep ExecuteCommand.targetChat].
  destruct (sleep =s EmptyString).
  - destruct (targetChat =s EmptyString); [reflexivity |].
    destruct (negb (ExecuteCommand._isValidWhatsAppId targetChat)); [reflexivity |].
    destruct (ExecuteCommand._loadImportPlan planPath file) as [plan | error];
      [apply EL | reflexivity].
  - destruct (CLIConfig.parseSleepRange sleep) as [[min max] | e]; [| reflexivity].
    destruct (CLIConfig.merge _ _) as [config | e]; [| reflexivity].
    destruct (targetChat =s EmptyString); [reflexivity |].
    destruct (negb (ExecuteCommand._isValidWhatsAppId targetChat)); [reflexivity |].
    destruct (ExecuteCommand._loadImportPlan planPath file) as [plan | error];
      [apply EL | reflexivity].
Qed.

Lemma a_ledger_with_processed_jobs_implies_resume_witness :
  ExecuteCommand.execute calm started "/out/import-plan.json"
    (live false) (folder_of 5) interrupted_ledger
  = ExecuteCommand.execute calm started "/out/import-plan.json"
      (live true) (folder_of 5) interrupted_ledger.
Proof.
  apply (a_ledger_with_processed_jobs_implies_resume calm started
           "/out/import-plan.json" false "491234@c.us" "3-10" (folder_of 5)
           interrupted_ledger
           {| ProgressSummary.planPath := "/out/import-plan.json";
              ProgressSummary.startedAt := 1735732800000;
              ProgressSummary.lastUpdated := 1735732980000;
              ProgressSummary.totalMessages := 5;
              ProgressSummary.processedMessages := 3;
              ProgressSummary.successfulMessages := 2;
              ProgressSummary.failedMessages := 1;
              ProgressSummary.currentPosition := 3;
              ProgressSummary.status := "paused" |}).
  - reflexivity.
  - reflexivity.
Defined.

(** A live run over the plain objects of a loaded plan *)

Ltac nothing_new :=
  exists [], []; rewrite !app_nil_r;
  split; [reflexivity |]; split; [intros ? [] |]; split; [reflexivity | intros ? []].

Lemma iteration_plain_live (w : World) config options tk m st res st' res' m' c :
  WhatsAppImporter.dryRun options = false ->
  WhatsAppImporter.iteration WhatsAppMessage.Plain w config options tk m st res
  = ((st', res', m'), c) ->
  m' = m
  /\ WhatsAppImporter.runtimeState st' = WhatsAppImporter.runtimeState st
  /\ exists a new,
       WhatsAppImporter.attempts st' = (WhatsAppImporter.attempts st ++ [a])%list
       /\ WhatsAppImporter.delivered a = false
       /\ log_of st' = (log_of st ++ new)%list
       /\ forall d, In d new ->
            ProgressRecord.d_status d = "failed"
            /\ ProgressRecord.d_errorMessage d
               = Some "message.markAsFailed is not a function".
Proof.
  intros D. unfold WhatsAppImporter.iteration, WhatsAppImporter._processSingleMessage.
  rewrite D. cbn [WhatsAppMessage.call].
  unfold WhatsAppImporter.failed_message. cbn [WhatsAppMessage.call bind].
  unfold WhatsAppImporter.record_failure.
  cbn [WhatsAppImporter.clock WhatsAppImporter.progressTracker WhatsAppImporter.disk].
  destruct (ProgressRecord.create _ _ _ _ _ _ _) as [record | e] eqn:Cr.
  - apply create_normal in Cr. destruct Cr as [-> _].
    destruct (ProgressTracker.recordProgress _ _ _ _ _) as [[tr dk] r] eqn:Rp.
    apply recordProgress_log in Rp. simpl in Rp.
    erewrite toJSON_new in Rp by reflexivity.
    intros [= <- _ <- _]. split; [reflexivity |]. split; [reflexivity |].
    unfold log_of. cbn [WhatsAppImporter.with_ledger WhatsAppImporter.disk
                        WhatsAppImporter.attempts snd].
    destruct Rp as [Rp | Rp]; rewrite Rp.
    + eexists _, []. split; [reflexivity |]. split; [reflexivity |].
      split; [rewrite app_nil_r; reflexivity | intros ? []].
    + eexists _, [_]. split; [reflexivity |]. split; [reflexivity |].
      split; [reflexivity |]. intros d [<- | []]. split; reflexivity.
  - intros [= <- _ <- _]. split; [reflexivity |]. split; [reflexivity |].
    eexists _, []. split; [reflexivity |]. split; [reflexivity |].
    split; [rewrite app_nil_r; reflexivity | intros ? []].
Qed.

Lemma loop_plain_live (w : World) config options messages :
  WhatsAppImporter.dryRun options = false ->
  forall i st res st' res' ms' c,
  WhatsAppImporter.loop WhatsAppMessage.Plain w config options i messages st res
  = ((st', res', ms'), c) ->
  ms' = messages
  /\ WhatsAppImporter.runtimeState st' = WhatsAppImporter.runtimeState st
  /\ exists new_a new_d,
       WhatsAppImporter.attempts st' = (WhatsAppImporter.attempts st ++ new_a)%list
       /\ (forall a, In a new_a -> WhatsAppImporter.delivered a = false)
       /\ log_of st' = (log_of st ++ new_d)%list
       /\ forall d, In d new_d ->
            ProgressRecord.d_status d = "failed"
            /\ ProgressRecord.d_errorMessage d
               = Some "message.markAsFailed is not a function".
Proof.
  intros D. induction messages as [| m rest IH]; intros i st res st' res' ms' c; simpl.
  - intros [= <- _ <- _]. split; [reflexivity |]. split; [reflexivity |].
    nothing_new.
  - destruct (pause_seen (tick w i)).
    { intros [= <- _ <- _]. split; [reflexivity |]. split; [reflexivity |].
      nothing_new. }
    destruct (WhatsAppImporter.iteration WhatsAppMessage.Plain w config options (tick w i) m st res)
      as [[[st1 res1] m1] c1] eqn:It.
    apply (iteration_plain_live w config options _ _ _ _ _ _ _ _ D) in It.
    destruct It as (-> & RS1 & a & new & A1 & Da & L1 & F1).
    destruct c1 as [[] | e].
    + destruct (WhatsAppImporter.loop WhatsAppMessage.Plain w config options (S i) rest st1 res1)
        as [[[st2 res2] rest2] c2] eqn:L.
      apply IH in L. destruct L as (-> & RS2 & new_a & new_d & A2 & Da2 & L2 & F2).
      intros [= <- _ <- _]. split; [reflexivity |]. split; [congruence |].
      exists (a :: new_a), (new ++ new_d)%list.
      split; [rewrite A2, A1, <- app_assoc; reflexivity |].
      split; [intros b [<- | Hb]; auto |].
      split; [rewrite L2, L1, <- app_assoc; reflexivity |].
      intros d Hd. apply in_app_iff in Hd. destruct Hd; auto.
    + intros [= <- _ <- _]. split; [reflexivity |]. split; [exact RS1 |].
      exists [a], new. split; [exact A1 |].
      split; [intros b [<- | []]; exact Da |]. split; [exact L1 | exact F1].
Qed.

Lemma executeImport_plain_live (w : World) config conn options plan st st' ms' c :
  WhatsAppImporter.dryRun options = false ->
  WhatsAppImporter.executeImport WhatsAppMessage.Plain w config conn options plan st
  = ((st', ms'), c) ->
  WhatsAppImporter.runtimeState st' = WhatsAppImporter.runtimeState st
  /\ exists new_a new_d,
       WhatsAppImporter.attempts st' = (WhatsAppImporter.attempts st ++ new_a)%list
       /\ (forall a, In a new_a -> WhatsAppImporter.delivered a = false)
       /\ log_of st' = (log_of st ++ new_d)%list
       /\ forall d, In d new_d ->
            ProgressRecord.d_status d = "failed"
            /\ ProgressRecord.d_errorMessage d
               = Some "message.markAsFailed is not a function".
Proof.
  intros D. unfold WhatsAppImporter.executeImport.
  assert (Z0 : WhatsAppImporter.runtimeState st = WhatsAppImporter.runtimeState st
    /\ exists new_a new_d,
       WhatsAppImporter.attempts st = (WhatsAppImporter.attempts st ++ new_a)%list
       /\ (forall a, In a new_a -> WhatsAppImporter.delivered a = false)
       /\ log_of st = (log_of st ++ new_d)%list
       /\ forall d, In d new_d ->
            ProgressRecord.d_status d = "failed"
            /\ ProgressRecord.d_errorMessage d
               = Some "message.markAsFailed is not a function").
  { split; [reflexivity |]. nothing_new. }
  destruct (negb conn && negb (WhatsAppImporter.dryRun options)).
  { intros [= <- _ _]. exact Z0. }
  destruct (WhatsAppImporter._getMessagesToProcess plan options) as [plan' todo].
  destruct todo as [| m0 todo'].
  { intros [= <- _ _]. exact Z0. }
  unfold WhatsAppImporter._processMessages.
  destruct (WhatsAppImporter.loop WhatsAppMessage.Plain _ _ _ _ _ _ _)
    as [[[st1 res1] ms1] c1] eqn:L.
  apply (loop_plain_live w config options _ D) in L.
  destruct L as (_ & RS & new_a & new_d & A & Da & Lg & F).
  destruct c1 as [[] | e]; simpl.
  - intros [= <- _ _]. split; [exact RS |]. exists new_a, new_d. auto.
  - destruct (ProgressTracker.updateProgress _ _ _ _) as [[tr2 dk2] r2] eqn:Up.
    apply updateProgress_log in Up.
    intros [= <- _ _]. split; [exact RS |]. exists new_a, new_d.
    unfold log_of in *; simpl. rewrite Up. auto.
Qed.

(** X28. A live run of [execute] never reaches the channel.  On a plain
    object [_processSingleMessage] throws 'message.markAsFailed is not a
    function' before any send: [markAsProcessing] is not a function of the
    object, and neither is the [markAsFailed] of the [catch] block.  So in
    every run of [execute] that is not a dry run no attempt reports success,
    every line appended to the log is 'failed' with that message, and the
    rate limiter is the one of a new [RuntimeState] at the end: no message
    was counted. *)
Theorem a_live_run_never_reaches_the_channel (w : World) (now : Z) (planPath : string)
    (options : ExecuteCommand.Options) (folder : ExecuteCommand.Folder)
    (dk : ProgressTracker.Disk) :
  ExecuteCommand.dryRun options = false ->
  let run := ExecuteCommand.execute w now planPath options folder dk in
  (forall c tk importOptions t m,
     WhatsAppImporter.dryRun importOptions = false ->
     WhatsAppImporter._processSingleMessage WhatsAppMessage.Plain c tk importOptions t m
     = ((m, t), Throw "message.markAsFailed is not a function"))
  /\ (forall a, In a (WhatsAppImporter.attempts (fst run)) ->
      WhatsAppImporter.delivered a = false)
  /\ (exists written,
        ExecuteCommand.log_after run = (ProgressTracker.progress_jsonl dk ++ written)%list
        /\ forall d, In d written ->
             ProgressRecord.d_status d = "failed"
             /\ ProgressRecord.d_errorMessage d
                = Some "message.markAsFailed is not a function")
  /\ WhatsAppImporter.runtimeState (fst run) = RuntimeState.new.
Proof.
  intros D run. split.
  { intros c tk importOptions t m Di. unfold WhatsAppImporter._processSingleMessage.
    rewrite Di. reflexivity. }
  subst run. unfold ExecuteCommand.log_after.
  assert (Z0 : forall tr dk1 ex,
    ProgressTracker.progress_jsonl dk1 = ProgressTracker.progress_jsonl dk ->
    let run := (ExecuteCommand.boot now tr dk1, ex : ExecuteCommand.Exit) in
    (forall a, In a (WhatsAppImporter.attempts (fst run)) ->
       WhatsAppImporter.delivered a = false)
    /\ (exists written,
          ProgressTracker.progress_jsonl (WhatsAppImporter.disk (fst run))
          = (ProgressTracker.progress_jsonl dk ++ written)%list
          /\ forall d, In d written ->
               ProgressRecord.d_status d = "failed"
               /\ ProgressRecord.d_errorMessage d
                  = Some "message.markAsFailed is not a function")
    /\ WhatsAppImporter.runtimeState (fst run) = RuntimeState.new).
  { intros tr dk1 ex L. simpl. split; [intros ? [] |]. split; [| reflexivity].
    exists []. rewrite app_nil_r. split; [exact L | intros ? []]. }
  destruct (execute_cases w now planPath options folder dk)
    as [(code & message & -> & _) | (data & min & max & _ & _ & _ & _ & _ & ->)].
  { exact (Z0 _ _ (ExecuteCommand.Failure 0 EmptyString) eq_refl). }
  rewrite execute_loaded_eq.
  destruct (ExecuteCommand._initializeProgressTracking w now planPath (ImportPlan.new data) dk)
    as [[[tr dk1] plan1] c] eqn:I.
  apply init_facts in I. destruct I as (L & _ & _).
  destruct c as [[] | e]; [| exact (Z0 _ _ (ExecuteCommand.Failure 0 EmptyString) L)].
  destruct (negb (ExecuteCommand.dryRun options) && negb (connects w)); [exact (Z0 _ _ (ExecuteCommand.Failure 0 EmptyString) L) |].
  unfold ExecuteCommand._executeImport.
  destruct (WhatsAppImporter.executeImport WhatsAppMessage.Plain _ _ _ _ _ _)
    as [[st ms] r] eqn:E.
  apply executeImport_plain_live in E; [| exact D].
  destruct E as (RS & new_a & new_d & A & Da & Lg & F).
  simpl in A, RS. unfold log_of in Lg; simpl in Lg. rewrite L in Lg.
  assert (Fin : forall ex : ExecuteCommand.Exit,
    let run := (st, ex) in
    (forall a, In a (WhatsAppImporter.attempts (fst run)) ->
       WhatsAppImporter.delivered a = false)
    /\ (exists written,
          ProgressTracker.progress_jsonl (WhatsAppImporter.disk (fst run))
          = (ProgressTracker.progress_jsonl dk ++ written)%list
          /\ forall d, In d written ->
               ProgressRecord.d_status d = "failed"
               /\ ProgressRecord.d_errorMessage d
                  = Some "message.markAsFailed is not a function")
    /\ WhatsAppImporter.runtimeState (fst run) = RuntimeState.new).
  { intros ex. simpl. split; [rewrite A; exact Da |]. split; [| exact RS].
    exists new_d. split; [exact Lg | exact F]. }
  destruct r as [result | e]; simpl;
    [destruct (WhatsAppImporter.r_status result =s "failed") |]; exact (Fin (ExecuteCommand.Failure 0 EmptyString)).
Qed.

Lemma a_live_run_never_reaches_the_channel_witness :
  let run := ExecuteCommand.execute calm started "/out/import-plan.json"
               (live false) (folder_of 2) no_ledger in
  map WhatsAppImporter.delivered (WhatsAppImporter.attempts (fst run)) = [false; false]
  /\ exists written,
       ExecuteCommand.log_after run = written
       /\ forall d, In d written ->
            ProgressRecord.d_status d = "failed"
            /\ ProgressRecord.d_errorMessage d
               = Some "message.markAsFailed is not a function".
Proof.
  split; [vm_compute; reflexivity |].
  destruct (a_live_run_never_reaches_the_channel calm started "/out/import-plan.json"
              (live false) (folder_of 2) no_ledger eq_refl)
    as (_ & _ & (written & L & F) & _).
  exists written. split; [exact L | exact F].
Defined.
